(** * KeyMapper: the binding registry and interception state machine

    A shallow embedding of the non-GUI part of [KeyMapper.py]: the
    control -> binding table, the axis entries, the rebinding dialogue
    (interception, conflict check, resolution), persistence through the
    save- and load- callbacks, and the per-frame axis scan.

    Conventions of the embedding:
    - the [KeyMapper] object is a record; every method is a function in
      the state-and-exception monad [M], so that a Python exception
      leaves the object as it was mutated up to the [raise];
    - [self.keyBindings] is a Python dict: an association list with
      unique keys in insertion order (the order matters to every loop
      over [.items()]);
    - the objects stored in [self.axesInUse] and [self.keyBindings] are
      only reached through those containers, so mutation in place is a
      map over the container;
    - the engine (Panda3D) is a parameter: the devices it reports, the
      axis values they read this frame, the virtual file system and the
      two persistence callbacks; of its own behaviour the model has what
      the methods run into: [accept] asserts that the method is callable,
      [BitMask32] refuses an int out of range, the subscript of
      [InputDevice.Axis] raises KeyError for a name that is no member;
    - widgets are reduced to their visibility and, for the error
      dialogue, its text. *)

From Stdlib Require Import ZArith String Ascii List Bool Floats Lia.
From stdpp Require Import gmap strings.
Import ListNotations.

Local Open Scope string_scope.
Local Open Scope Z_scope.

(** ** Strings *)

(** [str.lower()], on the ASCII letters.  The only use is the test
    [binding.lower().startswith("axis.")]; no character outside ASCII
    lower-cases to one of the five characters tested, so the test is the
    same as Python's. *)
Definition lower_ascii (c : ascii) : ascii :=
  let n := nat_of_ascii c in
  if (Nat.leb 65 n && Nat.leb n 90)%bool then ascii_of_nat (n + 32) else c.

Fixpoint lower (s : string) : string :=
  match s with
  | EmptyString => EmptyString
  | String c s' => String (lower_ascii c) (lower s')
  end.

Definition startswith (s p : string) : bool := String.prefix p s.

(** [s[n:]] *)
Fixpoint string_from (n : nat) (s : string) : string :=
  match n, s with
  | O, _ => s
  | S n', String _ s' => string_from n' s'
  | S _, EmptyString => EmptyString
  end.

(** [p in s] for strings *)
Fixpoint contains (p s : string) : bool :=
  if String.prefix p s then true
  else match s with
       | EmptyString => false
       | String _ s' => contains p s'
       end.

(** [s.split(".")[-1]]: what follows the last dot, the whole string when
    there is none. *)
Fixpoint last_part_aux (s acc : string) : string :=
  match s with
  | EmptyString => acc
  | String c s' =>
      if Ascii.eqb c "."%char then last_part_aux s' s'
      else last_part_aux s' acc
  end.

Definition last_part (s : string) : string := last_part_aux s s.

Definition is_axis_binding (binding : string) : bool :=
  startswith (lower binding) "axis.".

(** ** The binding kinds *)

Definition KEYMAP_EVENT_RELEASED : Z := 0.
Definition KEYMAP_EVENT_PRESSED : Z := 1.
Definition KEYMAP_EVENT_PRESSED_AND_RELEASED : Z := 2.
Definition KEYMAP_HELD_KEY : Z := 3.

(** ** The engine's types *)

(** Panda3D's [InputDevice.DeviceClass]. *)
Inductive DeviceClass : Set :=
| unknown | virtual_device | keyboard | mouse | touch | gamepad
| flight_stick | steering_wheel | dance_pad | hmd | spatial_mouse
| digitizer.

Definition DeviceClass_eqb (a b : DeviceClass) : bool :=
  match a, b with
  | unknown, unknown | virtual_device, virtual_device
  | keyboard, keyboard | mouse, mouse | touch, touch | gamepad, gamepad
  | flight_stick, flight_stick | steering_wheel, steering_wheel
  | dance_pad, dance_pad | hmd, hmd | spatial_mouse, spatial_mouse
  | digitizer, digitizer => true
  | _, _ => false
  end.

(** The member's name: [str(deviceClass)] is "DeviceClass." followed by
    it. *)
Definition DeviceClass_name (c : DeviceClass) : string :=
  match c with
  | unknown => "unknown" | virtual_device => "virtual_device"
  | keyboard => "keyboard" | mouse => "mouse" | touch => "touch"
  | gamepad => "gamepad" | flight_stick => "flight_stick"
  | steering_wheel => "steering_wheel" | dance_pad => "dance_pad"
  | hmd => "hmd" | spatial_mouse => "spatial_mouse"
  | digitizer => "digitizer"
  end.

Definition all_DeviceClass : list DeviceClass :=
  [unknown; virtual_device; keyboard; mouse; touch; gamepad; flight_stick;
   steering_wheel; dance_pad; hmd; spatial_mouse; digitizer].

(** [eval("InputDevice.DeviceClass." + s)] for an identifier [s]: the
    member of that name; [None] stands for the AttributeError of an
    identifier that names no member.  What [eval] makes of a string that
    is not an identifier (it accepts blanks around a name, and raises
    SyntaxError for the empty string) is not modelled: the strings that
    the module itself passes are made by [getDeviceTypeString] of a
    device class, and are member names. *)
Definition DeviceClass_of_string (s : string) : option DeviceClass :=
  List.find (fun c => String.eqb (DeviceClass_name c) s) all_DeviceClass.

(** The member names of Panda3D's [InputDevice.Axis]. *)
Definition all_Axis : list string :=
  ["none"; "x"; "y"; "z"; "yaw"; "pitch"; "roll"; "left_x"; "left_y";
   "left_trigger"; "right_x"; "right_y"; "right_trigger"; "throttle"; "rudder";
   "wheel"; "accelerator"; "brake"; "pressure"].

(** An [InputDevice], by identity.  An axis id ([InputDevice.Axis]) is
    its member name, [Axis.none] being "none", and [str(axisID)] is
    "Axis." followed by it. *)
Record InputDevice : Set := {
  device_id : nat;
  device_class : DeviceClass
}.

Definition InputDevice_eqb (a b : InputDevice) : bool :=
  Nat.eqb (device_id a) (device_id b)
  && DeviceClass_eqb (device_class a) (device_class b).

(** The [NodePath] of an [InputDeviceNode] under [base.dataRoot]. *)
Record DataNP : Set := {
  np_id : nat;
  np_device : InputDevice
}.

(** ** Callbacks *)

(** The [callback] argument: [None], a callable (by name), or a list or
    tuple whose items are callables or [None]. *)
Inductive Callback : Set :=
| CbNone
| CbFun (f : string)
| CbSeq (items : list (option string)).

(** What [eventObject.accept] registers for an event name. *)
Inductive Handler : Set :=
| H_keyPressed (description : string) (value : float)
| H_user (cb : Callback) (description : string) (eventType : option Z).

(** ** The objects of the module *)

Record KeyBinding : Set := {
  keyDescription : string;
  binding : option string;
  defaultBinding : option string;
  type : Z;
  callback : Callback;
  deviceType : option string;
  defaultDeviceType : option string;
  axisDirection : Z;
  groupID : Z  (* the word of the BitMask32 *)
}.

Record AxisData : Set := {
  axis : string;
  keyDescriptionPositive : option string;
  keyDescriptionNegative : option string;
  deadZone : float;
  deviceTypePositive : option string;
  deviceTypeNegative : option string;
  devicePositive : option InputDevice;
  deviceNegative : option InputDevice
}.

(** The records exchanged with the callbacks. *)
Definition KeySaveRecord : Set := (string * option string * option string * Z)%type.
Definition AxisSaveRecord : Set := (string * float)%type.

Inductive LoadResult : Set :=
| Returned (keySaveData : list KeySaveRecord) (axisSaveData : list AxisSaveRecord)
| RaisedIOError (message : string).

(** The collaborators supplied by the engine and by the application. *)
Record Engine := {
  base_devices : list InputDevice;                 (* base.devices.getDevices() *)
  device_axes : InputDevice -> list (string * float); (* (axis.axis, axis.value) of device.axes *)
  vfs_exists : string -> bool;
  saveMappingCallback :
    option (list KeySaveRecord -> list AxisSaveRecord -> string -> option string);
  loadMappingCallback : option (string -> LoadResult)
}.

(** A call made to a callable of the application. *)
Inductive Call : Set :=
| Call_user (f : string) (description : string) (eventType : option Z)
| Call_keyState (f : string) (description : string) (value : float).

Record KeyMapper := {
  keys : list (string * float);  (* {key-name : state} *)
  keyBindings : list (string * KeyBinding);  (* {key-name : key-binding object} *)
  keyOrder : list string;
  keyStateCallback : option string;  (* a callable, by name *)
  acceptKeyCombinations : bool;
  negativeValuesForNegativeAxes : bool;
  bindingFile : string;
  bindingFileCustom : string;
  events : gmap string Handler;  (* what eventObject has accepted *)
  buttonThrower : string * string;  (* its button-down and button-up events *)
  deviceButtonThrowers : list string;  (* the keys of the dict *)
  dataNPList : list DataNP;  (* the node path of each (dataNP, thrower) *)
  deviceAxisTestValues : list (InputDevice * list (string * float));
  lastKeyInterception : option string;
  lastKeyInterceptionDeviceType : option string;
  lastKeyInterceptionValue : Z;
  keyBeingBound : option string;
  currentConflict : option string;
  devicesInUse : list (InputDevice * DataNP);  (* {device : (dataNP, thrower)} *)
  nodeCount : nat;  (* nodes attached under base.dataRoot so far *)
  deadZoneDefaultValue : float;
  axesInUse : list AxisData;
  bindingDialogueVisible : bool;
  bindingDialogue : bool;  (* the widget: shown or hidden *)
  conflictDialogue : bool;  (* the widget: shown or hidden *)
  errorDialogue : option string;  (* the widget: the text shown, when shown *)
  calls : list Call  (* the application's callbacks called, oldest first *)
}.

(** Assignment to one attribute of [self]. *)
Definition set_keys v (km : KeyMapper) : KeyMapper :=
  {| keys := v; keyBindings := keyBindings km; keyOrder := keyOrder km;
    keyStateCallback := keyStateCallback km;
    acceptKeyCombinations := acceptKeyCombinations km;
    negativeValuesForNegativeAxes := negativeValuesForNegativeAxes km;
    bindingFile := bindingFile km; bindingFileCustom := bindingFileCustom km;
    events := events km; buttonThrower := buttonThrower km;
    deviceButtonThrowers := deviceButtonThrowers km;
    dataNPList := dataNPList km;
    deviceAxisTestValues := deviceAxisTestValues km;
    lastKeyInterception := lastKeyInterception km;
    lastKeyInterceptionDeviceType := lastKeyInterceptionDeviceType km;
    lastKeyInterceptionValue := lastKeyInterceptionValue km;
    keyBeingBound := keyBeingBound km; currentConflict := currentConflict km;
    devicesInUse := devicesInUse km; nodeCount := nodeCount km;
    deadZoneDefaultValue := deadZoneDefaultValue km;
    axesInUse := axesInUse km;
    bindingDialogueVisible := bindingDialogueVisible km;
    bindingDialogue := bindingDialogue km;
    conflictDialogue := conflictDialogue km;
    errorDialogue := errorDialogue km; calls := calls km |}.

Definition set_keyBindings v (km : KeyMapper) : KeyMapper :=
  {| keys := keys km; keyBindings := v; keyOrder := keyOrder km;
    keyStateCallback := keyStateCallback km;
    acceptKeyCombinations := acceptKeyCombinations km;
    negativeValuesForNegativeAxes := negativeValuesForNegativeAxes km;
    bindingFile := bindingFile km; bindingFileCustom := bindingFileCustom km;
    events := events km; buttonThrower := buttonThrower km;
    deviceButtonThrowers := deviceButtonThrowers km;
    dataNPList := dataNPList km;
    deviceAxisTestValues := deviceAxisTestValues km;
    lastKeyInterception := lastKeyInterception km;
    lastKeyInterceptionDeviceType := lastKeyInterceptionDeviceType km;
    lastKeyInterceptionValue := lastKeyInterceptionValue km;
    keyBeingBound := keyBeingBound km; currentConflict := currentConflict km;
    devicesInUse := devicesInUse km; nodeCount := nodeCount km;
    deadZoneDefaultValue := deadZoneDefaultValue km;
    axesInUse := axesInUse km;
    bindingDialogueVisible := bindingDialogueVisible km;
    bindingDialogue := bindingDialogue km;
    conflictDialogue := conflictDialogue km;
    errorDialogue := errorDialogue km; calls := calls km |}.

Definition set_keyOrder v (km : KeyMapper) : KeyMapper :=
  {| keys := keys km; keyBindings := keyBindings km; keyOrder := v;
    keyStateCallback := keyStateCallback km;
    acceptKeyCombinations := acceptKeyCombinations km;
    negativeValuesForNegativeAxes := negativeValuesForNegativeAxes km;
    bindingFile := bindingFile km; bindingFileCustom := bindingFileCustom km;
    events := events km; buttonThrower := buttonThrower km;
    deviceButtonThrowers := deviceButtonThrowers km;
    dataNPList := dataNPList km;
    deviceAxisTestValues := deviceAxisTestValues km;
    lastKeyInterception := lastKeyInterception km;
    lastKeyInterceptionDeviceType := lastKeyInterceptionDeviceType km;
    lastKeyInterceptionValue := lastKeyInterceptionValue km;
    keyBeingBound := keyBeingBound km; currentConflict := currentConflict km;
    devicesInUse := devicesInUse km; nodeCount := nodeCount km;
    deadZoneDefaultValue := deadZoneDefaultValue km;
    axesInUse := axesInUse km;
    bindingDialogueVisible := bindingDialogueVisible km;
    bindingDialogue := bindingDialogue km;
    conflictDialogue := conflictDialogue km;
    errorDialogue := errorDialogue km; calls := calls km |}.

Definition set_bindingFile v (km : KeyMapper) : KeyMapper :=
  {| keys := keys km; keyBindings := keyBindings km; keyOrder := keyOrder km;
    keyStateCallback := keyStateCallback km;
    acceptKeyCombinations := acceptKeyCombinations km;
    negativeValuesForNegativeAxes := negativeValuesForNegativeAxes km;
    bindingFile := v; bindingFileCustom := bindingFileCustom km;
    events := events km; buttonThrower := buttonThrower km;
    deviceButtonThrowers := deviceButtonThrowers km;
    dataNPList := dataNPList km;
    deviceAxisTestValues := deviceAxisTestValues km;
    lastKeyInterception := lastKeyInterception km;
    lastKeyInterceptionDeviceType := lastKeyInterceptionDeviceType km;
    lastKeyInterceptionValue := lastKeyInterceptionValue km;
    keyBeingBound := keyBeingBound km; currentConflict := currentConflict km;
    devicesInUse := devicesInUse km; nodeCount := nodeCount km;
    deadZoneDefaultValue := deadZoneDefaultValue km;
    axesInUse := axesInUse km;
    bindingDialogueVisible := bindingDialogueVisible km;
    bindingDialogue := bindingDialogue km;
    conflictDialogue := conflictDialogue km;
    errorDialogue := errorDialogue km; calls := calls km |}.

Definition set_events v (km : KeyMapper) : KeyMapper :=
  {| keys := keys km; keyBindings := keyBindings km; keyOrder := keyOrder km;
    keyStateCallback := keyStateCallback km;
    acceptKeyCombinations := acceptKeyCombinations km;
    negativeValuesForNegativeAxes := negativeValuesForNegativeAxes km;
    bindingFile := bindingFile km; bindingFileCustom := bindingFileCustom km;
    events := v; buttonThrower := buttonThrower km;
    deviceButtonThrowers := deviceButtonThrowers km;
    dataNPList := dataNPList km;
    deviceAxisTestValues := deviceAxisTestValues km;
    lastKeyInterception := lastKeyInterception km;
    lastKeyInterceptionDeviceType := lastKeyInterceptionDeviceType km;
    lastKeyInterceptionValue := lastKeyInterceptionValue km;
    keyBeingBound := keyBeingBound km; currentConflict := currentConflict km;
    devicesInUse := devicesInUse km; nodeCount := nodeCount km;
    deadZoneDefaultValue := deadZoneDefaultValue km;
    axesInUse := axesInUse km;
    bindingDialogueVisible := bindingDialogueVisible km;
    bindingDialogue := bindingDialogue km;
    conflictDialogue := conflictDialogue km;
    errorDialogue := errorDialogue km; calls := calls km |}.

Definition set_buttonThrower v (km : KeyMapper) : KeyMapper :=
  {| keys := keys km; keyBindings := keyBindings km; keyOrder := keyOrder km;
    keyStateCallback := keyStateCallback km;
    acceptKeyCombinations := acceptKeyCombinations km;
    negativeValuesForNegativeAxes := negativeValuesForNegativeAxes km;
    bindingFile := bindingFile km; bindingFileCustom := bindingFileCustom km;
    events := events km; buttonThrower := v;
    deviceButtonThrowers := deviceButtonThrowers km;
    dataNPList := dataNPList km;
    deviceAxisTestValues := deviceAxisTestValues km;
    lastKeyInterception := lastKeyInterception km;
    lastKeyInterceptionDeviceType := lastKeyInterceptionDeviceType km;
    lastKeyInterceptionValue := lastKeyInterceptionValue km;
    keyBeingBound := keyBeingBound km; currentConflict := currentConflict km;
    devicesInUse := devicesInUse km; nodeCount := nodeCount km;
    deadZoneDefaultValue := deadZoneDefaultValue km;
    axesInUse := axesInUse km;
    bindingDialogueVisible := bindingDialogueVisible km;
    bindingDialogue := bindingDialogue km;
    conflictDialogue := conflictDialogue km;
    errorDialogue := errorDialogue km; calls := calls km |}.

Definition set_deviceButtonThrowers v (km : KeyMapper) : KeyMapper :=
  {| keys := keys km; keyBindings := keyBindings km; keyOrder := keyOrder km;
    keyStateCallback := keyStateCallback km;
    acceptKeyCombinations := acceptKeyCombinations km;
    negativeValuesForNegativeAxes := negativeValuesForNegativeAxes km;
    bindingFile := bindingFile km; bindingFileCustom := bindingFileCustom km;
    events := events km; buttonThrower := buttonThrower km;
    deviceButtonThrowers := v; dataNPList := dataNPList km;
    deviceAxisTestValues := deviceAxisTestValues km;
    lastKeyInterception := lastKeyInterception km;
    lastKeyInterceptionDeviceType := lastKeyInterceptionDeviceType km;
    lastKeyInterceptionValue := lastKeyInterceptionValue km;
    keyBeingBound := keyBeingBound km; currentConflict := currentConflict km;
    devicesInUse := devicesInUse km; nodeCount := nodeCount km;
    deadZoneDefaultValue := deadZoneDefaultValue km;
    axesInUse := axesInUse km;
    bindingDialogueVisible := bindingDialogueVisible km;
    bindingDialogue := bindingDialogue km;
    conflictDialogue := conflictDialogue km;
    errorDialogue := errorDialogue km; calls := calls km |}.

Definition set_dataNPList v (km : KeyMapper) : KeyMapper :=
  {| keys := keys km; keyBindings := keyBindings km; keyOrder := keyOrder km;
    keyStateCallback := keyStateCallback km;
    acceptKeyCombinations := acceptKeyCombinations km;
    negativeValuesForNegativeAxes := negativeValuesForNegativeAxes km;
    bindingFile := bindingFile km; bindingFileCustom := bindingFileCustom km;
    events := events km; buttonThrower := buttonThrower km;
    deviceButtonThrowers := deviceButtonThrowers km; dataNPList := v;
    deviceAxisTestValues := deviceAxisTestValues km;
    lastKeyInterception := lastKeyInterception km;
    lastKeyInterceptionDeviceType := lastKeyInterceptionDeviceType km;
    lastKeyInterceptionValue := lastKeyInterceptionValue km;
    keyBeingBound := keyBeingBound km; currentConflict := currentConflict km;
    devicesInUse := devicesInUse km; nodeCount := nodeCount km;
    deadZoneDefaultValue := deadZoneDefaultValue km;
    axesInUse := axesInUse km;
    bindingDialogueVisible := bindingDialogueVisible km;
    bindingDialogue := bindingDialogue km;
    conflictDialogue := conflictDialogue km;
    errorDialogue := errorDialogue km; calls := calls km |}.

Definition set_deviceAxisTestValues v (km : KeyMapper) : KeyMapper :=
  {| keys := keys km; keyBindings := keyBindings km; keyOrder := keyOrder km;
    keyStateCallback := keyStateCallback km;
    acceptKeyCombinations := acceptKeyCombinations km;
    negativeValuesForNegativeAxes := negativeValuesForNegativeAxes km;
    bindingFile := bindingFile km; bindingFileCustom := bindingFileCustom km;
    events := events km; buttonThrower := buttonThrower km;
    deviceButtonThrowers := deviceButtonThrowers km;
    dataNPList := dataNPList km; deviceAxisTestValues := v;
    lastKeyInterception := lastKeyInterception km;
    lastKeyInterceptionDeviceType := lastKeyInterceptionDeviceType km;
    lastKeyInterceptionValue := lastKeyInterceptionValue km;
    keyBeingBound := keyBeingBound km; currentConflict := currentConflict km;
    devicesInUse := devicesInUse km; nodeCount := nodeCount km;
    deadZoneDefaultValue := deadZoneDefaultValue km;
    axesInUse := axesInUse km;
    bindingDialogueVisible := bindingDialogueVisible km;
    bindingDialogue := bindingDialogue km;
    conflictDialogue := conflictDialogue km;
    errorDialogue := errorDialogue km; calls := calls km |}.

Definition set_lastKeyInterception v (km : KeyMapper) : KeyMapper :=
  {| keys := keys km; keyBindings := keyBindings km; keyOrder := keyOrder km;
    keyStateCallback := keyStateCallback km;
    acceptKeyCombinations := acceptKeyCombinations km;
    negativeValuesForNegativeAxes := negativeValuesForNegativeAxes km;
    bindingFile := bindingFile km; bindingFileCustom := bindingFileCustom km;
    events := events km; buttonThrower := buttonThrower km;
    deviceButtonThrowers := deviceButtonThrowers km;
    dataNPList := dataNPList km;
    deviceAxisTestValues := deviceAxisTestValues km; lastKeyInterception := v;
    lastKeyInterceptionDeviceType := lastKeyInterceptionDeviceType km;
    lastKeyInterceptionValue := lastKeyInterceptionValue km;
    keyBeingBound := keyBeingBound km; currentConflict := currentConflict km;
    devicesInUse := devicesInUse km; nodeCount := nodeCount km;
    deadZoneDefaultValue := deadZoneDefaultValue km;
    axesInUse := axesInUse km;
    bindingDialogueVisible := bindingDialogueVisible km;
    bindingDialogue := bindingDialogue km;
    conflictDialogue := conflictDialogue km;
    errorDialogue := errorDialogue km; calls := calls km |}.

Definition set_lastKeyInterceptionDeviceType v (km : KeyMapper) : KeyMapper :=
  {| keys := keys km; keyBindings := keyBindings km; keyOrder := keyOrder km;
    keyStateCallback := keyStateCallback km;
    acceptKeyCombinations := acceptKeyCombinations km;
    negativeValuesForNegativeAxes := negativeValuesForNegativeAxes km;
    bindingFile := bindingFile km; bindingFileCustom := bindingFileCustom km;
    events := events km; buttonThrower := buttonThrower km;
    deviceButtonThrowers := deviceButtonThrowers km;
    dataNPList := dataNPList km;
    deviceAxisTestValues := deviceAxisTestValues km;
    lastKeyInterception := lastKeyInterception km;
    lastKeyInterceptionDeviceType := v;
    lastKeyInterceptionValue := lastKeyInterceptionValue km;
    keyBeingBound := keyBeingBound km; currentConflict := currentConflict km;
    devicesInUse := devicesInUse km; nodeCount := nodeCount km;
    deadZoneDefaultValue := deadZoneDefaultValue km;
    axesInUse := axesInUse km;
    bindingDialogueVisible := bindingDialogueVisible km;
    bindingDialogue := bindingDialogue km;
    conflictDialogue := conflictDialogue km;
    errorDialogue := errorDialogue km; calls := calls km |}.

Definition set_lastKeyInterceptionValue v (km : KeyMapper) : KeyMapper :=
  {| keys := keys km; keyBindings := keyBindings km; keyOrder := keyOrder km;
    keyStateCallback := keyStateCallback km;
    acceptKeyCombinations := acceptKeyCombinations km;
    negativeValuesForNegativeAxes := negativeValuesForNegativeAxes km;
    bindingFile := bindingFile km; bindingFileCustom := bindingFileCustom km;
    events := events km; buttonThrower := buttonThrower km;
    deviceButtonThrowers := deviceButtonThrowers km;
    dataNPList := dataNPList km;
    deviceAxisTestValues := deviceAxisTestValues km;
    lastKeyInterception := lastKeyInterception km;
    lastKeyInterceptionDeviceType := lastKeyInterceptionDeviceType km;
    lastKeyInterceptionValue := v; keyBeingBound := keyBeingBound km;
    currentConflict := currentConflict km; devicesInUse := devicesInUse km;
    nodeCount := nodeCount km;
    deadZoneDefaultValue := deadZoneDefaultValue km;
    axesInUse := axesInUse km;
    bindingDialogueVisible := bindingDialogueVisible km;
    bindingDialogue := bindingDialogue km;
    conflictDialogue := conflictDialogue km;
    errorDialogue := errorDialogue km; calls := calls km |}.

Definition set_keyBeingBound v (km : KeyMapper) : KeyMapper :=
  {| keys := keys km; keyBindings := keyBindings km; keyOrder := keyOrder km;
    keyStateCallback := keyStateCallback km;
    acceptKeyCombinations := acceptKeyCombinations km;
    negativeValuesForNegativeAxes := negativeValuesForNegativeAxes km;
    bindingFile := bindingFile km; bindingFileCustom := bindingFileCustom km;
    events := events km; buttonThrower := buttonThrower km;
    deviceButtonThrowers := deviceButtonThrowers km;
    dataNPList := dataNPList km;
    deviceAxisTestValues := deviceAxisTestValues km;
    lastKeyInterception := lastKeyInterception km;
    lastKeyInterceptionDeviceType := lastKeyInterceptionDeviceType km;
    lastKeyInterceptionValue := lastKeyInterceptionValue km;
    keyBeingBound := v; currentConflict := currentConflict km;
    devicesInUse := devicesInUse km; nodeCount := nodeCount km;
    deadZoneDefaultValue := deadZoneDefaultValue km;
    axesInUse := axesInUse km;
    bindingDialogueVisible := bindingDialogueVisible km;
    bindingDialogue := bindingDialogue km;
    conflictDialogue := conflictDialogue km;
    errorDialogue := errorDialogue km; calls := calls km |}.

Definition set_currentConflict v (km : KeyMapper) : KeyMapper :=
  {| keys := keys km; keyBindings := keyBindings km; keyOrder := keyOrder km;
    keyStateCallback := keyStateCallback km;
    acceptKeyCombinations := acceptKeyCombinations km;
    negativeValuesForNegativeAxes := negativeValuesForNegativeAxes km;
    bindingFile := bindingFile km; bindingFileCustom := bindingFileCustom km;
    events := events km; buttonThrower := buttonThrower km;
    deviceButtonThrowers := deviceButtonThrowers km;
    dataNPList := dataNPList km;
    deviceAxisTestValues := deviceAxisTestValues km;
    lastKeyInterception := lastKeyInterception km;
    lastKeyInterceptionDeviceType := lastKeyInterceptionDeviceType km;
    lastKeyInterceptionValue := lastKeyInterceptionValue km;
    keyBeingBound := keyBeingBound km; currentConflict := v;
    devicesInUse := devicesInUse km; nodeCount := nodeCount km;
    deadZoneDefaultValue := deadZoneDefaultValue km;
    axesInUse := axesInUse km;
    bindingDialogueVisible := bindingDialogueVisible km;
    bindingDialogue := bindingDialogue km;
    conflictDialogue := conflictDialogue km;
    errorDialogue := errorDialogue km; calls := calls km |}.

Definition set_devicesInUse v (km : KeyMapper) : KeyMapper :=
  {| keys := keys km; keyBindings := keyBindings km; keyOrder := keyOrder km;
    keyStateCallback := keyStateCallback km;
    acceptKeyCombinations := acceptKeyCombinations km;
    negativeValuesForNegativeAxes := negativeValuesForNegativeAxes km;
    bindingFile := bindingFile km; bindingFileCustom := bindingFileCustom km;
    events := events km; buttonThrower := buttonThrower km;
    deviceButtonThrowers := deviceButtonThrowers km;
    dataNPList := dataNPList km;
    deviceAxisTestValues := deviceAxisTestValues km;
    lastKeyInterception := lastKeyInterception km;
    lastKeyInterceptionDeviceType := lastKeyInterceptionDeviceType km;
    lastKeyInterceptionValue := lastKeyInterceptionValue km;
    keyBeingBound := keyBeingBound km; currentConflict := currentConflict km;
    devicesInUse := v; nodeCount := nodeCount km;
    deadZoneDefaultValue := deadZoneDefaultValue km;
    axesInUse := axesInUse km;
    bindingDialogueVisible := bindingDialogueVisible km;
    bindingDialogue := bindingDialogue km;
    conflictDialogue := conflictDialogue km;
    errorDialogue := errorDialogue km; calls := calls km |}.

Definition set_nodeCount v (km : KeyMapper) : KeyMapper :=
  {| keys := keys km; keyBindings := keyBindings km; keyOrder := keyOrder km;
    keyStateCallback := keyStateCallback km;
    acceptKeyCombinations := acceptKeyCombinations km;
    negativeValuesForNegativeAxes := negativeValuesForNegativeAxes km;
    bindingFile := bindingFile km; bindingFileCustom := bindingFileCustom km;
    events := events km; buttonThrower := buttonThrower km;
    deviceButtonThrowers := deviceButtonThrowers km;
    dataNPList := dataNPList km;
    deviceAxisTestValues := deviceAxisTestValues km;
    lastKeyInterception := lastKeyInterception km;
    lastKeyInterceptionDeviceType := lastKeyInterceptionDeviceType km;
    lastKeyInterceptionValue := lastKeyInterceptionValue km;
    keyBeingBound := keyBeingBound km; currentConflict := currentConflict km;
    devicesInUse := devicesInUse km; nodeCount := v;
    deadZoneDefaultValue := deadZoneDefaultValue km;
    axesInUse := axesInUse km;
    bindingDialogueVisible := bindingDialogueVisible km;
    bindingDialogue := bindingDialogue km;
    conflictDialogue := conflictDialogue km;
    errorDialogue := errorDialogue km; calls := calls km |}.

Definition set_axesInUse v (km : KeyMapper) : KeyMapper :=
  {| keys := keys km; keyBindings := keyBindings km; keyOrder := keyOrder km;
    keyStateCallback := keyStateCallback km;
    acceptKeyCombinations := acceptKeyCombinations km;
    negativeValuesForNegativeAxes := negativeValuesForNegativeAxes km;
    bindingFile := bindingFile km; bindingFileCustom := bindingFileCustom km;
    events := events km; buttonThrower := buttonThrower km;
    deviceButtonThrowers := deviceButtonThrowers km;
    dataNPList := dataNPList km;
    deviceAxisTestValues := deviceAxisTestValues km;
    lastKeyInterception := lastKeyInterception km;
    lastKeyInterceptionDeviceType := lastKeyInterceptionDeviceType km;
    lastKeyInterceptionValue := lastKeyInterceptionValue km;
    keyBeingBound := keyBeingBound km; currentConflict := currentConflict km;
    devicesInUse := devicesInUse km; nodeCount := nodeCount km;
    deadZoneDefaultValue := deadZoneDefaultValue km; axesInUse := v;
    bindingDialogueVisible := bindingDialogueVisible km;
    bindingDialogue := bindingDialogue km;
    conflictDialogue := conflictDialogue km;
    errorDialogue := errorDialogue km; calls := calls km |}.

Definition set_bindingDialogueVisible v (km : KeyMapper) : KeyMapper :=
  {| keys := keys km; keyBindings := keyBindings km; keyOrder := keyOrder km;
    keyStateCallback := keyStateCallback km;
    acceptKeyCombinations := acceptKeyCombinations km;
    negativeValuesForNegativeAxes := negativeValuesForNegativeAxes km;
    bindingFile := bindingFile km; bindingFileCustom := bindingFileCustom km;
    events := events km; buttonThrower := buttonThrower km;
    deviceButtonThrowers := deviceButtonThrowers km;
    dataNPList := dataNPList km;
    deviceAxisTestValues := deviceAxisTestValues km;
    lastKeyInterception := lastKeyInterception km;
    lastKeyInterceptionDeviceType := lastKeyInterceptionDeviceType km;
    lastKeyInterceptionValue := lastKeyInterceptionValue km;
    keyBeingBound := keyBeingBound km; currentConflict := currentConflict km;
    devicesInUse := devicesInUse km; nodeCount := nodeCount km;
    deadZoneDefaultValue := deadZoneDefaultValue km;
    axesInUse := axesInUse km; bindingDialogueVisible := v;
    bindingDialogue := bindingDialogue km;
    conflictDialogue := conflictDialogue km;
    errorDialogue := errorDialogue km; calls := calls km |}.

Definition set_bindingDialogue v (km : KeyMapper) : KeyMapper :=
  {| keys := keys km; keyBindings := keyBindings km; keyOrder := keyOrder km;
    keyStateCallback := keyStateCallback km;
    acceptKeyCombinations := acceptKeyCombinations km;
    negativeValuesForNegativeAxes := negativeValuesForNegativeAxes km;
    bindingFile := bindingFile km; bindingFileCustom := bindingFileCustom km;
    events := events km; buttonThrower := buttonThrower km;
    deviceButtonThrowers := deviceButtonThrowers km;
    dataNPList := dataNPList km;
    deviceAxisTestValues := deviceAxisTestValues km;
    lastKeyInterception := lastKeyInterception km;
    lastKeyInterceptionDeviceType := lastKeyInterceptionDeviceType km;
    lastKeyInterceptionValue := lastKeyInterceptionValue km;
    keyBeingBound := keyBeingBound km; currentConflict := currentConflict km;
    devicesInUse := devicesInUse km; nodeCount := nodeCount km;
    deadZoneDefaultValue := deadZoneDefaultValue km;
    axesInUse := axesInUse km;
    bindingDialogueVisible := bindingDialogueVisible km; bindingDialogue := v;
    conflictDialogue := conflictDialogue km;
    errorDialogue := errorDialogue km; calls := calls km |}.

Definition set_conflictDialogue v (km : KeyMapper) : KeyMapper :=
  {| keys := keys km; keyBindings := keyBindings km; keyOrder := keyOrder km;
    keyStateCallback := keyStateCallback km;
    acceptKeyCombinations := acceptKeyCombinations km;
    negativeValuesForNegativeAxes := negativeValuesForNegativeAxes km;
    bindingFile := bindingFile km; bindingFileCustom := bindingFileCustom km;
    events := events km; buttonThrower := buttonThrower km;
    deviceButtonThrowers := deviceButtonThrowers km;
    dataNPList := dataNPList km;
    deviceAxisTestValues := deviceAxisTestValues km;
    lastKeyInterception := lastKeyInterception km;
    lastKeyInterceptionDeviceType := lastKeyInterceptionDeviceType km;
    lastKeyInterceptionValue := lastKeyInterceptionValue km;
    keyBeingBound := keyBeingBound km; currentConflict := currentConflict km;
    devicesInUse := devicesInUse km; nodeCount := nodeCount km;
    deadZoneDefaultValue := deadZoneDefaultValue km;
    axesInUse := axesInUse km;
    bindingDialogueVisible := bindingDialogueVisible km;
    bindingDialogue := bindingDialogue km; conflictDialogue := v;
    errorDialogue := errorDialogue km; calls := calls km |}.

Definition set_errorDialogue v (km : KeyMapper) : KeyMapper :=
  {| keys := keys km; keyBindings := keyBindings km; keyOrder := keyOrder km;
    keyStateCallback := keyStateCallback km;
    acceptKeyCombinations := acceptKeyCombinations km;
    negativeValuesForNegativeAxes := negativeValuesForNegativeAxes km;
    bindingFile := bindingFile km; bindingFileCustom := bindingFileCustom km;
    events := events km; buttonThrower := buttonThrower km;
    deviceButtonThrowers := deviceButtonThrowers km;
    dataNPList := dataNPList km;
    deviceAxisTestValues := deviceAxisTestValues km;
    lastKeyInterception := lastKeyInterception km;
    lastKeyInterceptionDeviceType := lastKeyInterceptionDeviceType km;
    lastKeyInterceptionValue := lastKeyInterceptionValue km;
    keyBeingBound := keyBeingBound km; currentConflict := currentConflict km;
    devicesInUse := devicesInUse km; nodeCount := nodeCount km;
    deadZoneDefaultValue := deadZoneDefaultValue km;
    axesInUse := axesInUse km;
    bindingDialogueVisible := bindingDialogueVisible km;
    bindingDialogue := bindingDialogue km;
    conflictDialogue := conflictDialogue km; errorDialogue := v;
    calls := calls km |}.

Definition set_calls v (km : KeyMapper) : KeyMapper :=
  {| keys := keys km; keyBindings := keyBindings km; keyOrder := keyOrder km;
    keyStateCallback := keyStateCallback km;
    acceptKeyCombinations := acceptKeyCombinations km;
    negativeValuesForNegativeAxes := negativeValuesForNegativeAxes km;
    bindingFile := bindingFile km; bindingFileCustom := bindingFileCustom km;
    events := events km; buttonThrower := buttonThrower km;
    deviceButtonThrowers := deviceButtonThrowers km;
    dataNPList := dataNPList km;
    deviceAxisTestValues := deviceAxisTestValues km;
    lastKeyInterception := lastKeyInterception km;
    lastKeyInterceptionDeviceType := lastKeyInterceptionDeviceType km;
    lastKeyInterceptionValue := lastKeyInterceptionValue km;
    keyBeingBound := keyBeingBound km; currentConflict := currentConflict km;
    devicesInUse := devicesInUse km; nodeCount := nodeCount km;
    deadZoneDefaultValue := deadZoneDefaultValue km;
    axesInUse := axesInUse km;
    bindingDialogueVisible := bindingDialogueVisible km;
    bindingDialogue := bindingDialogue km;
    conflictDialogue := conflictDialogue km;
    errorDialogue := errorDialogue km; calls := v |}.

(** ** Exceptions and the method monad *)

(** The six [raise Exception(...)] statements of [bindKey]. *)
Inductive MissingCallback : Set :=
| MissingPressed            (* type "pressed", callback None *)
| MissingReleased           (* type "released", callback None *)
| MissingPairLength (n : nat) (* fewer than two items *)
| MissingPairFirst
| MissingPairSecond
| MissingBoth.              (* type "pressed and released", callback None *)

Inductive Exn : Set :=
| KeyError (key : option string)   (* a dict subscript that is not there *)
| DeviceKeyError (device : InputDevice) (* the same, the key being a device *)
| IndexError                       (* a list subscript out of range *)
| AttributeError (name : string)   (* eval of an unknown DeviceClass member *)
| TypeError                        (* None where a string or a callable is needed *)
| AssertionError                   (* accept of a method that is not callable *)
| OverflowError                    (* BitMask32 of an int outside 0 .. 2^32 - 1 *)
| ConfigError (what : MissingCallback).

Inductive Outcome (A : Type) : Type :=
| Val (a : A)
| Raise (e : Exn).
Arguments Val {A} a.
Arguments Raise {A} e.

Definition M (A : Type) : Type := KeyMapper -> Outcome A * KeyMapper.

Definition ret {A} (a : A) : M A := fun km => (Val a, km).

Definition bind {A B} (m : M A) (k : A -> M B) : M B :=
  fun km =>
    match m km with
    | (Val a, km') => k a km'
    | (Raise e, km') => (Raise e, km')
    end.

Definition raise {A} (e : Exn) : M A := fun km => (Raise e, km).
Definition gets {A} (f : KeyMapper -> A) : M A := fun km => (Val (f km), km).
Definition modify (f : KeyMapper -> KeyMapper) : M unit := fun km => (Val tt, f km).

Declare Scope method_scope.
Delimit Scope method_scope with method.
Notation "x <- m ;; k" := (bind m (fun x => k))
  (at level 100, m at next level, right associativity) : method_scope.
Notation "m ;;; k" := (bind m (fun _ => k))
  (at level 100, right associativity) : method_scope.
Local Open Scope method_scope.

(** [for x in l: body(x)] *)
Fixpoint for_each {A} (l : list A) (body : A -> M unit) : M unit :=
  match l with
  | [] => ret tt
  | x :: l' => body x ;;; for_each l' body
  end.

(** ** Dicts in insertion order *)

Fixpoint dict_get {V} (k : string) (d : list (string * V)) : option V :=
  match d with
  | [] => None
  | (k', v) :: d' => if String.eqb k k' then Some v else dict_get k d'
  end.

(** [d[k] = v]: in place when [k] is there, at the end otherwise. *)
Fixpoint dict_set {V} (k : string) (v : V) (d : list (string * V)) : list (string * V) :=
  match d with
  | [] => [(k, v)]
  | (k', v') :: d' =>
      if String.eqb k k' then (k', v) :: d' else (k', v') :: dict_set k v d'
  end.

(** [self.keyBindings[k]]: the object, or KeyError. *)
Definition keyBindings_at (k : string) : M KeyBinding :=
  fun km =>
    match dict_get k (keyBindings km) with
    | Some kb => (Val kb, km)
    | None => (Raise (KeyError (Some k)), km)
    end.

(** Mutation in place of the object stored under [k]: [d[k].attr = ...].
    The keys of a dict are unique, so this touches one item. *)
Definition dict_update {V} (k : string) (f : V -> V) (d : list (string * V))
    : list (string * V) :=
  List.map (fun p => if String.eqb k (fst p) then (fst p, f (snd p)) else p) d.

Definition option_eqb {A} (eqb : A -> A -> bool) (a b : option A) : bool :=
  match a, b with
  | Some x, Some y => eqb x y
  | None, None => true
  | _, _ => false
  end.

(** ** Mutation of the stored objects *)

(** [keyBinding.binding = None; keyBinding.deviceType = None] *)
Definition KeyBinding_unbind (kb : KeyBinding) : KeyBinding :=
  {| keyDescription := keyDescription kb; binding := None;
     defaultBinding := defaultBinding kb; type := type kb;
     callback := callback kb; deviceType := None;
     defaultDeviceType := defaultDeviceType kb;
     axisDirection := axisDirection kb; groupID := groupID kb |}.

(** The three assignments that close the first half of [bindKey]. *)
Definition KeyBinding_bind (b dt : option string) (dir : Z) (kb : KeyBinding) : KeyBinding :=
  {| keyDescription := keyDescription kb; binding := b;
     defaultBinding := defaultBinding kb; type := type kb;
     callback := callback kb; deviceType := dt;
     defaultDeviceType := defaultDeviceType kb;
     axisDirection := dir; groupID := groupID kb |}.

Definition AxisData_set_positive (k dt : option string) (dev : option InputDevice)
    (a : AxisData) : AxisData :=
  {| axis := axis a; keyDescriptionPositive := k;
     keyDescriptionNegative := keyDescriptionNegative a; deadZone := deadZone a;
     deviceTypePositive := dt; deviceTypeNegative := deviceTypeNegative a;
     devicePositive := dev; deviceNegative := deviceNegative a |}.

Definition AxisData_set_negative (k dt : option string) (dev : option InputDevice)
    (a : AxisData) : AxisData :=
  {| axis := axis a; keyDescriptionPositive := keyDescriptionPositive a;
     keyDescriptionNegative := k; deadZone := deadZone a;
     deviceTypePositive := deviceTypePositive a; deviceTypeNegative := dt;
     devicePositive := devicePositive a; deviceNegative := dev |}.

Definition AxisData_set_devices (p n : option InputDevice) (a : AxisData) : AxisData :=
  {| axis := axis a; keyDescriptionPositive := keyDescriptionPositive a;
     keyDescriptionNegative := keyDescriptionNegative a; deadZone := deadZone a;
     deviceTypePositive := deviceTypePositive a;
     deviceTypeNegative := deviceTypeNegative a;
     devicePositive := p; deviceNegative := n |}.

(** [AxisData()] followed by the assignments of [axis] and [deadZone]. *)
Definition AxisData_new (axisStr : string) (dz : float) : AxisData :=
  {| axis := axisStr; keyDescriptionPositive := None;
     keyDescriptionNegative := None; deadZone := dz;
     deviceTypePositive := None; deviceTypeNegative := None;
     devicePositive := None; deviceNegative := None |}.

(** The test of the list comprehension that ends [clearKeyEvent]. *)
Definition axis_in_use (a : AxisData) : bool :=
  match keyDescriptionPositive a, keyDescriptionNegative a with
  | None, None => false
  | _, _ => true
  end.

(** ** Devices *)

(** A device type as the methods receive it: a member of
    [InputDevice.DeviceClass] or a string. *)
Inductive DeviceTypeInput : Set :=
| DT_class (c : DeviceClass)
| DT_string (s : string).

Definition getDeviceTypeString (deviceTypeInput : DeviceTypeInput) : string :=
  match deviceTypeInput with
  | DT_class c => last_part (String.append "DeviceClass." (DeviceClass_name c))
  | DT_string s => last_part s
  end.

(** The conversion that opens [addUsedDevice] and [removeUsedDevice]. *)
Definition to_DeviceClass (t : DeviceTypeInput) : M DeviceClass :=
  match t with
  | DT_class c => ret c
  | DT_string s =>
      match DeviceClass_of_string s with
      | Some c => ret c
      | None => raise (AttributeError s)
      end
  end.

Definition AxisData_attach (deviceTypeString : string) (device : InputDevice)
    (a : AxisData) : AxisData :=
  AxisData_set_devices
    (if option_eqb String.eqb (deviceTypePositive a) (Some deviceTypeString)
     then Some device else devicePositive a)
    (if option_eqb String.eqb (deviceTypeNegative a) (Some deviceTypeString)
     then Some device else deviceNegative a)
    a.

Definition AxisData_detach (device : InputDevice) (a : AxisData) : AxisData :=
  AxisData_set_devices
    (if option_eqb InputDevice_eqb (devicePositive a) (Some device)
     then None else devicePositive a)
    (if option_eqb InputDevice_eqb (deviceNegative a) (Some device)
     then None else deviceNegative a)
    a.

(** The last [dataNP] of [self.dataNPList] on [device], if any. *)
Definition find_dataNP (device : InputDevice) (l : list DataNP) : option DataNP :=
  List.fold_left
    (fun found np => if InputDevice_eqb (np_device np) device then Some np else found)
    l None.

Section Methods.

Variable engine : Engine.

Definition addUsedDevice (deviceTypeToAdd : DeviceTypeInput) : M (option InputDevice) :=
  c <- to_DeviceClass deviceTypeToAdd ;;
  let devices :=
    List.filter (fun d => DeviceClass_eqb (device_class d) c) (base_devices engine) in
  inUse <- gets devicesInUse ;;
  match List.find (fun d => DeviceClass_eqb (device_class d) c) (List.map fst inUse) with
  | Some device => ret (Some device)
  | None =>
      match devices with
      | device :: _ =>
          modify (fun km =>
            let '(dataNP, n) :=
              match find_dataNP device (dataNPList km) with
              | Some np => (np, nodeCount km)
              | None => ({| np_id := nodeCount km; np_device := device |},
                         S (nodeCount km))
              end in
            set_nodeCount n
              (set_devicesInUse (devicesInUse km ++ [(device, dataNP)])%list km)) ;;;
          modify (fun km =>
            set_axesInUse
              (List.map (AxisData_attach (getDeviceTypeString (DT_class c)) device)
                        (axesInUse km)) km) ;;;
          ret (Some device)
      | [] => ret None
      end
  end.

Definition removeUsedDevice (deviceTypeToRemove : DeviceTypeInput) : M unit :=
  c <- to_DeviceClass deviceTypeToRemove ;;
  if (DeviceClass_eqb c keyboard || DeviceClass_eqb c mouse)%bool then ret tt
  else
    deviceRemovalList <-
      gets (fun km =>
              List.filter (fun p => DeviceClass_eqb (device_class (fst p)) c)
                          (devicesInUse km)) ;;
    for_each deviceRemovalList (fun p =>
      let device := fst p in
      let dataNP := snd p in
      modify (fun km =>
        set_axesInUse (List.map (AxisData_detach device) (axesInUse km)) km) ;;;
      modify (fun km =>
        set_devicesInUse
          (List.filter (fun q => negb (InputDevice_eqb (fst q) device))
                       (devicesInUse km)) km) ;;;
      modify (fun km =>
        set_dataNPList
          (List.filter (fun np => negb (Nat.eqb (np_id np) (np_id dataNP)))
                       (dataNPList km)) km)).

(** ** Clearing and setting a binding *)

(** One turn of the axis loop of [clearKeyEvent]: the entry as it is
    left, and the control names appended to [keysToChange]. *)
Definition clear_direction (bindingStr : string) (direction : Z) (a : AxisData)
    : AxisData * list string :=
  if String.eqb (axis a) bindingStr then
    if direction =? -1 then
      match keyDescriptionNegative a with
      | Some k => (AxisData_set_negative None None None a, [k])
      | None => (a, [])
      end
    else if direction =? 1 then
      match keyDescriptionPositive a with
      | Some k => (AxisData_set_positive None None None a, [k])
      | None => (a, [])
      end
    else (a, [])
  else (a, []).

Fixpoint clear_axis_entries (bindingStr : string) (direction : Z) (l : list AxisData)
    : list AxisData * list string :=
  match l with
  | [] => ([], [])
  | a :: l' =>
      let (a', ks) := clear_direction bindingStr direction a in
      let (l'', ks') := clear_axis_entries bindingStr direction l' in
      (a' :: l'', (ks ++ ks')%list)
  end.

(** The controls whose binding is [b], in dict order. *)
Definition keys_bound_to (b : string) (d : list (string * KeyBinding)) : list string :=
  List.map fst
    (List.filter (fun p => option_eqb String.eqb (Some b) (binding (snd p))) d).

(** [for key in keysToChange]: unbinds each, returns [deviceTypesToCheck]. *)
Fixpoint unbind_keys (keysToChange : list string) : M (list (option string)) :=
  match keysToChange with
  | [] => ret []
  | key :: rest =>
      kb <- keyBindings_at key ;;
      modify (fun km =>
        set_keyBindings (dict_update key KeyBinding_unbind (keyBindings km)) km) ;;;
      checks <- unbind_keys rest ;;
      ret (deviceType kb :: checks)
  end.

Definition clearKeyEvent (binding_ : option string) (direction : Z) : M unit :=
  match binding_ with
  | None => ret tt          (* not isinstance(binding, str) *)
  | Some b =>
      keysToChange <-
        (if is_axis_binding b then
           fun km =>
             let (axes', ks) :=
               clear_axis_entries (string_from 5 b) direction (axesInUse km) in
             (Val ks, set_axesInUse axes' km)
         else gets (fun km => keys_bound_to b (keyBindings km))) ;;
      deviceTypesToCheck <- unbind_keys keysToChange ;;
      boundDeviceList <- gets (fun km => List.map (fun p => deviceType (snd p)) (keyBindings km)) ;;
      for_each deviceTypesToCheck (fun dt =>
        if List.existsb (option_eqb String.eqb dt) boundDeviceList then ret tt
        else match dt with
             | Some s => removeUsedDevice (DT_string s)
             | None => raise TypeError
             end) ;;;
      modify (fun km => set_events (delete b (events km)) km) ;;;
      modify (fun km => set_events (delete (String.append b "-up") (events km)) km) ;;;
      modify (fun km => set_axesInUse (List.filter axis_in_use (axesInUse km)) km)
  end.

(** [self.eventObject.accept(name, handler)] *)
Definition accept (name : string) (h : Handler) : M unit :=
  modify (fun km => set_events (<[name := h]> (events km)) km).

(** [self.eventObject.accept(name, callback, extraArgs)] with a
    callback of the application: Panda3D's [Messenger.accept] asserts
    that the method is callable, so a list or tuple (or [None]) raises
    AssertionError and nothing is accepted. *)
Definition accept_callback (name : string) (cb : Callback) (description : string)
    (eventType : option Z) : M unit :=
  match cb with
  | CbFun _ => accept name (H_user cb description eventType)
  | _ => raise AssertionError
  end.

(** [binding + "-up"] inside an [if binding is not None] *)
Definition up (b : string) : string := String.append b "-up".

(** The branch on [type] of [bindKey]: the subscriptions, or the
    exception for a missing callback. *)
Definition subscribe (keyDescription_ : string) (binding_ : option string) (ty : Z)
    (cb : Callback) : M unit :=
  let when_bound (f : string -> M unit) : M unit :=
    match binding_ with Some b => f b | None => ret tt end in
  if ty =? KEYMAP_HELD_KEY then
    when_bound (fun b =>
      accept b (H_keyPressed keyDescription_ 1%float) ;;;
      accept (up b) (H_keyPressed keyDescription_ 0%float))
  else if ty =? KEYMAP_EVENT_PRESSED then
    match cb with
    | CbNone => raise (ConfigError MissingPressed)
    | _ => when_bound (fun b => accept_callback b cb keyDescription_ None)
    end
  else if ty =? KEYMAP_EVENT_RELEASED then
    match cb with
    | CbNone => raise (ConfigError MissingReleased)
    | _ => when_bound (fun b => accept_callback (up b) cb keyDescription_ None)
    end
  else if ty =? KEYMAP_EVENT_PRESSED_AND_RELEASED then
    match cb with
    | CbSeq items =>
        match items with
        | Some f0 :: Some f1 :: _ =>
            when_bound (fun b =>
              accept_callback b (CbFun f0) keyDescription_ None ;;;
              accept_callback (up b) (CbFun f1) keyDescription_ None)
        | None :: _ :: _ => raise (ConfigError MissingPairFirst)
        | Some _ :: None :: _ => raise (ConfigError MissingPairSecond)
        | _ => raise (ConfigError (MissingPairLength (length items)))
        end
    | CbFun _ =>
        when_bound (fun b =>
          accept_callback b cb keyDescription_ (Some KEYMAP_EVENT_PRESSED) ;;;
          accept_callback (up b) cb keyDescription_ (Some KEYMAP_EVENT_RELEASED))
    | CbNone => raise (ConfigError MissingBoth)
    end
  else ret tt.

(** The assignments to an axis entry under [if axisDirection > 0 ...
    elif axisDirection < 0]. *)
Definition claim_direction (keyDescription_ : string) (device : option InputDevice)
    (deviceType_ : string) (axisDirection_ : Z) (a : AxisData) : AxisData :=
  if 0 <? axisDirection_ then
    AxisData_set_positive (Some keyDescription_) (Some deviceType_) device a
  else if axisDirection_ <? 0 then
    AxisData_set_negative (Some keyDescription_) (Some deviceType_) device a
  else a.

Definition bindKey (keyDescription_ : string) (binding_ : option string) (ty : Z)
    (cb : Callback) (deviceType_ : option string) (axisDirection_ : Z) : M unit :=
  clearKeyEvent binding_ axisDirection_ ;;;
  old <- keyBindings_at keyDescription_ ;;
  clearKeyEvent (binding old) (axisDirection old) ;;;
  subscribe keyDescription_ binding_ ty cb ;;;
  modify (fun km =>
    set_keyBindings
      (dict_update keyDescription_
         (KeyBinding_bind binding_ deviceType_ axisDirection_) (keyBindings km)) km) ;;;
  match binding_, deviceType_ with
  | Some b, Some dt =>
      device <- addUsedDevice (DT_string dt) ;;
      if is_axis_binding b then
        let axisStr := string_from 5 b in
        modify (fun km =>
          let foundAxis :=
            List.existsb (fun a => String.eqb (axis a) axisStr) (axesInUse km) in
          let updated :=
            List.map (fun a =>
                        if String.eqb (axis a) axisStr
                        then claim_direction keyDescription_ device dt axisDirection_ a
                        else a)
                     (axesInUse km) in
          set_axesInUse
            (if foundAxis then updated
             else (updated ++
                   [claim_direction keyDescription_ device dt axisDirection_
                      (AxisData_new axisStr (deadZoneDefaultValue km))])%list)
            km)
      else ret tt
  | _, _ => ret tt
  end.

(** ** Persistence *)

Definition nl : string := String (ascii_of_nat 10) EmptyString.

Definition showErrorDialogue (e : string) : M unit :=
  modify (set_errorDialogue (Some e)).

(** The first loop inside the [try] of [loadKeyMapping]; the subscript
    [self.keyBindings[description]] raises KeyError, which the
    [except IOError] does not catch. *)
Fixpoint collect_bindingList (keySaveData : list KeySaveRecord)
    : M (list (string * option string * Z * option string * Callback * Z)) :=
  match keySaveData with
  | [] => ret []
  | (description, binding_, deviceType_, axisDirection_) :: rest =>
      bindingData <- keyBindings_at description ;;
      bindingList <- collect_bindingList rest ;;
      ret ((description, binding_, type bindingData, deviceType_,
            callback bindingData, axisDirection_) :: bindingList)
  end.

Definition loadKeyMapping : M unit :=
  file <- gets bindingFile ;;
  match loadMappingCallback engine with
  | None =>
      showErrorDialogue
        (String.concat ""
           ["No file-loading callback found!"; nl; nl; "The file"; nl; file; nl;
            "will thus not be loaded."])
  | Some load =>
      match load file with
      | RaisedIOError e =>
          (* bindingList is still empty: the last loop does nothing *)
          if vfs_exists engine file then showErrorDialogue e else ret tt
      | Returned keySaveData axisSaveData =>
          bindingList <- collect_bindingList keySaveData ;;
          modify (set_axesInUse
                    (List.map (fun r => AxisData_new (fst r) (snd r)) axisSaveData)) ;;;
          for_each bindingList (fun r =>
            match r with
            | (keyDescription_, binding_, controlType, deviceType_, callback_,
               axisDirection_) =>
                bindKey keyDescription_ binding_ controlType callback_ deviceType_
                        axisDirection_
            end)
      end
  end.

(** The two lists that [saveKeyMapping] hands to the save-callback. *)
Definition keySaveData_of (km : KeyMapper) : list KeySaveRecord :=
  List.map (fun p => (fst p, binding (snd p), deviceType (snd p), axisDirection (snd p)))
           (keyBindings km).

Definition axisSaveData_of (km : KeyMapper) : list AxisSaveRecord :=
  List.map (fun a => (axis a, deadZone a)) (axesInUse km).

Definition saveKeyMapping : M unit :=
  keySaveData <- gets keySaveData_of ;;
  axisSaveData <- gets axisSaveData_of ;;
  file <- gets bindingFile ;;
  match saveMappingCallback engine with
  | Some save =>
      match save keySaveData axisSaveData file with
      | None => ret tt
      | Some e => showErrorDialogue e
      end
  | None =>
      showErrorDialogue
        (String.concat ""
           ["No file-saving callback found!"; nl; nl; "The file"; nl; file; nl;
            "will thus not be saved."])
  end.

(** ** Listening for arbitrary input *)

Definition device_get {V} (d : InputDevice) (l : list (InputDevice * V)) : option V :=
  option_map snd (List.find (fun p => InputDevice_eqb (fst p) d) l).

Fixpoint device_set {V} (d : InputDevice) (v : V) (l : list (InputDevice * V))
    : list (InputDevice * V) :=
  match l with
  | [] => [(d, v)]
  | (d', v') :: l' =>
      if InputDevice_eqb d d' then (d', v) :: l' else (d', v') :: device_set d v l'
  end.

Definition is_keyboard_or_mouse (c : DeviceClass) : bool :=
  (DeviceClass_eqb c keyboard || DeviceClass_eqb c mouse)%bool.

Definition setupEventsForDevice (device : InputDevice) : M unit :=
  if is_keyboard_or_mouse (device_class device) then ret tt
  else
    inUse <- gets devicesInUse ;;
    dataNP <-
      match device_get device inUse with
      | Some np => ret np
      | None =>
          fun km => (Val {| np_id := nodeCount km; np_device := device |},
                     set_nodeCount (S (nodeCount km)) km)
      end ;;
    let deviceTypeString := getDeviceTypeString (DT_class (device_class device)) in
    throwers <- gets deviceButtonThrowers ;;
    if List.existsb (String.eqb deviceTypeString) throwers then
      modify (fun km => set_dataNPList (dataNPList km ++ [dataNP])%list km) ;;;
      modify (fun km =>
        set_deviceAxisTestValues
          (device_set device
             (List.fold_left (fun d a => dict_set (fst a) (snd a) d)
                             (device_axes engine device) [])
             (deviceAxisTestValues km)) km)
    else raise (KeyError (Some deviceTypeString)).

Definition setEvents : M unit :=
  modify (set_buttonThrower ("keyInterception", "keyRelease")) ;;;
  modify (fun km =>
    set_deviceButtonThrowers
      (List.fold_left
         (fun d c => if is_keyboard_or_mouse c then d
                     else if List.existsb (String.eqb (getDeviceTypeString (DT_class c))) d
                          then d else (d ++ [getDeviceTypeString (DT_class c)])%list)
         all_DeviceClass (deviceButtonThrowers km)) km) ;;;
  for_each (base_devices engine) setupEventsForDevice.

Definition clearEvents : M unit :=
  modify (set_buttonThrower ("", "")) ;;;
  modify (set_dataNPList []) ;;;
  modify (set_deviceButtonThrowers []).

Definition clearEventsForDevice (device : InputDevice) : M unit :=
  modify (fun km =>
    set_dataNPList
      (List.filter (fun np => negb (InputDevice_eqb (np_device np) device))
                   (dataNPList km)) km).

Definition showBindingDialogue (keyDescription_ : string) : M unit :=
  modify (set_lastKeyInterception None) ;;;
  modify (set_lastKeyInterceptionDeviceType None) ;;;
  modify (set_lastKeyInterceptionValue 0) ;;;
  _ <- keyBindings_at keyDescription_ ;;   (* read for the dialogue's text *)
  modify (set_bindingDialogue true) ;;;
  modify (set_bindingDialogueVisible true) ;;;
  modify (set_deviceAxisTestValues []) ;;;
  setEvents.

Definition hideBindingDialogue : M unit :=
  modify (set_bindingDialogue false) ;;;
  modify (set_bindingDialogueVisible false) ;;;
  modify (set_lastKeyInterception None) ;;;
  modify (set_lastKeyInterceptionDeviceType None) ;;;
  modify (set_lastKeyInterceptionValue 0) ;;;
  clearEvents.

Definition getNewBinding (keyDescription_ : string) : M unit :=
  modify (set_keyBeingBound (Some keyDescription_)) ;;;
  showBindingDialogue keyDescription_.

Definition connectController (controller : InputDevice) : M unit :=
  let deviceTypeToAdd := device_class controller in
  let deviceTypeToAddString := getDeviceTypeString (DT_class deviceTypeToAdd) in
  bindings <- gets keyBindings ;;
  for_each bindings (fun p =>
    if option_eqb String.eqb (deviceType (snd p)) (Some deviceTypeToAddString)
    then _ <- addUsedDevice (DT_class deviceTypeToAdd) ;; ret tt
    else ret tt) ;;;
  visible <- gets bindingDialogueVisible ;;
  if visible : bool then setupEventsForDevice controller else ret tt.

Definition disconnectController (controller : InputDevice) : M unit :=
  visible <- gets bindingDialogueVisible ;;
  (if visible : bool then clearEventsForDevice controller else ret tt) ;;;
  inUse <- gets devicesInUse ;;
  match device_get controller inUse with
  | Some _ => removeUsedDevice (DT_class (device_class controller))
  | None => ret tt
  end.

(** ** The rebinding dialogue *)

(** The normalisation of [keyValue] in [keyInterception]: 1 when it is
    above zero, -1 when below.  A value that is neither (zero, or not a
    number) is kept by the source; it fails every later test on the
    direction just as 0 does, and is 0 here. *)
Definition direction_of (keyValue : float) : Z :=
  if PrimFloat.ltb 0%float keyValue then 1
  else if PrimFloat.ltb keyValue 0%float then -1
  else 0.

Definition keyInterception (deviceType_ : option string) (key : string)
    (keyValue : float) : M unit :=
  let deviceType_ :=
    match deviceType_ with
    | Some t => t
    | None =>
        if startswith key "mouse" then getDeviceTypeString (DT_class mouse)
        else getDeviceTypeString (DT_class keyboard)
    end in
  combos <- gets acceptKeyCombinations ;;
  if (combos || negb (contains "-" key))%bool then
    modify (set_lastKeyInterceptionDeviceType (Some deviceType_)) ;;;
    modify (set_lastKeyInterception (Some key)) ;;;
    modify (set_lastKeyInterceptionValue (direction_of keyValue))
  else ret tt.

(** [BitMask32.hasBitsInCommon] *)
Definition hasBitsInCommon (a b : Z) : bool := negb (Z.land a b =? 0).

(** The loop over [self.axesInUse] inside the conflict scan: [conflict]
    before the loop, and after it. *)
Definition axis_conflict (keyDescription_ : string) (value : Z) (axes : list AxisData)
    (conflict : option string) : option string :=
  List.fold_left
    (fun conflict a =>
       let conflict :=
         if option_eqb String.eqb (keyDescriptionPositive a) (Some keyDescription_)
         then if 0 <? value then Some keyDescription_ else conflict
         else conflict in
       if option_eqb String.eqb (keyDescriptionNegative a) (Some keyDescription_)
       then if value <? 0 then Some keyDescription_ else conflict
       else conflict)
    axes conflict.

(** The loop over [self.keyBindings.items()] of [keyRelease]. *)
Definition find_conflict (candidate keyBeingBound_ : string) (keyBeingBoundGroup : Z)
    (value : Z) (axes : list AxisData) (bindings : list (string * KeyBinding))
    : option string :=
  List.fold_left
    (fun conflict p =>
       let keyDescription_ := fst p in
       let keyBinding := snd p in
       if (option_eqb String.eqb (binding keyBinding) (Some candidate)
           && negb (String.eqb keyDescription_ keyBeingBound_)
           && hasBitsInCommon (groupID keyBinding) keyBeingBoundGroup)%bool
       then
         if is_axis_binding candidate
         then axis_conflict keyDescription_ value axes conflict
         else Some keyDescription_
       else conflict)
    bindings None.

(** [setConflictText]: the text is the concatenation of strings with
    [lastKeyInterception], a TypeError when that is [None]. *)
Definition setConflictText (lastKeyInterception_ : option string)
    (conflictingKey : string) : M unit :=
  match lastKeyInterception_ with
  | Some _ => ret tt
  | None => raise TypeError
  end.

Definition handleBindingConflict (keyToBeBound conflictingKey : string) : M unit :=
  modify (set_bindingDialogue false) ;;;
  clearEvents ;;;
  modify (set_currentConflict (Some conflictingKey)) ;;;
  last <- gets lastKeyInterception ;;
  setConflictText last conflictingKey ;;;
  modify (set_conflictDialogue true).

Definition finishKeyRelease (key : string) : M unit :=
  beingBound <- gets keyBeingBound ;;
  candidate <- gets lastKeyInterception ;;
  match beingBound with
  | Some k =>
      kb <- keyBindings_at k ;;
      deviceType_ <- gets lastKeyInterceptionDeviceType ;;
      value <- gets lastKeyInterceptionValue ;;
      bindKey k candidate (type kb) (callback kb) deviceType_ value
  | None => raise (KeyError None)
  end ;;;
  modify (set_keyBeingBound None) ;;;
  hideBindingDialogue ;;;
  modify (fun km => set_bindingFile (bindingFileCustom km) km) ;;;
  saveKeyMapping ;;;
  modify (set_deviceAxisTestValues []).

Definition keyRelease (key : string) : M unit :=
  visible <- gets bindingDialogueVisible ;;
  beingBound <- gets keyBeingBound ;;
  last <- gets lastKeyInterception ;;
  combos <- gets acceptKeyCombinations ;;
  match visible, beingBound with
  | true, Some keyBeingBound_ =>
      if (match last with Some _ => true | None => false end
          || (contains "mouse" key && (combos || negb (contains "-" key))))%bool
      then
        let candidate := match last with Some c => c | None => key end in
        modify (set_lastKeyInterception (Some candidate)) ;;;
        modify (fun km =>
          match lastKeyInterceptionDeviceType km with
          | Some _ => km
          | None =>
              set_lastKeyInterceptionDeviceType
                (Some (if startswith candidate "mouse"
                       then getDeviceTypeString (DT_class mouse)
                       else getDeviceTypeString (DT_class keyboard))) km
          end) ;;;
        kb <- keyBindings_at keyBeingBound_ ;;
        conflict <-
          gets (fun km =>
                  find_conflict candidate keyBeingBound_ (groupID kb)
                    (lastKeyInterceptionValue km) (axesInUse km) (keyBindings km)) ;;
        match conflict with
        | Some c => handleBindingConflict key c
        | None => finishKeyRelease key
        end
      else ret tt
  | _, _ => ret tt
  end.

Definition conflictResolutionCancel : M unit :=
  modify (set_lastKeyInterception None) ;;;
  modify (set_currentConflict None) ;;;
  modify (set_conflictDialogue false) ;;;
  setEvents ;;;
  modify (set_bindingDialogue true).

Definition conflictResolutionContinue (key : string) : M unit :=
  modify (set_conflictDialogue false) ;;;
  finishKeyRelease key ;;;
  modify (set_currentConflict None).

(** ** The per-frame update *)

(** [axis.value] has moved: beyond 0.5 when the axis has no sample in
    [deviceAxisTestValues], by more than 0.3 from its sample otherwise. *)
Definition axis_moved (sample : option float) (value : float) : bool :=
  match sample with
  | None => PrimFloat.ltb 0.5%float (PrimFloat.abs value)
  | Some s => PrimFloat.ltb 0x1.3333333333333p-2%float (PrimFloat.abs (PrimFloat.sub value s))
  end.

(** [str(axisID)] *)
Definition axis_str (axisID : string) : string := String.append "Axis." axisID.

(** The loop over [device.axes]; the result is [true] when the method
    has returned from inside the loop. *)
Fixpoint scan_axes (device : InputDevice) (axes : list (string * float)) : M bool :=
  match axes with
  | [] => ret false
  | (axisID, value) :: rest =>
      if String.eqb axisID "none" then scan_axes device rest
      else
        tests <- gets deviceAxisTestValues ;;
        match device_get device tests with
        | None => raise (DeviceKeyError device)
        | Some samples =>
            if axis_moved (dict_get axisID samples) value then
              keyInterception
                (Some (getDeviceTypeString (DT_class (device_class device))))
                (axis_str axisID) value ;;;
              keyRelease (axis_str axisID) ;;;
              ret true
            else scan_axes device rest
        end
  end.

(** The loop over [self.dataNPList]. *)
Fixpoint scan_devices (nodes : list DataNP) : M bool :=
  match nodes with
  | [] => ret false
  | dataNP :: rest =>
      returned <- scan_axes (np_device dataNP)
                    (device_axes engine (np_device dataNP)) ;;
      if returned : bool then ret true else scan_devices rest
  end.

(** [callable(keyDescription)] and [callable(keyDescription, eventType)] *)
Definition call_user (cb : Callback) (description : string) (eventType : option Z)
    : M unit :=
  match cb with
  | CbFun f => modify (fun km => set_calls (calls km ++ [Call_user f description eventType])%list km)
  | _ => raise TypeError
  end.

(** [keyBinding.callback[i](keyDescription)] *)
Definition call_item (items : list (option string)) (i : nat) (description : string)
    : M unit :=
  match List.nth_error items i with
  | Some (Some f) => call_user (CbFun f) description None
  | Some None => raise TypeError
  | None => raise IndexError
  end.

Definition call_keyState (description : string) (value : float) : M unit :=
  modify (fun km =>
    match keyStateCallback km with
    | Some f => set_calls (calls km ++ [Call_keyState f description value])%list km
    | None => km
    end).

Definition set_key (description : string) (value : float) : M unit :=
  modify (fun km => set_keys (dict_set description value (keys km)) km).

Definition handleAxis (keyDescription_ : option string) (value deadZoneVal : float)
    : M unit :=
  match keyDescription_ with
  | None => ret tt
  | Some k =>
      let absValue := PrimFloat.abs value in
      table <- gets keys ;;
      old <- match dict_get k table with
             | Some v => ret v
             | None => raise (KeyError (Some k))
             end ;;
      let oldKeyState := PrimFloat.abs old in
      keyBinding <- keyBindings_at k ;;
      negatives <- gets negativeValuesForNegativeAxes ;;
      if negb (type keyBinding =? KEYMAP_HELD_KEY) then
        if (PrimFloat.ltb oldKeyState 0.5 && PrimFloat.ltb 0.5 absValue)%bool then
          set_key k (if negatives : bool
                     then if PrimFloat.ltb 0 value then 1%float else (-1)%float
                     else 1%float) ;;;
          if type keyBinding =? KEYMAP_EVENT_PRESSED then
            call_user (callback keyBinding) k None
          else if type keyBinding =? KEYMAP_EVENT_PRESSED_AND_RELEASED then
            match callback keyBinding with
            | CbSeq items => call_item items 0 k
            | cb => call_user cb k (Some KEYMAP_EVENT_PRESSED)
            end
          else ret tt
        else if (PrimFloat.ltb 0.5 oldKeyState && PrimFloat.ltb absValue 0.5)%bool then
          set_key k 0%float ;;;
          if type keyBinding =? KEYMAP_EVENT_RELEASED then
            call_user (callback keyBinding) k None
          else if type keyBinding =? KEYMAP_EVENT_PRESSED_AND_RELEASED then
            match callback keyBinding with
            | CbSeq items => call_item items 1 k
            | cb => call_user cb k (Some KEYMAP_EVENT_RELEASED)
            end
          else ret tt
        else ret tt
      else
        if PrimFloat.ltb absValue deadZoneVal then
          set_key k 0%float ;;;
          if PrimFloat.eqb oldKeyState 0 then ret tt else call_keyState k 0%float
        else
          set_key k (if negatives : bool then value else absValue) ;;;
          if PrimFloat.eqb oldKeyState 0 then call_keyState k 1%float else ret tt
  end.

(** [device.findAxis(InputDevice.Axis[axisStr]).value]: the subscript
    raises KeyError for a string that names no member of
    [InputDevice.Axis]; an axis that the device does not have reads 0. *)
Definition axis_value (device : InputDevice) (axisStr : string) : M float :=
  if List.existsb (String.eqb axisStr) all_Axis then
    ret match dict_get axisStr (device_axes engine device) with
        | Some v => v
        | None => 0%float
        end
  else raise (KeyError (Some axisStr)).

Definition update : M unit :=
  visible <- gets bindingDialogueVisible ;;
  if visible : bool then
    nodes <- gets dataNPList ;;
    _ <- scan_devices nodes ;;
    ret tt
  else
    axes <- gets axesInUse ;;
    for_each axes (fun axisData =>
      valuePositive <-
        match devicePositive axisData with
        | Some d =>
            v <- axis_value d (axis axisData) ;;
            ret (if PrimFloat.ltb 0 v then v else 0%float)
        | None => ret 0%float
        end ;;
      valueNegative <-
        match deviceNegative axisData with
        | Some d =>
            v <- axis_value d (axis axisData) ;;
            ret (if PrimFloat.ltb v 0 then v else 0%float)
        | None => ret 0%float
        end ;;
      handleAxis (keyDescriptionPositive axisData) valuePositive (deadZone axisData) ;;;
      handleAxis (keyDescriptionNegative axisData) valueNegative (deadZone axisData)).

(** ** Registration *)

(** [BitMask32(groupID)] of an int: the word, or OverflowError for an
    int that is not in 0 .. 2^32 - 1. *)
Definition BitMask32 (g : Z) : M Z :=
  if (0 <=? g) && (g <? 2 ^ 32) then ret g else raise OverflowError.

Definition keyPressed (description : string) (value : float) : M unit :=
  call_keyState description value ;;;
  set_key description value.

Definition addKey (description : string) (defaultKey : option string)
    (defaultKeyDeviceType : DeviceTypeInput) (keyType : Z) (callback_ : Callback)
    (axisDirection_ : Z) (groupID_ : option Z) : M unit :=
  set_key description 0%float ;;;
  let defaultKeyDeviceTypeStr := getDeviceTypeString defaultKeyDeviceType in
  group <- match groupID_ with
           | Some g => BitMask32 g
           | None => ret 1      (* the mask of [KeyBinding.__init__] *)
           end ;;
  let newBinding :=
    {| keyDescription := description; binding := defaultKey;
       defaultBinding := defaultKey; type := keyType; callback := callback_;
       deviceType := Some defaultKeyDeviceTypeStr;
       defaultDeviceType := Some defaultKeyDeviceTypeStr;
       axisDirection := axisDirection_;
       groupID := group |} in
  modify (fun km => set_keyBindings (dict_set description newBinding (keyBindings km)) km) ;;;
  bindKey description defaultKey keyType callback_ (Some defaultKeyDeviceTypeStr)
          axisDirection_ ;;;
  modify (fun km => set_keyOrder (keyOrder km ++ [description])%list km).

Definition setup : M unit :=
  modify (set_errorDialogue None) ;;;
  loadKeyMapping ;;;
  saveKeyMapping ;;;
  modify (set_conflictDialogue false) ;;;
  modify (set_bindingDialogue false) ;;;
  modify (set_bindingDialogueVisible false) ;;;
  modify (set_lastKeyInterception None) ;;;
  modify (set_lastKeyInterceptionDeviceType None) ;;;
  modify (set_lastKeyInterceptionValue 0).

End Methods.

(** [KeyMapper.__init__].  The record has the attributes that only
    [setup] assigns ([bindingDialogueVisible], [lastKeyInterceptionValue])
    and the dialogues that it builds from the start, with the values that
    [setup] gives them; in the source a method that reads one of them
    before [setup] has run raises AttributeError.  Of the methods modelled
    only [addKey], which reads none of them, is meant to be called before
    [setup]. *)
Definition init (bindingFile_ : string) (acceptKeyCombinations_ : bool)
    (useNegativeValuesForNegativeAxes : bool) (keyStateCallback_ : option string)
    : KeyMapper :=
  {| keys := []; keyBindings := []; keyOrder := [];
     keyStateCallback := keyStateCallback_;
     acceptKeyCombinations := acceptKeyCombinations_;
     negativeValuesForNegativeAxes := useNegativeValuesForNegativeAxes;
     bindingFile := bindingFile_; bindingFileCustom := bindingFile_;
     events := ∅; buttonThrower := ("", ""); deviceButtonThrowers := [];
     dataNPList := []; deviceAxisTestValues := [];
     lastKeyInterception := Some ""; lastKeyInterceptionDeviceType := None;
     lastKeyInterceptionValue := 0; keyBeingBound := None;
     currentConflict := None; devicesInUse := []; nodeCount := 0;
     deadZoneDefaultValue := 0x1.3333333333333p-2%float; axesInUse := [];
     bindingDialogueVisible := false; bindingDialogue := false;
     conflictDialogue := false; errorDialogue := None; calls := [] |}.

(** ** Well-formed managers *)

(** A device-type tag that [addUsedDevice] and [removeUsedDevice] can
    evaluate: [None], or the name of a member of [DeviceClass]. *)
Definition valid_deviceType (dt : option string) : bool :=
  match dt with
  | None => true
  | Some s => match DeviceClass_of_string s with Some _ => true | None => false end
  end.

Definition registered (km : KeyMapper) (k : string) : bool :=
  List.existsb (String.eqb k) (List.map fst (keyBindings km)).

Definition holder_in (names : list string) (holder : option string) : bool :=
  match holder with
  | None => true
  | Some k => List.existsb (String.eqb k) names
  end.

Fixpoint unique_keys (l : list string) : bool :=
  match l with
  | [] => true
  | k :: l' => negb (List.existsb (String.eqb k) l') && unique_keys l'
  end.

(** What an axis entry says about who owns which direction. *)
Definition claims (a : AxisData) : string * option string * option string :=
  (axis a, keyDescriptionPositive a, keyDescriptionNegative a).

Definition claimed (c : string * option string * option string) : bool :=
  match c with
  | (_, None, None) => false
  | _ => true
  end.

(** The representation invariant: [keyBindings] is a dict, the device
    tags stored in it name device classes, and the controls named by the
    axis entries are registered. *)
Definition well_formed (km : KeyMapper) : bool :=
  unique_keys (List.map fst (keyBindings km))
  && List.forallb (fun p => valid_deviceType (deviceType (snd p))) (keyBindings km)
  && List.forallb
       (fun c => holder_in (List.map fst (keyBindings km)) (snd (fst c))
                 && holder_in (List.map fst (keyBindings km)) (snd c))
       (List.map claims (axesInUse km)).

(** The part of the manager that the claims are about. *)
Definition same_bindings (km km' : KeyMapper) : Prop :=
  keyBindings km' = keyBindings km
  /\ List.map claims (axesInUse km') = List.map claims (axesInUse km)
  /\ deadZoneDefaultValue km' = deadZoneDefaultValue km.

(** The dict after [for key in keysToChange] has unbound each key. *)
Definition unbind_in (ks : list string) (d : list (string * KeyBinding))
    : list (string * KeyBinding) :=
  List.map (fun p => if List.existsb (fun k => String.eqb k (fst p)) ks
                     then (fst p, KeyBinding_unbind (snd p)) else p) d.

(** [keysToChange] and the axis entries after the first loop of
    [clearKeyEvent]. *)
Definition keysToChange_of (b : string) (direction : Z) (km : KeyMapper) : list string :=
  if is_axis_binding b
  then snd (clear_axis_entries (string_from 5 b) direction (axesInUse km))
  else keys_bound_to b (keyBindings km).

Definition axes_cleared (b : string) (direction : Z) (km : KeyMapper) : list AxisData :=
  if is_axis_binding b
  then fst (clear_axis_entries (string_from 5 b) direction (axesInUse km))
  else axesInUse km.

(** The invariant of the data model on axis entries: at least one
    direction of each is bound. *)
Definition axes_in_use (km : KeyMapper) : bool :=
  List.forallb axis_in_use (axesInUse km).

(** The binding of a control, [None] also when it is not registered. *)
Definition binding_of (km : KeyMapper) (k : string) : option string :=
  match dict_get k (keyBindings km) with
  | Some kb => binding kb
  | None => None
  end.

(** ** The manager seen through its bindings

    The methods touch devices, nodes and subscriptions too; the claims
    are about the dict of key-bindings and about who owns which axis
    direction.  On that view [clearKeyEvent] and [bindKey] are the pure
    functions below (see [clearKeyEvent_view] and [bindKey_view]). *)

Abbreviation Claim := (string * option string * option string)%type.

Abbreviation View := (list (string * KeyBinding) * list Claim)%type.

Definition view (km : KeyMapper) : View :=
  (keyBindings km, List.map claims (axesInUse km)).

(** One turn of the axis loop of [clearKeyEvent], on a claim. *)
Definition clear_claim (bindingStr : string) (direction : Z) (c : Claim)
    : Claim * list string :=
  match c with
  | (x, p, n) =>
      if String.eqb x bindingStr then
        if direction =? -1 then
          match n with
          | Some k => ((x, p, None), [k])
          | None => (c, [])
          end
        else if direction =? 1 then
          match p with
          | Some k => ((x, None, n), [k])
          | None => (c, [])
          end
        else (c, [])
      else (c, [])
  end.

Definition cleared_claims (bindingStr : string) (direction : Z) (cs : list Claim)
    : list Claim :=
  List.map (fun c => fst (clear_claim bindingStr direction c)) cs.

Definition cleared_keys (bindingStr : string) (direction : Z) (cs : list Claim)
    : list string :=
  List.flat_map (fun c => snd (clear_claim bindingStr direction c)) cs.

Definition clear_view (b : option string) (direction : Z) (v : View) : View :=
  match b with
  | None => v
  | Some b =>
      if is_axis_binding b then
        (unbind_in (cleared_keys (string_from 5 b) direction (snd v)) (fst v),
         List.filter claimed (cleared_claims (string_from 5 b) direction (snd v)))
      else
        (unbind_in (keys_bound_to b (fst v)) (fst v), List.filter claimed (snd v))
  end.

(** [claim_direction], on a claim. *)
Definition claim_view (k : string) (direction : Z) (c : Claim) : Claim :=
  match c with
  | (x, p, n) =>
      if 0 <? direction then (x, Some k, n)
      else if direction <? 0 then (x, p, Some k)
      else c
  end.

(** The axis entries after the second half of [bindKey]. *)
Definition bound_claims (k : string) (b dt : option string) (direction : Z)
    (cs : list Claim) : list Claim :=
  match b, dt with
  | Some b', Some _ =>
      if is_axis_binding b' then
        let s := string_from 5 b' in
        let updated :=
          List.map (fun c => if String.eqb (fst (fst c)) s
                             then claim_view k direction c else c) cs in
        if List.existsb (fun c => String.eqb (fst (fst c)) s) cs then updated
        else (updated ++ [claim_view k direction (s, None, None)])%list
      else cs
  | _, _ => cs
  end.

Definition bind_view (k : string) (b dt : option string) (direction : Z) (v : View)
    : View :=
  let v1 := clear_view b direction v in
  match dict_get k (fst v1) with
  | Some old =>
      let v2 := clear_view (binding old) (axisDirection old) v1 in
      (dict_update k (KeyBinding_bind b dt direction) (fst v2),
       bound_claims k b dt direction (snd v2))
  | None => v1
  end.

(** A group that [addKey] can make a mask of: [None], or an int in
    0 .. 2^32 - 1. *)
Definition valid_group (group : option Z) : bool :=
  match group with
  | Some g => (0 <=? g) && (g <? 2 ^ 32)
  | None => true
  end.

(** ** A missing callback

    What [bindKey] itself takes for a missing callback, the condition of
    its six [raise Exception(...)]: [None] for "pressed" and for
    "released"; for "pressed and released" [None], or a list or tuple
    whose first two items are not both there and not [None]. *)
Definition callback_absent (ty : Z) (cb : Callback) : bool :=
  if (ty =? KEYMAP_EVENT_PRESSED) || (ty =? KEYMAP_EVENT_RELEASED) then
    match cb with
    | CbNone => true
    | _ => false
    end
  else if ty =? KEYMAP_EVENT_PRESSED_AND_RELEASED then
    match cb with
    | CbNone => true
    | CbFun _ => false
    | CbSeq items =>
        match List.nth_error items 0, List.nth_error items 1 with
        | Some (Some _), Some (Some _) => false
        | _, _ => true
        end
    end
  else false.

(** The binding kinds that need a callback, and the callback that each
    needs: a single callable for "pressed" and for "released" (a list or
    tuple is none: [accept] refuses it); for "pressed and released" a
    callable, or a list or tuple whose first two items are there and are
    callables. *)
Definition callback_missing (ty : Z) (cb : Callback) : bool :=
  if (ty =? KEYMAP_EVENT_PRESSED) || (ty =? KEYMAP_EVENT_RELEASED) then
    match cb with
    | CbFun _ => false
    | _ => true
    end
  else if ty =? KEYMAP_EVENT_PRESSED_AND_RELEASED then
    match cb with
    | CbNone => true
    | CbFun _ => false
    | CbSeq items =>
        match List.nth_error items 0, List.nth_error items 1 with
        | Some (Some _), Some (Some _) => false
        | _, _ => true
        end
    end
  else false.

(** ** The example game

    The registration of [KeyMapperExampleGame.py], with the dummy
    callbacks of [KeyMapperSaveLoadDummy.py] and one gamepad plugged in. *)

Definition dummy_warning : string :=
  String.concat ""
    ["Warning:"; nl; nl; "Using dummy save- and load- callbacks."; nl; nl;
     "Bindings and profiles will not be saved or loaded!"].

(** [SaveLoadDummy.saveKeyMapping]: raises on the first call only. *)
Definition SaveLoadDummy_saveKeyMapping (firstCallback : bool)
    (keySaveData : list KeySaveRecord) (axisSaveData : list AxisSaveRecord)
    (bindingFilename : string) : option string :=
  if firstCallback then Some dummy_warning else None.

(** [SaveLoadDummy.loadKeyMapping]: always raises. *)
Definition SaveLoadDummy_loadKeyMapping (bindingFilename : string) : LoadResult :=
  RaisedIOError dummy_warning.

Definition the_gamepad : InputDevice := {| device_id := 0; device_class := gamepad |}.

(** The stick and the triggers at rest, a throttle at three quarters. *)
Definition axes_at_rest (device : InputDevice) : list (string * float) :=
  [("none", 0%float); ("left_x", 0%float); ("left_y", 0%float);
   ("throttle", 0.75%float)].

Definition example_engine : Engine :=
  {| base_devices := [the_gamepad];
     device_axes := axes_at_rest;
     vfs_exists := fun _ => false;
     saveMappingCallback := Some (SaveLoadDummy_saveKeyMapping true);
     loadMappingCallback := Some SaveLoadDummy_loadKeyMapping |}.

Definition KEY_THRUST : string := "thrust".
Definition KEY_TURN_LEFT : string := "left".
Definition KEY_TURN_RIGHT : string := "right".
Definition KEY_COLLECT : string := "collect".
Definition KEY_MENU : string := "menu".

Definition example_registration (engine : Engine) : M unit :=
  addKey engine KEY_TURN_LEFT (Some "Axis.left_x") (DT_class gamepad)
         KEYMAP_HELD_KEY CbNone (-1) None ;;;
  addKey engine KEY_TURN_RIGHT (Some "Axis.left_x") (DT_class gamepad)
         KEYMAP_HELD_KEY CbNone 1 None ;;;
  addKey engine KEY_THRUST (Some "face_a") (DT_class gamepad)
         KEYMAP_HELD_KEY CbNone 0 None ;;;
  addKey engine KEY_COLLECT (Some "rtrigger") (DT_class gamepad)
         KEYMAP_EVENT_PRESSED_AND_RELEASED
         (CbSeq [Some "collectPressed"; Some "collectReleased"]) 0 None ;;;
  addKey engine KEY_MENU (Some "back") (DT_class gamepad)
         KEYMAP_EVENT_RELEASED (CbFun "returnToMenu") 0 None.

(** The manager of the example game once its controls are registered,
    and once [setup] has run. *)
Definition example_registered : KeyMapper :=
  Eval vm_compute in
    snd (example_registration example_engine
           (init "UserProfiles/currentBindings.btn" false false None)).

Definition example_game : KeyMapper :=
  Eval vm_compute in snd (setup example_engine example_registered).

(** An engine whose load-callback returns the given records. *)
Definition engine_loading (keySaveData : list KeySaveRecord)
    (axisSaveData : list AxisSaveRecord) : Engine :=
  {| base_devices := [the_gamepad];
     device_axes := axes_at_rest;
     vfs_exists := fun _ => true;
     saveMappingCallback := Some (SaveLoadDummy_saveKeyMapping false);
     loadMappingCallback := Some (fun _ => Returned keySaveData axisSaveData) |}.

(** ** Two conflict groups

    A manager with a gameplay control and a menu control in two groups
    whose masks have no bit in common. *)
Definition two_groups_engine : Engine :=
  {| base_devices := [];
     device_axes := fun _ => [];
     vfs_exists := fun _ => false;
     saveMappingCallback := Some (fun _ _ _ => None);
     loadMappingCallback := Some SaveLoadDummy_loadKeyMapping |}.

Definition two_groups : KeyMapper :=
  Eval vm_compute in
  snd ((addKey two_groups_engine "jump" (Some "space") (DT_class keyboard)
               KEYMAP_HELD_KEY CbNone 0 (Some 1) ;;;
        addKey two_groups_engine "confirm" (Some "enter") (DT_class keyboard)
               KEYMAP_HELD_KEY CbNone 0 (Some 2) ;;;
        setup two_groups_engine)
         (init "bindings.btn" false false None)).

(** ** A conflict, as the dialogue understands it *)

(** The control [k] claims, in some axis entry, the direction that the
    sign of [value] names. *)
Definition claims_direction (axes : list AxisData) (k : string) (value : Z) : Prop :=
  exists a, In a axes
            /\ ((keyDescriptionPositive a = Some k /\ 0 < value)
                \/ (keyDescriptionNegative a = Some k /\ value < 0)).

(** The control [k] of the dict [d] is in conflict with binding
    [candidate] to [keyBeingBound_]: it is another control, bound to the
    candidate, its group mask shares a bit with [group], and, when the
    candidate is an axis, it claims the direction of [value]. *)
Definition conflicts_in (d : list (string * KeyBinding)) (axes : list AxisData)
    (candidate keyBeingBound_ : string) (group value : Z) (k : string) : Prop :=
  exists kb,
    In (k, kb) d
    /\ binding kb = Some candidate
    /\ k <> keyBeingBound_
    /\ Z.land (groupID kb) group <> 0
    /\ (is_axis_binding candidate = true -> claims_direction axes k value).

(** The loop over the dict, from any value of [conflict]. *)
Definition conflict_step (candidate keyBeingBound_ : string) (group value : Z)
    (axes : list AxisData) (conflict : option string) (p : string * KeyBinding)
    : option string :=
  if (option_eqb String.eqb (binding (snd p)) (Some candidate)
      && negb (String.eqb (fst p) keyBeingBound_)
      && hasBitsInCommon (groupID (snd p)) group)%bool
  then
    if is_axis_binding candidate
    then axis_conflict (fst p) value axes conflict
    else Some (fst p)
  else conflict.

(** The manager once [keyRelease] has settled the candidate and its
    device type. *)
Definition with_candidate (candidate : string) (km : KeyMapper) : KeyMapper :=
  let km := set_lastKeyInterception (Some candidate) km in
  match lastKeyInterceptionDeviceType km with
  | Some _ => km
  | None =>
      set_lastKeyInterceptionDeviceType
        (Some (if startswith candidate "mouse"
               then getDeviceTypeString (DT_class mouse)
               else getDeviceTypeString (DT_class keyboard))) km
  end.

(** ** Frames *)

(** A method that does not change the part [proj] of the manager,
    whether it returns or raises. *)
Definition preserves {T A} (proj : KeyMapper -> T) (m : M A) : Prop :=
  forall km r km', m km = (r, km') -> proj km' = proj km.

(** The state of the rebinding dialogue. *)
Definition dialogue (km : KeyMapper) :=
  (bindingDialogueVisible km, bindingDialogue km, conflictDialogue km,
   currentConflict km, keyBeingBound km,
   (lastKeyInterception km, lastKeyInterceptionDeviceType km,
    lastKeyInterceptionValue km),
   (bindingFile km, bindingFileCustom km, errorDialogue km)).

(** ** The axes scanned while a rebind is awaited *)

(** The axes that [update] goes through, in its order: for each node
    path of [dataNPList], the axes of its device. *)
Definition scanned (engine : Engine) (km : KeyMapper)
    : list (InputDevice * string * float) :=
  List.flat_map
    (fun np => List.map (fun a => (np_device np, fst a, snd a))
                        (device_axes engine (np_device np)))
    (dataNPList km).

(** The axis is not [Axis.none] and has moved, against the samples that
    the manager holds for its device. *)
Definition moved_axis (km : KeyMapper) (e : InputDevice * string * float) : bool :=
  negb (String.eqb (snd (fst e)) "none")
  && match device_get (fst (fst e)) (deviceAxisTestValues km) with
     | Some samples => axis_moved (dict_get (snd (fst e)) samples) (snd e)
     | None => false
     end.

(** The synthetic event of [update] for an axis. *)
Definition synthetic_event (engine : Engine) (e : InputDevice * string * float) : M unit :=
  keyInterception (Some (getDeviceTypeString (DT_class (device_class (fst (fst e))))))
                  (axis_str (snd (fst e))) (snd e) ;;;
  keyRelease engine (axis_str (snd (fst e))).

(** The example game waiting for a new binding of the thrust control,
    and with the "back" button as the candidate. *)
Definition example_rebinding : KeyMapper :=
  Eval vm_compute in snd (getNewBinding example_engine KEY_THRUST example_game).

Definition example_candidate : KeyMapper :=
  Eval vm_compute in
    snd (keyInterception (Some "gamepad") "back" 0%float example_rebinding).

Definition thrust_binding : KeyBinding :=
  {| keyDescription := "thrust"; binding := Some "face_a";
     defaultBinding := Some "face_a"; type := KEYMAP_HELD_KEY;
     callback := CbNone; deviceType := Some "gamepad";
     defaultDeviceType := Some "gamepad"; axisDirection := 0; groupID := 1 |}.

Definition menu_binding : KeyBinding :=
  {| keyDescription := "menu"; binding := Some "back";
     defaultBinding := Some "back"; type := KEYMAP_EVENT_RELEASED;
     callback := CbFun "returnToMenu"; deviceType := Some "gamepad";
     defaultDeviceType := Some "gamepad"; axisDirection := 0; groupID := 1 |}.

(** A gamepad whose left stick is pushed to the left. *)
Definition stick_left_engine : Engine :=
  {| base_devices := [the_gamepad];
     device_axes := fun _ =>
       [("none", 0%float); ("left_x", (-0.875)%float); ("left_y", 0%float);
        ("throttle", 0.75%float)];
     vfs_exists := fun _ => false;
     saveMappingCallback := Some (SaveLoadDummy_saveKeyMapping false);
     loadMappingCallback := Some SaveLoadDummy_loadKeyMapping |}.

(** ** Managers that a profile can reproduce

    Two controls share an input when they are bound to the same input
    other than an axis, or to the same axis with directions of the same
    sign. *)
Definition shares_input (p q : string * KeyBinding) : bool :=
  match binding (snd p), binding (snd q) with
  | Some b1, Some b2 =>
      if is_axis_binding b1 then
        is_axis_binding b2
        && String.eqb (string_from 5 b1) (string_from 5 b2)
        && (((0 <? axisDirection (snd p)) && (0 <? axisDirection (snd q)))
            || ((axisDirection (snd p) <? 0) && (axisDirection (snd q) <? 0)))
      else String.eqb b1 b2
  | _, _ => false
  end.

(** No two controls share an input. *)
Definition unshared (d : list (string * KeyBinding)) : bool :=
  List.forallb
    (fun p => List.forallb
                (fun q => String.eqb (fst p) (fst q) || negb (shares_input p q)) d)
    d.

(** Each control has the callback that its kind needs. *)
Definition callbacks_supplied (d : list (string * KeyBinding)) : bool :=
  List.forallb (fun p => negb (callback_missing (type (snd p)) (callback (snd p)))) d.

Definition reproducible (km : KeyMapper) : bool :=
  well_formed km && unshared (keyBindings km) && callbacks_supplied (keyBindings km).

(** The holder of a direction of axis [x] is a control of [d] bound to
    that axis with a direction of that sign. *)
Definition holder_agrees (d : list (string * KeyBinding)) (x : string) (positive : bool)
    (holder : option string) : Prop :=
  forall k, holder = Some k ->
    exists kb b,
      In (k, kb) d /\ binding kb = Some b /\ is_axis_binding b = true
      /\ string_from 5 b = x
      /\ (if positive then 0 < axisDirection kb else axisDirection kb < 0).

Definition claims_agree (d : list (string * KeyBinding)) (cs : list Claim) : Prop :=
  forall c, In c cs ->
    holder_agrees d (fst (fst c)) true (snd (fst c))
    /\ holder_agrees d (fst (fst c)) false (snd c).

(** The list built by the first loop of [loadKeyMapping] from the
    records that [saveKeyMapping] makes of the items [l] of the dict. *)
Definition bindingList_of (l : list (string * KeyBinding))
    : list (string * option string * Z * option string * Callback * Z) :=
  List.map (fun p => (fst p, binding (snd p), type (snd p), deviceType (snd p),
                      callback (snd p), axisDirection (snd p))) l.




(** ** Convenience functions *)

Definition keyIsHeld (keyID : string) : M bool :=
  table <- gets keys ;;
  match dict_get keyID table with
  | Some v => ret (PrimFloat.ltb 0.5 (PrimFloat.abs v))
  | None => raise (KeyError (Some keyID))
  end.

Definition cancelKeys : M unit :=
  table <- gets keys ;;
  for_each (List.map fst table) (fun description => set_key description 0%float).

(** ** What binding leaves alone

    Everything of the manager but the dict of key-bindings, the axis
    entries, the subscriptions and the devices in use with their nodes. *)
Definition outside_bindings (km : KeyMapper) :=
  (keys km, keyOrder km, calls km,
   (keyStateCallback km, acceptKeyCombinations km, negativeValuesForNegativeAxes km,
    deadZoneDefaultValue km),
   (buttonThrower km, deviceButtonThrowers km, deviceAxisTestValues km),
   dialogue km).

(** The attributes of a binding object that are set at registration. *)
Definition registration (kb : KeyBinding) :=
  (keyDescription kb, defaultBinding kb, defaultDeviceType kb, type kb, callback kb,
   groupID kb).

(** ** The devices polled for a new binding *)

(** The devices for which [setEvents] sets up a node: those connected
    that are neither the keyboard nor the mouse. *)
Definition polled (engine : Engine) : list InputDevice :=
  List.filter (fun d => negb (is_keyboard_or_mouse (device_class d))) (base_devices engine).

(** The dict [{axis.axis : axis.value}] that [setupEventsForDevice]
    makes of the axes of a device. *)
Definition samples_of (engine : Engine) (device : InputDevice) : list (string * float) :=
  List.fold_left (fun d a => dict_set (fst a) (snd a) d) (device_axes engine device) [].

(** The node kept for a device in use is a node of that device. *)
Definition nodes_match (km : KeyMapper) : bool :=
  List.forallb (fun p => InputDevice_eqb (np_device (snd p)) (fst p)) (devicesInUse km).

(** No two axes of the device have the same id, [Axis.none] apart. *)
Definition distinct_axes (axes : list (string * float)) : bool :=
  unique_keys (List.filter (fun id => negb (String.eqb id "none")) (List.map fst axes)).

(** What the loop of [setEvents] leaves alone. *)
Definition outside_polling (km : KeyMapper) :=
  (keyBindings km, axesInUse km, events km, keys km, devicesInUse km,
   (buttonThrower km, deviceButtonThrowers km), dialogue km,
   (keyOrder km, calls km, deadZoneDefaultValue km)).

Definition isShowingDialogue : M bool :=
  gets (fun km => bindingDialogueVisible km || conflictDialogue km).

(** The control [k] has no binding in the dict [d] (as when it is not
    registered). *)
Definition unbound_in (d : list (string * KeyBinding)) (k : string) : Prop :=
  match dict_get k d with
  | Some kb => binding kb = None
  | None => True
  end.

(** ** Dead zones *)

Definition set_deadZoneDefaultValue v (km : KeyMapper) : KeyMapper :=
  {| keys := keys km; keyBindings := keyBindings km; keyOrder := keyOrder km;
    keyStateCallback := keyStateCallback km;
    acceptKeyCombinations := acceptKeyCombinations km;
    negativeValuesForNegativeAxes := negativeValuesForNegativeAxes km;
    bindingFile := bindingFile km; bindingFileCustom := bindingFileCustom km;
    events := events km; buttonThrower := buttonThrower km;
    deviceButtonThrowers := deviceButtonThrowers km;
    dataNPList := dataNPList km;
    deviceAxisTestValues := deviceAxisTestValues km;
    lastKeyInterception := lastKeyInterception km;
    lastKeyInterceptionDeviceType := lastKeyInterceptionDeviceType km;
    lastKeyInterceptionValue := lastKeyInterceptionValue km;
    keyBeingBound := keyBeingBound km; currentConflict := currentConflict km;
    devicesInUse := devicesInUse km; nodeCount := nodeCount km;
    deadZoneDefaultValue := v;
    axesInUse := axesInUse km;
    bindingDialogueVisible := bindingDialogueVisible km;
    bindingDialogue := bindingDialogue km;
    conflictDialogue := conflictDialogue km;
    errorDialogue := errorDialogue km; calls := calls km |}.

(** [axisData.deadZone = deadZone] *)
Definition AxisData_set_deadZone (dz : float) (a : AxisData) : AxisData :=
  {| axis := axis a; keyDescriptionPositive := keyDescriptionPositive a;
     keyDescriptionNegative := keyDescriptionNegative a; deadZone := dz;
     deviceTypePositive := deviceTypePositive a;
     deviceTypeNegative := deviceTypeNegative a;
     devicePositive := devicePositive a; deviceNegative := deviceNegative a |}.

Definition setDeadZoneForAllAxes (dz : float) : M unit :=
  modify (fun km =>
    set_axesInUse (List.map (AxisData_set_deadZone dz) (axesInUse km)) km) ;;;
  modify (set_deadZoneDefaultValue dz).

(** Each entry of [l'] comes from an entry of [l] with its dead zone,
    and has no direction bound that the entry of [l] has not. *)
Definition entries_from (l' l : list AxisData) : Prop :=
  forall a', In a' l' ->
    exists a, In a l /\ deadZone a' = deadZone a
              /\ (axis_in_use a' = true -> axis_in_use a = true).

(** A method that only moves the manager along the relation [R]. *)
Definition advances (R : KeyMapper -> KeyMapper -> Prop) {A} (m : M A) : Prop :=
  forall km r km', m km = (r, km') -> R km km'.

(** The axis entries only lose holders or go. *)
Definition entries_kept (km km' : KeyMapper) : Prop :=
  entries_from (axesInUse km') (axesInUse km).

(** A profile of the example game in which the horizontal axis of the
    left stick has a dead zone of a sixteenth. *)
Definition narrow_dead_zone_engine : Engine :=
  engine_loading (keySaveData_of example_game) [("left_x", 0.0625%float)].

(** ** Polling the axes in use *)

(** What [handleAxis] may call of a control is callable: a callback
    where the kind calls one, and for the kind "pressed and released" a
    callback or a list or tuple whose first two items are callbacks. *)
Definition callable (ty : Z) (cb : Callback) : bool :=
  if (ty =? KEYMAP_EVENT_PRESSED) || (ty =? KEYMAP_EVENT_RELEASED) then
    match cb with
    | CbFun _ => true
    | _ => false
    end
  else if ty =? KEYMAP_EVENT_PRESSED_AND_RELEASED then
    match cb with
    | CbFun _ => true
    | CbSeq items =>
        match List.nth_error items 0, List.nth_error items 1 with
        | Some (Some _), Some (Some _) => true
        | _, _ => false
        end
    | CbNone => false
    end
  else true.

(** Each control has a key state and callbacks that can be called. *)
Definition controls_ready (km : KeyMapper) : bool :=
  List.forallb
    (fun p => callable (type (snd p)) (callback (snd p))
              && List.existsb (String.eqb (fst p)) (List.map fst (keys km)))
    (keyBindings km).

(** Each axis entry that has a device to poll names a member of
    [InputDevice.Axis]. *)
Definition polls_known_axes (km : KeyMapper) : bool :=
  List.forallb
    (fun a => match devicePositive a, deviceNegative a with
              | None, None => true
              | _, _ => List.existsb (String.eqb (axis a)) all_Axis
              end)
    (axesInUse km).

(** Everything of the manager but the key states and the record of the
    callbacks called. *)
Definition outside_key_states (km : KeyMapper) :=
  (keyBindings km, axesInUse km, events km, keyOrder km,
   (devicesInUse km, dataNPList km, nodeCount km, deviceAxisTestValues km),
   (buttonThrower km, deviceButtonThrowers km),
   (keyStateCallback km, acceptKeyCombinations km, negativeValuesForNegativeAxes km,
    deadZoneDefaultValue km),
   dialogue km).

(** ** Consistent managers

    The invariant of the data model, as the code keeps it: the axis
    entries and the bindings say the same, and no input is held by two
    controls. *)

(** The holder of a direction of an axis entry. *)
Definition holder (positive : bool) (c : Claim) : option string :=
  if positive then snd (fst c) else snd c.

(** The binding object is bound to the axis [x], in the direction given:
    its direction is 1 or -1. *)
Definition bound_to_axis (kb : KeyBinding) (x : string) (positive : bool) : bool :=
  match binding kb with
  | Some b =>
      is_axis_binding b && String.eqb (string_from 5 b) x
      && (axisDirection kb =? (if positive then 1 else -1))
  | None => false
  end.

(** Whoever holds a direction of an axis entry is bound to that axis in
    that direction. *)
Definition holder_bound (d : list (string * KeyBinding)) (c : Claim) (positive : bool)
    : bool :=
  match holder positive c with
  | None => true
  | Some h =>
      match dict_get h d with
      | Some kb => bound_to_axis kb (fst (fst c)) positive
      | None => false
      end
  end.

Definition claims_bound (d : list (string * KeyBinding)) (cs : list Claim) : bool :=
  List.forallb (fun c => holder_bound d c true && holder_bound d c false) cs.

(** The control [k] holds the direction of every entry of the axis [x],
    and there is one. *)
Definition holds_axis (cs : list Claim) (x : string) (positive : bool) (k : string)
    : bool :=
  List.existsb (fun c => String.eqb (fst (fst c)) x) cs
  && List.forallb
       (fun c => negb (String.eqb (fst (fst c)) x)
                 || option_eqb String.eqb (holder positive c) (Some k)) cs.

(** A control bound to an axis has the direction 1, -1 or 0, and with 1
    or -1 it holds that direction of the axis. *)
Definition axis_held (cs : list Claim) (p : string * KeyBinding) : bool :=
  match binding (snd p) with
  | Some b =>
      if is_axis_binding b then
        if axisDirection (snd p) =? 1 then holds_axis cs (string_from 5 b) true (fst p)
        else if axisDirection (snd p) =? -1
             then holds_axis cs (string_from 5 b) false (fst p)
             else axisDirection (snd p) =? 0
      else true
  | None => true
  end.

(** The two controls are not bound to the same input other than an
    axis. *)
Definition button_apart (p q : string * KeyBinding) : bool :=
  String.eqb (fst p) (fst q)
  || match binding (snd p), binding (snd q) with
     | Some b1, Some b2 => is_axis_binding b1 || negb (String.eqb b1 b2)
     | _, _ => true
     end.

Definition consistent_view (v : View) : bool :=
  unique_keys (List.map fst (fst v))
  && claims_bound (fst v) (snd v)
  && List.forallb (axis_held (snd v)) (fst v)
  && List.forallb (fun p => List.forallb (button_apart p) (fst v)) (fst v).

Definition consistent (km : KeyMapper) : bool :=
  well_formed km && consistent_view (view km).

(** The same, for the controls other than [k]; [k] itself holds nothing
    but what its binding says. *)
Definition consistent_apart (k : string) (v : View) : Prop :=
  unique_keys (List.map fst (fst v)) = true
  /\ claims_bound (fst v) (snd v) = true
  /\ (forall p, In p (fst v) -> fst p <> k -> axis_held (snd v) p = true)
  /\ (forall p q, In p (fst v) -> In q (fst v) -> fst p <> k -> fst q <> k ->
                  button_apart p q = true).

(** The directions that [keyInterception] records. *)
Definition normal_direction (direction : Z) : bool :=
  (direction =? 1) || (direction =? -1) || (direction =? 0).

(** ** Loading a profile into another manager *)

(** The binding of [p], a control of the manager loaded into, is stale
    for [q], a control of the profile: [p] is bound to the direction 1 or
    -1 of an axis, and the profile gives that axis, with a direction of
    that sign, to [q]. *)
Definition stale_for (p q : string * KeyBinding) : bool :=
  match binding (snd p), binding (snd q) with
  | Some b1, Some b2 =>
      is_axis_binding b1 && is_axis_binding b2
      && String.eqb (string_from 5 b1) (string_from 5 b2)
      && (((axisDirection (snd p) =? 1) && (0 <? axisDirection (snd q)))
          || ((axisDirection (snd p) =? -1) && (axisDirection (snd q) <? 0)))
  | _, _ => false
  end.

(** No control of the dict [d1] has a binding that is stale for another
    control of the dict [d]. *)
Definition no_stale_axis (d1 d : list (string * KeyBinding)) : bool :=
  List.forallb
    (fun p => List.forallb
                (fun q => String.eqb (fst p) (fst q) || negb (stale_for p q)) d)
    d1.

(** A manager into which the profile of the manager [km] can be loaded:
    it is well-formed, each of its controls has the callback that its kind
    needs, the controls of [km] are registered in it, and none of its
    controls has a binding that is stale for another control of [km]. *)
Definition loadable (km1 km : KeyMapper) : bool :=
  well_formed km1
  && callbacks_supplied (keyBindings km1)
  && List.forallb (fun p => registered km1 (fst p)) (keyBindings km)
  && no_stale_axis (keyBindings km1) (keyBindings km).



(** The example game with the directions of the stick swapped, and with
    two controls moved. *)
Definition example_swapped : KeyMapper :=
  Eval vm_compute in
    snd ((bindKey example_engine KEY_TURN_LEFT (Some "Axis.left_x") KEYMAP_HELD_KEY CbNone
                  (Some "gamepad") 1 ;;;
          bindKey example_engine KEY_TURN_RIGHT (Some "Axis.left_x") KEYMAP_HELD_KEY CbNone
                  (Some "gamepad") (-1)) example_game).


(** * Properties *)

(** ** The method monad *)

Lemma bind_Val {A B} (m : M A) (k : A -> M B) km a km1 :
  m km = (Val a, km1) -> bind m k km = k a km1.
Proof. intros H. unfold bind. rewrite H. reflexivity. Qed.

Lemma bind_Raise {A B} (m : M A) (k : A -> M B) km e km1 :
  m km = (Raise e, km1) -> bind m k km = (Raise e, km1).
Proof. intros H. unfold bind. rewrite H. reflexivity. Qed.

(** A loop whose body keeps an invariant and does not raise under it. *)
Lemma for_each_invariant {A} (P : KeyMapper -> Prop) (l : list A) (body : A -> M unit) :
  (forall x km, In x l -> P km -> exists km', body x km = (Val tt, km') /\ P km') ->
  forall km, P km -> exists km', for_each l body km = (Val tt, km') /\ P km'.
Proof.
  induction l as [|x l IH]; intros Hbody km HP.
  - exists km. split; [reflexivity | exact HP].
  - destruct (Hbody x km (or_introl eq_refl) HP) as (km1 & Hx & HP1).
    destruct (IH (fun y km0 Hy => Hbody y km0 (or_intror Hy)) km1 HP1)
      as (km2 & Hl & HP2).
    exists km2. split; [|exact HP2].
    simpl. rewrite (bind_Val _ _ _ _ _ Hx). exact Hl.
Qed.

(** ** Dicts *)

Lemma dict_get_registered {V} (k : string) (d : list (string * V)) :
  List.existsb (String.eqb k) (List.map fst d) = true <-> exists v, dict_get k d = Some v.
Proof.
  induction d as [|[k' v'] d IH]; simpl.
  - split; [discriminate | intros [v Hv]; discriminate].
  - destruct (String.eqb k k'); simpl.
    + split; [intros _; exists v'; reflexivity | reflexivity].
    + exact IH.
Qed.

Lemma dict_get_unregistered {V} (k : string) (d : list (string * V)) :
  List.existsb (String.eqb k) (List.map fst d) = false <-> dict_get k d = None.
Proof.
  induction d as [|[k' v'] d IH]; simpl.
  - split; reflexivity.
  - destruct (String.eqb k k'); simpl.
    + split; discriminate.
    + exact IH.
Qed.

Lemma dict_get_In {V} (k : string) (v : V) (d : list (string * V)) :
  dict_get k d = Some v -> In (k, v) d.
Proof.
  induction d as [|[k' v'] d IH]; simpl; [discriminate|].
  destruct (String.eqb_spec k k') as [->|Hne].
  - intros [= ->]. left. reflexivity.
  - intros H. right. exact (IH H).
Qed.

Lemma dict_update_keys {V} (k : string) (f : V -> V) (d : list (string * V)) :
  List.map fst (dict_update k f d) = List.map fst d.
Proof.
  unfold dict_update. rewrite List.map_map. apply List.map_ext.
  intros [k' v]; simpl. destruct (String.eqb k k'); reflexivity.
Qed.

Lemma dict_get_update {V} (k k' : string) (f : V -> V) (d : list (string * V)) :
  dict_get k' (dict_update k f d)
  = if String.eqb k k' then option_map f (dict_get k' d) else dict_get k' d.
Proof.
  induction d as [|[k0 v0] d IH]; simpl.
  - destruct (String.eqb k k'); reflexivity.
  - destruct (String.eqb_spec k k0) as [->|Hk]; simpl.
    + destruct (String.eqb_spec k' k0) as [->|Hk'].
      * rewrite String.eqb_refl. reflexivity.
      * rewrite IH. reflexivity.
    + destruct (String.eqb_spec k' k0) as [->|Hk'].
      * destruct (String.eqb_spec k k0) as [->|_]; [contradiction | reflexivity].
      * exact IH.
Qed.

(** ** C7: a load that fails with an I/O error *)

(** C7.  When the load-callback raises an I/O error, [loadKeyMapping]
    returns normally and the dict of key-bindings (hence the binding, the
    device type and the axis direction of every control) and the list
    [axesInUse] are what they were before the call. *)
Theorem loadKeyMapping_IOError_untouched :
  forall (engine : Engine) (km : KeyMapper) load message,
    loadMappingCallback engine = Some load ->
    load (bindingFile km) = RaisedIOError message ->
    exists km',
      loadKeyMapping engine km = (Val tt, km')
      /\ keyBindings km' = keyBindings km
      /\ axesInUse km' = axesInUse km.
Proof.
  intros engine km load message Hcb Hload.
  unfold loadKeyMapping, bind, gets. rewrite Hcb, Hload.
  destruct (vfs_exists engine (bindingFile km)).
  - eexists. split; [reflexivity|]. split; reflexivity.
  - exists km. split; [reflexivity|]. split; reflexivity.
Qed.

Lemma loadKeyMapping_IOError_untouched_example :
  exists km',
    loadKeyMapping example_engine example_registered = (Val tt, km')
    /\ keyBindings km' = keyBindings example_registered
    /\ axesInUse km' = axesInUse example_registered.
Proof.
  apply (loadKeyMapping_IOError_untouched example_engine example_registered
           SaveLoadDummy_loadKeyMapping dummy_warning);
    reflexivity.
Defined.

(** ** C9: a saved control that is not registered *)

Lemma collect_bindingList_unregistered keySaveData km :
  List.existsb (fun r => negb (registered km (fst (fst (fst r))))) keySaveData = true ->
  exists description,
    In description (List.map (fun r => fst (fst (fst r))) keySaveData)
    /\ registered km description = false
    /\ collect_bindingList keySaveData km = (Raise (KeyError (Some description)), km).
Proof.
  induction keySaveData as [|[[[d b] dt] dir] rest IH]; simpl; [discriminate|].
  destruct (registered km d) eqn:Hreg; simpl.
  - intros Hrest. destruct (IH Hrest) as (d' & Hin & Hd' & Hraise).
    exists d'. split; [right; exact Hin|]. split; [exact Hd'|].
    apply dict_get_registered in Hreg. destruct Hreg as [kb Hkb].
    unfold bind, keyBindings_at. rewrite Hkb, Hraise. reflexivity.
  - intros _. exists d. split; [left; reflexivity|]. split; [exact Hreg|].
    apply dict_get_unregistered in Hreg.
    unfold bind, keyBindings_at. rewrite Hreg. reflexivity.
Qed.

(** C9.  When the load-callback returns a key record whose control name
    is not registered, [loadKeyMapping] raises KeyError on such a name.
    The exception leaves the method: the manager is as it was before the
    call, so no record was applied and the error dialogue was not
    shown. *)
Theorem loadKeyMapping_unregistered_control_raises :
  forall (engine : Engine) (km : KeyMapper) load keySaveData axisSaveData,
    loadMappingCallback engine = Some load ->
    load (bindingFile km) = Returned keySaveData axisSaveData ->
    List.existsb (fun r => negb (registered km (fst (fst (fst r))))) keySaveData = true ->
    exists description,
      In description (List.map (fun r => fst (fst (fst r))) keySaveData)
      /\ registered km description = false
      /\ loadKeyMapping engine km = (Raise (KeyError (Some description)), km).
Proof.
  intros engine km load ksd asd Hcb Hload Hex.
  destruct (collect_bindingList_unregistered ksd km Hex) as (d & Hin & Hreg & Hraise).
  exists d. split; [exact Hin|]. split; [exact Hreg|].
  unfold loadKeyMapping. unfold bind at 1. unfold gets. rewrite Hcb, Hload.
  rewrite (bind_Raise _ _ _ _ _ Hraise). reflexivity.
Qed.

Lemma loadKeyMapping_unregistered_control_raises_example :
  exists description,
    In description ["left"; "strafe"]
    /\ registered example_registered description = false
    /\ loadKeyMapping
         (engine_loading [("left", Some "a", Some "keyboard", 0);
                          ("strafe", Some "q", Some "keyboard", 0)] [])
         example_registered
       = (Raise (KeyError (Some description)), example_registered).
Proof.
  apply (loadKeyMapping_unregistered_control_raises
           (engine_loading [("left", Some "a", Some "keyboard", 0);
                            ("strafe", Some "q", Some "keyboard", 0)] [])
           example_registered
           (fun _ => Returned [("left", Some "a", Some "keyboard", 0);
                               ("strafe", Some "q", Some "keyboard", 0)] [])
           [("left", Some "a", Some "keyboard", 0);
            ("strafe", Some "q", Some "keyboard", 0)] []);
    reflexivity.
Defined.

(** ** C10: clearing an axis input with direction 0 *)

Lemma clear_axis_entries_0 bindingStr l :
  clear_axis_entries bindingStr 0 l = (l, []).
Proof.
  induction l as [|a l IH]; simpl; [reflexivity|].
  rewrite IH. unfold clear_direction.
  destruct (String.eqb (axis a) bindingStr); reflexivity.
Qed.

Lemma filter_forallb_id {A} (f : A -> bool) (l : list A) :
  List.forallb f l = true -> List.filter f l = l.
Proof.
  induction l as [|x l IH]; simpl; [reflexivity|].
  destruct (f x); simpl; [|discriminate].
  intros H. rewrite (IH H). reflexivity.
Qed.

(** C10.  Clearing an axis input (any name that starts with "axis.",
    whatever the case) with direction 0 returns normally and unbinds
    nothing: the dict of key-bindings is unchanged, and the axis entries
    kept are those that have a direction bound, each as it was; when every
    entry had one, [axesInUse] is unchanged. *)
Theorem clearKeyEvent_axis_direction_0_noop :
  forall (km : KeyMapper) (input : string),
    is_axis_binding input = true ->
    exists km',
      clearKeyEvent (Some input) 0 km = (Val tt, km')
      /\ keyBindings km' = keyBindings km
      /\ axesInUse km' = List.filter axis_in_use (axesInUse km)
      /\ (axes_in_use km = true -> axesInUse km' = axesInUse km).
Proof.
  intros km input Haxis.
  unfold clearKeyEvent. rewrite Haxis.
  unfold bind at 1. rewrite clear_axis_entries_0.
  eexists. split; [reflexivity|]. simpl.
  split; [reflexivity|]. split; [reflexivity|].
  intros Hok. apply filter_forallb_id. exact Hok.
Qed.

Lemma clearKeyEvent_axis_direction_0_noop_example :
  exists km',
    clearKeyEvent (Some "Axis.left_x") 0 example_registered = (Val tt, km')
    /\ keyBindings km' = keyBindings example_registered
    /\ axesInUse km' = List.filter axis_in_use (axesInUse example_registered)
    /\ (axes_in_use example_registered = true ->
        axesInUse km' = axesInUse example_registered).
Proof.
  apply (clearKeyEvent_axis_direction_0_noop example_registered "Axis.left_x").
  reflexivity.
Defined.

(** ** What the device methods leave alone *)

Lemma claims_map_detach device l :
  List.map claims (List.map (AxisData_detach device) l) = List.map claims l.
Proof. rewrite List.map_map. apply List.map_ext. intros a. reflexivity. Qed.

Lemma claims_map_attach s device l :
  List.map claims (List.map (AxisData_attach s device) l) = List.map claims l.
Proof. rewrite List.map_map. apply List.map_ext. intros a. reflexivity. Qed.

Lemma same_bindings_refl km : same_bindings km km.
Proof. repeat split. Qed.

Lemma same_bindings_trans km1 km2 km3 :
  same_bindings km1 km2 -> same_bindings km2 km3 -> same_bindings km1 km3.
Proof.
  intros (A1 & B1 & C1) (A2 & B2 & C2). repeat split; congruence.
Qed.

Lemma removeUsedDevice_same t km :
  (match t with DT_class _ => true | DT_string s => valid_deviceType (Some s) end) = true ->
  exists km', removeUsedDevice t km = (Val tt, km') /\ same_bindings km km'.
Proof.
  intros Hvalid. unfold removeUsedDevice.
  assert (Hc : exists c, to_DeviceClass t km = (Val c, km)).
  { destruct t as [c|s]; simpl in *.
    - exists c. reflexivity.
    - destruct (DeviceClass_of_string s) as [c|]; [|discriminate].
      exists c. reflexivity. }
  destruct Hc as [c Hc]. rewrite (bind_Val _ _ _ _ _ Hc).
  destruct (DeviceClass_eqb c keyboard || DeviceClass_eqb c mouse)%bool.
  - exists km. split; [reflexivity | apply same_bindings_refl].
  - unfold bind at 1, gets.
    apply (for_each_invariant (fun km' => same_bindings km km'));
      [|apply same_bindings_refl].
    intros p km0 _ Hsame. eexists. split; [reflexivity|].
    apply (same_bindings_trans _ _ _ Hsame).
    repeat split. simpl. apply claims_map_detach.
Qed.

Lemma addUsedDevice_same engine t km :
  (match t with DT_class _ => true | DT_string s => valid_deviceType (Some s) end) = true ->
  exists device km',
    addUsedDevice engine t km = (Val device, km') /\ same_bindings km km'.
Proof.
  intros Hvalid. unfold addUsedDevice.
  assert (Hc : exists c, to_DeviceClass t km = (Val c, km)).
  { destruct t as [c|s]; simpl in *.
    - exists c. reflexivity.
    - destruct (DeviceClass_of_string s) as [c|]; [|discriminate].
      exists c. reflexivity. }
  destruct Hc as [c Hc]. rewrite (bind_Val _ _ _ _ _ Hc).
  unfold bind at 1, gets.
  destruct (List.find _ (List.map fst (devicesInUse km))) as [device|].
  - exists (Some device), km. split; [reflexivity | apply same_bindings_refl].
  - destruct (List.filter _ (base_devices engine)) as [|device rest].
    + exists None, km. split; [reflexivity | apply same_bindings_refl].
    + exists (Some device). eexists. split; [reflexivity|].
      repeat split; simpl.
      * destruct (find_dataNP device (dataNPList km)); reflexivity.
      * destruct (find_dataNP device (dataNPList km)); simpl; apply claims_map_attach.
      * destruct (find_dataNP device (dataNPList km)); reflexivity.
Qed.

(** ** Unbinding *)

Lemma unbind_in_keys ks d : List.map fst (unbind_in ks d) = List.map fst d.
Proof.
  unfold unbind_in. rewrite List.map_map. apply List.map_ext.
  intros [k v]; simpl. destruct (List.existsb _ ks); reflexivity.
Qed.

Lemma unbind_in_cons key rest d :
  unbind_in rest (dict_update key KeyBinding_unbind d) = unbind_in (key :: rest) d.
Proof.
  unfold unbind_in, dict_update. rewrite List.map_map. apply List.map_ext.
  intros [k v]; simpl.
  destruct (String.eqb key k); simpl;
    destruct (List.existsb (fun k0 => String.eqb k0 k) rest); reflexivity.
Qed.

Lemma unbind_in_nil d : unbind_in [] d = d.
Proof.
  unfold unbind_in. simpl. rewrite <- (List.map_id d) at 2.
  apply List.map_ext. intros p. reflexivity.
Qed.

(** A device tag of the dict after unbinding is [None] or was there
    before. *)
Lemma unbind_in_deviceType ks d p :
  In p (unbind_in ks d) ->
  deviceType (snd p) = None \/ exists q, In q d /\ deviceType (snd q) = deviceType (snd p).
Proof.
  unfold unbind_in. rewrite List.in_map_iff. intros (q & <- & Hq).
  destruct (List.existsb _ ks); simpl.
  - left. reflexivity.
  - right. exists q. split; [exact Hq | reflexivity].
Qed.

Lemma unbind_in_unbound ks d k :
  In k ks -> List.existsb (String.eqb k) (List.map fst d) = true ->
  In None (List.map (fun p => deviceType (snd p)) (unbind_in ks d)).
Proof.
  intros Hk Hreg. apply List.existsb_exists in Hreg. destruct Hreg as (k' & Hk' & Heq).
  apply String.eqb_eq in Heq. subst k'.
  apply List.in_map_iff in Hk'. destruct Hk' as ([k0 v] & Hfst & Hin). simpl in Hfst. subst k0.
  apply List.in_map_iff.
  exists (k, KeyBinding_unbind v). split; [reflexivity|].
  unfold unbind_in. apply List.in_map_iff. exists (k, v). split; [|exact Hin].
  simpl. replace (List.existsb (fun k0 => String.eqb k0 k) ks) with true; [reflexivity|].
  symmetry. apply List.existsb_exists. exists k. split; [exact Hk | apply String.eqb_refl].
Qed.

Lemma unbind_keys_effect ks :
  forall km,
    (forall k, In k ks -> registered km k = true) ->
    exists dts,
      unbind_keys ks km = (Val dts, set_keyBindings (unbind_in ks (keyBindings km)) km)
      /\ (forall dt, In dt dts ->
            dt = None \/ In dt (List.map (fun p => deviceType (snd p)) (keyBindings km)))
      /\ (dts <> [] ->
            In None (List.map (fun p => deviceType (snd p)) (unbind_in ks (keyBindings km)))).
Proof.
  induction ks as [|key rest IH]; intros km Hreg.
  - exists []. split; [|split].
    + simpl. unfold ret. rewrite unbind_in_nil. destruct km; reflexivity.
    + intros dt [].
    + intros H. contradiction.
  - pose proof (Hreg key (or_introl eq_refl)) as Hkey.
    apply dict_get_registered in Hkey. destruct Hkey as [kb Hkb].
    set (km1 := set_keyBindings (dict_update key KeyBinding_unbind (keyBindings km)) km).
    destruct (IH km1) as (dts & Hrun & Hdts & Hnone).
    { intros k Hk. unfold registered, km1. simpl. rewrite dict_update_keys.
      apply Hreg. right. exact Hk. }
    exists (deviceType kb :: dts). split; [|split].
    + simpl. unfold bind at 1, keyBindings_at. rewrite Hkb.
      unfold bind at 1, modify. fold km1.
      rewrite (bind_Val _ _ _ _ _ Hrun). unfold ret. f_equal.
      unfold km1. simpl. rewrite unbind_in_cons. reflexivity.
    + intros dt [<-|Hin].
      * right. apply List.in_map_iff. exists (key, kb).
        split; [reflexivity | apply dict_get_In; exact Hkb].
      * destruct (Hdts dt Hin) as [->|Hold]; [left; reflexivity|].
        unfold km1 in Hold. simpl in Hold.
        apply List.in_map_iff in Hold. destruct Hold as (p & <- & Hp).
        unfold dict_update in Hp. apply List.in_map_iff in Hp.
        destruct Hp as (q & <- & Hq).
        destruct (String.eqb key (fst q)); simpl.
        -- left. reflexivity.
        -- right. apply List.in_map_iff. exists q. split; [reflexivity | exact Hq].
    + intros _. apply (unbind_in_unbound (key :: rest) _ key); [left; reflexivity|].
      apply Hreg. left. reflexivity.
Qed.

(** ** The effect of [clearKeyEvent] *)

Lemma well_formed_iff km :
  well_formed km = true <->
  unique_keys (List.map fst (keyBindings km)) = true
  /\ List.forallb (fun p => valid_deviceType (deviceType (snd p))) (keyBindings km) = true
  /\ List.forallb
       (fun c => holder_in (List.map fst (keyBindings km)) (snd (fst c))
                 && holder_in (List.map fst (keyBindings km)) (snd c))
       (List.map claims (axesInUse km)) = true.
Proof.
  unfold well_formed. rewrite !Bool.andb_true_iff. tauto.
Qed.

Lemma keys_bound_to_registered b d k :
  In k (keys_bound_to b d) -> List.existsb (String.eqb k) (List.map fst d) = true.
Proof.
  unfold keys_bound_to. rewrite List.in_map_iff. intros (p & <- & Hp).
  apply List.filter_In in Hp. destruct Hp as [Hp _].
  apply List.existsb_exists. exists (fst p).
  split; [apply List.in_map; exact Hp | apply String.eqb_refl].
Qed.

Lemma axis_in_use_claimed a : axis_in_use a = claimed (claims a).
Proof.
  unfold axis_in_use, claimed, claims.
  destruct (keyDescriptionPositive a), (keyDescriptionNegative a); reflexivity.
Qed.

Lemma map_filter_comm {A B} (f : A -> B) (g : B -> bool) (h : A -> bool) (l : list A) :
  (forall x, h x = g (f x)) ->
  List.map f (List.filter h l) = List.filter g (List.map f l).
Proof.
  intros Hgh. induction l as [|x l IH]; [reflexivity|].
  cbn [List.map List.filter]. rewrite <- Hgh.
  destruct (h x); cbn [List.map]; rewrite IH; reflexivity.
Qed.

Lemma claims_filter l :
  List.map claims (List.filter axis_in_use l) = List.filter claimed (List.map claims l).
Proof. apply map_filter_comm. exact axis_in_use_claimed. Qed.

Lemma forallb_filter {A} (f g : A -> bool) (l : list A) :
  List.forallb f l = true -> List.forallb f (List.filter g l) = true.
Proof.
  induction l as [|x l IH]; simpl; [reflexivity|].
  rewrite Bool.andb_true_iff. intros [Hx Hl].
  destruct (g x); simpl; [rewrite Hx; simpl|]; exact (IH Hl).
Qed.

(** The axis loop removes holders, and what it appends to
    [keysToChange] are holders. *)
Lemma clear_axis_entries_holders names bindingStr direction l :
  List.forallb (fun c => holder_in names (snd (fst c)) && holder_in names (snd c))
               (List.map claims l) = true ->
  List.forallb (fun c => holder_in names (snd (fst c)) && holder_in names (snd c))
               (List.map claims (fst (clear_axis_entries bindingStr direction l))) = true
  /\ forall k, In k (snd (clear_axis_entries bindingStr direction l)) ->
               List.existsb (String.eqb k) names = true.
Proof.
  induction l as [|a l IH]; simpl.
  - intros _. split; [reflexivity | intros k []].
  - rewrite !Bool.andb_true_iff. intros [[Hp Hn] Hl].
    destruct (IH Hl) as [IH1 IH2].
    destruct (clear_axis_entries bindingStr direction l) as [l' ks'] eqn:Hrec.
    simpl in IH1, IH2.
    unfold clear_direction.
    destruct (String.eqb (axis a) bindingStr).
    + destruct (direction =? -1).
      * destruct (keyDescriptionNegative a) as [k|] eqn:Hk; simpl.
        -- rewrite Hp, IH1. split; [reflexivity|].
           intros k' [<-|Hk']; [exact Hn | exact (IH2 k' Hk')].
        -- rewrite Hp, Hk, IH1. split; [reflexivity | exact IH2].
      * destruct (direction =? 1).
        -- destruct (keyDescriptionPositive a) as [k|] eqn:Hk; simpl.
           ++ rewrite Hn, IH1. split; [reflexivity|].
              intros k' [<-|Hk']; [exact Hp | exact (IH2 k' Hk')].
           ++ rewrite Hk, Hn, IH1. split; [reflexivity | exact IH2].
        -- simpl. rewrite Hp, Hn, IH1. split; [reflexivity | exact IH2].
    + simpl. rewrite Hp, Hn, IH1. split; [reflexivity | exact IH2].
Qed.

Lemma existsb_option_eqb_In (x : option string) l :
  In x l -> List.existsb (option_eqb String.eqb x) l = true.
Proof.
  intros H. apply List.existsb_exists. exists x. split; [exact H|].
  destruct x as [s|]; simpl; [apply String.eqb_refl | reflexivity].
Qed.

Lemma set_axesInUse_same km : set_axesInUse (axesInUse km) km = km.
Proof. destruct km; reflexivity. Qed.

Lemma clearKeyEvent_effect b direction km :
  well_formed km = true ->
  exists km',
    clearKeyEvent (Some b) direction km = (Val tt, km')
    /\ keyBindings km' = unbind_in (keysToChange_of b direction km) (keyBindings km)
    /\ List.map claims (axesInUse km')
       = List.filter claimed (List.map claims (axes_cleared b direction km))
    /\ deadZoneDefaultValue km' = deadZoneDefaultValue km
    /\ well_formed km' = true.
Proof.
  intros Hwf. apply well_formed_iff in Hwf. destruct Hwf as (Hu & Hd & Ha).
  set (ks := keysToChange_of b direction km).
  set (km1 := set_axesInUse (axes_cleared b direction km) km).
  assert (H1 : (if is_axis_binding b
                then fun km0 =>
                       let (axes', ks0) :=
                         clear_axis_entries (string_from 5 b) direction (axesInUse km0) in
                       (Val ks0, set_axesInUse axes' km0)
                else gets (fun km0 => keys_bound_to b (keyBindings km0))) km
               = (Val ks, km1)).
  { unfold ks, km1, keysToChange_of, axes_cleared.
    destruct (is_axis_binding b).
    - destruct (clear_axis_entries (string_from 5 b) direction (axesInUse km)); reflexivity.
    - unfold gets. rewrite set_axesInUse_same. reflexivity. }
  destruct (clear_axis_entries_holders (List.map fst (keyBindings km))
              (string_from 5 b) direction (axesInUse km) Ha) as [Hax Hks].
  assert (Hreg : forall k, In k ks -> registered km1 k = true).
  { intros k Hk. unfold registered, km1. simpl. unfold ks, keysToChange_of in Hk.
    destruct (is_axis_binding b).
    - exact (Hks k Hk).
    - exact (keys_bound_to_registered _ _ _ Hk). }
  destruct (unbind_keys_effect ks km1 Hreg) as (dts & H2 & Hdts & Hnone).
  set (km2 := set_keyBindings (unbind_in ks (keyBindings km1)) km1) in *.
  set (bound := List.map (fun p => deviceType (snd p)) (keyBindings km2)).
  destruct (for_each_invariant (fun km' => same_bindings km2 km') dts
              (fun dt =>
                 if List.existsb (option_eqb String.eqb dt) bound then ret tt
                 else match dt with
                      | Some s => removeUsedDevice (DT_string s)
                      | None => raise TypeError
                      end)) with (km := km2) as (km3 & H3 & Hsame).
  { intros dt km0 Hdt Hsame0.
    destruct (List.existsb (option_eqb String.eqb dt) bound) eqn:Hin.
    - exists km0. split; [reflexivity | exact Hsame0].
    - assert (Hne : dts <> []) by (intros ->; destruct Hdt).
      specialize (Hnone Hne).
      destruct dt as [s|].
      + destruct (Hdts _ Hdt) as [Heq|Hold]; [discriminate|].
        apply List.in_map_iff in Hold. destruct Hold as (p & Hp & Hpin).
        assert (Hv : valid_deviceType (Some s) = true).
        { rewrite <- Hp. unfold km1 in Hpin. simpl in Hpin.
          rewrite List.forallb_forall in Hd. exact (Hd p Hpin). }
        destruct (removeUsedDevice_same (DT_string s) km0 Hv) as (km0' & Hrun & Hs).
        exists km0'. split; [exact Hrun | exact (same_bindings_trans _ _ _ Hsame0 Hs)].
      + rewrite (existsb_option_eqb_In None bound Hnone) in Hin. discriminate. }
  { apply same_bindings_refl. }
  destruct Hsame as (Hkb3 & Hcl3 & Hdz3).
  eexists. split; [|split; [|split; [|split]]].
  - unfold clearKeyEvent.
    rewrite (bind_Val _ _ _ _ _ H1).
    rewrite (bind_Val _ _ _ _ _ H2).
    unfold bind at 1, gets. fold km2. fold bound.
    rewrite (bind_Val _ _ _ _ _ H3).
    reflexivity.
  - simpl. rewrite Hkb3. reflexivity.
  - simpl. rewrite claims_filter, Hcl3. reflexivity.
  - simpl. rewrite Hdz3. reflexivity.
  - apply well_formed_iff. simpl. rewrite Hkb3. simpl.
    rewrite unbind_in_keys. split; [exact Hu|]. split.
    + apply List.forallb_forall. intros p Hp.
      destruct (unbind_in_deviceType _ _ _ Hp) as [->|(q & Hq & <-)]; [reflexivity|].
      rewrite List.forallb_forall in Hd. exact (Hd q Hq).
    + rewrite claims_filter, Hcl3. simpl. apply forallb_filter.
      unfold axes_cleared. destruct (is_axis_binding b); [exact Hax | exact Ha].
Qed.

(** ** [clearKeyEvent] and [bindKey] on the view *)

Lemma clear_direction_claims s direction a :
  claims (fst (clear_direction s direction a)) = fst (clear_claim s direction (claims a))
  /\ snd (clear_direction s direction a) = snd (clear_claim s direction (claims a)).
Proof.
  unfold clear_direction, clear_claim, claims.
  destruct (String.eqb (axis a) s); [|split; reflexivity].
  destruct (direction =? -1).
  - destruct (keyDescriptionNegative a) eqn:E; cbn [fst snd]; rewrite ?E; split; reflexivity.
  - destruct (direction =? 1); [|split; reflexivity].
    destruct (keyDescriptionPositive a) eqn:E; cbn [fst snd]; rewrite ?E; split; reflexivity.
Qed.

Lemma clear_axis_entries_claims s direction l :
  List.map claims (fst (clear_axis_entries s direction l))
  = cleared_claims s direction (List.map claims l)
  /\ snd (clear_axis_entries s direction l) = cleared_keys s direction (List.map claims l).
Proof.
  induction l as [|a l [IH1 IH2]]; [split; reflexivity|].
  cbn [clear_axis_entries].
  destruct (clear_direction_claims s direction a) as [H1 H2].
  destruct (clear_direction s direction a) as [a' ks].
  destruct (clear_axis_entries s direction l) as [l' ks'].
  cbn [fst snd] in *. split.
  - cbn [List.map cleared_claims]. rewrite H1, IH1. reflexivity.
  - cbn [List.map cleared_keys List.flat_map]. rewrite H2, IH2. reflexivity.
Qed.

Lemma clearKeyEvent_view b direction km :
  well_formed km = true ->
  exists km',
    clearKeyEvent b direction km = (Val tt, km')
    /\ view km' = clear_view b direction (view km)
    /\ deadZoneDefaultValue km' = deadZoneDefaultValue km
    /\ well_formed km' = true.
Proof.
  intros Hwf. destruct b as [b|].
  - destruct (clearKeyEvent_effect b direction km Hwf) as (km' & Hrun & Hkb & Hcl & Hdz & Hwf').
    exists km'. split; [exact Hrun|]. split; [|split; [exact Hdz | exact Hwf']].
    unfold view, clear_view. rewrite Hkb, Hcl.
    unfold keysToChange_of, axes_cleared. cbn [fst snd].
    destruct (clear_axis_entries_claims (string_from 5 b) direction (axesInUse km)) as [H1 H2].
    destruct (is_axis_binding b).
    + rewrite H1, H2. reflexivity.
    + reflexivity.
  - exists km. split; [reflexivity|]. split; [reflexivity|]. split; [reflexivity | exact Hwf].
Qed.

(** The subscriptions are made when the callback that the kind needs is
    supplied, and touch nothing but the subscriptions. *)
Lemma subscribe_supplied k b ty cb km :
  callback_missing ty cb = false ->
  exists km', subscribe k b ty cb km = (Val tt, km')
              /\ keyBindings km' = keyBindings km
              /\ axesInUse km' = axesInUse km
              /\ deadZoneDefaultValue km' = deadZoneDefaultValue km.
Proof.
  unfold callback_missing, subscribe.
  assert (Hnone : exists km', ret tt km = (Val tt, km')
                   /\ keyBindings km' = keyBindings km /\ axesInUse km' = axesInUse km
                   /\ deadZoneDefaultValue km' = deadZoneDefaultValue km)
    by (exists km; repeat split).
  destruct (ty =? KEYMAP_HELD_KEY) eqn:Hheld.
  { intros _. destruct b as [b|]; [|exact Hnone].
    eexists. split; [reflexivity|]. repeat split. }
  destruct (ty =? KEYMAP_EVENT_PRESSED) eqn:Hp; simpl.
  { destruct cb; intros H; try discriminate H;
      (destruct b as [b|]; [|exact Hnone]);
      (eexists; split; [reflexivity|]; repeat split). }
  destruct (ty =? KEYMAP_EVENT_RELEASED) eqn:Hr; simpl.
  { destruct cb; intros H; try discriminate H;
      (destruct b as [b|]; [|exact Hnone]);
      (eexists; split; [reflexivity|]; repeat split). }
  destruct (ty =? KEYMAP_EVENT_PRESSED_AND_RELEASED) eqn:Hpr; [|intros _; exact Hnone].
  destruct cb as [|f|items]; intros H; try discriminate H.
  - destruct b as [b|]; [|exact Hnone].
    eexists. split; [reflexivity|]. repeat split.
  - destruct items as [|[f0|] [|[f1|] rest]]; simpl in H; try discriminate H.
    destruct b as [b|]; [|exact Hnone].
    eexists. split; [reflexivity|]. repeat split.
Qed.

(** [bindKey]'s own test: the callback is absent, and the exception is
    the one for the missing callback. *)
Lemma subscribe_absent k b ty cb :
  callback_absent ty cb = true ->
  exists what, forall km, subscribe k b ty cb km = (Raise (ConfigError what), km).
Proof.
  unfold callback_absent, subscribe.
  destruct (ty =? KEYMAP_HELD_KEY) eqn:Hheld.
  { apply Z.eqb_eq in Hheld. subst ty. simpl. discriminate. }
  destruct (ty =? KEYMAP_EVENT_PRESSED) eqn:Hp; simpl.
  { destruct cb; intros H; try discriminate H. eexists. reflexivity. }
  destruct (ty =? KEYMAP_EVENT_RELEASED) eqn:Hr; simpl.
  { destruct cb; intros H; try discriminate H. eexists. reflexivity. }
  destruct (ty =? KEYMAP_EVENT_PRESSED_AND_RELEASED) eqn:Hpr; [|discriminate].
  destruct cb as [|f|items]; intros H; try discriminate H.
  - eexists. reflexivity.
  - destruct items as [|[f0|] [|[f1|] rest]]; simpl in H; try discriminate H;
      eexists; reflexivity.
Qed.

(** A list or tuple given to the kind "pressed" or "released" passes
    [bindKey]'s test and is refused by [accept], when there is an input to
    accept; with no input nothing is accepted. *)
Lemma subscribe_refused k b ty cb km :
  callback_absent ty cb = false ->
  callback_missing ty cb = true ->
  subscribe k b ty cb km
  = match b with
    | Some _ => (Raise AssertionError, km)
    | None => (Val tt, km)
    end.
Proof.
  unfold callback_absent, callback_missing, subscribe.
  destruct (ty =? KEYMAP_HELD_KEY) eqn:Hheld.
  { apply Z.eqb_eq in Hheld. subst ty. simpl. discriminate. }
  destruct (ty =? KEYMAP_EVENT_PRESSED) eqn:Hp; simpl.
  { destruct cb; intros Ha Hm; try discriminate; destruct b; reflexivity. }
  destruct (ty =? KEYMAP_EVENT_RELEASED) eqn:Hr; simpl.
  { destruct cb; intros Ha Hm; try discriminate; destruct b; reflexivity. }
  destruct (ty =? KEYMAP_EVENT_PRESSED_AND_RELEASED) eqn:Hpr; [|discriminate].
  intros Ha Hm. congruence.
Qed.

Lemma callback_absent_missing ty cb :
  callback_absent ty cb = true -> callback_missing ty cb = true.
Proof.
  unfold callback_absent, callback_missing.
  destruct ((ty =? KEYMAP_EVENT_PRESSED) || (ty =? KEYMAP_EVENT_RELEASED)).
  - destruct cb; intros H; try discriminate H; reflexivity.
  - intros H. exact H.
Qed.

Lemma clear_view_keys b direction v :
  List.map fst (fst (clear_view b direction v)) = List.map fst (fst v).
Proof.
  unfold clear_view. destruct b as [b|]; [|reflexivity].
  destruct (is_axis_binding b); cbn [fst]; apply unbind_in_keys.
Qed.

Lemma claims_claim_direction k device dt direction a :
  claims (claim_direction k device dt direction a) = claim_view k direction (claims a).
Proof.
  unfold claim_direction, claim_view, claims.
  destruct (0 <? direction); [reflexivity|].
  destruct (direction <? 0); reflexivity.
Qed.

Lemma holders_claim_view names k direction c :
  List.existsb (String.eqb k) names = true ->
  holder_in names (snd (fst c)) && holder_in names (snd c) = true ->
  holder_in names (snd (fst (claim_view k direction c)))
  && holder_in names (snd (claim_view k direction c)) = true.
Proof.
  intros Hk. destruct c as [[x p] n]. unfold claim_view. cbn [fst snd].
  rewrite !Bool.andb_true_iff. intros [Hp Hn].
  destruct (0 <? direction); cbn [fst snd holder_in]; [split; assumption|].
  destruct (direction <? 0); cbn [fst snd holder_in]; split; assumption.
Qed.

Lemma holders_bound_claims names k b dt direction cs :
  List.existsb (String.eqb k) names = true ->
  List.forallb (fun c => holder_in names (snd (fst c)) && holder_in names (snd c)) cs = true ->
  List.forallb (fun c => holder_in names (snd (fst c)) && holder_in names (snd c))
               (bound_claims k b dt direction cs) = true.
Proof.
  intros Hk Hcs. unfold bound_claims.
  destruct b as [b|]; [|exact Hcs]. destruct dt as [dt|]; [|exact Hcs].
  destruct (is_axis_binding b); [|exact Hcs]. cbv zeta.
  assert (Hupd : List.forallb
                   (fun c => holder_in names (snd (fst c)) && holder_in names (snd c))
                   (List.map (fun c => if String.eqb (fst (fst c)) (string_from 5 b)
                                       then claim_view k direction c else c) cs) = true).
  { apply List.forallb_forall. intros c Hc. apply List.in_map_iff in Hc.
    destruct Hc as (c0 & <- & Hc0).
    rewrite List.forallb_forall in Hcs. specialize (Hcs c0 Hc0).
    destruct (String.eqb (fst (fst c0)) (string_from 5 b)); [|exact Hcs].
    apply holders_claim_view; assumption. }
  destruct (List.existsb _ cs); [exact Hupd|].
  rewrite List.forallb_app. apply andb_true_intro. split; [exact Hupd|].
  cbn [List.forallb]. rewrite Bool.andb_true_r.
  apply holders_claim_view; [exact Hk | reflexivity].
Qed.

Lemma existsb_map_comp {A B} (f : B -> bool) (g : A -> B) (l : list A) :
  List.existsb f (List.map g l) = List.existsb (fun x => f (g x)) l.
Proof.
  induction l as [|x l IH]; [reflexivity|]. cbn [List.map List.existsb].
  rewrite IH. reflexivity.
Qed.

Lemma bindKey_view_subscribed engine k b ty cb dt direction km :
  well_formed km = true ->
  registered km k = true ->
  valid_deviceType dt = true ->
  (forall km2, exists km3,
      subscribe k b ty cb km2 = (Val tt, km3)
      /\ keyBindings km3 = keyBindings km2
      /\ axesInUse km3 = axesInUse km2
      /\ deadZoneDefaultValue km3 = deadZoneDefaultValue km2) ->
  exists km',
    bindKey engine k b ty cb dt direction km = (Val tt, km')
    /\ view km' = bind_view k b dt direction (view km)
    /\ deadZoneDefaultValue km' = deadZoneDefaultValue km
    /\ well_formed km' = true.
Proof.
  intros Hwf Hreg Hdt Hsub.
  destruct (clearKeyEvent_view b direction km Hwf) as (km1 & H1 & Hv1 & Hdz1 & Hwf1).
  assert (Hreg1 : registered km1 k = true).
  { unfold registered. change (keyBindings km1) with (fst (view km1)).
    rewrite Hv1, clear_view_keys. exact Hreg. }
  destruct (proj1 (dict_get_registered k (keyBindings km1)) Hreg1) as [old Hold].
  destruct (clearKeyEvent_view (binding old) (axisDirection old) km1 Hwf1)
    as (km2 & H2 & Hv2 & Hdz2 & Hwf2).
  destruct (Hsub km2) as (km3 & H3 & Hkb3 & Hax3 & Hdz3).
  set (km4 := set_keyBindings
                (dict_update k (KeyBinding_bind b dt direction) (keyBindings km3)) km3).
  assert (Hreg2 : List.existsb (String.eqb k) (List.map fst (keyBindings km2)) = true).
  { change (keyBindings km2) with (fst (view km2)).
    rewrite Hv2, clear_view_keys. exact Hreg1. }
  apply well_formed_iff in Hwf2. destruct Hwf2 as (Hu2 & Hd2 & Ha2).
  assert (Hd4 : List.forallb (fun p => valid_deviceType (deviceType (snd p)))
                  (dict_update k (KeyBinding_bind b dt direction) (keyBindings km2)) = true).
  { apply List.forallb_forall. intros p Hp. unfold dict_update in Hp.
    apply List.in_map_iff in Hp. destruct Hp as (q & <- & Hq).
    destruct (String.eqb k (fst q)); [exact Hdt|].
    rewrite List.forallb_forall in Hd2. exact (Hd2 q Hq). }
  assert (Hprefix :
    bindKey engine k b ty cb dt direction km
    = (match b, dt with
       | Some b', Some dt' =>
           device <- addUsedDevice engine (DT_string dt') ;;
           if is_axis_binding b' then
             let axisStr := string_from 5 b' in
             modify (fun km =>
               let foundAxis :=
                 List.existsb (fun a => String.eqb (axis a) axisStr) (axesInUse km) in
               let updated :=
                 List.map (fun a =>
                             if String.eqb (axis a) axisStr
                             then claim_direction k device dt' direction a
                             else a)
                          (axesInUse km) in
               set_axesInUse
                 (if foundAxis then updated
                  else (updated ++
                        [claim_direction k device dt' direction
                           (AxisData_new axisStr (deadZoneDefaultValue km))])%list)
                 km)
           else ret tt
       | _, _ => ret tt
       end) km4).
  { unfold bindKey.
    rewrite (bind_Val _ _ _ _ _ H1).
    unfold bind at 1, keyBindings_at. rewrite Hold.
    rewrite (bind_Val _ _ _ _ _ H2).
    rewrite (bind_Val _ _ _ _ _ H3).
    reflexivity. }
  assert (Hview4 : view km4
                   = (dict_update k (KeyBinding_bind b dt direction) (keyBindings km2),
                      List.map claims (axesInUse km2))).
  { unfold view, km4. simpl. rewrite Hkb3, Hax3. reflexivity. }
  assert (Hbv : bind_view k b dt direction (view km)
                = (dict_update k (KeyBinding_bind b dt direction) (keyBindings km2),
                   bound_claims k b dt direction (List.map claims (axesInUse km2)))).
  { unfold bind_view. rewrite <- Hv1. cbn [fst view]. rewrite Hold.
    change (keyBindings km1, List.map claims (axesInUse km1)) with (view km1).
    rewrite <- Hv2. reflexivity. }
  assert (Hfinish : forall km',
            keyBindings km' = dict_update k (KeyBinding_bind b dt direction) (keyBindings km2) ->
            List.map claims (axesInUse km')
            = bound_claims k b dt direction (List.map claims (axesInUse km2)) ->
            deadZoneDefaultValue km' = deadZoneDefaultValue km2 ->
            view km' = bind_view k b dt direction (view km)
            /\ deadZoneDefaultValue km' = deadZoneDefaultValue km
            /\ well_formed km' = true).
  { intros km' Hkb Hcl Hdz. split; [|split].
    - rewrite Hbv. unfold view. rewrite Hkb, Hcl. reflexivity.
    - congruence.
    - apply well_formed_iff. rewrite Hkb, Hcl, dict_update_keys.
      split; [exact Hu2|]. split; [exact Hd4|].
      apply holders_bound_claims; assumption. }
  assert (H4 : keyBindings km4
               = dict_update k (KeyBinding_bind b dt direction) (keyBindings km2)
               /\ List.map claims (axesInUse km4) = List.map claims (axesInUse km2)
               /\ deadZoneDefaultValue km4 = deadZoneDefaultValue km2).
  { unfold km4. simpl. rewrite Hkb3, Hax3, Hdz3. repeat split. }
  destruct H4 as (Hkb4 & Hcl4 & Hdz4).
  rewrite Hprefix.
  destruct b as [b'|].
  2:{ exists km4. split; [reflexivity|]. apply Hfinish; assumption. }
  destruct dt as [dt'|].
  2:{ exists km4. split; [reflexivity|]. apply Hfinish; assumption. }
  destruct (addUsedDevice_same engine (DT_string dt') km4 Hdt)
    as (device & km5 & H5 & Hkb5 & Hcl5 & Hdz5).
  rewrite (bind_Val _ _ _ _ _ H5).
  destruct (is_axis_binding b') eqn:Haxis.
  2:{ exists km5. split; [reflexivity|]. apply Hfinish.
      - congruence.
      - unfold bound_claims. rewrite Haxis. congruence.
      - congruence. }
  cbv zeta. set (s := string_from 5 b').
  eexists. split; [unfold modify; reflexivity|]. apply Hfinish.
  - cbn [keyBindings set_axesInUse]. congruence.
  - cbn [axesInUse set_axesInUse]. unfold bound_claims. rewrite Haxis. cbv zeta.
    fold s. rewrite <- Hcl4, <- Hcl5. rewrite existsb_map_comp.
    replace (List.existsb (fun x => String.eqb (fst (fst (claims x))) s) (axesInUse km5))
      with (List.existsb (fun a => String.eqb (axis a) s) (axesInUse km5))
      by reflexivity.
    assert (Hmap : List.map claims
                     (List.map (fun a => if String.eqb (axis a) s
                                         then claim_direction k device dt' direction a
                                         else a) (axesInUse km5))
                   = List.map (fun c => if String.eqb (fst (fst c)) s
                                        then claim_view k direction c else c)
                              (List.map claims (axesInUse km5))).
    { rewrite !List.map_map. apply List.map_ext. intros a.
      change (fst (fst (claims a))) with (axis a).
      destruct (String.eqb (axis a) s); [|reflexivity].
      apply claims_claim_direction. }
    destruct (List.existsb _ (axesInUse km5)).
    + exact Hmap.
    + rewrite List.map_app, Hmap. f_equal.
      cbn [List.map]. rewrite claims_claim_direction. reflexivity.
  - cbn [deadZoneDefaultValue set_axesInUse]. congruence.
Qed.

Lemma bindKey_view engine k b ty cb dt direction km :
  well_formed km = true ->
  registered km k = true ->
  valid_deviceType dt = true ->
  callback_missing ty cb = false ->
  exists km',
    bindKey engine k b ty cb dt direction km = (Val tt, km')
    /\ view km' = bind_view k b dt direction (view km)
    /\ deadZoneDefaultValue km' = deadZoneDefaultValue km
    /\ well_formed km' = true.
Proof.
  intros Hwf Hreg Hdt Hcb.
  apply bindKey_view_subscribed; try assumption.
  intros km2. exact (subscribe_supplied k b ty cb km2 Hcb).
Qed.

(** When the branch on [type] raises, [bindKey] raises the same. *)
Lemma bindKey_subscribe_raises engine k b ty cb dt direction km e :
  well_formed km = true ->
  registered km k = true ->
  (forall km2, subscribe k b ty cb km2 = (Raise e, km2)) ->
  exists km', bindKey engine k b ty cb dt direction km = (Raise e, km').
Proof.
  intros Hwf Hreg Hsub.
  destruct (clearKeyEvent_view b direction km Hwf) as (km1 & H1 & Hv1 & Hdz1 & Hwf1).
  assert (Hreg1 : registered km1 k = true).
  { unfold registered. change (keyBindings km1) with (fst (view km1)).
    rewrite Hv1, clear_view_keys. exact Hreg. }
  destruct (proj1 (dict_get_registered k (keyBindings km1)) Hreg1) as [old Hold].
  destruct (clearKeyEvent_view (binding old) (axisDirection old) km1 Hwf1)
    as (km2 & H2 & Hv2 & Hdz2 & Hwf2).
  exists km2. unfold bindKey.
  rewrite (bind_Val _ _ _ _ _ H1).
  unfold bind at 1, keyBindings_at. rewrite Hold.
  rewrite (bind_Val _ _ _ _ _ H2).
  rewrite (bind_Raise _ _ _ _ _ (Hsub km2)). reflexivity.
Qed.

Lemma bindKey_absent engine k b ty cb dt direction km :
  well_formed km = true ->
  registered km k = true ->
  callback_absent ty cb = true ->
  exists what km',
    bindKey engine k b ty cb dt direction km = (Raise (ConfigError what), km').
Proof.
  intros Hwf Hreg Hcb.
  destruct (subscribe_absent k b ty cb Hcb) as (what & Hwhat).
  exists what.
  apply bindKey_subscribe_raises; assumption.
Qed.

(** ** C6: when [bindKey] raises *)

(** C6 (amended).  On a well-formed manager, for a registered control
    and a device type that names a device class (or is None), [bindKey]
    raises exactly in two cases.  The callback is absent: None for the
    kinds "pressed" and "released"; None, or a list or tuple that does not
    give two callbacks that are not None, for "pressed and released"; the
    exception is then the one for the missing callback.  Or the kind is
    "pressed" or "released", the callback is a list or tuple and there is
    an input to bind: [accept] then raises AssertionError.  A "held"
    binding never raises. *)
Theorem bindKey_raises_for_callback :
  forall (engine : Engine) (km : KeyMapper) k b ty cb dt direction,
    well_formed km = true ->
    registered km k = true ->
    valid_deviceType dt = true ->
    ((exists e km', bindKey engine k b ty cb dt direction km = (Raise e, km'))
     <-> (callback_absent ty cb = true
          \/ (callback_missing ty cb = true /\ b <> None)))
    /\ (forall e km',
          bindKey engine k b ty cb dt direction km = (Raise e, km') ->
          if callback_absent ty cb then exists what, e = ConfigError what
          else e = AssertionError)
    /\ (ty = KEYMAP_HELD_KEY ->
        exists km', bindKey engine k b ty cb dt direction km = (Val tt, km')).
Proof.
  intros engine km k b ty cb dt direction Hwf Hreg Hdt.
  destruct (callback_absent ty cb) eqn:Habs.
  { destruct (bindKey_absent engine k b ty cb dt direction km Hwf Hreg Habs)
      as (what & km' & Hrun).
    split; [|split].
    - split; [left; reflexivity|]. intros _. exists (ConfigError what), km'. exact Hrun.
    - intros e km0 He. rewrite Hrun in He. injection He as <- _. exists what. reflexivity.
    - intros ->. unfold callback_absent in Habs. simpl in Habs. discriminate. }
  destruct (callback_missing ty cb) eqn:Hcb.
  - pose proof (fun km2 => subscribe_refused k b ty cb km2 Habs Hcb) as Hsub.
    destruct b as [b|].
    + destruct (bindKey_subscribe_raises engine k (Some b) ty cb dt direction km
                  AssertionError Hwf Hreg Hsub) as (km' & Hrun).
      split; [|split].
      * split; [|intros _; exists AssertionError, km'; exact Hrun].
        intros _. right. split; [reflexivity | discriminate].
      * intros e km0 He. rewrite Hrun in He. injection He as <- _. reflexivity.
      * intros ->. unfold callback_missing in Hcb. simpl in Hcb. discriminate.
    + assert (Hret : forall km2, exists km3,
                 subscribe k None ty cb km2 = (Val tt, km3)
                 /\ keyBindings km3 = keyBindings km2
                 /\ axesInUse km3 = axesInUse km2
                 /\ deadZoneDefaultValue km3 = deadZoneDefaultValue km2).
      { intros km2. exists km2. split; [exact (Hsub km2) | repeat split]. }
      destruct (bindKey_view_subscribed engine k None ty cb dt direction km Hwf Hreg Hdt
                  Hret) as (km' & Hrun & _).
      split; [|split].
      * split.
        -- intros (e & km0 & He). rewrite Hrun in He. discriminate.
        -- intros [H|[_ H]]; [discriminate | contradiction].
      * intros e km0 He. rewrite Hrun in He. discriminate.
      * intros _. exists km'. exact Hrun.
  - destruct (bindKey_view engine k b ty cb dt direction km Hwf Hreg Hdt Hcb)
      as (km' & Hrun & _).
    split; [|split].
    + split.
      * intros (e & km0 & He). rewrite Hrun in He. discriminate.
      * intros [H|[H _]]; discriminate.
    + intros e km0 He. rewrite Hrun in He. discriminate.
    + intros _. exists km'. exact Hrun.
Qed.

Lemma bindKey_raises_for_callback_example :
  let run ty cb b :=
    bindKey example_engine KEY_MENU b ty cb (Some "gamepad") 0 example_registered in
  let raises_as_stated ty cb b :=
    ((exists e km', run ty cb b = (Raise e, km'))
     <-> (callback_absent ty cb = true \/ (callback_missing ty cb = true /\ b <> None)))
    /\ (forall e km',
          run ty cb b = (Raise e, km') ->
          if callback_absent ty cb then exists what, e = ConfigError what
          else e = AssertionError)
    /\ (ty = KEYMAP_HELD_KEY -> exists km', run ty cb b = (Val tt, km')) in
  (raises_as_stated KEYMAP_EVENT_RELEASED CbNone (Some "start")
   /\ fst (run KEYMAP_EVENT_RELEASED CbNone (Some "start"))
      = Raise (ConfigError MissingReleased))
  /\ (raises_as_stated KEYMAP_EVENT_PRESSED_AND_RELEASED (CbSeq [Some "down"; None])
                       (Some "start")
      /\ fst (run KEYMAP_EVENT_PRESSED_AND_RELEASED (CbSeq [Some "down"; None])
                  (Some "start"))
         = Raise (ConfigError MissingPairSecond))
  /\ (raises_as_stated KEYMAP_EVENT_PRESSED (CbSeq [Some "down"; Some "up"]) (Some "start")
      /\ fst (run KEYMAP_EVENT_PRESSED (CbSeq [Some "down"; Some "up"]) (Some "start"))
         = Raise AssertionError)
  /\ (raises_as_stated KEYMAP_EVENT_PRESSED (CbSeq [Some "down"; Some "up"]) None
      /\ fst (run KEYMAP_EVENT_PRESSED (CbSeq [Some "down"; Some "up"]) None) = Val tt)
  /\ (raises_as_stated KEYMAP_EVENT_PRESSED (CbFun "down") (Some "start")
      /\ fst (run KEYMAP_EVENT_PRESSED (CbFun "down") (Some "start")) = Val tt)
  /\ (raises_as_stated KEYMAP_HELD_KEY CbNone (Some "start")
      /\ fst (run KEYMAP_HELD_KEY CbNone (Some "start")) = Val tt).
Proof.
  cbv zeta.
  split.
  { split; [apply (bindKey_raises_for_callback example_engine example_registered KEY_MENU
               (Some "start") KEYMAP_EVENT_RELEASED CbNone
               (Some "gamepad") 0); reflexivity
         | vm_compute; reflexivity]. }
  split.
  { split; [apply (bindKey_raises_for_callback example_engine example_registered KEY_MENU
               (Some "start") KEYMAP_EVENT_PRESSED_AND_RELEASED (CbSeq [Some "down"; None])
               (Some "gamepad") 0); reflexivity
         | vm_compute; reflexivity]. }
  split.
  { split; [apply (bindKey_raises_for_callback example_engine example_registered KEY_MENU
               (Some "start") KEYMAP_EVENT_PRESSED (CbSeq [Some "down"; Some "up"])
               (Some "gamepad") 0); reflexivity
         | vm_compute; reflexivity]. }
  split.
  { split; [apply (bindKey_raises_for_callback example_engine example_registered KEY_MENU
               None KEYMAP_EVENT_PRESSED (CbSeq [Some "down"; Some "up"])
               (Some "gamepad") 0); reflexivity
         | vm_compute; reflexivity]. }
  split.
  { split; [apply (bindKey_raises_for_callback example_engine example_registered KEY_MENU
               (Some "start") KEYMAP_EVENT_PRESSED (CbFun "down")
               (Some "gamepad") 0); reflexivity
         | vm_compute; reflexivity]. }
  split; [apply (bindKey_raises_for_callback example_engine example_registered KEY_MENU
               (Some "start") KEYMAP_HELD_KEY CbNone
               (Some "gamepad") 0); reflexivity
         | vm_compute; reflexivity].
Defined.

(** C6 as stated fails: [bindKey] also raises when no callback is
    missing.  For a control that is not registered it raises KeyError,
    also with the kind "held"; for a device type that names no device
    class it raises AttributeError from [addUsedDevice], though the
    callback of the kind "pressed" is supplied. *)
Lemma bindKey_raises_with_callback_supplied :
  callback_missing KEYMAP_HELD_KEY CbNone = false
  /\ fst (bindKey example_engine "fire" (Some "face_b") KEYMAP_HELD_KEY CbNone
                  (Some "gamepad") 0 example_registered)
     = Raise (KeyError (Some "fire"))
  /\ callback_missing KEYMAP_EVENT_PRESSED (CbFun "collect") = false
  /\ fst (bindKey example_engine KEY_COLLECT (Some "trigger") KEYMAP_EVENT_PRESSED
                  (CbFun "collect") (Some "joystick") 0 example_registered)
     = Raise (AttributeError "joystick").
Proof. vm_compute. repeat split; reflexivity. Qed.

(** ** C4: binding an input, then clearing it with direction 0 *)

Lemma dict_get_unbind_in k ks d :
  dict_get k (unbind_in ks d)
  = if List.existsb (fun k0 => String.eqb k0 k) ks
    then option_map KeyBinding_unbind (dict_get k d) else dict_get k d.
Proof.
  induction d as [|[k0 v0] d IH]; cbn [unbind_in List.map dict_get fst snd].
  - destruct (List.existsb _ ks); reflexivity.
  - fold (unbind_in ks d).
    destruct (String.eqb_spec k k0) as [->|Hne].
    + destruct (List.existsb (fun k1 => String.eqb k1 k0) ks);
        cbn [dict_get fst snd]; rewrite String.eqb_refl; reflexivity.
    + destruct (List.existsb (fun k1 => String.eqb k1 k0) ks);
        cbn [dict_get fst snd];
        (destruct (String.eqb_spec k k0) as [Heq|_]; [contradiction|]); exact IH.
Qed.

Lemma keys_bound_to_In b d k kb :
  In (k, kb) d -> binding kb = Some b ->
  List.existsb (fun k0 => String.eqb k0 k) (keys_bound_to b d) = true.
Proof.
  intros Hin Hb. apply List.existsb_exists. exists k. split; [|apply String.eqb_refl].
  unfold keys_bound_to. apply List.in_map_iff. exists (k, kb). split; [reflexivity|].
  apply List.filter_In. split; [exact Hin|].
  cbn [snd]. rewrite Hb. cbn [option_eqb]. apply String.eqb_refl.
Qed.

(** After [bindKey], the control is bound as asked. *)
Lemma bind_view_bound k b dt direction v :
  List.existsb (String.eqb k) (List.map fst (fst v)) = true ->
  exists kb, dict_get k (fst (bind_view k b dt direction v)) = Some kb
             /\ binding kb = b /\ deviceType kb = dt /\ axisDirection kb = direction.
Proof.
  intros Hreg. unfold bind_view.
  assert (Hreg1 : List.existsb (String.eqb k)
                    (List.map fst (fst (clear_view b direction v))) = true)
    by (rewrite clear_view_keys; exact Hreg).
  destruct (proj1 (dict_get_registered _ _) Hreg1) as [old Hold]. rewrite Hold.
  cbn [fst]. rewrite dict_get_update, String.eqb_refl.
  assert (Hreg2 : List.existsb (String.eqb k)
                    (List.map fst (fst (clear_view (binding old) (axisDirection old)
                                          (clear_view b direction v)))) = true)
    by (rewrite clear_view_keys; exact Hreg1).
  destruct (proj1 (dict_get_registered _ _) Hreg2) as [old2 Hold2]. rewrite Hold2.
  eexists. split; [reflexivity|]. repeat split.
Qed.

(** C4 (amended).  On a well-formed manager, for a registered control
    [c] and an input that is not an axis input, [bindKey(c, input, ...)]
    with the callback its kind needs returns, [clearKeyEvent(input, 0)]
    after it returns, and [c] is then unbound: its binding is None. *)
Theorem bindKey_then_clearKeyEvent_unbinds :
  forall (engine : Engine) (km : KeyMapper) c input ty cb dt direction,
    is_axis_binding input = false ->
    well_formed km = true ->
    registered km c = true ->
    valid_deviceType dt = true ->
    callback_missing ty cb = false ->
    exists km1 km2 kb,
      bindKey engine c (Some input) ty cb dt direction km = (Val tt, km1)
      /\ clearKeyEvent (Some input) 0 km1 = (Val tt, km2)
      /\ dict_get c (keyBindings km2) = Some kb
      /\ binding kb = None.
Proof.
  intros engine km c input ty cb dt direction Haxis Hwf Hreg Hdt Hcb.
  destruct (bindKey_view engine c (Some input) ty cb dt direction km Hwf Hreg Hdt Hcb)
    as (km1 & H1 & Hv1 & _ & Hwf1).
  destruct (clearKeyEvent_view (Some input) 0 km1 Hwf1) as (km2 & H2 & Hv2 & _ & _).
  destruct (bind_view_bound c (Some input) dt direction (view km) Hreg)
    as (kb & Hkb & Hb & _).
  rewrite <- Hv1 in Hkb. cbn [view fst] in Hkb.
  exists km1, km2, (KeyBinding_unbind kb). split; [exact H1|]. split; [exact H2|].
  split; [|reflexivity].
  change (keyBindings km2) with (fst (view km2)). rewrite Hv2.
  unfold clear_view. rewrite Haxis. cbn [fst view].
  rewrite dict_get_unbind_in.
  rewrite (keys_bound_to_In input (keyBindings km1) c kb (dict_get_In _ _ _ Hkb) Hb).
  rewrite Hkb. reflexivity.
Qed.

Lemma bindKey_then_clearKeyEvent_unbinds_example :
  exists km1 km2 kb,
    bindKey example_engine KEY_THRUST (Some "face_b") KEYMAP_HELD_KEY CbNone
            (Some "gamepad") 0 example_registered = (Val tt, km1)
    /\ clearKeyEvent (Some "face_b") 0 km1 = (Val tt, km2)
    /\ dict_get KEY_THRUST (keyBindings km2) = Some kb
    /\ binding kb = None.
Proof.
  apply (bindKey_then_clearKeyEvent_unbinds example_engine example_registered
           KEY_THRUST "face_b" KEYMAP_HELD_KEY CbNone (Some "gamepad") 0);
    reflexivity.
Defined.

(** C4 as stated fails on an axis input: the thrust control bound to
    the positive direction of the left stick's vertical axis is still
    bound to it after [clearKeyEvent("Axis.left_y", 0)]. *)
Lemma bindKey_then_clearKeyEvent_axis_still_bound :
  let after :=
    (bindKey example_engine KEY_THRUST (Some "Axis.left_y") KEYMAP_HELD_KEY CbNone
             (Some "gamepad") 1 ;;;
     clearKeyEvent (Some "Axis.left_y") 0) example_registered in
  fst after = Val tt
  /\ binding_of (snd after) KEY_THRUST = Some "Axis.left_y".
Proof. vm_compute. split; reflexivity. Qed.

(** ** C3: when axis entries are pruned *)

Lemma forallb_filter_same {A} (f : A -> bool) (l : list A) :
  List.forallb f (List.filter f l) = true.
Proof.
  induction l as [|x l IH]; [reflexivity|]. cbn [List.filter].
  destruct (f x) eqn:Hx; [|exact IH]. cbn [List.forallb]. rewrite Hx. exact IH.
Qed.

Lemma axes_in_use_claims km :
  axes_in_use km = List.forallb claimed (List.map claims (axesInUse km)).
Proof.
  unfold axes_in_use. induction (axesInUse km) as [|a l IH]; [reflexivity|].
  cbn [List.map List.forallb]. rewrite IH, axis_in_use_claimed. reflexivity.
Qed.

Lemma clear_view_claimed b direction v :
  (b <> None \/ List.forallb claimed (snd v) = true) ->
  List.forallb claimed (snd (clear_view b direction v)) = true.
Proof.
  unfold clear_view. destruct b as [b|].
  - intros _. destruct (is_axis_binding b); cbn [snd]; apply forallb_filter_same.
  - intros [H|H]; [contradiction | exact H].
Qed.

Lemma claim_view_claimed k direction c :
  direction <> 0 -> claimed (claim_view k direction c) = true.
Proof.
  intros Hd. destruct c as [[x p] n]. unfold claim_view.
  destruct (0 <? direction) eqn:Hpos; [reflexivity|].
  destruct (direction <? 0) eqn:Hneg; [destruct p; reflexivity|].
  apply Z.ltb_ge in Hpos. apply Z.ltb_ge in Hneg. lia.
Qed.

Lemma bound_claims_claimed k b dt direction cs :
  List.forallb claimed cs = true ->
  is_axis_binding b = false \/ direction <> 0 ->
  List.forallb claimed (bound_claims k (Some b) dt direction cs) = true.
Proof.
  intros Hcs Hor. unfold bound_claims. destruct dt as [dt|]; [|exact Hcs].
  destruct (is_axis_binding b) eqn:Haxis; [|exact Hcs].
  destruct Hor as [Hor|Hdir]; [discriminate|]. cbv zeta.
  assert (Hupd : List.forallb claimed
                   (List.map (fun c : Claim => if String.eqb (fst (fst c)) (string_from 5 b)
                                       then claim_view k direction c else c) cs) = true).
  { apply List.forallb_forall. intros c Hc. apply List.in_map_iff in Hc.
    destruct Hc as (c0 & <- & Hc0).
    destruct (String.eqb (fst (fst c0)) (string_from 5 b)).
    - apply claim_view_claimed. exact Hdir.
    - rewrite List.forallb_forall in Hcs. exact (Hcs c0 Hc0). }
  destruct (List.existsb _ cs); [exact Hupd|].
  rewrite List.forallb_app. apply andb_true_intro. split; [exact Hupd|].
  cbn [List.forallb]. rewrite Bool.andb_true_r. apply claim_view_claimed. exact Hdir.
Qed.

(** After [bindKey] of the negative direction of an axis, the axis has
    an entry, and each of its entries has the negative direction bound. *)
Lemma bound_claims_negative k b dt cs :
  is_axis_binding b = true ->
  (exists c, In c (bound_claims k (Some b) (Some dt) (-1) cs)
             /\ fst (fst c) = string_from 5 b)
  /\ (forall c, In c (bound_claims k (Some b) (Some dt) (-1) cs) ->
                fst (fst c) = string_from 5 b -> snd c = Some k).
Proof.
  intros Haxis. unfold bound_claims. rewrite Haxis. cbv zeta.
  set (s := string_from 5 b).
  set (upd := fun c : Claim => if String.eqb (fst (fst c)) s then claim_view k (-1) c else c).
  assert (Hupd : forall c, In c (List.map upd cs) -> fst (fst c) = s -> snd c = Some k).
  { intros c Hc Hs. apply List.in_map_iff in Hc. destruct Hc as ([[x p] n] & <- & Hc0).
    unfold upd in *. cbn [fst snd] in *.
    destruct (String.eqb_spec x s) as [->|Hne]; [reflexivity|].
    cbn [fst] in Hs. contradiction. }
  destruct (List.existsb _ cs) eqn:Hex.
  - split; [|exact Hupd].
    apply List.existsb_exists in Hex. destruct Hex as ([[x p] n] & Hin & Heq).
    cbn [fst] in Heq. apply String.eqb_eq in Heq. subst x.
    exists (upd (s, p, n)). split; [apply List.in_map; exact Hin|].
    unfold upd. cbn [fst]. rewrite String.eqb_refl. reflexivity.
  - split.
    + exists (claim_view k (-1) (s, None, None)). split; [|reflexivity].
      apply List.in_or_app. right. left. reflexivity.
    + intros c Hc Hs. apply List.in_app_or in Hc. destruct Hc as [Hc|[<-|[]]].
      * exact (Hupd c Hc Hs).
      * reflexivity.
Qed.

(** Clearing the positive direction keeps such entries, with no positive
    direction bound; clearing the negative direction then removes them. *)
Lemma clear_positive_keeps s k cs :
  (exists c, In c cs /\ fst (fst c) = s) ->
  (forall c, In c cs -> fst (fst c) = s -> snd c = Some k) ->
  (exists c, In c (List.filter claimed (cleared_claims s 1 cs)) /\ fst (fst c) = s)
  /\ (forall c, In c (List.filter claimed (cleared_claims s 1 cs)) ->
                fst (fst c) = s -> snd (fst c) = None).
Proof.
  intros ([[x p] n] & Hin & Hx) Hall. cbn [fst] in Hx. subst x.
  pose proof (Hall _ Hin eq_refl) as Hn. cbn [snd] in Hn. subst n.
  split.
  - exists (fst (clear_claim s 1 (s, p, Some k))). split.
    + apply List.filter_In. split.
      * unfold cleared_claims. apply List.in_map_iff. exists (s, p, Some k).
        split; [reflexivity | exact Hin].
      * unfold clear_claim. rewrite String.eqb_refl. cbn. destruct p; reflexivity.
    + unfold clear_claim. rewrite String.eqb_refl. cbn. destruct p; reflexivity.
  - intros c Hc Hs. apply List.filter_In in Hc. destruct Hc as [Hc _].
    unfold cleared_claims in Hc. apply List.in_map_iff in Hc.
    destruct Hc as ([[x p'] n'] & <- & _).
    unfold clear_claim in *.
    destruct (String.eqb_spec x s) as [->|Hne].
    + cbn. destruct p'; reflexivity.
    + cbn [fst] in Hs. contradiction.
Qed.

Lemma clear_negative_removes s cs :
  (forall c, In c cs -> fst (fst c) = s -> snd (fst c) = None) ->
  forall c, In c (List.filter claimed (cleared_claims s (-1) cs)) -> fst (fst c) <> s.
Proof.
  intros Hall c Hc Hs. apply List.filter_In in Hc. destruct Hc as [Hc Hclaimed].
  unfold cleared_claims in Hc. apply List.in_map_iff in Hc.
  destruct Hc as ([[x p] n] & <- & Hin).
  unfold clear_claim in *.
  destruct (String.eqb_spec x s) as [->|Hne].
  - pose proof (Hall _ Hin eq_refl) as Hp. cbn [fst snd] in Hp. subst p.
    cbn in Hclaimed. destruct n; cbn in Hclaimed; discriminate.
  - cbn [fst] in Hs. contradiction.
Qed.

Lemma bind_view_keys k b dt direction v :
  List.map fst (fst (bind_view k b dt direction v)) = List.map fst (fst v).
Proof.
  unfold bind_view.
  destruct (dict_get k (fst (clear_view b direction v))) as [old|].
  - cbn [fst]. rewrite dict_update_keys, !clear_view_keys. reflexivity.
  - apply clear_view_keys.
Qed.

Lemma bind_view_claims k b dt direction v :
  List.existsb (String.eqb k) (List.map fst (fst v)) = true ->
  exists cs,
    snd (bind_view k (Some b) dt direction v) = bound_claims k (Some b) dt direction cs
    /\ List.forallb claimed cs = true.
Proof.
  intros Hreg. unfold bind_view.
  assert (Hreg1 : List.existsb (String.eqb k)
                    (List.map fst (fst (clear_view (Some b) direction v))) = true)
    by (rewrite clear_view_keys; exact Hreg).
  destruct (proj1 (dict_get_registered _ _) Hreg1) as [old Hold]. rewrite Hold.
  cbn [snd]. eexists. split; [reflexivity|].
  apply clear_view_claimed. right. apply clear_view_claimed. left. discriminate.
Qed.

Lemma in_claims_axis km s :
  (exists a, In a (axesInUse km) /\ axis a = s)
  <-> (exists c, In c (List.map claims (axesInUse km)) /\ fst (fst c) = s).
Proof.
  split.
  - intros (a & Ha & Hs). exists (claims a). split; [apply List.in_map; exact Ha | exact Hs].
  - intros (c & Hc & Hs). apply List.in_map_iff in Hc. destruct Hc as (a & <- & Ha).
    exists a. split; [exact Ha | exact Hs].
Qed.

Lemma clear_view_axis_claims b direction v :
  is_axis_binding b = true ->
  snd (clear_view (Some b) direction v)
  = List.filter claimed (cleared_claims (string_from 5 b) direction (snd v)).
Proof. intros H. unfold clear_view. rewrite H. reflexivity. Qed.

(** C3 (amended).  On a well-formed manager:
    - [clearKeyEvent] of a string input returns and leaves every axis
      entry with at least one direction bound: the entries left are those
      that have a direction bound once the requested direction of the
      axis has been cleared, no other is removed;
    - [bindKey] of an input that is not an axis, or with an axis
      direction other than 0, returns and leaves every axis entry with at
      least one direction bound;
    - after binding the positive and the negative direction of an axis to
      two controls, clearing the positive direction leaves an entry for the
      axis, and clearing the negative direction as well leaves none. *)
Theorem axis_entries_pruned_when_unbound :
  forall (engine : Engine) (km : KeyMapper),
    well_formed km = true ->
    (forall b direction,
        exists km',
          clearKeyEvent (Some b) direction km = (Val tt, km')
          /\ axes_in_use km' = true
          /\ List.map claims (axesInUse km')
             = List.filter claimed
                 (if is_axis_binding b
                  then cleared_claims (string_from 5 b) direction
                         (List.map claims (axesInUse km))
                  else List.map claims (axesInUse km)))
    /\ (forall k b ty cb dt direction,
           registered km k = true ->
           valid_deviceType dt = true ->
           callback_missing ty cb = false ->
           is_axis_binding b = false \/ direction <> 0 ->
           exists km',
             bindKey engine k (Some b) ty cb dt direction km = (Val tt, km')
             /\ axes_in_use km' = true)
    /\ (forall P N b tyP cbP dtP tyN cbN dtN,
           is_axis_binding b = true ->
           registered km P = true ->
           registered km N = true ->
           valid_deviceType (Some dtP) = true ->
           valid_deviceType (Some dtN) = true ->
           callback_missing tyP cbP = false ->
           callback_missing tyN cbN = false ->
           exists km1 km2 km3 km4,
             bindKey engine P (Some b) tyP cbP (Some dtP) 1 km = (Val tt, km1)
             /\ bindKey engine N (Some b) tyN cbN (Some dtN) (-1) km1 = (Val tt, km2)
             /\ clearKeyEvent (Some b) 1 km2 = (Val tt, km3)
             /\ clearKeyEvent (Some b) (-1) km3 = (Val tt, km4)
             /\ (exists a, In a (axesInUse km3) /\ axis a = string_from 5 b)
             /\ (forall a, In a (axesInUse km4) -> axis a <> string_from 5 b)).
Proof.
  intros engine km Hwf. split; [|split].
  - intros b direction.
    destruct (clearKeyEvent_view (Some b) direction km Hwf) as (km' & Hrun & Hv & _ & _).
    exists km'. split; [exact Hrun|].
    assert (Hcl : List.map claims (axesInUse km')
                  = snd (clear_view (Some b) direction (view km)))
      by (rewrite <- Hv; reflexivity).
    split.
    + rewrite axes_in_use_claims, Hcl. apply clear_view_claimed. left. discriminate.
    + rewrite Hcl. unfold clear_view. destruct (is_axis_binding b); reflexivity.
  - intros k b ty cb dt direction Hreg Hdt Hcb Hor.
    destruct (bindKey_view engine k (Some b) ty cb dt direction km Hwf Hreg Hdt Hcb)
      as (km' & Hrun & Hv & _ & _).
    exists km'. split; [exact Hrun|].
    rewrite axes_in_use_claims.
    change (List.map claims (axesInUse km')) with (snd (view km')). rewrite Hv.
    destruct (bind_view_claims k b dt direction (view km) Hreg) as (cs & -> & Hcs).
    apply bound_claims_claimed; assumption.
  - intros P N b tyP cbP dtP tyN cbN dtN Haxis HP HN HdtP HdtN HcbP HcbN.
    destruct (bindKey_view engine P (Some b) tyP cbP (Some dtP) 1 km Hwf HP HdtP HcbP)
      as (km1 & H1 & Hv1 & _ & Hwf1).
    assert (HN1 : registered km1 N = true).
    { unfold registered. change (keyBindings km1) with (fst (view km1)).
      rewrite Hv1, bind_view_keys. exact HN. }
    destruct (bindKey_view engine N (Some b) tyN cbN (Some dtN) (-1) km1 Hwf1 HN1 HdtN HcbN)
      as (km2 & H2 & Hv2 & _ & Hwf2).
    destruct (clearKeyEvent_view (Some b) 1 km2 Hwf2) as (km3 & H3 & Hv3 & _ & Hwf3).
    destruct (clearKeyEvent_view (Some b) (-1) km3 Hwf3) as (km4 & H4 & Hv4 & _ & _).
    exists km1, km2, km3, km4.
    split; [exact H1|]. split; [exact H2|]. split; [exact H3|]. split; [exact H4|].
    destruct (bind_view_claims N b (Some dtN) (-1) (view km1) HN1) as (cs & Hcs & _).
    destruct (bound_claims_negative N b dtN cs Haxis) as [HA HB].
    rewrite <- Hcs, <- Hv2 in HA, HB. cbn [view snd] in HA, HB.
    destruct (clear_positive_keeps (string_from 5 b) N _ HA HB) as [HA3 HB3].
    assert (Hcl3 : List.map claims (axesInUse km3)
                   = List.filter claimed
                       (cleared_claims (string_from 5 b) 1 (List.map claims (axesInUse km2)))).
    { change (List.map claims (axesInUse km3)) with (snd (view km3)).
      rewrite Hv3. apply clear_view_axis_claims. exact Haxis. }
    assert (Hcl4 : List.map claims (axesInUse km4)
                   = List.filter claimed
                       (cleared_claims (string_from 5 b) (-1) (List.map claims (axesInUse km3)))).
    { change (List.map claims (axesInUse km4)) with (snd (view km4)).
      rewrite Hv4. apply clear_view_axis_claims. exact Haxis. }
    rewrite <- Hcl3 in HA3, HB3.
    split.
    + apply in_claims_axis. exact HA3.
    + intros a Ha Hs.
      apply (clear_negative_removes (string_from 5 b) _ HB3 (claims a)); [|exact Hs].
      rewrite <- Hcl4. apply List.in_map. exact Ha.
Qed.

Lemma axis_entries_pruned_when_unbound_example :
  exists km1 km2 km3 km4,
    bindKey example_engine KEY_TURN_RIGHT (Some "Axis.left_y") KEYMAP_HELD_KEY CbNone
            (Some "gamepad") 1 example_registered = (Val tt, km1)
    /\ bindKey example_engine KEY_TURN_LEFT (Some "Axis.left_y") KEYMAP_HELD_KEY CbNone
               (Some "gamepad") (-1) km1 = (Val tt, km2)
    /\ clearKeyEvent (Some "Axis.left_y") 1 km2 = (Val tt, km3)
    /\ clearKeyEvent (Some "Axis.left_y") (-1) km3 = (Val tt, km4)
    /\ (exists a, In a (axesInUse km3) /\ axis a = string_from 5 "Axis.left_y")
    /\ (forall a, In a (axesInUse km4) -> axis a <> string_from 5 "Axis.left_y").
Proof.
  apply (proj2 (proj2 (axis_entries_pruned_when_unbound example_engine example_registered
                         eq_refl))
           KEY_TURN_RIGHT KEY_TURN_LEFT "Axis.left_y"
           KEYMAP_HELD_KEY CbNone "gamepad" KEYMAP_HELD_KEY CbNone "gamepad");
    reflexivity.
Defined.

(** C3 as stated fails for [loadKeyMapping]: loading a profile that
    holds an axis record and no key record leaves an axis entry with
    neither direction bound. *)
Lemma loadKeyMapping_leaves_unbound_axis_entry :
  let after :=
    loadKeyMapping (engine_loading [] [("left_y", 0.25%float)]) example_game in
  axes_in_use example_game = true
  /\ fst after = Val tt
  /\ List.map claims (axesInUse (snd after)) = [("left_y", None, None)]
  /\ axes_in_use (snd after) = false.
Proof. vm_compute. repeat split; reflexivity. Qed.

(** ** C5: an input shared by two conflict groups *)

(** C5, evaluated.  "jump" and "confirm" have masks 1 and 2, which have
    no bit in common, and "jump" is bound to the space bar.  Binding
    "confirm" to the space bar leaves "jump" unbound, by [bindKey] itself
    and through the dialogue, where no conflict is reported. *)
Theorem bindKey_unbinds_other_group :
  hasBitsInCommon 1 2 = false
  /\ List.map (fun p => (fst p, groupID (snd p), binding (snd p))) (keyBindings two_groups)
     = [("jump", 1, Some "space"); ("confirm", 2, Some "enter")]
  /\ (let after :=
        bindKey two_groups_engine "confirm" (Some "space") KEYMAP_HELD_KEY CbNone
                (Some "keyboard") 0 two_groups in
      fst after = Val tt
      /\ binding_of (snd after) "confirm" = Some "space"
      /\ binding_of (snd after) "jump" = None)
  /\ (let after :=
        (getNewBinding two_groups_engine "confirm" ;;;
         keyInterception None "space" 0%float ;;;
         keyRelease two_groups_engine "space") two_groups in
      fst after = Val tt
      /\ conflictDialogue (snd after) = false
      /\ currentConflict (snd after) = None
      /\ binding_of (snd after) "confirm" = Some "space"
      /\ binding_of (snd after) "jump" = None).
Proof. vm_compute. repeat split; reflexivity. Qed.

(** ** C1: the conflict check of [keyRelease] *)

Lemma option_eqb_string_eq (a b : option string) :
  option_eqb String.eqb a b = true <-> a = b.
Proof.
  destruct a as [x|], b as [y|]; cbn [option_eqb];
    try (split; [discriminate | intros [=]]); [|split; reflexivity].
  rewrite String.eqb_eq. split; [intros ->; reflexivity | intros [= ->]; reflexivity].
Qed.

Lemma hasBitsInCommon_spec a b : hasBitsInCommon a b = true <-> Z.land a b <> 0.
Proof.
  unfold hasBitsInCommon. rewrite Bool.negb_true_iff, Z.eqb_neq. reflexivity.
Qed.

(** The loop over the axis entries: it leaves [conflict] as it was, or
    sets it to the control; it sets it when the control claims the
    direction. *)
Lemma axis_conflict_cases k value axes conflict :
  axis_conflict k value axes conflict = conflict
  \/ (axis_conflict k value axes conflict = Some k /\ claims_direction axes k value).
Proof.
  revert conflict. induction axes as [|a axes IH]; intros conflict; [left; reflexivity|].
  cbn [axis_conflict List.fold_left].
  match goal with
  | |- context [List.fold_left ?f axes ?acc] =>
      change (List.fold_left f axes acc) with (axis_conflict k value axes acc);
      set (next := acc)
  end.
  assert (Hnext : next = conflict
                  \/ (next = Some k
                      /\ ((keyDescriptionPositive a = Some k /\ 0 < value)
                          \/ (keyDescriptionNegative a = Some k /\ value < 0)))).
  { unfold next.
    destruct (option_eqb String.eqb (keyDescriptionNegative a) (Some k)) eqn:Hn.
    - destruct (value <? 0) eqn:Hv.
      + right. split; [reflexivity|]. right.
        split; [apply option_eqb_string_eq; exact Hn | apply Z.ltb_lt; exact Hv].
      + destruct (option_eqb String.eqb (keyDescriptionPositive a) (Some k)) eqn:Hp;
          [|left; reflexivity].
        destruct (0 <? value) eqn:Hv'; [|left; reflexivity].
        right. split; [reflexivity|]. left.
        split; [apply option_eqb_string_eq; exact Hp | apply Z.ltb_lt; exact Hv'].
    - destruct (option_eqb String.eqb (keyDescriptionPositive a) (Some k)) eqn:Hp;
        [|left; reflexivity].
      destruct (0 <? value) eqn:Hv'; [|left; reflexivity].
      right. split; [reflexivity|]. left.
      split; [apply option_eqb_string_eq; exact Hp | apply Z.ltb_lt; exact Hv']. }
  destruct (IH next) as [Hsame|[Hk (a' & Ha' & Hclaim)]].
  - rewrite Hsame. destruct Hnext as [->|[-> Hclaim]]; [left; reflexivity|].
    right. split; [reflexivity|]. exists a. split; [left; reflexivity | exact Hclaim].
  - right. split; [exact Hk|]. exists a'. split; [right; exact Ha' | exact Hclaim].
Qed.

Lemma axis_conflict_set k value axes :
  axis_conflict k value axes (Some k) = Some k.
Proof.
  destruct (axis_conflict_cases k value axes (Some k)) as [H|[H _]]; exact H.
Qed.

Lemma axis_conflict_claims k value axes conflict :
  claims_direction axes k value -> axis_conflict k value axes conflict = Some k.
Proof.
  revert conflict. induction axes as [|a axes IH]; intros conflict (a' & Ha' & Hclaim).
  - destruct Ha'.
  - cbn [axis_conflict List.fold_left].
    match goal with
    | |- context [List.fold_left ?f axes ?acc] =>
        change (List.fold_left f axes acc) with (axis_conflict k value axes acc)
    end.
    destruct Ha' as [<-|Ha'].
    + replace (if option_eqb String.eqb (keyDescriptionNegative a) (Some k)
               then if value <? 0 then Some k
                    else if option_eqb String.eqb (keyDescriptionPositive a) (Some k)
                         then if 0 <? value then Some k else conflict else conflict
               else if option_eqb String.eqb (keyDescriptionPositive a) (Some k)
                    then if 0 <? value then Some k else conflict else conflict)
        with (Some k); [apply axis_conflict_set|].
      destruct Hclaim as [[Hp Hv]|[Hn Hv]].
      * apply option_eqb_string_eq in Hp. apply Z.ltb_lt in Hv. rewrite Hp, Hv.
        destruct (option_eqb String.eqb (keyDescriptionNegative a) (Some k));
          [destruct (value <? 0)|]; reflexivity.
      * apply option_eqb_string_eq in Hn. apply Z.ltb_lt in Hv. rewrite Hn, Hv.
        reflexivity.
    + apply IH. exists a'. split; [exact Ha' | exact Hclaim].
Qed.

Lemma axis_conflict_monotone k value axes c :
  exists c', axis_conflict k value axes (Some c) = Some c'.
Proof.
  destruct (axis_conflict_cases k value axes (Some c)) as [H|[H _]]; eauto.
Qed.

Lemma find_conflict_fold candidate kbb group value axes d :
  find_conflict candidate kbb group value axes d
  = List.fold_left (conflict_step candidate kbb group value axes) d None.
Proof. reflexivity. Qed.

Lemma conflict_step_cases candidate kbb group value axes conflict k kb :
  conflict_step candidate kbb group value axes conflict (k, kb) = conflict
  \/ (conflict_step candidate kbb group value axes conflict (k, kb) = Some k
      /\ binding kb = Some candidate
      /\ k <> kbb
      /\ Z.land (groupID kb) group <> 0
      /\ (is_axis_binding candidate = true -> claims_direction axes k value)).
Proof.
  unfold conflict_step. cbn [fst snd].
  destruct (option_eqb String.eqb (binding kb) (Some candidate)) eqn:Hb; [|left; reflexivity].
  destruct (String.eqb_spec k kbb) as [->|Hne]; [left; reflexivity|].
  destruct (hasBitsInCommon (groupID kb) group) eqn:Hg; [|left; reflexivity].
  cbn [negb andb].
  apply option_eqb_string_eq in Hb. apply hasBitsInCommon_spec in Hg.
  destruct (is_axis_binding candidate).
  - destruct (axis_conflict_cases k value axes conflict) as [->|[-> Hclaim]];
      [left; reflexivity|].
    right. repeat split; try assumption. intros _. exact Hclaim.
  - right. repeat split; try assumption. discriminate.
Qed.

Lemma conflict_step_hit candidate kbb group value axes conflict k kb :
  binding kb = Some candidate ->
  k <> kbb ->
  Z.land (groupID kb) group <> 0 ->
  (is_axis_binding candidate = true -> claims_direction axes k value) ->
  conflict_step candidate kbb group value axes conflict (k, kb) = Some k.
Proof.
  intros Hb Hne Hg Hclaim. unfold conflict_step. cbn [fst snd].
  apply option_eqb_string_eq in Hb. apply hasBitsInCommon_spec in Hg.
  rewrite Hb, Hg. destruct (String.eqb_spec k kbb) as [->|_]; [contradiction|].
  cbn [negb andb].
  destruct (is_axis_binding candidate); [|reflexivity].
  apply axis_conflict_claims. apply Hclaim. reflexivity.
Qed.

Lemma conflict_step_monotone candidate kbb group value axes c p :
  exists c', conflict_step candidate kbb group value axes (Some c) p = Some c'.
Proof.
  unfold conflict_step. destruct (_ && _ && _)%bool; [|eauto].
  destruct (is_axis_binding candidate); [apply axis_conflict_monotone | eauto].
Qed.

Lemma conflict_fold_monotone candidate kbb group value axes d :
  forall c, exists c',
    List.fold_left (conflict_step candidate kbb group value axes) d (Some c) = Some c'.
Proof.
  induction d as [|p d IH]; intros c; [exists c; reflexivity|].
  cbn [List.fold_left].
  destruct (conflict_step_monotone candidate kbb group value axes c p) as [c1 ->].
  apply IH.
Qed.

(** What the scan returns is in conflict. *)
Lemma conflict_fold_sound candidate kbb group value axes d :
  forall conflict c,
    List.fold_left (conflict_step candidate kbb group value axes) d conflict = Some c ->
    conflict = Some c \/ conflicts_in d axes candidate kbb group value c.
Proof.
  induction d as [|[k kb] d IH]; intros conflict c H; [left; exact H|].
  cbn [List.fold_left] in H.
  destruct (IH _ _ H) as [Hstep|(kb' & Hin & Hrest)].
  - destruct (conflict_step_cases candidate kbb group value axes conflict k kb)
      as [Hsame|(Hk & Hconf)].
    + left. congruence.
    + right. assert (c = k) by congruence. subst c.
      exists kb. split; [left; reflexivity | exact Hconf].
  - right. exists kb'. split; [right; exact Hin | exact Hrest].
Qed.

(** A control in conflict makes the scan return one. *)
Lemma conflict_fold_complete candidate kbb group value axes d :
  forall conflict k,
    conflicts_in d axes candidate kbb group value k ->
    exists c, List.fold_left (conflict_step candidate kbb group value axes) d conflict = Some c.
Proof.
  induction d as [|[k0 kb0] d IH]; intros conflict k (kb & Hin & Hb & Hne & Hg & Hclaim).
  - destruct Hin.
  - cbn [List.fold_left]. destruct Hin as [[= -> ->]|Hin].
    + rewrite (conflict_step_hit candidate kbb group value axes conflict k kb Hb Hne Hg Hclaim).
      apply conflict_fold_monotone.
    + apply (IH _ k). exists kb. repeat split; assumption.
Qed.

Lemma with_candidate_view candidate km :
  keyBindings (with_candidate candidate km) = keyBindings km
  /\ axesInUse (with_candidate candidate km) = axesInUse km
  /\ lastKeyInterception (with_candidate candidate km) = Some candidate
  /\ lastKeyInterceptionValue (with_candidate candidate km) = lastKeyInterceptionValue km
  /\ keyBeingBound (with_candidate candidate km) = keyBeingBound km.
Proof.
  unfold with_candidate. cbn.
  destruct (lastKeyInterceptionDeviceType km); repeat split.
Qed.

Lemma keyRelease_scan engine key km kbb candidate kb0 :
  bindingDialogueVisible km = true ->
  keyBeingBound km = Some kbb ->
  lastKeyInterception km = Some candidate ->
  dict_get kbb (keyBindings km) = Some kb0 ->
  keyRelease engine key km
  = match find_conflict candidate kbb (groupID kb0) (lastKeyInterceptionValue km)
            (axesInUse km) (keyBindings km) with
    | Some c => handleBindingConflict key c (with_candidate candidate km)
    | None => finishKeyRelease engine key (with_candidate candidate km)
    end.
Proof.
  intros Hvis Hkbb Hlast Hkb0.
  destruct (with_candidate_view candidate km) as (Hkb & Hax & _ & Hval & _).
  unfold keyRelease.
  unfold bind at 1, gets. rewrite Hvis.
  unfold bind at 1, gets. rewrite Hkbb.
  unfold bind at 1, gets. rewrite Hlast.
  unfold bind at 1, gets. cbn [orb].
  unfold bind at 1, modify.
  unfold bind at 1, modify.
  change (match lastKeyInterceptionDeviceType (set_lastKeyInterception (Some candidate) km) with
          | Some _ => set_lastKeyInterception (Some candidate) km
          | None =>
              set_lastKeyInterceptionDeviceType
                (Some (if startswith candidate "mouse"
                       then getDeviceTypeString (DT_class mouse)
                       else getDeviceTypeString (DT_class keyboard)))
                (set_lastKeyInterception (Some candidate) km)
          end) with (with_candidate candidate km).
  unfold bind at 1, keyBindings_at. rewrite Hkb, Hkb0.
  unfold bind at 1, gets. rewrite Hkb, Hax, Hval.
  destruct (find_conflict _ _ _ _ _ _); reflexivity.
Qed.

(** ** What the binding methods leave alone: the dialogue *)

Section Frame.

Context {T : Type} (proj : KeyMapper -> T).

Lemma preserves_ret {A} (a : A) : preserves proj (ret a).
Proof. intros km r km' [= _ <-]. reflexivity. Qed.

Lemma preserves_raise {A} (e : Exn) : preserves proj (@raise A e).
Proof. intros km r km' [= _ <-]. reflexivity. Qed.

Lemma preserves_gets {A} (f : KeyMapper -> A) : preserves proj (gets f).
Proof. intros km r km' [= _ <-]. reflexivity. Qed.

Lemma preserves_modify (f : KeyMapper -> KeyMapper) :
  (forall km, proj (f km) = proj km) -> preserves proj (modify f).
Proof. intros Hf km r km' [= _ <-]. apply Hf. Qed.

Lemma preserves_bind {A B} (m : M A) (k : A -> M B) :
  preserves proj m -> (forall a, preserves proj (k a)) -> preserves proj (bind m k).
Proof.
  intros Hm Hk km r km' H. unfold bind in H.
  destruct (m km) as [[a|e] km1] eqn:Hrun.
  - rewrite (Hk a km1 r km' H). exact (Hm km _ km1 Hrun).
  - injection H as _ <-. exact (Hm km _ km1 Hrun).
Qed.

Lemma preserves_for_each {A} (l : list A) (body : A -> M unit) :
  (forall x, preserves proj (body x)) -> preserves proj (for_each l body).
Proof.
  intros Hbody. induction l as [|x l IH]; cbn [for_each].
  - apply preserves_ret.
  - apply preserves_bind; [apply Hbody | intros _; exact IH].
Qed.

End Frame.

Ltac frame_step :=
  first
    [ apply preserves_ret
    | apply preserves_raise
    | apply preserves_gets
    | apply preserves_modify; intros ?; reflexivity
    | apply preserves_bind; [|intros ?]
    | apply preserves_for_each; intros ?
    | match goal with
      | |- preserves _ (match ?x with _ => _ end) => destruct x
      end ].

Ltac frame := repeat frame_step.

Lemma to_DeviceClass_dialogue t : preserves dialogue (to_DeviceClass t).
Proof. unfold to_DeviceClass. frame. Qed.

Lemma removeUsedDevice_dialogue t : preserves dialogue (removeUsedDevice t).
Proof.
  unfold removeUsedDevice. apply preserves_bind; [apply to_DeviceClass_dialogue|].
  intros c. frame.
Qed.

Lemma addUsedDevice_dialogue engine t : preserves dialogue (addUsedDevice engine t).
Proof.
  unfold addUsedDevice. apply preserves_bind; [apply to_DeviceClass_dialogue|].
  intros c. apply preserves_bind; [frame|]. intros inUse.
  destruct (List.find _ _); [frame|].
  destruct (List.filter _ _) as [|device rest]; [frame|].
  apply preserves_bind.
  { apply preserves_modify. intros km.
    destruct (find_dataNP device (dataNPList km)); reflexivity. }
  intros _. frame.
Qed.

Lemma unbind_keys_dialogue ks : preserves dialogue (unbind_keys ks).
Proof.
  induction ks as [|key rest IH]; cbn [unbind_keys]; [frame|].
  apply preserves_bind.
  { unfold keyBindings_at. intros km r km' H.
    destruct (dict_get key (keyBindings km)); injection H as _ <-; reflexivity. }
  intros kb. apply preserves_bind; [frame|]. intros _.
  apply preserves_bind; [exact IH|]. intros checks. frame.
Qed.

Lemma clearKeyEvent_dialogue b direction : preserves dialogue (clearKeyEvent b direction).
Proof.
  unfold clearKeyEvent. destruct b as [b|]; [|frame].
  apply preserves_bind.
  { destruct (is_axis_binding b); [|frame].
    intros km r km' H.
    destruct (clear_axis_entries (string_from 5 b) direction (axesInUse km)).
    injection H as _ <-. reflexivity. }
  intros ks. apply preserves_bind; [apply unbind_keys_dialogue|]. intros dts.
  apply preserves_bind; [frame|]. intros bound.
  apply preserves_bind.
  { apply preserves_for_each. intros dt.
    destruct (List.existsb _ bound); [frame|].
    destruct dt; [apply removeUsedDevice_dialogue | frame]. }
  intros _. frame.
Qed.

Lemma subscribe_dialogue k b ty cb : preserves dialogue (subscribe k b ty cb).
Proof.
  unfold subscribe, accept.
  destruct (ty =? KEYMAP_HELD_KEY); [destruct b; frame|].
  destruct (ty =? KEYMAP_EVENT_PRESSED); [destruct cb, b; frame|].
  destruct (ty =? KEYMAP_EVENT_RELEASED); [destruct cb, b; frame|].
  destruct (ty =? KEYMAP_EVENT_PRESSED_AND_RELEASED); [|frame].
  destruct cb as [|f|items]; [frame | destruct b; frame |].
  destruct items as [|[f0|] [|[f1|] rest]]; try (frame; fail); destruct b; frame.
Qed.

Lemma bindKey_dialogue engine k b ty cb dt direction :
  preserves dialogue (bindKey engine k b ty cb dt direction).
Proof.
  unfold bindKey.
  apply preserves_bind; [apply clearKeyEvent_dialogue|]. intros _.
  apply preserves_bind.
  { unfold keyBindings_at. intros km r km' H.
    destruct (dict_get k (keyBindings km)); injection H as _ <-; reflexivity. }
  intros old.
  apply preserves_bind; [apply clearKeyEvent_dialogue|]. intros _.
  apply preserves_bind; [apply subscribe_dialogue|]. intros _.
  apply preserves_bind; [frame|]. intros _.
  destruct b as [b|]; [|frame]. destruct dt as [dt|]; [|frame].
  apply preserves_bind; [apply addUsedDevice_dialogue|]. intros device.
  destruct (is_axis_binding b); frame.
Qed.

Lemma well_formed_same km km' :
  keyBindings km' = keyBindings km ->
  axesInUse km' = axesInUse km ->
  well_formed km' = well_formed km.
Proof. intros H1 H2. unfold well_formed. rewrite H1, H2. reflexivity. Qed.

Lemma bind_gets {A B} (f : KeyMapper -> A) (k : A -> M B) km :
  bind (gets f) k km = k (f km) km.
Proof. reflexivity. Qed.

Lemma bind_modify {B} (f : KeyMapper -> KeyMapper) (k : unit -> M B) km :
  bind (modify f) k km = k tt (f km).
Proof. reflexivity. Qed.

Lemma saveKeyMapping_returns engine km :
  exists km',
    saveKeyMapping engine km = (Val tt, km')
    /\ keyBindings km' = keyBindings km
    /\ axesInUse km' = axesInUse km
    /\ bindingFile km' = bindingFile km
    /\ keyBeingBound km' = keyBeingBound km
    /\ bindingDialogueVisible km' = bindingDialogueVisible km
    /\ conflictDialogue km' = conflictDialogue km.
Proof.
  unfold saveKeyMapping. rewrite !bind_gets.
  destruct (saveMappingCallback engine) as [save|].
  - destruct (save _ _ _); eexists; (split; [reflexivity|]); repeat split.
  - eexists. split; [reflexivity|]. repeat split.
Qed.

Lemma hideBindingDialogue_returns km :
  exists km',
    hideBindingDialogue km = (Val tt, km')
    /\ keyBindings km' = keyBindings km
    /\ axesInUse km' = axesInUse km
    /\ keyBeingBound km' = keyBeingBound km
    /\ conflictDialogue km' = conflictDialogue km
    /\ bindingDialogueVisible km' = false.
Proof. eexists. split; [reflexivity|]. repeat split. Qed.

(** With no conflict, [finishKeyRelease] commits the candidate. *)
Lemma finishKeyRelease_commits engine key km kbb candidate kb0 :
  keyBeingBound km = Some kbb ->
  lastKeyInterception km = Some candidate ->
  dict_get kbb (keyBindings km) = Some kb0 ->
  well_formed km = true ->
  valid_deviceType (lastKeyInterceptionDeviceType km) = true ->
  callback_missing (type kb0) (callback kb0) = false ->
  exists km',
    finishKeyRelease engine key km = (Val tt, km')
    /\ view km' = bind_view kbb (Some candidate) (lastKeyInterceptionDeviceType km)
                    (lastKeyInterceptionValue km) (view km)
    /\ conflictDialogue km' = conflictDialogue km
    /\ keyBeingBound km' = None
    /\ bindingDialogueVisible km' = false.
Proof.
  intros Hkbb Hlast Hkb0 Hwf Hdt Hcb.
  assert (Hreg : registered km kbb = true).
  { apply dict_get_registered. exists kb0. exact Hkb0. }
  destruct (bindKey_view engine kbb (Some candidate) (type kb0) (callback kb0)
              (lastKeyInterceptionDeviceType km) (lastKeyInterceptionValue km)
              km Hwf Hreg Hdt Hcb) as (km1 & H1 & Hv1 & _ & _).
  pose proof (bindKey_dialogue engine _ _ _ _ _ _ km _ km1 H1) as Hd1.
  assert (Hconf1 : conflictDialogue km1 = conflictDialogue km).
  { unfold dialogue in Hd1. congruence. }
  clear Hd1.
  destruct (hideBindingDialogue_returns (set_keyBeingBound None km1))
    as (km2 & H2 & Hkb2 & Hax2 & Hbound2 & Hconf2 & Hvis2).
  destruct (saveKeyMapping_returns engine (set_bindingFile (bindingFileCustom km2) km2))
    as (km3 & H3 & Hkb3 & Hax3 & _ & Hbound3 & Hvis3 & Hconf3).
  assert (Hcommit :
    (match Some kbb with
     | Some k =>
         kb <- keyBindings_at k ;;
         deviceType_ <- gets lastKeyInterceptionDeviceType ;;
         value <- gets lastKeyInterceptionValue ;;
         bindKey engine k (Some candidate) (type kb) (callback kb) deviceType_ value
     | None => raise (KeyError None)
     end) km = (Val tt, km1)).
  { unfold bind at 1, keyBindings_at. rewrite Hkb0. rewrite !bind_gets. exact H1. }
  exists (set_deviceAxisTestValues [] km3). split; [|split; [|split; [|split]]].
  - unfold finishKeyRelease. rewrite !bind_gets. rewrite Hkbb, Hlast.
    rewrite (bind_Val _ _ _ _ _ Hcommit).
    rewrite bind_modify. rewrite (bind_Val _ _ _ _ _ H2).
    rewrite bind_modify. rewrite (bind_Val _ _ _ _ _ H3).
    reflexivity.
  - rewrite <- Hv1. unfold view. cbn [keyBindings axesInUse set_deviceAxisTestValues].
    rewrite Hkb3. cbn [keyBindings axesInUse set_bindingFile]. rewrite Hax3.
    cbn [keyBindings axesInUse set_bindingFile]. rewrite Hkb2, Hax2. reflexivity.
  - cbn [conflictDialogue set_deviceAxisTestValues]. rewrite Hconf3.
    cbn [conflictDialogue set_bindingFile]. rewrite Hconf2. exact Hconf1.
  - cbn [keyBeingBound set_deviceAxisTestValues]. rewrite Hbound3.
    cbn [keyBeingBound set_bindingFile]. rewrite Hbound2. reflexivity.
  - cbn [bindingDialogueVisible set_deviceAxisTestValues]. rewrite Hvis3.
    cbn [bindingDialogueVisible set_bindingFile]. exact Hvis2.
Qed.

Lemma with_candidate_deviceType candidate km :
  valid_deviceType (lastKeyInterceptionDeviceType km) = true ->
  valid_deviceType (lastKeyInterceptionDeviceType (with_candidate candidate km)) = true.
Proof.
  intros H. unfold with_candidate. cbn.
  destruct (lastKeyInterceptionDeviceType km) eqn:Hdt; cbn.
  - rewrite Hdt. exact H.
  - destruct (startswith candidate "mouse"); reflexivity.
Qed.

(** With a candidate, [handleBindingConflict] returns and shows the
    conflict dialogue. *)
Lemma handleBindingConflict_shows key c km candidate :
  lastKeyInterception km = Some candidate ->
  handleBindingConflict key c km
  = (Val tt,
     set_conflictDialogue true
       (set_currentConflict (Some c)
          (set_deviceButtonThrowers []
             (set_dataNPList []
                (set_buttonThrower ("", "") (set_bindingDialogue false km)))))).
Proof.
  intros H.
  unfold handleBindingConflict, clearEvents, setConflictText, bind, modify, gets.
  cbn [lastKeyInterception set_currentConflict set_deviceButtonThrowers set_dataNPList
       set_buttonThrower set_bindingDialogue].
  rewrite H. reflexivity.
Qed.

(** C1.  When [keyRelease] finds the dialogue up with a control being
    bound and a candidate input:
    - if some other control is bound to the candidate with a group mask
      that shares a bit with that of the control being bound (and, the
      candidate being an axis, claims the direction that the sign of the
      candidate's value names), the conflict dialogue is shown for such a
      control and no binding changes;
    - if there is none, [keyRelease] is [finishKeyRelease]: no conflict
      dialogue, and on a well-formed manager the control being bound ends
      bound to the candidate. *)
Theorem keyRelease_conflict_check :
  forall (engine : Engine) (km : KeyMapper) key kbb candidate kb0,
    bindingDialogueVisible km = true ->
    keyBeingBound km = Some kbb ->
    lastKeyInterception km = Some candidate ->
    dict_get kbb (keyBindings km) = Some kb0 ->
    ((exists k, conflicts_in (keyBindings km) (axesInUse km) candidate kbb
                  (groupID kb0) (lastKeyInterceptionValue km) k) ->
     exists c km',
       conflicts_in (keyBindings km) (axesInUse km) candidate kbb
         (groupID kb0) (lastKeyInterceptionValue km) c
       /\ keyRelease engine key km = (Val tt, km')
       /\ conflictDialogue km' = true
       /\ currentConflict km' = Some c
       /\ keyBindings km' = keyBindings km
       /\ axesInUse km' = axesInUse km)
    /\ ((forall k, ~ conflicts_in (keyBindings km) (axesInUse km) candidate kbb
                       (groupID kb0) (lastKeyInterceptionValue km) k) ->
        keyRelease engine key km
        = finishKeyRelease engine key (with_candidate candidate km)
        /\ (well_formed km = true ->
            valid_deviceType (lastKeyInterceptionDeviceType km) = true ->
            callback_missing (type kb0) (callback kb0) = false ->
            exists km',
              keyRelease engine key km = (Val tt, km')
              /\ binding_of km' kbb = Some candidate
              /\ conflictDialogue km' = conflictDialogue km
              /\ keyBeingBound km' = None
              /\ bindingDialogueVisible km' = false)).
Proof.
  intros engine km key kbb candidate kb0 Hvis Hkbb Hlast Hkb0.
  pose proof (keyRelease_scan engine key km kbb candidate kb0 Hvis Hkbb Hlast Hkb0) as Hscan.
  rewrite find_conflict_fold in Hscan.
  destruct (with_candidate_view candidate km) as (Hkb & Hax & Hlast' & Hval & Hkbb').
  split.
  - intros [k Hk].
    destruct (conflict_fold_complete candidate kbb (groupID kb0)
                (lastKeyInterceptionValue km) (axesInUse km) (keyBindings km) None k Hk)
      as [c Hc].
    rewrite Hc in Hscan.
    destruct (conflict_fold_sound _ _ _ _ _ _ _ _ Hc) as [Hnone|Hconf]; [discriminate|].
    exists c. eexists. split; [exact Hconf|].
    split; [rewrite Hscan; exact (handleBindingConflict_shows key c _ candidate Hlast')|].
    cbn. repeat split; assumption.
  - intros Hnone.
    destruct (List.fold_left _ (keyBindings km) None) as [c|] eqn:Hc.
    { destruct (conflict_fold_sound _ _ _ _ _ _ _ _ Hc) as [Hc'|Hconf]; [discriminate|].
      destruct (Hnone c Hconf). }
    split; [exact Hscan|].
    intros Hwf Hdt Hcb.
    destruct (finishKeyRelease_commits engine key (with_candidate candidate km)
                kbb candidate kb0) as (km' & Hrun & Hv & Hconf & Hbound & Hvis').
    { rewrite Hkbb'. exact Hkbb. }
    { exact Hlast'. }
    { rewrite Hkb. exact Hkb0. }
    { rewrite (well_formed_same km _ Hkb Hax). exact Hwf. }
    { apply with_candidate_deviceType. exact Hdt. }
    { exact Hcb. }
    exists km'. split; [rewrite Hscan; exact Hrun|].
    split; [|split; [|split; [exact Hbound | exact Hvis']]].
    + assert (Hreg : List.existsb (String.eqb kbb)
                       (List.map fst (fst (view (with_candidate candidate km)))) = true).
      { cbn [view fst]. rewrite Hkb. apply dict_get_registered. exists kb0. exact Hkb0. }
      destruct (bind_view_bound kbb (Some candidate)
                  (lastKeyInterceptionDeviceType (with_candidate candidate km))
                  (lastKeyInterceptionValue (with_candidate candidate km))
                  _ Hreg) as (kb & Hget & Hb & _).
      rewrite <- Hv in Hget. cbn [view fst] in Hget.
      unfold binding_of. rewrite Hget. exact Hb.
    + rewrite Hconf. unfold with_candidate. cbn.
      destruct (lastKeyInterceptionDeviceType km); reflexivity.
Qed.

Lemma keyRelease_conflict_check_example :
  exists c km',
    conflicts_in (keyBindings example_candidate) (axesInUse example_candidate)
      "back" KEY_THRUST (groupID thrust_binding)
      (lastKeyInterceptionValue example_candidate) c
    /\ keyRelease example_engine "back" example_candidate = (Val tt, km')
    /\ conflictDialogue km' = true
    /\ currentConflict km' = Some c
    /\ keyBindings km' = keyBindings example_candidate
    /\ axesInUse km' = axesInUse example_candidate.
Proof.
  apply (proj1 (keyRelease_conflict_check example_engine example_candidate
                  "back" KEY_THRUST "back" thrust_binding
                  eq_refl eq_refl eq_refl eq_refl)).
  exists KEY_MENU, menu_binding. split.
  - do 4 right. left. reflexivity.
  - split; [reflexivity|]. split; [discriminate|]. split; [discriminate|].
    discriminate.
Defined.

(** ** C8: the axis scan while a rebind is awaited *)

Lemma bind_assoc {A B C} (m : M A) (k : A -> M B) (h : B -> M C) km :
  bind (bind m k) h km = bind m (fun a => bind (k a) h) km.
Proof. unfold bind. destruct (m km) as [[a|e] km1]; reflexivity. Qed.

Lemma bind_run_eq {A B} (m : M A) (k : A -> M B) km r :
  m km = r -> bind m k km = bind (fun _ => r) k km.
Proof. intros H. unfold bind. rewrite H. reflexivity. Qed.

Lemma find_app_first {A} (f : A -> bool) (l1 l2 : list A) :
  List.find f (l1 ++ l2)
  = match List.find f l1 with
    | Some x => Some x
    | None => List.find f l2
    end.
Proof.
  induction l1 as [|x l1 IH]; [reflexivity|]. cbn [List.app List.find].
  destruct (f x); [reflexivity | exact IH].
Qed.

(** The loop over the axes of one device: the synthetic event of the
    first axis that has moved, and the method returns; none if no axis
    has moved. *)
Lemma scan_axes_first engine device samples km axes :
  device_get device (deviceAxisTestValues km) = Some samples ->
  scan_axes engine device axes km
  = match List.find (moved_axis km) (List.map (fun a => (device, fst a, snd a)) axes) with
    | Some e => (synthetic_event engine e ;;; ret true) km
    | None => (Val false, km)
    end.
Proof.
  intros Hsamples. induction axes as [|[axisID value] axes IH]; [reflexivity|].
  cbn [scan_axes List.map List.find fst snd].
  unfold moved_axis at 1. cbn [fst snd]. rewrite Hsamples.
  destruct (String.eqb axisID "none"); cbn [negb andb]; [exact IH|].
  rewrite bind_gets, Hsamples.
  destruct (axis_moved (dict_get axisID samples) value); [|exact IH].
  unfold synthetic_event. cbn [fst snd]. rewrite !bind_assoc. reflexivity.
Qed.

Lemma scan_devices_first engine km nodes :
  (forall np, In np nodes -> device_get (np_device np) (deviceAxisTestValues km) <> None) ->
  scan_devices engine nodes km
  = match List.find (moved_axis km)
            (List.flat_map
               (fun np => List.map (fun a => (np_device np, fst a, snd a))
                                   (device_axes engine (np_device np)))
               nodes) with
    | Some e => (synthetic_event engine e ;;; ret true) km
    | None => (Val false, km)
    end.
Proof.
  intros Hall. induction nodes as [|np nodes IH]; [reflexivity|].
  cbn [scan_devices List.flat_map]. rewrite find_app_first.
  destruct (device_get (np_device np) (deviceAxisTestValues km)) as [samples|] eqn:Hs;
    [|destruct (Hall np (or_introl eq_refl) Hs)].
  rewrite (bind_run_eq _ _ _ _ (scan_axes_first engine _ samples km _ Hs)).
  destruct (List.find (moved_axis km)
              (List.map (fun a => (np_device np, fst a, snd a))
                        (device_axes engine (np_device np)))) as [e|].
  - unfold bind, ret. destruct (synthetic_event engine e km) as [[[]|ex] km1]; reflexivity.
  - unfold bind at 1. apply IH. intros np' Hnp'. apply Hall. right. exact Hnp'.
Qed.

(** C8 (amended).  While the binding dialogue is up, [update] goes
    through the axes of the polled devices in order and, for the first one
    that is not [Axis.none] and has moved (by more than 0.3 from the sample
    taken for it when the dialogue came up or, when there is no sample for
    it, beyond 0.5 in absolute value), makes one synthetic interception
    event ([keyInterception] then [keyRelease] on that axis) and returns;
    when no axis has moved it does nothing.  So there is at most one
    synthetic event per frame. *)
Theorem update_scans_first_moved_axis :
  forall (engine : Engine) (km : KeyMapper),
    bindingDialogueVisible km = true ->
    (forall np, In np (dataNPList km) ->
                device_get (np_device np) (deviceAxisTestValues km) <> None) ->
    update engine km
    = match List.find (moved_axis km) (scanned engine km) with
      | Some e => synthetic_event engine e km
      | None => (Val tt, km)
      end.
Proof.
  intros engine km Hvis Hall. unfold update.
  rewrite bind_gets, Hvis, bind_gets.
  rewrite (bind_run_eq _ _ _ _ (scan_devices_first engine km _ Hall)).
  fold (scanned engine km).
  destruct (List.find (moved_axis km) (scanned engine km)) as [e|]; [|reflexivity].
  unfold bind, ret. destruct (synthetic_event engine e km) as [[[]|ex] km1]; reflexivity.
Qed.

Lemma update_scans_first_moved_axis_example :
  update stick_left_engine example_rebinding
  = match List.find (moved_axis example_rebinding)
            (scanned stick_left_engine example_rebinding) with
    | Some e => synthetic_event stick_left_engine e example_rebinding
    | None => (Val tt, example_rebinding)
    end.
Proof.
  apply update_scans_first_moved_axis.
  - reflexivity.
  - intros np Hnp. simpl in Hnp. destruct Hnp as [<-|[]]. discriminate.
Defined.

(** C8 as stated fails on an axis that has a sample: the throttle reads
    0.75, beyond 0.5 in absolute value, as it did when the dialogue came
    up; [update] makes no event for it (the event would have bound the
    thrust control to the throttle). *)
Lemma update_ignores_axis_beyond_half :
  In (the_gamepad, "throttle", 0.75%float) (scanned example_engine example_rebinding)
  /\ PrimFloat.ltb 0.5%float (PrimFloat.abs 0.75%float) = true
  /\ update example_engine example_rebinding = (Val tt, example_rebinding)
  /\ binding_of example_rebinding KEY_THRUST = Some "face_a"
  /\ binding_of
       (snd (synthetic_event example_engine (the_gamepad, "throttle", 0.75%float)
               example_rebinding)) KEY_THRUST
     = Some "Axis.throttle".
Proof.
  split; [do 3 right; left; reflexivity|].
  split; [reflexivity|].
  split; [vm_compute; reflexivity|].
  split; vm_compute; reflexivity.
Qed.

(** ** Saving, then loading back at once *)

Lemma unique_keys_In {V} (d : list (string * V)) :
  unique_keys (List.map fst d) = true ->
  forall k v v', In (k, v) d -> In (k, v') d -> v = v'.
Proof.
  induction d as [|[k0 v0] d IH]; intros Hu k v v' Hv Hv'; [destruct Hv|].
  cbn [List.map unique_keys fst] in Hu. apply Bool.andb_true_iff in Hu.
  destruct Hu as [Hfresh Hu]. apply Bool.negb_true_iff in Hfresh.
  assert (Hnot : forall w, In (k0, w) d -> False).
  { intros w Hw.
    assert (Hex : List.existsb (String.eqb k0) (List.map fst d) = true).
    { apply List.existsb_exists. exists k0. split; [|apply String.eqb_refl].
      apply List.in_map_iff. exists (k0, w). split; [reflexivity | exact Hw]. }
    rewrite Hex in Hfresh. discriminate. }
  destruct Hv as [Hv|Hv], Hv' as [Hv'|Hv'].
  - congruence.
  - assert (k0 = k) by congruence. subst k0. destruct (Hnot _ Hv').
  - assert (k0 = k) by congruence. subst k0. destruct (Hnot _ Hv).
  - exact (IH Hu k v v' Hv Hv').
Qed.

Lemma unique_dict_get {V} (d : list (string * V)) k v :
  unique_keys (List.map fst d) = true -> In (k, v) d -> dict_get k d = Some v.
Proof.
  intros Hu Hin.
  assert (Hreg : List.existsb (String.eqb k) (List.map fst d) = true).
  { apply List.existsb_exists. exists k. split; [|apply String.eqb_refl].
    apply List.in_map_iff. exists (k, v). split; [reflexivity | exact Hin]. }
  apply dict_get_registered in Hreg. destruct Hreg as [v' Hv'].
  rewrite Hv'. f_equal. exact (unique_keys_In d Hu k v' v (dict_get_In _ _ _ Hv') Hin).
Qed.

Lemma unshared_spec d p q :
  unshared d = true -> In p d -> In q d -> shares_input p q = true -> fst p = fst q.
Proof.
  unfold unshared. rewrite List.forallb_forall. intros H Hp Hq Hs.
  specialize (H p Hp). rewrite List.forallb_forall in H. specialize (H q Hq).
  rewrite Hs in H. cbn [negb] in H. rewrite Bool.orb_false_r in H.
  apply String.eqb_eq. exact H.
Qed.

Lemma bind_unbind kb :
  KeyBinding_bind (binding kb) (deviceType kb) (axisDirection kb) (KeyBinding_unbind kb) = kb.
Proof. destruct kb; reflexivity. Qed.

Lemma bind_same kb :
  KeyBinding_bind (binding kb) (deviceType kb) (axisDirection kb) kb = kb.
Proof. destruct kb; reflexivity. Qed.

(** Binding a control again as it is bound, after unbinding nothing but
    that control, gives the dict back. *)
Lemma rebind_own d k kb ks :
  unique_keys (List.map fst d) = true ->
  In (k, kb) d ->
  (forall k', In k' ks -> k' = k) ->
  dict_update k (KeyBinding_bind (binding kb) (deviceType kb) (axisDirection kb))
              (unbind_in ks d) = d.
Proof.
  intros Hu Hin Hks. unfold dict_update, unbind_in. rewrite List.map_map.
  rewrite <- (List.map_id d) at 2. apply List.map_ext_in. intros [k0 v0] Hp.
  cbn [fst snd].
  destruct (List.existsb (fun k1 => String.eqb k1 k0) ks) eqn:Hex; cbn [fst snd].
  - apply List.existsb_exists in Hex. destruct Hex as (k1 & Hk1 & Heq).
    apply String.eqb_eq in Heq. subst k1. rewrite (Hks k0 Hk1) in *.
    rewrite String.eqb_refl.
    rewrite (unique_keys_In d Hu k v0 kb Hp Hin). rewrite bind_unbind. reflexivity.
  - destruct (String.eqb_spec k k0) as [<-|Hne]; [|reflexivity].
    rewrite (unique_keys_In d Hu k v0 kb Hp Hin). rewrite bind_same. reflexivity.
Qed.

Lemma claims_agree_filter d cs f :
  claims_agree d cs -> claims_agree d (List.filter f cs).
Proof. intros H c Hc. apply List.filter_In in Hc. apply H. exact (proj1 Hc). Qed.

Lemma clear_claim_agrees d s direction c :
  holder_agrees d (fst (fst c)) true (snd (fst c)) /\ holder_agrees d (fst (fst c)) false (snd c) ->
  holder_agrees d (fst (fst (fst (clear_claim s direction c)))) true
                (snd (fst (fst (clear_claim s direction c))))
  /\ holder_agrees d (fst (fst (fst (clear_claim s direction c)))) false
                   (snd (fst (clear_claim s direction c))).
Proof.
  destruct c as [[x p] n]. unfold clear_claim. cbn [fst snd]. intros [Hp Hn].
  assert (Hnone : forall pos, holder_agrees d x pos None) by (intros pos k [=]).
  destruct (String.eqb x s); [|split; assumption].
  destruct (direction =? -1).
  - destruct n; cbn [fst snd]; split; auto.
  - destruct (direction =? 1); [|split; assumption].
    destruct p; cbn [fst snd]; split; auto.
Qed.

Lemma claims_agree_cleared d s direction cs :
  claims_agree d cs -> claims_agree d (cleared_claims s direction cs).
Proof.
  intros H c Hc. unfold cleared_claims in Hc. apply List.in_map_iff in Hc.
  destruct Hc as (c0 & <- & Hc0). apply clear_claim_agrees. apply H. exact Hc0.
Qed.

(** The controls that clearing an axis direction unbinds held it. *)
Lemma cleared_keys_held d s direction cs k' :
  claims_agree d cs ->
  In k' (cleared_keys s direction cs) ->
  (direction = -1
   /\ exists kb' b', In (k', kb') d /\ binding kb' = Some b' /\ is_axis_binding b' = true
                     /\ string_from 5 b' = s /\ axisDirection kb' < 0)
  \/ (direction = 1
      /\ exists kb' b', In (k', kb') d /\ binding kb' = Some b' /\ is_axis_binding b' = true
                        /\ string_from 5 b' = s /\ 0 < axisDirection kb').
Proof.
  intros Hagree Hin. unfold cleared_keys in Hin. apply List.in_flat_map in Hin.
  destruct Hin as ([[x p] n] & Hc & Hk).
  destruct (Hagree _ Hc) as [Hp Hn]. cbn [fst snd] in Hp, Hn.
  unfold clear_claim in Hk.
  destruct (String.eqb_spec x s) as [->|Hne]; [|destruct Hk].
  destruct (Z.eqb_spec direction (-1)) as [->|Hd1].
  - destruct n as [k0|]; [|destruct Hk]. cbn [snd] in Hk. destruct Hk as [<-|[]].
    left. split; [reflexivity|]. exact (Hn k0 eq_refl).
  - destruct (Z.eqb_spec direction 1) as [->|Hd2]; [|destruct Hk].
    destruct p as [k0|]; [|destruct Hk]. cbn [snd] in Hk. destruct Hk as [<-|[]].
    right. split; [reflexivity|]. exact (Hp k0 eq_refl).
Qed.

(** Clearing the input that a control is bound to, in its direction,
    unbinds that control at most. *)
Lemma clear_view_own d cs k kb :
  unshared d = true ->
  In (k, kb) d ->
  claims_agree d cs ->
  exists ks cs1,
    clear_view (binding kb) (axisDirection kb) (d, cs) = (unbind_in ks d, cs1)
    /\ (forall k', In k' ks -> k' = k)
    /\ claims_agree d cs1.
Proof.
  intros Hun Hin Hagree. unfold clear_view.
  destruct (binding kb) as [b|] eqn:Hb.
  2:{ exists [], cs. rewrite unbind_in_nil.
      split; [reflexivity|]. split; [intros k' [] | exact Hagree]. }
  destruct (is_axis_binding b) eqn:Haxis; cbn [fst snd].
  - eexists. eexists. split; [reflexivity|]. split.
    + intros k' Hk'.
      assert (Hshare : exists kb', In (k', kb') d /\ shares_input (k', kb') (k, kb) = true).
      { destruct (cleared_keys_held d _ _ cs k' Hagree Hk')
          as [(Hd & kb' & b' & Hin' & Hb' & Hax' & Hs' & Hdir')
             |(Hd & kb' & b' & Hin' & Hb' & Hax' & Hs' & Hdir')];
          exists kb'; (split; [exact Hin'|]);
          unfold shares_input; cbn [snd]; rewrite Hb', Hb, Hax', Haxis, Hs', String.eqb_refl;
          cbn [andb].
        - rewrite Hd. apply Z.ltb_lt in Hdir'. rewrite Hdir'.
          cbn. rewrite Bool.orb_true_r. reflexivity.
        - rewrite Hd. apply Z.ltb_lt in Hdir'. rewrite Hdir'. reflexivity. }
      destruct Hshare as (kb' & Hin' & Hshare).
      exact (unshared_spec d _ _ Hun Hin' Hin Hshare).
    + apply claims_agree_filter, claims_agree_cleared. exact Hagree.
  - eexists. eexists. split; [reflexivity|]. split.
    + intros k' Hk'. unfold keys_bound_to in Hk'. apply List.in_map_iff in Hk'.
      destruct Hk' as ([k0 kb'] & Hfst & Hf). cbn [fst] in Hfst. subst k0.
      apply List.filter_In in Hf. destruct Hf as [Hin' Hb'].
      cbn [snd] in Hb'. apply option_eqb_string_eq in Hb'.
      apply (unshared_spec d (k', kb') (k, kb) Hun Hin' Hin).
      unfold shares_input. cbn [snd]. rewrite <- Hb', Hb, Haxis. apply String.eqb_refl.
    + apply claims_agree_filter. exact Hagree.
Qed.

Lemma claim_view_agrees d k kb b c :
  In (k, kb) d -> binding kb = Some b -> is_axis_binding b = true ->
  fst (fst c) = string_from 5 b ->
  holder_agrees d (fst (fst c)) true (snd (fst c)) /\ holder_agrees d (fst (fst c)) false (snd c) ->
  holder_agrees d (fst (fst (claim_view k (axisDirection kb) c))) true
                (snd (fst (claim_view k (axisDirection kb) c)))
  /\ holder_agrees d (fst (fst (claim_view k (axisDirection kb) c))) false
                   (snd (claim_view k (axisDirection kb) c)).
Proof.
  intros Hin Hb Haxis Hx. destruct c as [[x p] n]. cbn [fst snd] in *. subst x.
  intros [Hp Hn]. unfold claim_view.
  destruct (0 <? axisDirection kb) eqn:Hpos; cbn [fst snd].
  - split; [|exact Hn]. intros k0 [= <-]. exists kb, b.
    apply Z.ltb_lt in Hpos. repeat split; assumption.
  - destruct (axisDirection kb <? 0) eqn:Hneg; cbn [fst snd]; [|split; assumption].
    split; [exact Hp|]. intros k0 [= <-]. exists kb, b.
    apply Z.ltb_lt in Hneg. repeat split; assumption.
Qed.

Lemma bound_claims_agree d k kb cs :
  In (k, kb) d ->
  claims_agree d cs ->
  claims_agree d (bound_claims k (binding kb) (deviceType kb) (axisDirection kb) cs).
Proof.
  intros Hin Hagree. unfold bound_claims.
  destruct (binding kb) as [b|] eqn:Hb; [|exact Hagree].
  destruct (deviceType kb) as [dt|]; [|exact Hagree].
  destruct (is_axis_binding b) eqn:Haxis; [|exact Hagree]. cbv zeta.
  assert (Hupd : claims_agree d
                   (List.map (fun c : Claim => if String.eqb (fst (fst c)) (string_from 5 b)
                                               then claim_view k (axisDirection kb) c else c) cs)).
  { intros c Hc. apply List.in_map_iff in Hc. destruct Hc as (c0 & <- & Hc0).
    destruct (String.eqb_spec (fst (fst c0)) (string_from 5 b)) as [Hx|_].
    - apply (claim_view_agrees d k kb b c0 Hin Hb Haxis Hx). apply Hagree. exact Hc0.
    - apply Hagree. exact Hc0. }
  destruct (List.existsb _ cs); [exact Hupd|].
  intros c Hc. apply List.in_app_or in Hc. destruct Hc as [Hc|[<-|[]]].
  - exact (Hupd c Hc).
  - apply (claim_view_agrees d k kb b (string_from 5 b, None, None) Hin Hb Haxis eq_refl).
    split; intros k0 [=].
Qed.

(** One turn of the last loop of [loadKeyMapping], on the view: binding
    a control as it is bound leaves the dict as it is. *)
Lemma bind_view_own d cs k kb :
  unique_keys (List.map fst d) = true ->
  unshared d = true ->
  In (k, kb) d ->
  claims_agree d cs ->
  exists cs',
    bind_view k (binding kb) (deviceType kb) (axisDirection kb) (d, cs) = (d, cs')
    /\ claims_agree d cs'.
Proof.
  intros Hu Hun Hin Hagree. unfold bind_view.
  destruct (clear_view_own d cs k kb Hun Hin Hagree) as (ks1 & cs1 & -> & Hks1 & Hagree1).
  cbn [fst snd]. rewrite dict_get_unbind_in, (unique_dict_get d k kb Hu Hin).
  destruct (List.existsb (fun k0 => String.eqb k0 k) ks1) eqn:Hex; cbn [option_map].
  - cbn [binding KeyBinding_unbind clear_view fst snd].
    rewrite (rebind_own d k kb ks1 Hu Hin Hks1).
    eexists. split; [reflexivity|]. apply bound_claims_agree; assumption.
  - assert (Hnil : ks1 = []).
    { destruct ks1 as [|k1 ks1]; [reflexivity|].
      cbn [List.existsb] in Hex. rewrite (Hks1 k1 (or_introl eq_refl)) in Hex.
      rewrite String.eqb_refl in Hex. discriminate. }
    subst ks1. rewrite unbind_in_nil.
    destruct (clear_view_own d cs1 k kb Hun Hin Hagree1) as (ks2 & cs2 & -> & Hks2 & Hagree2).
    cbn [fst snd]. rewrite (rebind_own d k kb ks2 Hu Hin Hks2).
    eexists. split; [reflexivity|]. apply bound_claims_agree; assumption.
Qed.

Lemma collect_bindingList_own d km records :
  unique_keys (List.map fst d) = true ->
  keyBindings km = d ->
  (forall p, In p records -> In p d) ->
  collect_bindingList
    (List.map (fun p => (fst p, binding (snd p), deviceType (snd p), axisDirection (snd p)))
              records) km
  = (Val (bindingList_of records), km).
Proof.
  intros Hu Hd. induction records as [|[k kb] records IH]; intros Hsub; [reflexivity|].
  cbn [List.map collect_bindingList fst snd bindingList_of].
  unfold bind at 1, keyBindings_at. rewrite Hd.
  rewrite (unique_dict_get d k kb Hu (Hsub _ (or_introl eq_refl))).
  rewrite (bind_Val _ _ _ _ _ (IH (fun p Hp => Hsub p (or_intror Hp)))).
  reflexivity.
Qed.

Lemma reproducible_iff km :
  reproducible km = true <->
  well_formed km = true
  /\ unshared (keyBindings km) = true
  /\ callbacks_supplied (keyBindings km) = true.
Proof. unfold reproducible. rewrite !Bool.andb_true_iff. tauto. Qed.

(** The last loop of [loadKeyMapping] over the records of a manager's
    own controls. *)
Lemma load_loop_own engine d records :
  unique_keys (List.map fst d) = true ->
  unshared d = true ->
  callbacks_supplied d = true ->
  (forall p, In p records -> In p d) ->
  forall km,
    well_formed km = true ->
    keyBindings km = d ->
    claims_agree d (List.map claims (axesInUse km)) ->
    exists km',
      for_each (bindingList_of records)
        (fun r =>
           match r with
           | (keyDescription_, binding_, controlType, deviceType_, callback_,
              axisDirection_) =>
               bindKey engine keyDescription_ binding_ controlType callback_ deviceType_
                       axisDirection_
           end) km = (Val tt, km')
      /\ keyBindings km' = d.
Proof.
  intros Hu Hun Hcb Hsub km Hwf Hd Hagree.
  destruct (for_each_invariant
              (fun km0 => well_formed km0 = true /\ keyBindings km0 = d
                          /\ claims_agree d (List.map claims (axesInUse km0)))
              (bindingList_of records)
              (fun r =>
                 match r with
                 | (keyDescription_, binding_, controlType, deviceType_, callback_,
                    axisDirection_) =>
                     bindKey engine keyDescription_ binding_ controlType callback_
                             deviceType_ axisDirection_
                 end)) with (km := km) as (km' & Hrun & _ & Hd' & _).
  - intros r km0 Hr (Hwf0 & Hd0 & Hagree0).
    unfold bindingList_of in Hr. apply List.in_map_iff in Hr.
    destruct Hr as ([k kb] & <- & Hp). cbn [fst snd].
    pose proof (Hsub _ Hp) as Hin.
    assert (Hreg : registered km0 k = true).
    { unfold registered. rewrite Hd0. apply List.existsb_exists. exists k.
      split; [|apply String.eqb_refl]. apply List.in_map_iff.
      exists (k, kb). split; [reflexivity | exact Hin]. }
    assert (Hdt : valid_deviceType (deviceType kb) = true).
    { apply well_formed_iff in Hwf0. destruct Hwf0 as (_ & Hdev & _).
      rewrite Hd0, List.forallb_forall in Hdev. exact (Hdev _ Hin). }
    assert (Hcbk : callback_missing (type kb) (callback kb) = false).
    { unfold callbacks_supplied in Hcb. rewrite List.forallb_forall in Hcb.
      apply Bool.negb_true_iff. exact (Hcb _ Hin). }
    destruct (bindKey_view engine k (binding kb) (type kb) (callback kb) (deviceType kb)
                (axisDirection kb) km0 Hwf0 Hreg Hdt Hcbk)
      as (km1 & Hrun & Hv & _ & Hwf1).
    exists km1. split; [exact Hrun|]. split; [exact Hwf1|].
    unfold view in Hv. rewrite Hd0 in Hv.
    destruct (bind_view_own d _ k kb Hu Hun Hin Hagree0) as (cs' & Hbv & Hagree').
    rewrite Hbv in Hv. injection Hv as -> ->. split; [reflexivity | exact Hagree'].
  - split; [exact Hwf|]. split; [exact Hd | exact Hagree].
  - exists km'. split; [exact Hrun | exact Hd'].
Qed.

Lemma claims_agree_new d axisSaveData :
  claims_agree d
    (List.map claims
       (List.map (fun r : AxisSaveRecord => AxisData_new (fst r) (snd r)) axisSaveData)).
Proof.
  intros c Hc. rewrite List.map_map in Hc. apply List.in_map_iff in Hc.
  destruct Hc as (r & <- & _). split; intros k [=].
Qed.

Lemma well_formed_new_axes km axisSaveData :
  well_formed km = true ->
  well_formed
    (set_axesInUse
       (List.map (fun r : AxisSaveRecord => AxisData_new (fst r) (snd r)) axisSaveData) km)
  = true.
Proof.
  intros Hwf. apply well_formed_iff in Hwf. destruct Hwf as (Hu & Hd & _).
  apply well_formed_iff. cbn [keyBindings axesInUse set_axesInUse].
  split; [exact Hu|]. split; [exact Hd|].
  apply List.forallb_forall. intros c Hc. rewrite List.map_map in Hc.
  apply List.in_map_iff in Hc. destruct Hc as (r & <- & _). reflexivity.
Qed.

(** Loading back into the manager that was saved.  On a manager whose
    controls share no input (and which is well-formed, each control having
    the callback that its kind needs), when the save-callback takes what
    [saveKeyMapping] hands to it and the load-callback returns just that,
    [saveKeyMapping] and then [loadKeyMapping] return and leave the dict
    of key-bindings as it was. *)
Theorem save_then_load_reproduces :
  forall (engine : Engine) (km : KeyMapper) save load,
    reproducible km = true ->
    saveMappingCallback engine = Some save ->
    save (keySaveData_of km) (axisSaveData_of km) (bindingFile km) = None ->
    loadMappingCallback engine = Some load ->
    load (bindingFile km) = Returned (keySaveData_of km) (axisSaveData_of km) ->
    exists km1 km2,
      saveKeyMapping engine km = (Val tt, km1)
      /\ loadKeyMapping engine km1 = (Val tt, km2)
      /\ keyBindings km2 = keyBindings km
      /\ (forall k kb,
             dict_get k (keyBindings km) = Some kb ->
             exists kb2,
               dict_get k (keyBindings km2) = Some kb2
               /\ binding kb2 = binding kb
               /\ deviceType kb2 = deviceType kb
               /\ axisDirection kb2 = axisDirection kb).
Proof.
  intros engine km save load Hrep Hsave Hsaved Hload Hloaded.
  apply reproducible_iff in Hrep. destruct Hrep as (Hwf & Hun & Hcb).
  pose proof (proj1 (well_formed_iff km) Hwf) as (Hu & _ & _).
  assert (H1 : saveKeyMapping engine km = (Val tt, km)).
  { unfold saveKeyMapping. rewrite !bind_gets, Hsave, Hsaved. reflexivity. }
  pose proof (collect_bindingList_own (keyBindings km) km (keyBindings km) Hu eq_refl
                (fun p Hp => Hp)) as Hcollect.
  fold (keySaveData_of km) in Hcollect.
  set (km' := set_axesInUse
                (List.map (fun r : AxisSaveRecord => AxisData_new (fst r) (snd r))
                          (axisSaveData_of km)) km).
  destruct (load_loop_own engine (keyBindings km) (keyBindings km) Hu Hun Hcb
              (fun p Hp => Hp) km') as (km2 & H2 & Hd2).
  { apply well_formed_new_axes. exact Hwf. }
  { reflexivity. }
  { apply claims_agree_new. }
  exists km, km2. split; [exact H1|].
  assert (Hrun : loadKeyMapping engine km = (Val tt, km2)).
  { unfold loadKeyMapping. rewrite bind_gets, Hload, Hloaded.
    rewrite (bind_Val _ _ _ _ _ Hcollect). rewrite bind_modify. exact H2. }
  split; [exact Hrun|]. split; [exact Hd2|].
  intros k kb Hk. exists kb. rewrite Hd2. repeat split. exact Hk.
Qed.

Lemma save_then_load_reproduces_example :
  exists km1 km2,
    saveKeyMapping
      (engine_loading (keySaveData_of example_game) (axisSaveData_of example_game))
      example_game = (Val tt, km1)
    /\ loadKeyMapping
         (engine_loading (keySaveData_of example_game) (axisSaveData_of example_game))
         km1 = (Val tt, km2)
    /\ keyBindings km2 = keyBindings example_game
    /\ (forall k kb,
           dict_get k (keyBindings example_game) = Some kb ->
           exists kb2,
             dict_get k (keyBindings km2) = Some kb2
             /\ binding kb2 = binding kb
             /\ deviceType kb2 = deviceType kb
             /\ axisDirection kb2 = axisDirection kb).
Proof.
  apply (save_then_load_reproduces
           (engine_loading (keySaveData_of example_game) (axisSaveData_of example_game))
           example_game (SaveLoadDummy_saveKeyMapping false)
           (fun _ => Returned (keySaveData_of example_game) (axisSaveData_of example_game)));
    reflexivity.
Defined.


(** * Further properties of the code *)

(** ** Floats *)

(** An axis that reads what it read when it was sampled has not moved,
    whatever the value (infinities and NaN included). *)
Lemma axis_moved_same v : axis_moved (Some v) v = false.
Proof.
  unfold axis_moved. rewrite FloatAxioms.ltb_spec, FloatAxioms.abs_spec, FloatAxioms.sub_spec.
  unfold SF64sub, SFsub.
  destruct (Prim2SF v) as [s|s| |s m e].
  - destruct s; reflexivity.
  - destruct s; reflexivity.
  - reflexivity.
  - rewrite Z.sub_diag. reflexivity.
Qed.

Lemma SFcompare_Lt_asym x y : SFcompare x y = Some Lt -> SFcompare y x = Some Gt.
Proof.
  destruct x as [sx|sx| |sx mx ex], y as [sy|sy| |sy my ey]; cbn;
    try discriminate;
    try (destruct sx; try discriminate; try reflexivity; fail);
    try (destruct sy; try discriminate; try reflexivity; fail);
    try (destruct sx, sy; try discriminate; reflexivity).
  destruct sx, sy; try discriminate; try reflexivity.
  - rewrite (Z.compare_antisym ex ey).
    destruct (ex ?= ey)%Z; cbn; try discriminate; try reflexivity.
    rewrite (Pos.compare_cont_antisym my mx Eq). cbn [CompOpp].
    destruct (Pos.compare_cont Eq mx my); cbn; try discriminate; reflexivity.
  - rewrite (Z.compare_antisym ex ey).
    destruct (ex ?= ey)%Z; cbn; try discriminate; try reflexivity.
    rewrite <- (CompOpp_involutive (Pos.compare_cont Eq my mx)).
    rewrite (Pos.compare_cont_antisym my mx Eq). cbn [CompOpp].
    destruct (Pos.compare_cont Eq mx my); cbn; try discriminate; reflexivity.
Qed.

Lemma ltb_asym a b : PrimFloat.ltb a b = true -> PrimFloat.ltb b a = false.
Proof.
  rewrite !FloatAxioms.ltb_spec. unfold SFltb.
  destruct (SFcompare (Prim2SF a) (Prim2SF b)) as [[| |]|] eqn:H; try discriminate.
  intros _. rewrite (SFcompare_Lt_asym _ _ H). reflexivity.
Qed.

Lemma abs_abs v : PrimFloat.abs (PrimFloat.abs v) = PrimFloat.abs v.
Proof.
  apply Prim2SF_inj. rewrite !FloatAxioms.abs_spec. destruct (Prim2SF v); reflexivity.
Qed.

(** A value that equals zero is below every dead zone above zero. *)
Lemma eqb_zero_below a dz :
  PrimFloat.eqb a 0 = true -> PrimFloat.ltb 0 dz = true -> PrimFloat.ltb a dz = true.
Proof.
  rewrite FloatAxioms.eqb_spec, !FloatAxioms.ltb_spec. unfold SFeqb, SFltb.
  change (Prim2SF 0) with (S754_zero false).
  destruct (Prim2SF a) as [s|s| |s m e]; cbn.
  - intros _ H. exact H.
  - destruct s; discriminate.
  - discriminate.
  - destruct s; discriminate.
Qed.

(** ** Device types as strings *)

(** A string with no dot is its own last part. *)
Lemma last_part_aux_name c acc : last_part_aux (DeviceClass_name c) acc = acc.
Proof. destruct c; reflexivity. Qed.

Lemma last_part_aux_qualified prefix s :
  (forall acc, last_part_aux s acc = acc) ->
  forall acc, last_part_aux (prefix ++ String "."%char s) acc = s.
Proof.
  intros Hs. induction prefix as [|c prefix IH]; intros acc.
  - cbn. apply Hs.
  - change (last_part_aux (String c (prefix ++ String "."%char s)) acc = s).
    cbn [last_part_aux]. destruct (Ascii.eqb c "."%char); apply IH.
Qed.

Lemma last_part_aux_no_dot s :
  forall acc,
    (forall acc', last_part_aux (last_part_aux s acc) acc' = acc')
    \/ (last_part_aux s acc = acc /\ forall acc', last_part_aux s acc' = acc').
Proof.
  induction s as [|c s IH]; intros acc.
  - right. split; reflexivity.
  - cbn [last_part_aux]. destruct (Ascii.eqb c "."%char).
    + left. destruct (IH s) as [H|[H1 H2]]; [exact H|].
      rewrite H1. exact H2.
    + destruct (IH acc) as [H|[H1 H2]]; [left; exact H|].
      right. split; [exact H1 | exact H2].
Qed.

Lemma DeviceClass_of_string_name c : DeviceClass_of_string (DeviceClass_name c) = Some c.
Proof. destruct c; reflexivity. Qed.

(** The string that [getDeviceTypeString] makes of a device class, or of
    a string that names one with any qualification before the last dot,
    is the member's name: [addUsedDevice] and [removeUsedDevice] evaluate
    it back to the class.  Applied to its own result,
    [getDeviceTypeString] changes nothing. *)
Theorem getDeviceTypeString_evaluates_back :
  forall (c : DeviceClass) (qualification : string) (km : KeyMapper),
    getDeviceTypeString (DT_class c) = DeviceClass_name c
    /\ getDeviceTypeString
         (DT_string (qualification ++ String "."%char (DeviceClass_name c)))
       = DeviceClass_name c
    /\ to_DeviceClass (DT_string (getDeviceTypeString (DT_class c))) km = (Val c, km)
    /\ forall s,
         getDeviceTypeString (DT_string (getDeviceTypeString (DT_string s)))
         = getDeviceTypeString (DT_string s).
Proof.
  intros c qualification km.
  assert (H1 : getDeviceTypeString (DT_class c) = DeviceClass_name c).
  { destruct c; reflexivity. }
  split; [exact H1|]. split; [|split].
  - unfold getDeviceTypeString, last_part.
    apply last_part_aux_qualified. intros acc. apply last_part_aux_name.
  - rewrite H1. unfold to_DeviceClass. rewrite DeviceClass_of_string_name. reflexivity.
  - intros s. unfold getDeviceTypeString, last_part.
    destruct (last_part_aux_no_dot s s) as [H|[H _]].
    + apply H.
    + rewrite !H. reflexivity.
Qed.

(** ** The devices in use *)

Lemma DeviceClass_eqb_eq a b : DeviceClass_eqb a b = true <-> a = b.
Proof. destruct a, b; split; intros H; try reflexivity; discriminate. Qed.

Lemma InputDevice_eqb_eq a b : InputDevice_eqb a b = true <-> a = b.
Proof.
  unfold InputDevice_eqb. rewrite Bool.andb_true_iff, Nat.eqb_eq, DeviceClass_eqb_eq.
  destruct a, b; simpl. split.
  - intros [-> ->]. reflexivity.
  - intros [= -> ->]. split; reflexivity.
Qed.

(** The loop of [removeUsedDevice] over the devices to remove. *)
Lemma removeUsedDevice_loop (l : list (InputDevice * DataNP)) :
  forall km,
    exists km',
      for_each l (fun p =>
        modify (fun km =>
          set_axesInUse (List.map (AxisData_detach (fst p)) (axesInUse km)) km) ;;;
        modify (fun km =>
          set_devicesInUse
            (List.filter (fun q => negb (InputDevice_eqb (fst q) (fst p)))
                         (devicesInUse km)) km) ;;;
        modify (fun km =>
          set_dataNPList
            (List.filter (fun np => negb (Nat.eqb (np_id np) (np_id (snd p))))
                         (dataNPList km)) km)) km = (Val tt, km')
      /\ devicesInUse km'
         = List.filter
             (fun q => negb (List.existsb (fun p => InputDevice_eqb (fst q) (fst p)) l))
             (devicesInUse km)
      /\ keyBindings km' = keyBindings km
      /\ keys km' = keys km
      /\ events km' = events km
      /\ List.map claims (axesInUse km') = List.map claims (axesInUse km)
      /\ List.map deadZone (axesInUse km') = List.map deadZone (axesInUse km)
      /\ (forall a d,
            In a (axesInUse km') ->
            devicePositive a = Some d \/ deviceNegative a = Some d ->
            ~ In d (List.map fst l)
            /\ exists a0, In a0 (axesInUse km)
                          /\ (devicePositive a0 = Some d \/ deviceNegative a0 = Some d)).
Proof.
  induction l as [|p l IH]; intros km.
  - exists km. split; [reflexivity|]. split.
    + simpl. symmetry. apply filter_forallb_id. apply List.forallb_forall. reflexivity.
    + repeat split; [intros [] | exists a; split; assumption].
  - set (km1 :=
           set_dataNPList
             (List.filter (fun np => negb (Nat.eqb (np_id np) (np_id (snd p))))
                          (dataNPList km))
             (set_devicesInUse
                (List.filter (fun q => negb (InputDevice_eqb (fst q) (fst p)))
                             (devicesInUse km))
                (set_axesInUse (List.map (AxisData_detach (fst p)) (axesInUse km)) km))).
    destruct (IH km1) as (km' & Hrun & Hdev & Hkb & Hkeys & Hev & Hcl & Hdz & Hax).
    exists km'. split; [exact Hrun|]. split; [|split; [|split; [|split; [|split; [|split]]]]].
    + rewrite Hdev. unfold km1. cbn [devicesInUse set_dataNPList set_devicesInUse].
      clear. induction (devicesInUse km) as [|q qs IHq]; [reflexivity|].
      cbn [List.filter List.existsb].
      destruct (InputDevice_eqb (fst q) (fst p)); cbn [negb orb List.filter].
      * exact IHq.
      * destruct (List.existsb _ l); cbn [negb]; rewrite IHq; reflexivity.
    + rewrite Hkb. reflexivity.
    + rewrite Hkeys. reflexivity.
    + rewrite Hev. reflexivity.
    + rewrite Hcl. unfold km1. simpl. apply claims_map_detach.
    + rewrite Hdz. unfold km1. simpl. rewrite List.map_map. reflexivity.
    + intros a d Ha Hd.
      destruct (Hax a d Ha Hd) as (Hnot & a1 & Ha1 & Hd1).
      unfold km1 in Ha1. cbn [axesInUse set_dataNPList set_devicesInUse set_axesInUse] in Ha1.
      apply List.in_map_iff in Ha1. destruct Ha1 as (a0 & <- & Ha0).
      unfold AxisData_detach in Hd1.
      cbn [devicePositive deviceNegative AxisData_set_devices] in Hd1.
      assert (Hd0 : (devicePositive a0 = Some d \/ deviceNegative a0 = Some d) /\ d <> fst p).
      { destruct Hd1 as [H|H].
        - destruct (option_eqb InputDevice_eqb (devicePositive a0) (Some (fst p))) eqn:E;
            [discriminate|].
          split; [left; exact H|]. intros ->. rewrite H in E. cbn in E.
          rewrite (proj2 (InputDevice_eqb_eq _ _) eq_refl) in E. discriminate.
        - destruct (option_eqb InputDevice_eqb (deviceNegative a0) (Some (fst p))) eqn:E;
            [discriminate|].
          split; [right; exact H|]. intros ->. rewrite H in E. cbn in E.
          rewrite (proj2 (InputDevice_eqb_eq _ _) eq_refl) in E. discriminate. }
      destruct Hd0 as [Hd0 Hne]. split.
      * intros [Heq|Hin]; [apply Hne; symmetry; exact Heq | exact (Hnot Hin)].
      * exists a0. split; assumption.
Qed.

(** [removeUsedDevice] of a device class, or of a string that evaluates
    to one, returns.  It never removes the keyboard or the mouse.  For any
    other class it removes from the devices in use exactly those of that
    class; no axis entry is left polling one of them, and neither a
    binding nor the holder of an axis direction changes. *)
Theorem removeUsedDevice_removes_the_class :
  forall (t : DeviceTypeInput) (c : DeviceClass) (km : KeyMapper),
    to_DeviceClass t km = (Val c, km) ->
    exists km',
      removeUsedDevice t km = (Val tt, km')
      /\ (is_keyboard_or_mouse c = true -> km' = km)
      /\ (is_keyboard_or_mouse c = false ->
            devicesInUse km'
            = List.filter (fun p => negb (DeviceClass_eqb (device_class (fst p)) c))
                          (devicesInUse km))
      /\ keyBindings km' = keyBindings km
      /\ List.map claims (axesInUse km') = List.map claims (axesInUse km)
      /\ (is_keyboard_or_mouse c = false ->
            forall a d,
              In a (axesInUse km') ->
              devicePositive a = Some d \/ deviceNegative a = Some d ->
              In d (List.map fst (devicesInUse km)) ->
              device_class d <> c).
Proof.
  intros t c km Heval. unfold removeUsedDevice, is_keyboard_or_mouse.
  rewrite (bind_Val _ _ km c km Heval).
  destruct (DeviceClass_eqb c keyboard || DeviceClass_eqb c mouse)%bool.
  - exists km. split; [reflexivity|]. repeat split; intros; discriminate.
  - rewrite bind_gets.
    destruct (removeUsedDevice_loop
                (List.filter (fun p => DeviceClass_eqb (device_class (fst p)) c)
                             (devicesInUse km)) km)
      as (km' & Hrun & Hdev & Hkb & _ & _ & Hcl & _ & Hax).
    exists km'. split; [exact Hrun|]. split; [discriminate|].
    split; [|split; [exact Hkb|split; [exact Hcl|]]].
    + intros _. rewrite Hdev. apply List.filter_ext_in. intros q Hq. f_equal.
      destruct (DeviceClass_eqb (device_class (fst q)) c) eqn:Hc.
      * apply List.existsb_exists. exists q. split.
        -- apply List.filter_In. split; assumption.
        -- apply InputDevice_eqb_eq. reflexivity.
      * apply Bool.not_true_is_false. intros Hex.
        apply List.existsb_exists in Hex. destruct Hex as (p & Hp & Heq).
        apply List.filter_In in Hp. destruct Hp as [_ Hpc].
        apply InputDevice_eqb_eq in Heq. rewrite Heq, Hpc in Hc. discriminate.
    + intros _ a d Ha Hd Hin Hclass.
      destruct (Hax a d Ha Hd) as [Hnot _]. apply Hnot.
      apply List.in_map_iff in Hin. destruct Hin as (q & <- & Hq).
      apply List.in_map. apply List.filter_In. split; [exact Hq|].
      apply DeviceClass_eqb_eq. exact Hclass.
Qed.

Lemma removeUsedDevice_removes_the_class_example :
  exists km',
    removeUsedDevice (DT_string "gamepad") example_game = (Val tt, km')
    /\ (is_keyboard_or_mouse gamepad = true -> km' = example_game)
    /\ (is_keyboard_or_mouse gamepad = false ->
          devicesInUse km'
          = List.filter (fun p => negb (DeviceClass_eqb (device_class (fst p)) gamepad))
                        (devicesInUse example_game))
    /\ keyBindings km' = keyBindings example_game
    /\ List.map claims (axesInUse km') = List.map claims (axesInUse example_game)
    /\ (is_keyboard_or_mouse gamepad = false ->
          forall a d,
            In a (axesInUse km') ->
            devicePositive a = Some d \/ deviceNegative a = Some d ->
            In d (List.map fst (devicesInUse example_game)) ->
            device_class d <> gamepad).
Proof.
  apply (removeUsedDevice_removes_the_class (DT_string "gamepad") gamepad example_game).
  reflexivity.
Defined.

Lemma find_app_none {A} (f : A -> bool) (l1 l2 : list A) :
  List.find f l1 = None -> List.find f (l1 ++ l2)%list = List.find f l2.
Proof.
  induction l1 as [|x l1 IH]; cbn [List.find app]; [reflexivity|].
  destruct (f x); [discriminate | exact IH].
Qed.

(** [addUsedDevice] returns.  The device it returns has the class asked
    for and is in [devicesInUse] afterwards; it returns [None], and
    changes nothing, exactly when no device of the class is in use or
    connected.  A second call returns the same and changes nothing more:
    a class never has two devices in use through it. *)
Theorem addUsedDevice_returns_device_in_use :
  forall (engine : Engine) (c : DeviceClass) (km : KeyMapper),
    exists r km',
      addUsedDevice engine (DT_class c) km = (Val r, km')
      /\ match r with
         | Some d => device_class d = c /\ In d (List.map fst (devicesInUse km'))
         | None =>
             km' = km
             /\ (forall d, In d (base_devices engine) -> device_class d <> c)
             /\ (forall d, In d (List.map fst (devicesInUse km)) -> device_class d <> c)
         end
      /\ addUsedDevice engine (DT_class c) km' = (Val r, km').
Proof.
  intros engine c km. unfold addUsedDevice.
  rewrite (bind_Val _ _ km c km eq_refl), bind_gets.
  destruct (List.find (fun d => DeviceClass_eqb (device_class d) c)
                      (List.map fst (devicesInUse km))) as [d|] eqn:Hfind.
  - exists (Some d), km. split; [reflexivity|]. split.
    + apply List.find_some in Hfind. destruct Hfind as [Hin Hc].
      split; [apply DeviceClass_eqb_eq; exact Hc | exact Hin].
    + rewrite (bind_Val _ _ km c km eq_refl), bind_gets, Hfind. reflexivity.
  - destruct (List.filter (fun d => DeviceClass_eqb (device_class d) c)
                          (base_devices engine)) as [|device rest] eqn:Hdevices.
    + exists None, km. split; [reflexivity|]. split.
      * split; [reflexivity|]. split.
        -- intros d Hd Hc.
           assert (Hin : In d (List.filter (fun d => DeviceClass_eqb (device_class d) c)
                                           (base_devices engine))).
           { apply List.filter_In. split; [exact Hd | apply DeviceClass_eqb_eq; exact Hc]. }
           rewrite Hdevices in Hin. destruct Hin.
        -- intros d Hd Hc.
           apply (List.find_none _ _ Hfind) in Hd.
           rewrite (proj2 (DeviceClass_eqb_eq _ _) Hc) in Hd. discriminate.
      * rewrite (bind_Val _ _ km c km eq_refl), bind_gets, Hfind, Hdevices. reflexivity.
    + assert (Hclass : device_class device = c).
      { assert (Hin : In device (List.filter (fun d => DeviceClass_eqb (device_class d) c)
                                             (base_devices engine))).
        { rewrite Hdevices. left. reflexivity. }
        apply List.filter_In in Hin. apply DeviceClass_eqb_eq. apply Hin. }
      rewrite !bind_modify.
      eexists (Some device), _. split; [reflexivity|].
      assert (Hinuse : forall np n km0,
                 devicesInUse
                   (set_axesInUse
                      (List.map (AxisData_attach (getDeviceTypeString (DT_class c)) device)
                                (axesInUse km0))
                      (set_nodeCount n
                         (set_devicesInUse (devicesInUse km ++ [(device, np)])%list km0)))
                 = (devicesInUse km ++ [(device, np)])%list).
      { reflexivity. }
      split.
      * split; [exact Hclass|].
        destruct (find_dataNP device (dataNPList km)); cbn [devicesInUse set_axesInUse
          set_nodeCount set_devicesInUse]; rewrite List.map_app; apply List.in_or_app;
          right; left; reflexivity.
      * rewrite (bind_Val _ _ _ c _ eq_refl), bind_gets.
        destruct (find_dataNP device (dataNPList km));
          cbn [devicesInUse set_axesInUse set_nodeCount set_devicesInUse];
          rewrite List.map_app, (find_app_none _ _ _ Hfind); cbn [List.map List.find fst];
          rewrite (proj2 (DeviceClass_eqb_eq _ _) Hclass); reflexivity.
Qed.

(** ** The table of key states *)

Lemma dict_get_set {V} (k k' : string) (v : V) (d : list (string * V)) :
  dict_get k (dict_set k' v d) = if String.eqb k k' then Some v else dict_get k d.
Proof.
  induction d as [|[k0 v0] d IH]; cbn [dict_set dict_get].
  - destruct (String.eqb k k'); reflexivity.
  - destruct (String.eqb_spec k' k0) as [->|Hne]; cbn [dict_get].
    + destruct (String.eqb k k0); reflexivity.
    + rewrite IH. destruct (String.eqb_spec k k0) as [->|Hne'].
      * destruct (String.eqb_spec k0 k') as [->|_]; [contradiction | reflexivity].
      * reflexivity.
Qed.

Lemma dict_set_keys {V} (k : string) (v : V) (d : list (string * V)) :
  List.existsb (String.eqb k) (List.map fst d) = true ->
  List.map fst (dict_set k v d) = List.map fst d.
Proof.
  induction d as [|[k0 v0] d IH]; cbn [dict_set List.map List.existsb fst]; [discriminate|].
  destruct (String.eqb k k0); cbn [orb List.map fst]; [reflexivity|].
  intros H. rewrite (IH H). reflexivity.
Qed.

Lemma cancelKeys_loop (l : list string) :
  forall km,
    (forall k, In k l -> List.existsb (String.eqb k) (List.map fst (keys km)) = true) ->
    exists table,
      for_each l (fun description => set_key description 0%float) km
      = (Val tt, set_keys table km)
      /\ List.map fst table = List.map fst (keys km)
      /\ forall k, dict_get k table
                   = if List.existsb (String.eqb k) l then Some 0%float
                     else dict_get k (keys km).
Proof.
  induction l as [|d l IH]; intros km Hl.
  - exists (keys km). split; [destruct km; reflexivity|]. split; reflexivity.
  - destruct (IH (set_keys (dict_set d 0%float (keys km)) km)) as (table & Hrun & Hdom & Hget).
    { intros k Hk. cbn [keys set_keys].
      rewrite dict_set_keys; [|apply Hl; left; reflexivity].
      apply Hl. right. exact Hk. }
    exists table. split; [|split].
    + cbn [for_each]. unfold set_key at 1. rewrite bind_modify. rewrite Hrun. reflexivity.
    + rewrite Hdom. cbn [keys set_keys]. apply dict_set_keys. apply Hl. left. reflexivity.
    + intros k. rewrite Hget. cbn [keys set_keys List.existsb].
      rewrite dict_get_set. destruct (String.eqb k d); cbn [orb].
      * destruct (List.existsb (String.eqb k) l); reflexivity.
      * reflexivity.
Qed.

(** [cancelKeys] returns and touches nothing but the table of key
    states, which keeps its keys; afterwards [keyIsHeld] returns False for
    every control that has a state, and for any other name it raises
    KeyError, as it does at any time. *)
Theorem cancelKeys_releases_every_key :
  forall (km : KeyMapper),
    exists km',
      cancelKeys km = (Val tt, km')
      /\ km' = set_keys (keys km') km
      /\ List.map fst (keys km') = List.map fst (keys km)
      /\ forall k,
           keyIsHeld k km'
           = if List.existsb (String.eqb k) (List.map fst (keys km))
             then (Val false, km')
             else (Raise (KeyError (Some k)), km').
Proof.
  intros km. unfold cancelKeys. rewrite bind_gets.
  destruct (cancelKeys_loop (List.map fst (keys km)) km) as (table & Hrun & Hdom & Hget).
  { intros k Hk. apply List.existsb_exists. exists k. split; [exact Hk | apply String.eqb_refl]. }
  exists (set_keys table km). split; [exact Hrun|]. split; [reflexivity|].
  split; [exact Hdom|].
  intros k. unfold keyIsHeld. rewrite bind_gets. cbn [keys set_keys].
  rewrite Hget.
  destruct (List.existsb (String.eqb k) (List.map fst (keys km))) eqn:Hk.
  - reflexivity.
  - apply dict_get_unregistered in Hk. rewrite Hk. reflexivity.
Qed.

(** ** The subscriptions of [bindKey] *)

Lemma bind_inv_Val {A B} (m : M A) (k : A -> M B) km b km' :
  bind m k km = (Val b, km') ->
  exists a km1, m km = (Val a, km1) /\ k a km1 = (Val b, km').
Proof.
  unfold bind. destruct (m km) as [[a|e] km1]; [|discriminate].
  intros H. exists a, km1. split; [reflexivity | exact H].
Qed.

Lemma keyBindings_at_inv k km r km' :
  keyBindings_at k km = (r, km') -> km' = km.
Proof.
  unfold keyBindings_at. destruct (dict_get k (keyBindings km)); intros [= _ <-]; reflexivity.
Qed.

Lemma removeUsedDevice_events t : preserves events (removeUsedDevice t).
Proof.
  unfold removeUsedDevice. apply preserves_bind; [unfold to_DeviceClass; frame|].
  intros c. frame.
Qed.

Lemma addUsedDevice_events engine t : preserves events (addUsedDevice engine t).
Proof.
  unfold addUsedDevice. apply preserves_bind; [unfold to_DeviceClass; frame|].
  intros c. apply preserves_bind; [frame|]. intros inUse.
  destruct (List.find _ _); [frame|].
  destruct (List.filter _ _) as [|device rest]; [frame|].
  apply preserves_bind.
  { apply preserves_modify. intros km.
    destruct (find_dataNP device (dataNPList km)); reflexivity. }
  intros _. frame.
Qed.

Lemma unbind_keys_events ks : preserves events (unbind_keys ks).
Proof.
  induction ks as [|key rest IH]; cbn [unbind_keys]; [frame|].
  apply preserves_bind.
  { intros km r km' H. rewrite (keyBindings_at_inv _ _ _ _ H). reflexivity. }
  intros kb. apply preserves_bind; [frame|]. intros _.
  apply preserves_bind; [exact IH|]. intros checks. frame.
Qed.

(** [clearKeyEvent] ignores the event of the input and its "-up". *)
Lemma clearKeyEvent_events b direction km km' :
  clearKeyEvent (Some b) direction km = (Val tt, km') ->
  events km' = delete (up b) (delete b (events km)).
Proof.
  unfold clearKeyEvent. intros H.
  apply bind_inv_Val in H. destruct H as (ks & km1 & H1 & H).
  apply bind_inv_Val in H. destruct H as (dts & km2 & H2 & H).
  rewrite bind_gets in H.
  apply bind_inv_Val in H. destruct H as ([] & km3 & H3 & H).
  rewrite !bind_modify in H. unfold modify in H. injection H as <-.
  cbn [events set_axesInUse set_events].
  assert (E1 : events km1 = events km).
  { destruct (is_axis_binding b).
    - destruct (clear_axis_entries (string_from 5 b) direction (axesInUse km)).
      injection H1 as _ <-. reflexivity.
    - injection H1 as _ <-. reflexivity. }
  assert (E2 : events km2 = events km1) by exact (unbind_keys_events _ _ _ _ H2).
  assert (E3 : events km3 = events km2).
  { refine (preserves_for_each events _ _ _ _ _ _ H3). intros dt.
    destruct (List.existsb _ _); [frame|].
    destruct dt; [apply removeUsedDevice_events | frame]. }
  rewrite E3, E2, E1. reflexivity.
Qed.

Lemma length_append (s t : string) :
  String.length (s ++ t) = (String.length s + String.length t)%nat.
Proof.
  induction s as [|c s IH]; [reflexivity|].
  change (S (String.length (s ++ t)) = S (String.length s + String.length t)).
  f_equal. exact IH.
Qed.

Lemma up_neq b : up b <> b.
Proof.
  intros H. apply (f_equal String.length) in H. unfold up in H.
  rewrite length_append in H. cbn in H. lia.
Qed.

Lemma up_inj b b' : up b = up b' -> b = b'.
Proof.
  unfold up. revert b'. induction b as [|c b IH]; intros [|c' b'] H; cbn in H.
  - reflexivity.
  - exfalso. injection H as _ H. destruct b' as [|c1 [|c2 b']]; cbn in H; try discriminate.
    destruct b'; discriminate.
  - exfalso. injection H as _ H. destruct b as [|c1 [|c2 b]]; cbn in H; try discriminate.
    destruct b; discriminate.
  - injection H as -> H. f_equal. apply IH. exact H.
Qed.

(** What [subscribe] accepts is accepted under the name of the input
    and under its "-up". *)
Lemma subscribe_events_other k b ty cb km km' name :
  subscribe k (Some b) ty cb km = (Val tt, km') ->
  name <> b -> name <> up b ->
  events km' !! name = events km !! name.
Proof.
  intros H Hb Hup.
  assert (Hacc : forall h km0 km1, accept b h km0 = (Val tt, km1) ->
                   events km1 !! name = events km0 !! name).
  { intros h km0 km1 [= <-]. cbn [events set_events].
    apply lookup_insert_ne. congruence. }
  assert (Haccup : forall h km0 km1, accept (up b) h km0 = (Val tt, km1) ->
                   events km1 !! name = events km0 !! name).
  { intros h km0 km1 [= <-]. cbn [events set_events].
    apply lookup_insert_ne. congruence. }
  assert (Hboth : forall h1 h2 km0 km1,
             (accept b h1 ;;; accept (up b) h2) km0 = (Val tt, km1) ->
             events km1 !! name = events km0 !! name).
  { intros h1 h2 km0 km1 [= <-]. cbn [events set_events].
    rewrite lookup_insert_ne by congruence. apply lookup_insert_ne. congruence. }
  unfold subscribe, accept_callback in H.
  destruct (ty =? KEYMAP_HELD_KEY); [exact (Hboth _ _ _ _ H)|].
  destruct (ty =? KEYMAP_EVENT_PRESSED).
  { destruct cb; [discriminate | exact (Hacc _ _ _ H) | discriminate]. }
  destruct (ty =? KEYMAP_EVENT_RELEASED).
  { destruct cb; [discriminate | exact (Haccup _ _ _ H) | discriminate]. }
  destruct (ty =? KEYMAP_EVENT_PRESSED_AND_RELEASED).
  - destruct cb as [|f|items]; [discriminate | exact (Hboth _ _ _ _ H) |].
    destruct items as [|[f0|] [|[f1|] rest]]; try discriminate.
    exact (Hboth _ _ _ _ H).
  - injection H as <-. reflexivity.
Qed.

(** The steps of a [bindKey] that returns, as far as the subscriptions
    go: the state [km1] after the first [clearKeyEvent], the binding
    object [old] read in it, and the state [km3] in which [subscribe]
    ran. *)
Lemma bindKey_events engine k b ty cb dt direction km km' :
  bindKey engine k (Some b) ty cb dt direction km = (Val tt, km') ->
  exists km1 old km2 km3,
    clearKeyEvent (Some b) direction km = (Val tt, km1)
    /\ dict_get k (keyBindings km1) = Some old
    /\ clearKeyEvent (binding old) (axisDirection old) km1 = (Val tt, km2)
    /\ subscribe k (Some b) ty cb km2 = (Val tt, km3)
    /\ events km' = events km3.
Proof.
  unfold bindKey. intros H.
  apply bind_inv_Val in H. destruct H as ([] & km1 & H1 & H).
  apply bind_inv_Val in H. destruct H as (old & km1' & Hold & H).
  pose proof (keyBindings_at_inv _ _ _ _ Hold) as ->.
  unfold keyBindings_at in Hold.
  destruct (dict_get k (keyBindings km1)) as [old'|] eqn:Hget; [|discriminate].
  injection Hold as ->.
  apply bind_inv_Val in H. destruct H as ([] & km2 & H2 & H).
  apply bind_inv_Val in H. destruct H as ([] & km3 & H3 & H).
  rewrite bind_modify in H.
  exists km1, old, km2, km3. repeat (split; [assumption|]).
  destruct dt as [dt|].
  - apply bind_inv_Val in H. destruct H as (device & km4 & H4 & H).
    pose proof (addUsedDevice_events _ _ _ _ _ H4) as E4. cbn [events set_keyBindings] in E4.
    destruct (is_axis_binding b); injection H as <-; cbn [events set_axesInUse]; exact E4.
  - injection H as <-. reflexivity.
Qed.

Lemma keyPressed_then_keyIsHeld k v km :
  fst ((keyPressed k v ;;; keyIsHeld k) km) = Val (PrimFloat.ltb 0.5 (PrimFloat.abs v)).
Proof.
  cbv [keyPressed call_keyState set_key keyIsHeld bind modify gets].
  destruct (keyStateCallback km); cbn [keys set_keys set_calls];
    rewrite dict_get_set, String.eqb_refl; reflexivity.
Qed.

(** A held control follows its button.  On a well-formed manager,
    [bindKey] of a registered control to an input with the kind "held"
    returns, whatever the callback; the event of the input is then
    accepted with [keyPressed(k, 1)] and its "-up" with
    [keyPressed(k, 0)].  After the first call [keyIsHeld(k)] returns True,
    after the second False. *)
Theorem held_key_follows_its_button :
  forall (engine : Engine) (km : KeyMapper) (k b : string) (cb : Callback)
         (dt : option string) (direction : Z),
    well_formed km = true ->
    registered km k = true ->
    valid_deviceType dt = true ->
    exists km',
      bindKey engine k (Some b) KEYMAP_HELD_KEY cb dt direction km = (Val tt, km')
      /\ events km' !! b = Some (H_keyPressed k 1%float)
      /\ events km' !! up b = Some (H_keyPressed k 0%float)
      /\ (forall km0, fst ((keyPressed k 1%float ;;; keyIsHeld k) km0) = Val true)
      /\ (forall km0, fst ((keyPressed k 0%float ;;; keyIsHeld k) km0) = Val false).
Proof.
  intros engine km k b cb dt direction Hwf Hreg Hdt.
  destruct (bindKey_view engine k (Some b) KEYMAP_HELD_KEY cb dt direction km Hwf Hreg Hdt
              eq_refl) as (km' & Hrun & _).
  exists km'. split; [exact Hrun|].
  destruct (bindKey_events _ _ _ _ _ _ _ _ _ Hrun)
    as (km1 & old & km2 & km3 & _ & _ & _ & Hsub & ->).
  unfold subscribe in Hsub. cbn in Hsub. injection Hsub as <-.
  cbn [events set_events].
  split; [|split; [|split]].
  - rewrite lookup_insert_ne by apply up_neq. apply lookup_insert_eq.
  - apply lookup_insert_eq.
  - intros km0. apply keyPressed_then_keyIsHeld.
  - intros km0. apply keyPressed_then_keyIsHeld.
Qed.

Lemma held_key_follows_its_button_example :
  exists km',
    bindKey example_engine KEY_THRUST (Some "space") KEYMAP_HELD_KEY CbNone
            (Some "keyboard") 0 example_game = (Val tt, km')
    /\ events km' !! "space" = Some (H_keyPressed KEY_THRUST 1%float)
    /\ events km' !! up "space" = Some (H_keyPressed KEY_THRUST 0%float)
    /\ (forall km0, fst ((keyPressed KEY_THRUST 1%float ;;; keyIsHeld KEY_THRUST) km0)
                    = Val true)
    /\ (forall km0, fst ((keyPressed KEY_THRUST 0%float ;;; keyIsHeld KEY_THRUST) km0)
                    = Val false).
Proof.
  apply (held_key_follows_its_button example_engine example_game KEY_THRUST "space"
           CbNone (Some "keyboard") 0); reflexivity.
Defined.

(** Once a control is bound to a new input, the input it had is inert.
    On a well-formed manager, [bindKey] of a control bound to [old] to an
    input [b] that is not an axis (with the callback its kind needs)
    returns and leaves no handler accepted for the event [old] nor for
    its "-up", when these two names are not those of [b] and its "-up". *)
Theorem bindKey_ignores_previous_binding :
  forall (engine : Engine) (km : KeyMapper) (k : string) (kb0 : KeyBinding)
         (old b : string) (ty : Z) (cb : Callback) (dt : option string) (direction : Z),
    well_formed km = true ->
    dict_get k (keyBindings km) = Some kb0 ->
    binding kb0 = Some old ->
    valid_deviceType dt = true ->
    callback_missing ty cb = false ->
    is_axis_binding b = false ->
    old <> b -> old <> up b -> up old <> b ->
    exists km',
      bindKey engine k (Some b) ty cb dt direction km = (Val tt, km')
      /\ events km' !! old = None
      /\ events km' !! up old = None.
Proof.
  intros engine km k kb0 old b ty cb dt direction Hwf Hk Hold Hdt Hcb Haxis Hne1 Hne2 Hne3.
  assert (Hreg : registered km k = true).
  { apply dict_get_registered. exists kb0. exact Hk. }
  destruct (bindKey_view engine k (Some b) ty cb dt direction km Hwf Hreg Hdt Hcb)
    as (km' & Hrun & _).
  exists km'. split; [exact Hrun|].
  destruct (bindKey_events _ _ _ _ _ _ _ _ _ Hrun)
    as (km1 & old1 & km2 & km3 & H1 & Hget & H2 & Hsub & ->).
  destruct (clearKeyEvent_effect b direction km Hwf) as (km1' & H1' & Hkb1 & _).
  rewrite H1 in H1'. injection H1' as <-.
  assert (Hsame : old1 = kb0).
  { rewrite Hkb1, dict_get_unbind_in in Hget.
    unfold keysToChange_of in Hget. rewrite Haxis in Hget.
    destruct (List.existsb (fun k0 => String.eqb k0 k) (keys_bound_to b (keyBindings km)))
      eqn:Hin.
    - exfalso. apply List.existsb_exists in Hin. destruct Hin as (k0 & Hk0 & Heq).
      apply String.eqb_eq in Heq. subst k0.
      unfold keys_bound_to in Hk0. apply List.in_map_iff in Hk0.
      destruct Hk0 as ([k1 kb1] & Hfst & Hin). cbn [fst] in Hfst. subst k1.
      apply List.filter_In in Hin. destruct Hin as [Hin Hb]. cbn [snd] in Hb.
      assert (kb1 = kb0).
      { apply well_formed_iff in Hwf. destruct Hwf as (Hu & _).
        pose proof (unique_dict_get _ _ _ Hu Hin) as Hget1. congruence. }
      subst kb1. rewrite Hold in Hb. cbn in Hb. apply String.eqb_eq in Hb. congruence.
    - congruence. }
  subst old1. rewrite Hold in H2.
  pose proof (clearKeyEvent_events _ _ _ _ H2) as E2.
  split.
  - rewrite (subscribe_events_other _ _ _ _ _ _ old Hsub Hne1 Hne2), E2.
    rewrite lookup_delete_ne by apply up_neq. apply lookup_delete_eq.
  - assert (Hne4 : up old <> up b) by (intros H; apply Hne1; apply up_inj; exact H).
    rewrite (subscribe_events_other _ _ _ _ _ _ (up old) Hsub Hne3 Hne4), E2.
    apply lookup_delete_eq.
Qed.

Lemma bindKey_ignores_previous_binding_example :
  exists km',
    bindKey example_engine KEY_THRUST (Some "space") KEYMAP_HELD_KEY CbNone
            (Some "keyboard") 0 example_game = (Val tt, km')
    /\ events km' !! "face_a" = None
    /\ events km' !! up "face_a" = None.
Proof.
  refine (bindKey_ignores_previous_binding example_engine example_game KEY_THRUST
            thrust_binding "face_a" "space" KEYMAP_HELD_KEY CbNone (Some "keyboard") 0
            _ _ _ _ _ _ _ _ _); try reflexivity; discriminate.
Defined.

(** ** What binding leaves alone *)

Lemma removeUsedDevice_outside t : preserves outside_bindings (removeUsedDevice t).
Proof.
  unfold removeUsedDevice. apply preserves_bind; [unfold to_DeviceClass; frame|].
  intros c. frame.
Qed.

Lemma addUsedDevice_outside engine t : preserves outside_bindings (addUsedDevice engine t).
Proof.
  unfold addUsedDevice. apply preserves_bind; [unfold to_DeviceClass; frame|].
  intros c. apply preserves_bind; [frame|]. intros inUse.
  destruct (List.find _ _); [frame|].
  destruct (List.filter _ _) as [|device rest]; [frame|].
  apply preserves_bind.
  { apply preserves_modify. intros km.
    destruct (find_dataNP device (dataNPList km)); reflexivity. }
  intros _. frame.
Qed.

Lemma unbind_keys_outside ks : preserves outside_bindings (unbind_keys ks).
Proof.
  induction ks as [|key rest IH]; cbn [unbind_keys]; [frame|].
  apply preserves_bind.
  { intros km r km' H. rewrite (keyBindings_at_inv _ _ _ _ H). reflexivity. }
  intros kb. apply preserves_bind; [frame|]. intros _.
  apply preserves_bind; [exact IH|]. intros checks. frame.
Qed.

Lemma clearKeyEvent_outside b direction :
  preserves outside_bindings (clearKeyEvent b direction).
Proof.
  unfold clearKeyEvent. destruct b as [b|]; [|frame].
  apply preserves_bind.
  { destruct (is_axis_binding b); [|frame].
    intros km r km' H.
    destruct (clear_axis_entries (string_from 5 b) direction (axesInUse km)).
    injection H as _ <-. reflexivity. }
  intros ks. apply preserves_bind; [apply unbind_keys_outside|]. intros dts.
  apply preserves_bind; [frame|]. intros bound.
  apply preserves_bind.
  { apply preserves_for_each. intros dt.
    destruct (List.existsb _ bound); [frame|].
    destruct dt; [apply removeUsedDevice_outside | frame]. }
  intros _. frame.
Qed.

Lemma subscribe_outside k b ty cb : preserves outside_bindings (subscribe k b ty cb).
Proof.
  unfold subscribe, accept.
  destruct (ty =? KEYMAP_HELD_KEY); [destruct b; frame|].
  destruct (ty =? KEYMAP_EVENT_PRESSED); [destruct cb, b; frame|].
  destruct (ty =? KEYMAP_EVENT_RELEASED); [destruct cb, b; frame|].
  destruct (ty =? KEYMAP_EVENT_PRESSED_AND_RELEASED); [|frame].
  destruct cb as [|f|items]; [frame | destruct b; frame |].
  destruct items as [|[f0|] [|[f1|] rest]]; try (frame; fail); destruct b; frame.
Qed.

Lemma bindKey_outside engine k b ty cb dt direction :
  preserves outside_bindings (bindKey engine k b ty cb dt direction).
Proof.
  unfold bindKey.
  apply preserves_bind; [apply clearKeyEvent_outside|]. intros _.
  apply preserves_bind.
  { intros km r km' H. rewrite (keyBindings_at_inv _ _ _ _ H). reflexivity. }
  intros old.
  apply preserves_bind; [apply clearKeyEvent_outside|]. intros _.
  apply preserves_bind; [apply subscribe_outside|]. intros _.
  apply preserves_bind; [frame|]. intros _.
  destruct b as [b|]; [|frame]. destruct dt as [dt|]; [|frame].
  apply preserves_bind; [apply addUsedDevice_outside|]. intros device.
  destruct (is_axis_binding b); frame.
Qed.

(** [bindKey] touches nothing but the bindings, the axis entries, the
    subscriptions and the devices in use, whether it returns or raises.
    It calls no callback of the application and leaves the key states as
    they are: a control that is held when it is bound to another input
    stays held. *)
Theorem bindKey_touches_only_bindings :
  forall (engine : Engine) (k : string) (b : option string) (ty : Z) (cb : Callback)
         (dt : option string) (direction : Z) (km : KeyMapper),
    outside_bindings (snd (bindKey engine k b ty cb dt direction km))
    = outside_bindings km.
Proof.
  intros engine k b ty cb dt direction km.
  destruct (bindKey engine k b ty cb dt direction km) as [r km'] eqn:Hrun.
  exact (bindKey_outside _ _ _ _ _ _ _ _ _ _ Hrun).
Qed.

(** ** Registration *)

Lemma clear_view_registration b direction v k :
  option_map registration (dict_get k (fst (clear_view b direction v)))
  = option_map registration (dict_get k (fst v)).
Proof.
  unfold clear_view. destruct b as [b|]; [|reflexivity].
  destruct (is_axis_binding b); cbn [fst]; rewrite dict_get_unbind_in;
    destruct (List.existsb _ _); try reflexivity;
    destruct (dict_get k (fst v)); reflexivity.
Qed.

(** [bindKey] keeps what was set at registration, for every control. *)
Lemma bind_view_registration k b dt direction v k' :
  option_map registration (dict_get k' (fst (bind_view k b dt direction v)))
  = option_map registration (dict_get k' (fst v)).
Proof.
  unfold bind_view.
  destruct (dict_get k (fst (clear_view b direction v))) as [old|].
  - cbn [fst]. rewrite dict_get_update.
    destruct (String.eqb k k').
    + rewrite <- (clear_view_registration b direction v k').
      rewrite <- (clear_view_registration (binding old) (axisDirection old)
                    (clear_view b direction v) k').
      destruct (dict_get k' _); reflexivity.
    + rewrite !clear_view_registration. reflexivity.
  - apply clear_view_registration.
Qed.

Lemma unique_keys_app_new (l : list string) k :
  unique_keys l = true -> List.existsb (String.eqb k) l = false ->
  unique_keys (l ++ [k]) = true.
Proof.
  induction l as [|x l IH]; cbn [unique_keys List.existsb app]; [reflexivity|].
  rewrite Bool.andb_true_iff, Bool.negb_true_iff, Bool.orb_false_iff.
  intros [Hx Hl] [Hkx Hkl].
  rewrite (IH Hl Hkl), Bool.andb_true_r, Bool.negb_true_iff.
  rewrite List.existsb_app, Hx. cbn [List.existsb orb].
  rewrite String.eqb_sym, Hkx. reflexivity.
Qed.

Lemma dict_set_keys_new {V} (k : string) (v : V) (d : list (string * V)) :
  List.existsb (String.eqb k) (List.map fst d) = false ->
  List.map fst (dict_set k v d) = (List.map fst d ++ [k])%list.
Proof.
  induction d as [|[k0 v0] d IH]; cbn [dict_set List.map List.existsb fst app]; [reflexivity|].
  destruct (String.eqb k k0); cbn [orb List.map fst]; [discriminate|].
  intros H. rewrite (IH H). reflexivity.
Qed.

Lemma dict_set_In {V} (k : string) (v : V) (d : list (string * V)) p :
  In p (dict_set k v d) -> p = (k, v) \/ In p d.
Proof.
  induction d as [|[k0 v0] d IH]; cbn [dict_set].
  - intros [<-|[]]. left. reflexivity.
  - destruct (String.eqb_spec k k0) as [->|Hne].
    + intros [<-|H]; [left; reflexivity | right; right; exact H].
    + intros [<-|H]; [right; left; reflexivity|].
      destruct (IH H) as [->|H']; [left; reflexivity | right; right; exact H'].
Qed.

Lemma holder_in_more names names' h :
  (forall k, List.existsb (String.eqb k) names = true ->
             List.existsb (String.eqb k) names' = true) ->
  holder_in names h = true -> holder_in names' h = true.
Proof. intros Hsub. destruct h as [k|]; [apply Hsub | reflexivity]. Qed.

(** Storing a new binding object keeps the manager well-formed. *)
Lemma well_formed_dict_set km k nb :
  well_formed km = true ->
  valid_deviceType (deviceType nb) = true ->
  well_formed (set_keyBindings (dict_set k nb (keyBindings km)) km) = true.
Proof.
  intros Hwf Hdt. apply well_formed_iff in Hwf. destruct Hwf as (Hu & Hd & Ha).
  apply well_formed_iff. cbn [keyBindings axesInUse set_keyBindings].
  assert (Hsub : forall k0,
             List.existsb (String.eqb k0) (List.map fst (keyBindings km)) = true ->
             List.existsb (String.eqb k0) (List.map fst (dict_set k nb (keyBindings km)))
             = true).
  { intros k0 H.
    destruct (List.existsb (String.eqb k) (List.map fst (keyBindings km))) eqn:Hk.
    - rewrite (dict_set_keys _ _ _ Hk). exact H.
    - rewrite (dict_set_keys_new _ _ _ Hk), List.existsb_app, H. reflexivity. }
  split; [|split].
  - destruct (List.existsb (String.eqb k) (List.map fst (keyBindings km))) eqn:Hk.
    + rewrite (dict_set_keys _ _ _ Hk). exact Hu.
    + rewrite (dict_set_keys_new _ _ _ Hk). apply unique_keys_app_new; assumption.
  - apply List.forallb_forall. intros p Hp.
    destruct (dict_set_In _ _ _ _ Hp) as [->|Hin]; [exact Hdt|].
    rewrite List.forallb_forall in Hd. exact (Hd p Hin).
  - rewrite List.forallb_forall in Ha. apply List.forallb_forall. intros c Hc.
    specialize (Ha c Hc). apply Bool.andb_true_iff in Ha. destruct Ha as [Hp Hn].
    apply Bool.andb_true_iff. split; eapply holder_in_more; eauto.
Qed.

Lemma bind_ret {A B} (a : A) (k : A -> M B) km : bind (ret a) k km = k a km.
Proof. reflexivity. Qed.

(** The mask that [addKey] makes of a group that it can make one of. *)
Lemma BitMask32_valid (group : option Z) :
  valid_group group = true ->
  match group with
  | Some g => BitMask32 g
  | None => ret 1
  end = ret (match group with Some g => g | None => 1 end).
Proof.
  destruct group as [g|]; [|reflexivity].
  unfold valid_group, BitMask32. intros ->. reflexivity.
Qed.

(** [addKey] registers the control.  On a well-formed manager, with a
    device type that names a device class, the callback that the kind
    needs and a group that is None or an int in 0 .. 2^32 - 1, it returns;
    the control then has the state 0, is bound to its default input with
    the type, callback, direction and group given (the group 1 for None),
    and comes last in [keyOrder].  The manager stays well-formed. *)
Theorem addKey_registers_the_control :
  forall (engine : Engine) (km : KeyMapper) (description : string)
         (defaultKey : option string) (defaultKeyDeviceType : DeviceTypeInput)
         (keyType : Z) (cb : Callback) (direction : Z) (group : option Z),
    well_formed km = true ->
    valid_deviceType (Some (getDeviceTypeString defaultKeyDeviceType)) = true ->
    callback_missing keyType cb = false ->
    valid_group group = true ->
    exists km' kb,
      addKey engine description defaultKey defaultKeyDeviceType keyType cb direction
             group km = (Val tt, km')
      /\ dict_get description (keys km') = Some 0%float
      /\ dict_get description (keyBindings km') = Some kb
      /\ binding kb = defaultKey
      /\ deviceType kb = Some (getDeviceTypeString defaultKeyDeviceType)
      /\ axisDirection kb = direction
      /\ registration kb
         = (description, defaultKey, Some (getDeviceTypeString defaultKeyDeviceType),
            keyType, cb, match group with Some g => g | None => 1 end)
      /\ keyOrder km' = (keyOrder km ++ [description])%list
      /\ well_formed km' = true.
Proof.
  intros engine km description defaultKey t keyType cb direction group Hwf Hdt Hcb Hgroup.
  unfold addKey. unfold set_key at 1. rewrite bind_modify.
  rewrite (BitMask32_valid group Hgroup), bind_ret, bind_modify.
  set (nb := {| keyDescription := description; binding := defaultKey;
                defaultBinding := defaultKey; type := keyType; callback := cb;
                deviceType := Some (getDeviceTypeString t);
                defaultDeviceType := Some (getDeviceTypeString t);
                axisDirection := direction;
                groupID := match group with Some g => g | None => 1 end |}).
  set (km0 := set_keyBindings (dict_set description nb (keyBindings (set_keys _ km))) _).
  assert (Hwf0 : well_formed km0 = true).
  { unfold km0. apply well_formed_dict_set; [|exact Hdt].
    rewrite <- Hwf. apply well_formed_same; reflexivity. }
  assert (Hget0 : dict_get description (keyBindings km0) = Some nb).
  { unfold km0. cbn [keyBindings set_keyBindings]. rewrite dict_get_set, String.eqb_refl.
    reflexivity. }
  assert (Hreg0 : registered km0 description = true).
  { apply dict_get_registered. exists nb. exact Hget0. }
  destruct (bindKey_view engine description defaultKey keyType cb
              (Some (getDeviceTypeString t)) direction km0 Hwf0 Hreg0 Hdt Hcb)
    as (km1 & Hrun & Hview & _ & Hwf1).
  pose proof (bindKey_outside _ _ _ _ _ _ _ _ _ _ Hrun) as Hout.
  unfold outside_bindings in Hout. injection Hout as Hkeys Horder _.
  destruct (bind_view_bound description defaultKey (Some (getDeviceTypeString t)) direction
              (view km0) Hreg0) as (kb & Hkb & Hb & Hd & Hdir).
  rewrite <- Hview in Hkb. cbn [view fst] in Hkb.
  exists (set_keyOrder (keyOrder km1 ++ [description])%list km1), kb.
  split; [|split; [|split; [|split; [|split; [|split; [|split; [|split]]]]]]].
  - rewrite (bind_Val _ _ _ _ _ Hrun). reflexivity.
  - cbn [keys set_keyOrder].
    rewrite Hkeys.
    unfold km0. cbn [keys set_keys set_keyBindings].
    rewrite dict_get_set, String.eqb_refl. reflexivity.
  - exact Hkb.
  - exact Hb.
  - exact Hd.
  - exact Hdir.
  - pose proof (bind_view_registration description defaultKey
                  (Some (getDeviceTypeString t)) direction (view km0) description) as Hr.
    rewrite <- Hview in Hr. cbn [view fst] in Hr. rewrite Hkb, Hget0 in Hr.
    cbn [option_map] in Hr.
    transitivity (registration nb); [congruence | reflexivity].
  - cbn [keyOrder set_keyOrder].
    rewrite Horder.
    reflexivity.
  - rewrite <- Hwf1. apply well_formed_same; reflexivity.
Qed.

Lemma addKey_registers_the_control_example :
  exists km' kb,
    addKey example_engine "fire" (Some "mouse1") (DT_string "DeviceClass.mouse")
           KEYMAP_EVENT_PRESSED (CbFun "fire") 0 (Some 2) example_game = (Val tt, km')
    /\ dict_get "fire" (keys km') = Some 0%float
    /\ dict_get "fire" (keyBindings km') = Some kb
    /\ binding kb = Some "mouse1"
    /\ deviceType kb = Some (getDeviceTypeString (DT_string "DeviceClass.mouse"))
    /\ axisDirection kb = 0
    /\ registration kb
       = ("fire", Some "mouse1",
          Some (getDeviceTypeString (DT_string "DeviceClass.mouse")),
          KEYMAP_EVENT_PRESSED, CbFun "fire", 2)
    /\ keyOrder km' = (keyOrder example_game ++ ["fire"])%list
    /\ well_formed km' = true.
Proof.
  apply (addKey_registers_the_control example_engine example_game "fire" (Some "mouse1")
           (DT_string "DeviceClass.mouse") KEYMAP_EVENT_PRESSED (CbFun "fire") 0 (Some 2));
    reflexivity.
Defined.

(** ** The axis of a control *)

Lemma dict_set_same {V} (k : string) (v : V) (d : list (string * V)) :
  dict_get k d = Some v -> dict_set k v d = d.
Proof.
  induction d as [|[k0 v0] d IH]; cbn [dict_get dict_set]; [discriminate|].
  destruct (String.eqb_spec k k0) as [->|Hne].
  - intros [= ->]. reflexivity.
  - intros H. rewrite (IH H). reflexivity.
Qed.

Lemma set_keys_same km : set_keys (keys km) km = km.
Proof. destruct km; reflexivity. Qed.

(** A state in which [handleAxis] has nothing to do for the value [v]:
    of a binary control, no threshold is crossed; of a held control, the
    state is already what [v] gives and the state callback is not due. *)
Lemma handleAxis_settled k v dz km cur kb :
  dict_get k (keys km) = Some cur ->
  dict_get k (keyBindings km) = Some kb ->
  (if negb (type kb =? KEYMAP_HELD_KEY) then
     (PrimFloat.ltb (PrimFloat.abs cur) 0.5 && PrimFloat.ltb 0.5 (PrimFloat.abs v)
      = false)%bool
     /\ (PrimFloat.ltb 0.5 (PrimFloat.abs cur) && PrimFloat.ltb (PrimFloat.abs v) 0.5
         = false)%bool
   else if PrimFloat.ltb (PrimFloat.abs v) dz then
     cur = 0%float
   else
     cur = (if negativeValuesForNegativeAxes km then v else PrimFloat.abs v)
     /\ PrimFloat.eqb (PrimFloat.abs cur) 0 = false) ->
  handleAxis (Some k) v dz km = (Val tt, km).
Proof.
  intros Hcur Hkb Hsettled. unfold handleAxis.
  rewrite bind_gets, Hcur, (bind_Val _ _ km cur km eq_refl).
  unfold keyBindings_at at 1. unfold bind at 1. rewrite Hkb. rewrite bind_gets.
  destruct (negb (type kb =? KEYMAP_HELD_KEY)).
  - destruct Hsettled as [H1 H2]. rewrite H1, H2. reflexivity.
  - destruct (PrimFloat.ltb (PrimFloat.abs v) dz).
    + subst cur. unfold set_key. rewrite bind_modify.
      rewrite (dict_set_same _ _ _ Hcur), set_keys_same. reflexivity.
    + destruct Hsettled as [-> Hne]. unfold set_key. rewrite bind_modify.
      rewrite (dict_set_same _ _ _ Hcur), set_keys_same. rewrite Hne. reflexivity.
Qed.

Lemma call_user_state cb k et km r km' :
  call_user cb k et km = (r, km') ->
  keys km' = keys km /\ keyBindings km' = keyBindings km
  /\ negativeValuesForNegativeAxes km' = negativeValuesForNegativeAxes km.
Proof.
  unfold call_user. destruct cb; intros [= _ <-]; repeat split.
Qed.

Lemma call_item_state items i k km r km' :
  call_item items i k km = (r, km') ->
  keys km' = keys km /\ keyBindings km' = keyBindings km
  /\ negativeValuesForNegativeAxes km' = negativeValuesForNegativeAxes km.
Proof.
  unfold call_item. destruct (List.nth_error items i) as [[f|]|].
  - apply call_user_state.
  - intros [= _ <-]. repeat split.
  - intros [= _ <-]. repeat split.
Qed.

Lemma call_keyState_state k v km r km' :
  call_keyState k v km = (r, km') ->
  r = Val tt /\ keys km' = keys km /\ keyBindings km' = keyBindings km
  /\ negativeValuesForNegativeAxes km' = negativeValuesForNegativeAxes km.
Proof.
  unfold call_keyState, modify. intros [= <- <-].
  destruct (keyStateCallback km); repeat split.
Qed.

(** [handleAxis] is edge-triggered: called again with the value it was
    just called with, it changes nothing and calls no callback.  For a
    held control this needs a dead zone above zero. *)
Theorem handleAxis_fires_once :
  forall (km : KeyMapper) (k : string) (v dz : float),
    (forall kb, dict_get k (keyBindings km) = Some kb ->
                type kb = KEYMAP_HELD_KEY -> PrimFloat.ltb 0 dz = true) ->
    (handleAxis (Some k) v dz ;;; handleAxis (Some k) v dz) km
    = handleAxis (Some k) v dz km.
Proof.
  intros km k v dz Hdz.
  destruct (handleAxis (Some k) v dz km) as [[[]|e] km1] eqn:Hrun;
    [|exact (bind_Raise _ _ _ _ _ Hrun)].
  rewrite (bind_Val _ _ _ _ _ Hrun).
  unfold handleAxis in Hrun. rewrite bind_gets in Hrun.
  destruct (dict_get k (keys km)) as [old|] eqn:Hold; [|discriminate].
  rewrite (bind_Val _ _ km old km eq_refl) in Hrun.
  unfold keyBindings_at at 1 in Hrun. unfold bind at 1 in Hrun.
  destruct (dict_get k (keyBindings km)) as [kb|] eqn:Hkb; [|discriminate].
  rewrite bind_gets in Hrun.
  assert (Hstate : forall (m : M unit) x km0 km2,
             (forall km3 r3 km4, m km3 = (r3, km4) ->
                keys km4 = keys km3 /\ keyBindings km4 = keyBindings km3
                /\ negativeValuesForNegativeAxes km4 = negativeValuesForNegativeAxes km3) ->
             (set_key k x ;;; m) km0 = (Val tt, km2) ->
             dict_get k (keys km2) = Some x
             /\ keyBindings km2 = keyBindings km0
             /\ negativeValuesForNegativeAxes km2 = negativeValuesForNegativeAxes km0).
  { intros m x km0 km2 Hm H. unfold set_key in H. rewrite bind_modify in H.
    destruct (Hm _ _ _ H) as (E1 & E2 & E3). rewrite E1, E2, E3.
    cbn [keys keyBindings negativeValuesForNegativeAxes set_keys].
    rewrite dict_get_set, String.eqb_refl. repeat split. }
  assert (Hret : forall km3 r3 km4, @ret unit tt km3 = (r3, km4) ->
             keys km4 = keys km3 /\ keyBindings km4 = keyBindings km3
             /\ negativeValuesForNegativeAxes km4 = negativeValuesForNegativeAxes km3).
  { intros km3 r3 km4 [= _ <-]. repeat split. }
  assert (Hks : forall x km3 r3 km4, call_keyState k x km3 = (r3, km4) ->
             keys km4 = keys km3 /\ keyBindings km4 = keyBindings km3
             /\ negativeValuesForNegativeAxes km4 = negativeValuesForNegativeAxes km3).
  { intros x km3 r3 km4 H. apply (call_keyState_state _ _ _ _ _ H). }
  destruct (negb (type kb =? KEYMAP_HELD_KEY)) eqn:Hbinary.
  - (* a binary control *)
    destruct (PrimFloat.ltb (PrimFloat.abs old) 0.5 && PrimFloat.ltb 0.5 (PrimFloat.abs v))%bool
      eqn:Hpress.
    + apply Bool.andb_true_iff in Hpress. destruct Hpress as [_ Hv].
      apply Hstate in Hrun.
      * destruct Hrun as (Hcur & Hkb1 & Hneg1).
        apply (handleAxis_settled _ _ _ _ _ kb Hcur); [rewrite Hkb1; exact Hkb|].
        rewrite Hbinary, (ltb_asym _ _ Hv), Bool.andb_false_r.
        split; [|reflexivity].
        destruct (negativeValuesForNegativeAxes km); [|reflexivity].
        destruct (PrimFloat.ltb 0 v); reflexivity.
      * intros km3 r3 km4.
        destruct (type kb =? KEYMAP_EVENT_PRESSED); [apply call_user_state|].
        destruct (type kb =? KEYMAP_EVENT_PRESSED_AND_RELEASED); [|apply Hret].
        destruct (callback kb); [apply call_user_state | apply call_user_state
                                 | apply call_item_state].
    + destruct (PrimFloat.ltb 0.5 (PrimFloat.abs old) && PrimFloat.ltb (PrimFloat.abs v) 0.5)%bool
        eqn:Hrelease.
      * apply Bool.andb_true_iff in Hrelease. destruct Hrelease as [_ Hv].
        apply Hstate in Hrun.
        -- destruct Hrun as (Hcur & Hkb1 & Hneg1).
           apply (handleAxis_settled _ _ _ _ _ kb Hcur); [rewrite Hkb1; exact Hkb|].
           rewrite Hbinary, (ltb_asym _ _ Hv), Bool.andb_false_r.
           split; reflexivity.
        -- intros km3 r3 km4.
           destruct (type kb =? KEYMAP_EVENT_RELEASED); [apply call_user_state|].
           destruct (type kb =? KEYMAP_EVENT_PRESSED_AND_RELEASED); [|apply Hret].
           destruct (callback kb); [apply call_user_state | apply call_user_state
                                    | apply call_item_state].
      * injection Hrun as <-.
        apply (handleAxis_settled _ _ _ _ _ kb Hold Hkb).
        rewrite Hbinary, Hpress, Hrelease. split; reflexivity.
  - (* a held control *)
    assert (Hheld : type kb = KEYMAP_HELD_KEY).
    { apply Bool.negb_false_iff in Hbinary. apply Z.eqb_eq. exact Hbinary. }
    specialize (Hdz kb eq_refl Hheld).
    destruct (PrimFloat.ltb (PrimFloat.abs v) dz) eqn:Hbelow.
    + apply Hstate in Hrun.
      * destruct Hrun as (Hcur & Hkb1 & Hneg1).
        apply (handleAxis_settled _ _ _ _ _ kb Hcur); [rewrite Hkb1; exact Hkb|].
        rewrite Hbinary, Hbelow. reflexivity.
      * intros km3 r3 km4. destruct (PrimFloat.eqb (PrimFloat.abs old) 0);
          [apply Hret | apply Hks].
    + apply Hstate in Hrun.
      * destruct Hrun as (Hcur & Hkb1 & Hneg1).
        apply (handleAxis_settled _ _ _ _ _ kb Hcur); [rewrite Hkb1; exact Hkb|].
        rewrite Hbinary, Hbelow, Hneg1. split; [reflexivity|].
        assert (Habs : PrimFloat.abs (if negativeValuesForNegativeAxes km
                                      then v else PrimFloat.abs v) = PrimFloat.abs v).
        { destruct (negativeValuesForNegativeAxes km); [reflexivity | apply abs_abs]. }
        rewrite Habs.
        destruct (PrimFloat.eqb (PrimFloat.abs v) 0) eqn:Hzero; [|reflexivity].
        rewrite (eqb_zero_below _ _ Hzero Hdz) in Hbelow. discriminate.
      * intros km3 r3 km4. destruct (PrimFloat.eqb (PrimFloat.abs old) 0);
          [apply Hks | apply Hret].
Qed.

Lemma handleAxis_fires_once_example :
  (handleAxis (Some KEY_TURN_LEFT) 1%float 0.25%float
   ;;; handleAxis (Some KEY_TURN_LEFT) 1%float 0.25%float) example_game
  = handleAxis (Some KEY_TURN_LEFT) 1%float 0.25%float example_game.
Proof.
  apply (handleAxis_fires_once example_game KEY_TURN_LEFT 1%float 0.25%float).
  intros kb _ _. reflexivity.
Defined.

(** ** Waiting for a new binding *)

Lemma device_get_set {V} (d d' : InputDevice) (v : V) (l : list (InputDevice * V)) :
  device_get d (device_set d' v l)
  = if InputDevice_eqb d d' then Some v else device_get d l.
Proof.
  unfold device_get.
  induction l as [|[d0 v0] l IH]; cbn [device_set List.find fst].
  - rewrite (Bool.eq_true_iff_eq (InputDevice_eqb d' d) (InputDevice_eqb d d')).
    + destruct (InputDevice_eqb d d'); reflexivity.
    + rewrite !InputDevice_eqb_eq. split; congruence.
  - destruct (InputDevice_eqb d' d0) eqn:E0; cbn [List.find fst].
    + apply InputDevice_eqb_eq in E0. subst d0.
      rewrite (Bool.eq_true_iff_eq (InputDevice_eqb d' d) (InputDevice_eqb d d')).
      * destruct (InputDevice_eqb d d'); reflexivity.
      * rewrite !InputDevice_eqb_eq. split; congruence.
    + destruct (InputDevice_eqb d0 d) eqn:E1.
      * apply InputDevice_eqb_eq in E1. subst d0.
        destruct (InputDevice_eqb d d') eqn:E2; [|reflexivity].
        apply InputDevice_eqb_eq in E2. subst d'.
        rewrite (proj2 (InputDevice_eqb_eq d d) eq_refl) in E0. discriminate.
      * exact IH.
Qed.

Lemma device_get_match (d : InputDevice) (km : KeyMapper) np :
  nodes_match km = true ->
  device_get d (devicesInUse km) = Some np -> np_device np = d.
Proof.
  unfold nodes_match, device_get. intros Hm H.
  destruct (List.find (fun p => InputDevice_eqb (fst p) d) (devicesInUse km))
    as [[d0 np0]|] eqn:Hfind; [|discriminate].
  injection H as <-. apply List.find_some in Hfind. destruct Hfind as [Hin Heq].
  cbn [fst] in Heq. apply InputDevice_eqb_eq in Heq. subst d0.
  rewrite List.forallb_forall in Hm. apply InputDevice_eqb_eq. exact (Hm _ Hin).
Qed.

(** The throwers that [setEvents] makes: one for each class but the
    keyboard and the mouse. *)
Lemma throwers_made (cs : list DeviceClass) :
  forall (l : list string),
    let l' :=
      List.fold_left
        (fun d c => if is_keyboard_or_mouse c then d
                    else if List.existsb (String.eqb (getDeviceTypeString (DT_class c))) d
                         then d else (d ++ [getDeviceTypeString (DT_class c)])%list)
        cs l in
    (forall s, List.existsb (String.eqb s) l = true -> List.existsb (String.eqb s) l' = true)
    /\ (forall c, In c cs -> is_keyboard_or_mouse c = false ->
                  List.existsb (String.eqb (getDeviceTypeString (DT_class c))) l' = true).
Proof.
  induction cs as [|c0 cs IH]; intros l; cbn [List.fold_left].
  - split; [intros s H; exact H | intros c []].
  - set (l1 := if is_keyboard_or_mouse c0 then l
               else if List.existsb (String.eqb (getDeviceTypeString (DT_class c0))) l
                    then l else (l ++ [getDeviceTypeString (DT_class c0)])%list).
    destruct (IH l1) as [Hmono Hall].
    assert (Hl1 : forall s, List.existsb (String.eqb s) l = true ->
                            List.existsb (String.eqb s) l1 = true).
    { intros s H. unfold l1. destruct (is_keyboard_or_mouse c0); [exact H|].
      destruct (List.existsb _ l); [exact H|].
      rewrite List.existsb_app, H. reflexivity. }
    split.
    + intros s H. apply Hmono. apply Hl1. exact H.
    + intros c [<-|Hin] Hc; [|exact (Hall c Hin Hc)].
      apply Hmono. unfold l1. rewrite Hc.
      destruct (List.existsb (String.eqb (getDeviceTypeString (DT_class c0))) l) eqn:E;
        [exact E|].
      rewrite List.existsb_app. cbn [List.existsb]. rewrite String.eqb_refl.
      apply Bool.orb_true_r.
Qed.

Lemma setupEventsForDevice_polls engine device km :
  nodes_match km = true ->
  (is_keyboard_or_mouse (device_class device) = false ->
   List.existsb (String.eqb (getDeviceTypeString (DT_class (device_class device))))
                (deviceButtonThrowers km) = true) ->
  exists km',
    setupEventsForDevice engine device km = (Val tt, km')
    /\ outside_polling km' = outside_polling km
    /\ List.map np_device (dataNPList km')
       = (List.map np_device (dataNPList km)
          ++ (if is_keyboard_or_mouse (device_class device) then [] else [device]))%list
    /\ forall d,
         device_get d (deviceAxisTestValues km')
         = if negb (is_keyboard_or_mouse (device_class device)) && InputDevice_eqb d device
           then Some (samples_of engine device)
           else device_get d (deviceAxisTestValues km).
Proof.
  intros Hmatch Hthrower. unfold setupEventsForDevice.
  destruct (is_keyboard_or_mouse (device_class device)).
  - exists km. split; [reflexivity|]. split; [reflexivity|]. split.
    + rewrite List.app_nil_r. reflexivity.
    + intros d. reflexivity.
  - specialize (Hthrower eq_refl). rewrite bind_gets.
    destruct (device_get device (devicesInUse km)) as [np|] eqn:Hnp.
    + rewrite (bind_Val _ _ km np km eq_refl), bind_gets, Hthrower, !bind_modify.
      eexists. split; [reflexivity|]. split; [reflexivity|]. split.
      * cbn [dataNPList set_deviceAxisTestValues set_dataNPList].
        rewrite List.map_app. cbn [List.map].
        rewrite (device_get_match _ _ _ Hmatch Hnp). reflexivity.
      * intros d. cbn [deviceAxisTestValues set_deviceAxisTestValues set_dataNPList negb andb].
        apply device_get_set.
    + rewrite (bind_Val _ _ km {| np_id := nodeCount km; np_device := device |}
                 (set_nodeCount (S (nodeCount km)) km) eq_refl).
      rewrite bind_gets. cbn [deviceButtonThrowers set_nodeCount].
      rewrite Hthrower, !bind_modify.
      eexists. split; [reflexivity|]. split; [reflexivity|]. split.
      * cbn [dataNPList set_deviceAxisTestValues set_dataNPList set_nodeCount].
        rewrite List.map_app. reflexivity.
      * intros d.
        cbn [deviceAxisTestValues set_deviceAxisTestValues set_dataNPList set_nodeCount
             negb andb].
        apply device_get_set.
Qed.

Lemma outside_polling_inv km km' :
  outside_polling km' = outside_polling km ->
  nodes_match km' = nodes_match km
  /\ deviceButtonThrowers km' = deviceButtonThrowers km.
Proof.
  unfold outside_polling, nodes_match. intros H. injection H. intros. split; congruence.
Qed.

Lemma setEvents_loop engine (devices : list InputDevice) :
  forall km,
    nodes_match km = true ->
    (forall d, In d devices -> is_keyboard_or_mouse (device_class d) = false ->
               List.existsb (String.eqb (getDeviceTypeString (DT_class (device_class d))))
                            (deviceButtonThrowers km) = true) ->
    exists km',
      for_each devices (setupEventsForDevice engine) km = (Val tt, km')
      /\ outside_polling km' = outside_polling km
      /\ List.map np_device (dataNPList km')
         = (List.map np_device (dataNPList km)
            ++ List.filter (fun d => negb (is_keyboard_or_mouse (device_class d))) devices)%list
      /\ forall d,
           device_get d (deviceAxisTestValues km')
           = if List.existsb (InputDevice_eqb d)
                  (List.filter (fun d => negb (is_keyboard_or_mouse (device_class d))) devices)
             then Some (samples_of engine d)
             else device_get d (deviceAxisTestValues km).
Proof.
  induction devices as [|device devices IH]; intros km Hmatch Hthrowers.
  - exists km. split; [reflexivity|]. split; [reflexivity|]. split.
    + rewrite List.app_nil_r. reflexivity.
    + intros d. reflexivity.
  - destruct (setupEventsForDevice_polls engine device km Hmatch
                (Hthrowers device (or_introl eq_refl))) as (km1 & H1 & Hout1 & Hnodes1 & Hs1).
    destruct (outside_polling_inv _ _ Hout1) as [Hm1 Ht1].
    destruct (IH km1) as (km' & H2 & Hout2 & Hnodes2 & Hs2).
    { rewrite Hm1. exact Hmatch. }
    { intros d Hd Hc. rewrite Ht1. apply Hthrowers; [right; exact Hd | exact Hc]. }
    exists km'. split; [|split; [|split]].
    + cbn [for_each]. rewrite (bind_Val _ _ _ _ _ H1). exact H2.
    + rewrite Hout2. exact Hout1.
    + rewrite Hnodes2, Hnodes1, <- List.app_assoc. f_equal.
      cbn [List.filter]. destruct (is_keyboard_or_mouse (device_class device)); reflexivity.
    + intros d. rewrite Hs2, Hs1. cbn [List.filter].
      destruct (is_keyboard_or_mouse (device_class device)); cbn [negb andb List.existsb].
      * reflexivity.
      * destruct (InputDevice_eqb d device) eqn:E; cbn [orb].
        -- apply InputDevice_eqb_eq in E. subst d.
           destruct (List.existsb _ _); reflexivity.
        -- reflexivity.
Qed.

(** [setEvents] returns: every device it sets up finds the thrower of
    its class. *)
Lemma setEvents_polls engine km :
  nodes_match km = true ->
  exists km',
    setEvents engine km = (Val tt, km')
    /\ (keyBindings km', axesInUse km', events km', keys km', devicesInUse km', dialogue km')
       = (keyBindings km, axesInUse km, events km, keys km, devicesInUse km, dialogue km)
    /\ buttonThrower km' = ("keyInterception", "keyRelease")
    /\ List.map np_device (dataNPList km')
       = (List.map np_device (dataNPList km) ++ polled engine)%list
    /\ forall d,
         device_get d (deviceAxisTestValues km')
         = if List.existsb (InputDevice_eqb d) (polled engine)
           then Some (samples_of engine d)
           else device_get d (deviceAxisTestValues km).
Proof.
  intros Hmatch. unfold setEvents. rewrite !bind_modify.
  match goal with
  | |- context [for_each _ _ ?s] => set (km0 := s)
  end.
  destruct (setEvents_loop engine (base_devices engine) km0) as (km' & Hrun & Hout & Hn & Hs).
  { exact Hmatch. }
  { intros d _ Hc. unfold km0.
    cbn [deviceButtonThrowers set_deviceButtonThrowers set_buttonThrower].
    apply (throwers_made all_DeviceClass (deviceButtonThrowers km)); [|exact Hc].
    destruct (device_class d); cbn; tauto. }
  exists km'. split; [exact Hrun|].
  unfold outside_polling in Hout.
  split; [|split; [|split]].
  - exact (f_equal (fun t => match t with
                             | (a, b, c, d, e, _, g, _) => (a, b, c, d, e, g)
                             end) Hout).
  - exact (f_equal (fun t => match t with
                             | (_, _, _, _, _, (x, _), _, _) => x
                             end) Hout).
  - exact Hn.
  - exact Hs.
Qed.

Lemma samples_other (axes : list (string * float)) id :
  forall init,
    List.existsb (String.eqb id) (List.map fst axes) = false ->
    dict_get id (List.fold_left (fun d a => dict_set (fst a) (snd a) d) axes init)
    = dict_get id init.
Proof.
  induction axes as [|[id0 v0] axes IH]; intros init; cbn [List.fold_left List.map
    List.existsb fst snd]; [reflexivity|].
  rewrite Bool.orb_false_iff. intros [Hne Hrest].
  rewrite (IH _ Hrest), dict_get_set, Hne. reflexivity.
Qed.

(** The sample of an axis is the value it read, when no other axis of
    the device has its id. *)
Lemma samples_distinct (axes : list (string * float)) id v :
  distinct_axes axes = true ->
  In (id, v) axes -> String.eqb id "none" = false ->
  forall init,
    dict_get id (List.fold_left (fun d a => dict_set (fst a) (snd a) d) axes init) = Some v.
Proof.
  unfold distinct_axes. intros Hdistinct Hin Hid.
  induction axes as [|[id0 v0] axes IH]; intros init; [destruct Hin|].
  cbn [List.fold_left fst snd]. cbn [List.map List.filter fst] in Hdistinct.
  destruct Hin as [[= -> ->]|Hin].
  - rewrite Hid in Hdistinct. cbn [negb unique_keys] in Hdistinct.
    apply Bool.andb_true_iff in Hdistinct. destruct Hdistinct as [Hnew _].
    apply Bool.negb_true_iff in Hnew.
    rewrite samples_other; [rewrite dict_get_set, String.eqb_refl; reflexivity|].
    apply Bool.not_true_is_false. intros Hex. apply List.existsb_exists in Hex.
    destruct Hex as (id' & Hin' & Heq). apply String.eqb_eq in Heq. subst id'.
    assert (Hex : List.existsb (String.eqb id)
                    (List.filter (fun id => negb (String.eqb id "none"))
                                 (List.map fst axes)) = true).
    { apply List.existsb_exists. exists id. split; [|apply String.eqb_refl].
      apply List.filter_In. split; [exact Hin'|]. rewrite Hid. reflexivity. }
    rewrite Hex in Hnew. discriminate.
  - apply IH; [|exact Hin].
    destruct (String.eqb id0 "none"); cbn [negb unique_keys] in Hdistinct; [exact Hdistinct|].
    apply Bool.andb_true_iff in Hdistinct. apply Hdistinct.
Qed.

Lemma existsb_InputDevice_In d l :
  In d l -> List.existsb (InputDevice_eqb d) l = true.
Proof.
  intros H. apply List.existsb_exists. exists d. split; [exact H|].
  apply InputDevice_eqb_eq. reflexivity.
Qed.

Lemma getNewBinding_state engine km k :
  registered km k = true ->
  nodes_match km = true ->
  exists km',
    getNewBinding engine k km = (Val tt, km')
    /\ keyBeingBound km' = Some k
    /\ bindingDialogueVisible km' = true
    /\ bindingDialogue km' = true
    /\ (lastKeyInterception km', lastKeyInterceptionDeviceType km',
        lastKeyInterceptionValue km') = (None, None, 0)
    /\ buttonThrower km' = ("keyInterception", "keyRelease")
    /\ List.map np_device (dataNPList km')
       = (List.map np_device (dataNPList km) ++ polled engine)%list
    /\ (forall d, In d (polled engine) ->
                  device_get d (deviceAxisTestValues km') = Some (samples_of engine d))
    /\ (keyBindings km', axesInUse km', events km', keys km', devicesInUse km')
       = (keyBindings km, axesInUse km, events km, keys km, devicesInUse km)
    /\ (conflictDialogue km', currentConflict km', errorDialogue km')
       = (conflictDialogue km, currentConflict km, errorDialogue km).
Proof.
  intros Hreg Hmatch. unfold getNewBinding, showBindingDialogue.
  rewrite !bind_modify.
  apply dict_get_registered in Hreg. destruct Hreg as [kb Hkb].
  unfold keyBindings_at at 1. unfold bind at 1.
  cbn [keyBindings set_lastKeyInterceptionValue set_lastKeyInterceptionDeviceType
       set_lastKeyInterception set_keyBeingBound].
  rewrite Hkb. rewrite !bind_modify.
  match goal with
  | |- context [setEvents _ ?s] => set (km0 := s)
  end.
  destruct (setEvents_polls engine km0 Hmatch) as (km' & Hrun & Hsame & Hthrower & Hnodes & Hs).
  exists km'. split; [exact Hrun|].
  assert (Hdialogue : dialogue km' = dialogue km0).
  { exact (f_equal (fun t => match t with (_, _, _, _, _, g) => g end) Hsame). }
  unfold dialogue in Hdialogue.
  split; [exact (f_equal (fun t => match t with (_, _, _, _, x, _, _) => x end) Hdialogue)|].
  split; [exact (f_equal (fun t => match t with (x, _, _, _, _, _, _) => x end) Hdialogue)|].
  split; [exact (f_equal (fun t => match t with (_, x, _, _, _, _, _) => x end) Hdialogue)|].
  split; [exact (f_equal (fun t => match t with (_, _, _, _, _, x, _) => x end) Hdialogue)|].
  split; [exact Hthrower|].
  split; [exact Hnodes|].
  split.
  { intros d Hd. rewrite Hs, (existsb_InputDevice_In _ _ Hd). reflexivity. }
  split.
  { exact (f_equal (fun t => match t with (a, b, c, d, e, _) => (a, b, c, d, e) end) Hsame). }
  exact (f_equal (fun t => match t with
                           | (_, _, c, x, _, _, (_, _, e)) => (c, x, e)
                           end) Hdialogue).
Qed.

(** [getNewBinding] opens the dialogue.  For a registered control it
    returns; the manager then awaits an input for that control, with no
    candidate, listens to the buttons of the keyboard and the mouse, has a
    node for each other device connected and a sample of each of its
    axes; no binding, axis entry, subscription or key state has changed. *)
Theorem getNewBinding_awaits_rebind :
  forall (engine : Engine) (km : KeyMapper) (k : string),
    registered km k = true ->
    nodes_match km = true ->
    exists km',
      getNewBinding engine k km = (Val tt, km')
      /\ keyBeingBound km' = Some k
      /\ bindingDialogueVisible km' = true
      /\ bindingDialogue km' = true
      /\ (lastKeyInterception km', lastKeyInterceptionDeviceType km',
          lastKeyInterceptionValue km') = (None, None, 0)
      /\ buttonThrower km' = ("keyInterception", "keyRelease")
      /\ List.map np_device (dataNPList km')
         = (List.map np_device (dataNPList km) ++ polled engine)%list
      /\ (forall d, In d (polled engine) ->
                    device_get d (deviceAxisTestValues km') = Some (samples_of engine d))
      /\ (keyBindings km', axesInUse km', events km', keys km', devicesInUse km')
         = (keyBindings km, axesInUse km, events km, keys km, devicesInUse km)
      /\ (conflictDialogue km', currentConflict km', errorDialogue km')
         = (conflictDialogue km, currentConflict km, errorDialogue km).
Proof. exact getNewBinding_state. Qed.

Lemma getNewBinding_awaits_rebind_example :
  exists km',
    getNewBinding example_engine KEY_THRUST example_game = (Val tt, km')
    /\ keyBeingBound km' = Some KEY_THRUST
    /\ bindingDialogueVisible km' = true
    /\ bindingDialogue km' = true
    /\ (lastKeyInterception km', lastKeyInterceptionDeviceType km',
        lastKeyInterceptionValue km') = (None, None, 0)
    /\ buttonThrower km' = ("keyInterception", "keyRelease")
    /\ List.map np_device (dataNPList km')
       = (List.map np_device (dataNPList example_game) ++ polled example_engine)%list
    /\ (forall d, In d (polled example_engine) ->
                  device_get d (deviceAxisTestValues km')
                  = Some (samples_of example_engine d))
    /\ (keyBindings km', axesInUse km', events km', keys km', devicesInUse km')
       = (keyBindings example_game, axesInUse example_game, events example_game,
          keys example_game, devicesInUse example_game)
    /\ (conflictDialogue km', currentConflict km', errorDialogue km')
       = (conflictDialogue example_game, currentConflict example_game,
          errorDialogue example_game).
Proof.
  apply (getNewBinding_awaits_rebind example_engine example_game KEY_THRUST); reflexivity.
Defined.

(** A stick at rest makes no candidate.  When the dialogue has just been
    opened from the idle state and the axes read what they read then,
    [update] changes nothing, wherever the axes rest: a throttle held at
    any position is not taken for an input.  The axes of a device must
    have ids of their own ([Axis.none] apart). *)
Theorem update_at_rest_makes_no_candidate :
  forall (engine : Engine) (km : KeyMapper) (k : string),
    registered km k = true ->
    nodes_match km = true ->
    dataNPList km = [] ->
    (forall d, In d (polled engine) -> distinct_axes (device_axes engine d) = true) ->
    (getNewBinding engine k ;;; update engine) km = getNewBinding engine k km.
Proof.
  intros engine km k Hreg Hmatch Hidle Hdistinct.
  destruct (getNewBinding_state engine km k Hreg Hmatch)
    as (km' & Hrun & _ & Hvisible & _ & _ & _ & Hnodes & Hsamples & _).
  rewrite Hrun, (bind_Val _ _ _ _ _ Hrun).
  unfold update. rewrite bind_gets, Hvisible, bind_gets.
  rewrite Hidle in Hnodes. cbn [List.map app] in Hnodes.
  assert (Hpolled : forall np, In np (dataNPList km') -> In (np_device np) (polled engine)).
  { intros np Hnp. rewrite <- Hnodes. apply List.in_map. exact Hnp. }
  assert (Hall : forall np, In np (dataNPList km') ->
                   device_get (np_device np) (deviceAxisTestValues km') <> None).
  { intros np Hnp. rewrite (Hsamples _ (Hpolled np Hnp)). discriminate. }
  rewrite (bind_run_eq _ _ _ _ (scan_devices_first engine km' (dataNPList km') Hall)).
  match goal with
  | |- context [List.find ?f ?l] => destruct (List.find f l) as [e|] eqn:Hfind
  end; [|reflexivity].
  exfalso. apply List.find_some in Hfind. destruct Hfind as [Hin Hmoved].
    apply List.in_flat_map in Hin. destruct Hin as (np & Hnp & He).
    apply List.in_map_iff in He. destruct He as ([id v] & <- & Hax).
    unfold moved_axis in Hmoved. cbn [fst snd] in Hmoved.
    rewrite (Hsamples _ (Hpolled np Hnp)) in Hmoved.
    destruct (String.eqb id "none") eqn:Hid; [discriminate|].
    unfold samples_of in Hmoved.
    rewrite (samples_distinct _ _ _ (Hdistinct _ (Hpolled np Hnp)) Hax Hid) in Hmoved.
    rewrite axis_moved_same in Hmoved. discriminate.
Qed.

Lemma update_at_rest_makes_no_candidate_example :
  (getNewBinding example_engine KEY_THRUST ;;; update example_engine) example_game
  = getNewBinding example_engine KEY_THRUST example_game.
Proof.
  apply (update_at_rest_makes_no_candidate example_engine example_game KEY_THRUST);
    reflexivity.
Defined.

(** ** A conflict pending *)

Lemma addUsedDevice_class_returns engine c km :
  exists device km',
    addUsedDevice engine (DT_class c) km = (Val device, km')
    /\ outside_bindings km' = outside_bindings km.
Proof.
  destruct (addUsedDevice_same engine (DT_class c) km eq_refl) as (device & km' & Hrun & _).
  exists device, km'. split; [exact Hrun|].
  exact (addUsedDevice_outside _ _ _ _ _ Hrun).
Qed.

(** While a conflict is pending the manager cannot take a new
    controller.  With the binding dialogue up and a candidate,
    [handleBindingConflict] returns; it drops the throwers that
    [setEvents] made and leaves [bindingDialogueVisible] set, so that
    [connectController] of a device that is neither a keyboard nor a
    mouse looks up a thrower that is not there: it raises KeyError on the
    name of the device's class. *)
Theorem connectController_during_conflict_raises :
  forall (engine : Engine) (km : KeyMapper) (keyToBeBound conflictingKey candidate : string)
         (controller : InputDevice),
    bindingDialogueVisible km = true ->
    lastKeyInterception km = Some candidate ->
    is_keyboard_or_mouse (device_class controller) = false ->
    exists km1 km',
      handleBindingConflict keyToBeBound conflictingKey km = (Val tt, km1)
      /\ connectController engine controller km1
         = (Raise (KeyError (Some (DeviceClass_name (device_class controller)))), km').
Proof.
  intros engine km keyToBeBound conflictingKey candidate controller Hvisible Hlast Hclass.
  rewrite (handleBindingConflict_shows keyToBeBound conflictingKey km candidate Hlast).
  match goal with
  | |- context [(Val tt, ?s) = _] => set (km0 := s)
  end.
  exists km0.
  enough (Hraise : exists km',
             connectController engine controller km0
             = (Raise (KeyError (Some (DeviceClass_name (device_class controller)))), km')).
  { destruct Hraise as [km' Hraise]. exists km'. split; [reflexivity | exact Hraise]. }
  unfold connectController. rewrite bind_gets.
  destruct (for_each_invariant
              (fun km' => outside_bindings km' = outside_bindings km0)
              (keyBindings km0)
              (fun p =>
                 if option_eqb String.eqb (deviceType (snd p))
                      (Some (getDeviceTypeString (DT_class (device_class controller))))
                 then _ <- addUsedDevice engine (DT_class (device_class controller)) ;; ret tt
                 else ret tt)) with (km := km0) as (km1 & Hloop & Hout).
  { intros p km' _ Hkm'. destruct (option_eqb _ _ _).
    - destruct (addUsedDevice_class_returns engine (device_class controller) km')
        as (device & km'' & Hrun & Hout).
      exists km''. split; [rewrite (bind_Val _ _ _ _ _ Hrun); reflexivity|].
      rewrite Hout. exact Hkm'.
    - exists km'. split; [reflexivity | exact Hkm']. }
  { reflexivity. }
  rewrite (bind_Val _ _ _ _ _ Hloop), bind_gets.
  assert (Hv1 : bindingDialogueVisible km1 = true).
  { transitivity (bindingDialogueVisible km0); [|exact Hvisible].
    exact (f_equal (fun t => match t with
                             | (_, _, _, _, _, (x, _, _, _, _, _, _)) => x
                             end) Hout). }
  assert (Ht1 : deviceButtonThrowers km1 = []).
  { transitivity (deviceButtonThrowers km0); [|reflexivity].
    exact (f_equal (fun t => match t with
                             | (_, _, _, _, (_, x, _), _) => x
                             end) Hout). }
  rewrite Hv1. unfold setupEventsForDevice. rewrite Hclass, bind_gets.
  assert (Hname : getDeviceTypeString (DT_class (device_class controller))
                  = DeviceClass_name (device_class controller)).
  { destruct (device_class controller); reflexivity. }
  destruct (device_get controller (devicesInUse km1)) as [np|].
  - rewrite (bind_Val _ _ km1 np km1 eq_refl), bind_gets, Ht1, Hname.
    eexists. reflexivity.
  - rewrite (bind_Val _ _ km1 {| np_id := nodeCount km1; np_device := controller |}
               (set_nodeCount (S (nodeCount km1)) km1) eq_refl).
    rewrite bind_gets. cbn [deviceButtonThrowers set_nodeCount]. rewrite Ht1, Hname.
    eexists. reflexivity.
Qed.

Lemma connectController_during_conflict_raises_example :
  exists km1 km',
    handleBindingConflict "back" KEY_MENU example_candidate = (Val tt, km1)
    /\ connectController example_engine {| device_id := 1; device_class := flight_stick |}
         km1
       = (Raise (KeyError (Some "flight_stick")), km').
Proof.
  apply (connectController_during_conflict_raises example_engine example_candidate
           "back" KEY_MENU "back" {| device_id := 1; device_class := flight_stick |});
    reflexivity.
Defined.

(** [conflictResolutionCancel] goes back to waiting for an input.  It
    returns; the conflict dialogue is hidden and the binding dialogue
    shown, there is no conflict and no candidate any more, the control
    being bound is the same, each device polled has a fresh sample, and no
    binding has changed.  The device type and the value of the candidate
    that was cancelled are kept. *)
Theorem conflictResolutionCancel_awaits_again :
  forall (engine : Engine) (km : KeyMapper),
    nodes_match km = true ->
    exists km',
      conflictResolutionCancel engine km = (Val tt, km')
      /\ conflictDialogue km' = false
      /\ bindingDialogue km' = true
      /\ currentConflict km' = None
      /\ lastKeyInterception km' = None
      /\ (lastKeyInterceptionDeviceType km', lastKeyInterceptionValue km')
         = (lastKeyInterceptionDeviceType km, lastKeyInterceptionValue km)
      /\ (keyBeingBound km', bindingDialogueVisible km')
         = (keyBeingBound km, bindingDialogueVisible km)
      /\ buttonThrower km' = ("keyInterception", "keyRelease")
      /\ (forall d, In d (polled engine) ->
                    device_get d (deviceAxisTestValues km') = Some (samples_of engine d))
      /\ (keyBindings km', axesInUse km', events km', keys km')
         = (keyBindings km, axesInUse km, events km, keys km).
Proof.
  intros engine km Hmatch. unfold conflictResolutionCancel. rewrite !bind_modify.
  match goal with
  | |- context [bind (setEvents _) _ ?s] => set (km0 := s)
  end.
  destruct (setEvents_polls engine km0 Hmatch) as (km1 & Hrun & Hsame & Hthrower & _ & Hs).
  rewrite (bind_Val _ _ _ _ _ Hrun). unfold modify.
  eexists. split; [reflexivity|].
  assert (Hdialogue : dialogue km1 = dialogue km0).
  { exact (f_equal (fun t => match t with (_, _, _, _, _, g) => g end) Hsame). }
  unfold dialogue in Hdialogue.
  cbn [conflictDialogue bindingDialogue currentConflict lastKeyInterception
       lastKeyInterceptionDeviceType lastKeyInterceptionValue keyBeingBound
       bindingDialogueVisible buttonThrower deviceAxisTestValues keyBindings axesInUse
       events keys set_bindingDialogue].
  split; [exact (f_equal (fun t => match t with (_, _, x, _, _, _, _) => x end) Hdialogue)|].
  split; [reflexivity|].
  split; [exact (f_equal (fun t => match t with (_, _, _, x, _, _, _) => x end) Hdialogue)|].
  split; [exact (f_equal (fun t => match t with
                                   | (_, _, _, _, _, (x, _, _), _) => x
                                   end) Hdialogue)|].
  split; [exact (f_equal (fun t => match t with
                                   | (_, _, _, _, _, (_, x, y), _) => (x, y)
                                   end) Hdialogue)|].
  split; [exact (f_equal (fun t => match t with
                                   | (x, _, _, _, y, _, _) => (y, x)
                                   end) Hdialogue)|].
  split; [exact Hthrower|].
  split.
  { intros d Hd. rewrite Hs, (existsb_InputDevice_In _ _ Hd). reflexivity. }
  exact (f_equal (fun t => match t with (a, b, c, d, _, _) => (a, b, c, d) end) Hsame).
Qed.

Lemma conflictResolutionCancel_awaits_again_example :
  exists km',
    conflictResolutionCancel example_engine
      (snd (handleBindingConflict "back" KEY_MENU example_candidate)) = (Val tt, km')
    /\ conflictDialogue km' = false
    /\ bindingDialogue km' = true
    /\ currentConflict km' = None
    /\ lastKeyInterception km' = None
    /\ (lastKeyInterceptionDeviceType km', lastKeyInterceptionValue km')
       = (Some "gamepad", 0)
    /\ (keyBeingBound km', bindingDialogueVisible km') = (Some KEY_THRUST, true)
    /\ buttonThrower km' = ("keyInterception", "keyRelease")
    /\ (forall d, In d (polled example_engine) ->
                  device_get d (deviceAxisTestValues km')
                  = Some (samples_of example_engine d))
    /\ (keyBindings km', axesInUse km', events km', keys km')
       = (keyBindings example_game, axesInUse example_game, events example_game,
          keys example_game).
Proof.
  apply (conflictResolutionCancel_awaits_again example_engine
           (snd (handleBindingConflict "back" KEY_MENU example_candidate)));
    reflexivity.
Defined.

(** ** Overwriting a binding *)

Lemma unbind_in_unbinds ks d k :
  List.existsb (fun k0 => String.eqb k0 k) ks = true -> unbound_in (unbind_in ks d) k.
Proof.
  intros Hk. unfold unbound_in. rewrite dict_get_unbind_in, Hk.
  destruct (dict_get k d); reflexivity.
Qed.

Lemma unbind_in_keeps_unbound ks d k :
  unbound_in d k -> unbound_in (unbind_in ks d) k.
Proof.
  unfold unbound_in. rewrite dict_get_unbind_in.
  destruct (List.existsb _ ks); destruct (dict_get k d); cbn; tauto.
Qed.

Lemma clear_view_keeps_unbound b direction v k :
  unbound_in (fst v) k -> unbound_in (fst (clear_view b direction v)) k.
Proof.
  unfold clear_view. destruct b as [b|]; [|tauto].
  destruct (is_axis_binding b); cbn [fst]; apply unbind_in_keeps_unbound.
Qed.

Lemma In_existsb_eqb k ks :
  In k ks -> List.existsb (fun k0 => String.eqb k0 k) ks = true.
Proof.
  intros H. apply List.existsb_exists. exists k. split; [exact H | apply String.eqb_refl].
Qed.

(** The controls that [clearKeyEvent] unbinds at the start of [bindKey]
    are unbound after it, the control being bound apart. *)
Lemma bind_view_unbinds k k' b dt direction km :
  k' <> k ->
  In k' (keysToChange_of b direction km) ->
  unbound_in (fst (bind_view k (Some b) dt direction (view km))) k'.
Proof.
  intros Hne Hin. unfold bind_view.
  assert (H1 : unbound_in (fst (clear_view (Some b) direction (view km))) k').
  { unfold clear_view, view, keysToChange_of in *. cbn [fst snd].
    destruct (clear_axis_entries_claims (string_from 5 b) direction (axesInUse km)) as [_ E].
    destruct (is_axis_binding b); cbn [fst]; apply unbind_in_unbinds.
    - rewrite <- E. apply In_existsb_eqb. exact Hin.
    - apply In_existsb_eqb. exact Hin. }
  destruct (dict_get k (fst (clear_view (Some b) direction (view km)))) as [old|]; [|exact H1].
  cbn [fst]. unfold unbound_in. rewrite dict_get_update.
  destruct (String.eqb_spec k k') as [->|_]; [contradiction|].
  apply clear_view_keeps_unbound. exact H1.
Qed.

(** [conflictResolutionContinue] overwrites.  With a control being bound
    and a candidate (on a well-formed manager, the candidate's device type
    naming a device class and the control having the callback its kind
    needs), it returns; the control is then bound to the candidate, with
    its device type and direction; each other control that
    [clearKeyEvent] of the candidate unbinds (those bound to it or, for an
    axis, those holding the candidate's direction of the axis) has no
    binding; no conflict and no control being bound remain, and
    [isShowingDialogue] returns False. *)
Theorem conflictResolutionContinue_overwrites :
  forall (engine : Engine) (key : string) (km : KeyMapper) (kbb candidate : string)
         (kb0 : KeyBinding),
    keyBeingBound km = Some kbb ->
    lastKeyInterception km = Some candidate ->
    dict_get kbb (keyBindings km) = Some kb0 ->
    well_formed km = true ->
    valid_deviceType (lastKeyInterceptionDeviceType km) = true ->
    callback_missing (type kb0) (callback kb0) = false ->
    exists km',
      conflictResolutionContinue engine key km = (Val tt, km')
      /\ (exists kb,
            dict_get kbb (keyBindings km') = Some kb
            /\ binding kb = Some candidate
            /\ deviceType kb = lastKeyInterceptionDeviceType km
            /\ axisDirection kb = lastKeyInterceptionValue km)
      /\ (forall k',
            k' <> kbb ->
            In k' (keysToChange_of candidate (lastKeyInterceptionValue km) km) ->
            binding_of km' k' = None)
      /\ currentConflict km' = None
      /\ keyBeingBound km' = None
      /\ isShowingDialogue km' = (Val false, km').
Proof.
  intros engine key km kbb candidate kb0 Hkbb Hlast Hkb0 Hwf Hdt Hcb.
  unfold conflictResolutionContinue. rewrite bind_modify.
  set (km0 := set_conflictDialogue false km).
  destruct (finishKeyRelease_commits engine key km0 kbb candidate kb0 Hkbb Hlast Hkb0)
    as (km1 & Hrun & Hview & Hconf & Hbound & Hvisible); try assumption.
  rewrite (bind_Val _ _ _ _ _ Hrun). unfold modify.
  eexists. split; [reflexivity|].
  assert (Hreg : List.existsb (String.eqb kbb) (List.map fst (fst (view km))) = true).
  { apply dict_get_registered. exists kb0. exact Hkb0. }
  assert (Hkeys : keyBindings km1
                  = fst (bind_view kbb (Some candidate) (lastKeyInterceptionDeviceType km)
                           (lastKeyInterceptionValue km) (view km))).
  { change (keyBindings km1) with (fst (view km1)). rewrite Hview. reflexivity. }
  cbn [keyBindings currentConflict keyBeingBound set_currentConflict].
  split; [|split; [|split; [|split]]].
  - rewrite Hkeys. apply bind_view_bound. exact Hreg.
  - intros k' Hne Hin. unfold binding_of. cbn [keyBindings set_currentConflict].
    rewrite Hkeys.
    pose proof (bind_view_unbinds kbb k' candidate (lastKeyInterceptionDeviceType km)
                  (lastKeyInterceptionValue km) km Hne Hin) as Hu.
    unfold unbound_in in Hu. destruct (dict_get k' _); [exact Hu | reflexivity].
  - reflexivity.
  - exact Hbound.
  - unfold isShowingDialogue, gets.
    cbn [bindingDialogueVisible conflictDialogue set_currentConflict].
    rewrite Hvisible, Hconf. reflexivity.
Qed.

Lemma conflictResolutionContinue_overwrites_example :
  exists km',
    conflictResolutionContinue example_engine "back"
      (snd (handleBindingConflict "back" KEY_MENU example_candidate)) = (Val tt, km')
    /\ (exists kb,
          dict_get KEY_THRUST (keyBindings km') = Some kb
          /\ binding kb = Some "back"
          /\ deviceType kb = Some "gamepad"
          /\ axisDirection kb = 0)
    /\ (forall k',
          k' <> KEY_THRUST ->
          In k' [KEY_MENU] ->
          binding_of km' k' = None)
    /\ currentConflict km' = None
    /\ keyBeingBound km' = None
    /\ isShowingDialogue km' = (Val false, km').
Proof.
  apply (conflictResolutionContinue_overwrites example_engine "back"
           (snd (handleBindingConflict "back" KEY_MENU example_candidate))
           KEY_THRUST "back" thrust_binding); reflexivity.
Defined.

(** ** Dead zones *)

Section Advances.

Context (R : KeyMapper -> KeyMapper -> Prop).
Hypothesis R_refl : forall km, R km km.
Hypothesis R_trans : forall km1 km2 km3, R km1 km2 -> R km2 km3 -> R km1 km3.

Lemma advances_ret {A} (a : A) : advances R (ret a).
Proof. intros km r km' [= _ <-]. apply R_refl. Qed.

Lemma advances_raise {A} (e : Exn) : advances R (@raise A e).
Proof. intros km r km' [= _ <-]. apply R_refl. Qed.

Lemma advances_gets {A} (f : KeyMapper -> A) : advances R (gets f).
Proof. intros km r km' [= _ <-]. apply R_refl. Qed.

Lemma advances_modify (f : KeyMapper -> KeyMapper) :
  (forall km, R km (f km)) -> advances R (modify f).
Proof. intros Hf km r km' [= _ <-]. apply Hf. Qed.

Lemma advances_bind {A B} (m : M A) (k : A -> M B) :
  advances R m -> (forall a, advances R (k a)) -> advances R (bind m k).
Proof.
  intros Hm Hk km r km' H. unfold bind in H.
  destruct (m km) as [[a|e] km1] eqn:Hrun.
  - exact (R_trans _ _ _ (Hm _ _ _ Hrun) (Hk a _ _ _ H)).
  - injection H as _ <-. exact (Hm _ _ _ Hrun).
Qed.

Lemma advances_for_each {A} (l : list A) (body : A -> M unit) :
  (forall x, advances R (body x)) -> advances R (for_each l body).
Proof.
  intros Hbody. induction l as [|x l IH]; cbn [for_each].
  - apply advances_ret.
  - apply advances_bind; [apply Hbody | intros _; exact IH].
Qed.

End Advances.

Lemma entries_from_refl l : entries_from l l.
Proof. intros a Ha. exists a. tauto. Qed.

Lemma entries_from_trans l1 l2 l3 :
  entries_from l2 l1 -> entries_from l3 l2 -> entries_from l3 l1.
Proof.
  intros H12 H23 a3 Ha3.
  destruct (H23 a3 Ha3) as (a2 & Ha2 & Hdz2 & Huse2).
  destruct (H12 a2 Ha2) as (a1 & Ha1 & Hdz1 & Huse1).
  exists a1. split; [exact Ha1|]. split; [congruence | tauto].
Qed.

Lemma entries_kept_refl km : entries_kept km km.
Proof. apply entries_from_refl. Qed.

Lemma entries_kept_trans km1 km2 km3 :
  entries_kept km1 km2 -> entries_kept km2 km3 -> entries_kept km1 km3.
Proof. apply entries_from_trans. Qed.

Lemma entries_from_map (f : AxisData -> AxisData) l :
  (forall a, deadZone (f a) = deadZone a
             /\ (axis_in_use (f a) = true -> axis_in_use a = true)) ->
  entries_from (List.map f l) l.
Proof.
  intros Hf a' Ha'. apply List.in_map_iff in Ha'. destruct Ha' as (a & <- & Ha).
  exists a. split; [exact Ha | apply Hf].
Qed.

Lemma entries_from_filter (g : AxisData -> bool) l : entries_from (List.filter g l) l.
Proof.
  intros a Ha. apply List.filter_In in Ha. exists a. tauto.
Qed.

Lemma clear_direction_entry s direction a :
  deadZone (fst (clear_direction s direction a)) = deadZone a
  /\ (axis_in_use (fst (clear_direction s direction a)) = true -> axis_in_use a = true).
Proof.
  unfold clear_direction.
  destruct (String.eqb (axis a) s); [|split; [reflexivity | trivial]].
  destruct (direction =? -1).
  - destruct (keyDescriptionNegative a) eqn:En; cbn [fst]; [|split; [reflexivity | trivial]].
    split; [reflexivity|]. unfold axis_in_use. rewrite En.
    destruct (keyDescriptionPositive a); intros _; reflexivity.
  - destruct (direction =? 1); [|split; [reflexivity | trivial]].
    destruct (keyDescriptionPositive a) eqn:Ep; cbn [fst]; [|split; [reflexivity | trivial]].
    split; [reflexivity|]. unfold axis_in_use. rewrite Ep. intros _; reflexivity.
Qed.

Lemma clear_axis_entries_from s direction l :
  entries_from (fst (clear_axis_entries s direction l)) l.
Proof.
  induction l as [|a l IH]; cbn [clear_axis_entries]; [intros a []|].
  pose proof (clear_direction_entry s direction a) as Ha.
  destruct (clear_direction s direction a) as [a1 ks].
  destruct (clear_axis_entries s direction l) as [l1 ks1].
  cbn [fst] in *. intros a' [<-|Hin].
  - exists a. split; [left; reflexivity | exact Ha].
  - destruct (IH a' Hin) as (a0 & H0 & H1). exists a0. split; [right; exact H0 | exact H1].
Qed.

Ltac kept_step :=
  first
    [ apply (advances_ret entries_kept entries_kept_refl)
    | apply (advances_raise entries_kept entries_kept_refl)
    | apply (advances_gets entries_kept entries_kept_refl)
    | apply advances_modify; intros ?; unfold entries_kept; apply entries_from_refl
    | apply (advances_bind entries_kept entries_kept_trans); [|intros ?]
    | apply (advances_for_each entries_kept entries_kept_refl entries_kept_trans); intros ?
    | match goal with
      | |- advances _ (match ?x with _ => _ end) => destruct x
      end ].

Ltac kept := repeat kept_step.

Lemma removeUsedDevice_kept t : advances entries_kept (removeUsedDevice t).
Proof.
  unfold removeUsedDevice, to_DeviceClass.
  apply (advances_bind entries_kept entries_kept_trans); [kept|]. intros c.
  destruct (_ || _)%bool; [kept|].
  apply (advances_bind entries_kept entries_kept_trans); [kept|]. intros l.
  apply (advances_for_each entries_kept entries_kept_refl entries_kept_trans). intros p.
  apply (advances_bind entries_kept entries_kept_trans); [|intros _; kept].
  apply advances_modify. intros km. apply entries_from_map. intros a. split; [reflexivity | intros H; exact H].
Qed.

Lemma addUsedDevice_kept engine t : advances entries_kept (addUsedDevice engine t).
Proof.
  unfold addUsedDevice, to_DeviceClass.
  apply (advances_bind entries_kept entries_kept_trans); [kept|]. intros c.
  apply (advances_bind entries_kept entries_kept_trans); [kept|]. intros inUse.
  destruct (List.find _ _); [kept|].
  destruct (List.filter _ _) as [|device rest]; [kept|].
  apply (advances_bind entries_kept entries_kept_trans).
  { apply advances_modify. intros km.
    destruct (find_dataNP device (dataNPList km)); unfold entries_kept; apply entries_from_refl. }
  intros _. apply (advances_bind entries_kept entries_kept_trans); [|intros _; kept].
  apply advances_modify. intros km. apply entries_from_map. intros a. split; [reflexivity | intros H; exact H].
Qed.

Lemma unbind_keys_kept ks : advances entries_kept (unbind_keys ks).
Proof.
  induction ks as [|key rest IH]; cbn [unbind_keys]; [kept|].
  apply (advances_bind entries_kept entries_kept_trans).
  { intros km r km' H. rewrite (keyBindings_at_inv _ _ _ _ H). apply entries_kept_refl. }
  intros kb. apply (advances_bind entries_kept entries_kept_trans); [kept|]. intros _.
  apply (advances_bind entries_kept entries_kept_trans); [exact IH|]. intros checks. kept.
Qed.

Lemma clearKeyEvent_kept b direction : advances entries_kept (clearKeyEvent b direction).
Proof.
  unfold clearKeyEvent. destruct b as [b|]; [|kept].
  apply (advances_bind entries_kept entries_kept_trans).
  { destruct (is_axis_binding b); [|kept].
    intros km r km' H.
    pose proof (clear_axis_entries_from (string_from 5 b) direction (axesInUse km)) as Hfrom.
    destruct (clear_axis_entries (string_from 5 b) direction (axesInUse km)).
    injection H as _ <-. exact Hfrom. }
  intros ks. apply (advances_bind entries_kept entries_kept_trans); [apply unbind_keys_kept|].
  intros dts. apply (advances_bind entries_kept entries_kept_trans); [kept|]. intros bound.
  apply (advances_bind entries_kept entries_kept_trans).
  { apply (advances_for_each entries_kept entries_kept_refl entries_kept_trans). intros dt.
    destruct (List.existsb _ bound); [kept|].
    destruct dt; [apply removeUsedDevice_kept | kept]. }
  intros _. apply (advances_bind entries_kept entries_kept_trans); [kept|]. intros _.
  apply (advances_bind entries_kept entries_kept_trans); [kept|]. intros _.
  apply advances_modify. intros km. apply entries_from_filter.
Qed.

(** After a [clearKeyEvent] of a string that returns, every axis entry
    has a direction bound. *)
Lemma clearKeyEvent_all_in_use b direction km km' :
  clearKeyEvent (Some b) direction km = (Val tt, km') ->
  List.forallb axis_in_use (axesInUse km') = true.
Proof.
  unfold clearKeyEvent. intros H.
  apply bind_inv_Val in H. destruct H as (ks & km1 & H1 & H).
  apply bind_inv_Val in H. destruct H as (dts & km2 & H2 & H).
  rewrite bind_gets in H.
  apply bind_inv_Val in H. destruct H as ([] & km3 & H3 & H).
  rewrite !bind_modify in H. unfold modify in H. injection H as <-.
  cbn [axesInUse set_axesInUse]. apply List.forallb_forall. intros a Ha.
  apply List.filter_In in Ha. apply Ha.
Qed.

Lemma subscribe_kept k b ty cb : advances entries_kept (subscribe k b ty cb).
Proof.
  unfold subscribe, accept.
  destruct (ty =? KEYMAP_HELD_KEY); [destruct b; kept|].
  destruct (ty =? KEYMAP_EVENT_PRESSED); [destruct cb, b; kept|].
  destruct (ty =? KEYMAP_EVENT_RELEASED); [destruct cb, b; kept|].
  destruct (ty =? KEYMAP_EVENT_PRESSED_AND_RELEASED); [|kept].
  destruct cb as [|f|items]; [kept | destruct b; kept |].
  destruct items as [|[f0|] [|[f1|] rest]]; try (kept; fail); destruct b; kept.
Qed.

Lemma entries_from_Forall (P : float -> Prop) l' l :
  entries_from l' l ->
  List.Forall (fun a => P (deadZone a)) l -> List.Forall (fun a => P (deadZone a)) l'.
Proof.
  intros Hfrom Hl. apply List.Forall_forall. intros a' Ha'.
  destruct (Hfrom a' Ha') as (a & Ha & Hdz & _). rewrite Hdz.
  rewrite List.Forall_forall in Hl. exact (Hl a Ha).
Qed.

Lemma entries_from_Forall_in_use (P : float -> Prop) l' l :
  entries_from l' l ->
  List.Forall (fun a => axis_in_use a = true -> P (deadZone a)) l ->
  List.Forall (fun a => axis_in_use a = true -> P (deadZone a)) l'.
Proof.
  intros Hfrom Hl. apply List.Forall_forall. intros a' Ha' Huse'.
  destruct (Hfrom a' Ha') as (a & Ha & Hdz & Huse). rewrite Hdz.
  rewrite List.Forall_forall in Hl. exact (Hl a Ha (Huse Huse')).
Qed.

Lemma claim_direction_deadZone k device dt direction a :
  deadZone (claim_direction k device dt direction a) = deadZone a.
Proof.
  unfold claim_direction. destruct (0 <? direction); [reflexivity|].
  destruct (direction <? 0); reflexivity.
Qed.

Lemma outside_deadZoneDefaultValue km km' :
  outside_bindings km' = outside_bindings km ->
  deadZoneDefaultValue km' = deadZoneDefaultValue km.
Proof.
  intros H.
  exact (f_equal (fun t => match t with (_, _, _, (_, _, _, x), _, _) => x end) H).
Qed.

(** [bindKey] and the dead zones.  The default is kept.  If every entry
    with a direction bound has the default dead zone, so it is after a
    [bindKey] that returns; and likewise if every entry has it. *)
Lemma bindKey_dead_zones engine k b ty cb dt direction km km' :
  bindKey engine k b ty cb dt direction km = (Val tt, km') ->
  deadZoneDefaultValue km' = deadZoneDefaultValue km
  /\ (List.Forall (fun a => axis_in_use a = true -> deadZone a = deadZoneDefaultValue km)
                  (axesInUse km) ->
      List.Forall (fun a => axis_in_use a = true -> deadZone a = deadZoneDefaultValue km)
                  (axesInUse km'))
  /\ (List.Forall (fun a => deadZone a = deadZoneDefaultValue km) (axesInUse km) ->
      List.Forall (fun a => deadZone a = deadZoneDefaultValue km) (axesInUse km')).
Proof.
  intros Hrun.
  split; [exact (outside_deadZoneDefaultValue _ _ (bindKey_outside _ _ _ _ _ _ _ _ _ _ Hrun))|].
  set (dz := deadZoneDefaultValue km).
  unfold bindKey in Hrun.
  apply bind_inv_Val in Hrun. destruct Hrun as ([] & km1 & H1 & H).
  apply bind_inv_Val in H. destruct H as (old & km1' & Hold & H).
  pose proof (keyBindings_at_inv _ _ _ _ Hold) as ->.
  apply bind_inv_Val in H. destruct H as ([] & km2 & H2 & H).
  apply bind_inv_Val in H. destruct H as ([] & km3 & H3 & H).
  rewrite bind_modify in H.
  pose proof (clearKeyEvent_kept _ _ _ _ _ H1) as K1.
  pose proof (clearKeyEvent_kept _ _ _ _ _ H2) as K2.
  pose proof (subscribe_kept _ _ _ _ _ _ _ H3) as K3.
  assert (K : entries_kept km km3)
    by exact (entries_kept_trans _ _ _ (entries_kept_trans _ _ _ K1 K2) K3).
  destruct b as [b|].
  2:{ injection H as <-. cbn [axesInUse set_keyBindings]. split; intros HP.
      - exact (entries_from_Forall_in_use (fun z => z = dz) _ _ K HP).
      - exact (entries_from_Forall (fun z => z = dz) _ _ K HP). }
  (* the first [clearKeyEvent] has pruned the entries with no holder *)
  assert (Hall : List.Forall (fun a => axis_in_use a = true -> deadZone a = dz) (axesInUse km) ->
                 List.Forall (fun a => deadZone a = dz) (axesInUse km3)).
  { intros HP.
    pose proof (entries_from_Forall_in_use (fun z => z = dz) _ _ K1 HP) as HP1.
    pose proof (clearKeyEvent_all_in_use _ _ _ _ H1) as Huse1.
    assert (HI1 : List.Forall (fun a => deadZone a = dz) (axesInUse km1)).
    { apply List.Forall_forall. intros a Ha.
      rewrite List.Forall_forall in HP1. apply (HP1 a Ha).
      rewrite List.forallb_forall in Huse1. exact (Huse1 a Ha). }
    exact (entries_from_Forall (fun z => z = dz) _ _
             (entries_kept_trans _ _ _ K2 K3) HI1). }
  assert (Hweaken : forall l, List.Forall (fun a => deadZone a = dz) l ->
                              List.Forall (fun a => axis_in_use a = true -> deadZone a = dz) l).
  { intros l Hl. eapply List.Forall_impl; [|exact Hl]. intros a Ha _. exact Ha. }
  assert (Hfinal : List.Forall (fun a => deadZone a = dz) (axesInUse km3) ->
                   List.Forall (fun a => deadZone a = dz) (axesInUse km')).
  { intros HI3. destruct dt as [dt|]; [|injection H as <-; exact HI3].
    apply bind_inv_Val in H. destruct H as (device & km4 & H4 & H).
    pose proof (addUsedDevice_kept _ _ _ _ _ H4) as K4.
    pose proof (addUsedDevice_outside _ _ _ _ _ H4) as O4.
    assert (HI4 : List.Forall (fun a => deadZone a = dz) (axesInUse km4)).
    { exact (entries_from_Forall (fun z => z = dz) _ _ K4 HI3). }
    destruct (is_axis_binding b); [|injection H as <-; exact HI4].
    injection H as <-. cbn [axesInUse set_axesInUse].
    assert (Hupdated :
              List.Forall (fun a => deadZone a = dz)
                (List.map (fun a => if String.eqb (axis a) (string_from 5 b)
                                    then claim_direction k device dt direction a else a)
                          (axesInUse km4))).
    { apply List.Forall_forall. intros a' Ha'. apply List.in_map_iff in Ha'.
      destruct Ha' as (a & <- & Ha). rewrite List.Forall_forall in HI4.
      destruct (String.eqb (axis a) (string_from 5 b));
        [rewrite claim_direction_deadZone|]; exact (HI4 a Ha). }
    destruct (List.existsb _ (axesInUse km4)); [exact Hupdated|].
    apply List.Forall_app. split; [exact Hupdated|].
    constructor; [|constructor].
    rewrite claim_direction_deadZone. cbn [deadZone AxisData_new].
    rewrite (outside_deadZoneDefaultValue _ _ O4). cbn [deadZoneDefaultValue set_keyBindings].
    pose proof (clearKeyEvent_outside _ _ _ _ _ H1) as O1.
    pose proof (clearKeyEvent_outside _ _ _ _ _ H2) as O2.
    pose proof (subscribe_outside _ _ _ _ _ _ _ H3) as O3.
    rewrite (outside_deadZoneDefaultValue _ _ O3), (outside_deadZoneDefaultValue _ _ O2).
    exact (outside_deadZoneDefaultValue _ _ O1). }
  split; intros HP.
  - apply Hweaken. apply Hfinal. apply Hall. exact HP.
  - apply Hfinal. apply Hall. apply Hweaken. exact HP.
Qed.

Lemma load_loop_dead_zones engine
    (bindingList : list (string * option string * Z * option string * Callback * Z)) :
  forall km km',
    for_each bindingList
      (fun r =>
         match r with
         | (keyDescription_, binding_, controlType, deviceType_, callback_, axisDirection_) =>
             bindKey engine keyDescription_ binding_ controlType callback_ deviceType_
                     axisDirection_
         end) km = (Val tt, km') ->
    List.Forall (fun a => axis_in_use a = true -> deadZone a = deadZoneDefaultValue km)
                (axesInUse km) ->
    deadZoneDefaultValue km' = deadZoneDefaultValue km
    /\ List.Forall (fun a => axis_in_use a = true -> deadZone a = deadZoneDefaultValue km)
                   (axesInUse km').
Proof.
  induction bindingList as [|[[[[[k b] ty] dt] cb] d] rest IH]; intros km km' Hrun HP.
  - injection Hrun as <-. split; [reflexivity | exact HP].
  - cbn [for_each] in Hrun. apply bind_inv_Val in Hrun.
    destruct Hrun as ([] & km1 & H1 & Hrest).
    destruct (bindKey_dead_zones _ _ _ _ _ _ _ _ _ H1) as (Hdz1 & HJ1 & _).
    specialize (HJ1 HP). rewrite <- Hdz1 in HJ1.
    destruct (IH km1 km' Hrest HJ1) as (Hdz & HJ).
    rewrite Hdz1 in Hdz, HJ. split; assumption.
Qed.

(** [loadKeyMapping] does not apply the dead zones of the profile to an
    axis that it binds.  When the load-callback returns a profile and
    [loadKeyMapping] returns, every axis entry that has a direction bound
    has the default dead zone of the manager, whatever the axis records
    of the profile say: the entries made from them have no holder and are
    dropped by the first [clearKeyEvent] of [bindKey]. *)
Theorem loadKeyMapping_binds_with_default_dead_zone :
  forall (engine : Engine) (km km' : KeyMapper) load
         (keySaveData : list KeySaveRecord) (axisSaveData : list AxisSaveRecord),
    loadMappingCallback engine = Some load ->
    load (bindingFile km) = Returned keySaveData axisSaveData ->
    loadKeyMapping engine km = (Val tt, km') ->
    deadZoneDefaultValue km' = deadZoneDefaultValue km
    /\ List.Forall (fun a => axis_in_use a = true -> deadZone a = deadZoneDefaultValue km)
                   (axesInUse km').
Proof.
  intros engine km km' load keySaveData axisSaveData Hload Hloaded Hrun.
  unfold loadKeyMapping in Hrun. rewrite bind_gets, Hload, Hloaded in Hrun.
  apply bind_inv_Val in Hrun. destruct Hrun as (bindingList & km0 & Hcollect & Hrun).
  assert (Hkm0 : km0 = km).
  { clear -Hcollect. revert bindingList Hcollect.
    induction keySaveData as [|[[[k b] dt] d] rest IH]; intros bindingList H.
    - injection H as _ <-. reflexivity.
    - cbn [collect_bindingList] in H. apply bind_inv_Val in H.
      destruct H as (kb & km1 & Hkb & H). rewrite (keyBindings_at_inv _ _ _ _ Hkb) in H.
      apply bind_inv_Val in H. destruct H as (l & km2 & Hl & H).
      injection H as _ <-. exact (IH _ Hl). }
  subst km0. rewrite bind_modify in Hrun.
  apply (load_loop_dead_zones engine bindingList _ km' Hrun).
  cbn [axesInUse set_axesInUse]. apply List.Forall_forall. intros a Ha.
  apply List.in_map_iff in Ha. destruct Ha as (r & <- & _). discriminate.
Qed.

Lemma loadKeyMapping_binds_with_default_dead_zone_example :
  deadZoneDefaultValue (snd (loadKeyMapping narrow_dead_zone_engine example_game))
  = deadZoneDefaultValue example_game
  /\ List.Forall
       (fun a => axis_in_use a = true -> deadZone a = deadZoneDefaultValue example_game)
       (axesInUse (snd (loadKeyMapping narrow_dead_zone_engine example_game))).
Proof.
  apply (loadKeyMapping_binds_with_default_dead_zone narrow_dead_zone_engine example_game
           (snd (loadKeyMapping narrow_dead_zone_engine example_game))
           (fun _ => Returned (keySaveData_of example_game) [("left_x", 0.0625%float)])
           (keySaveData_of example_game) [("left_x", 0.0625%float)]);
    [reflexivity | reflexivity | vm_compute; reflexivity].
Defined.

(** The dead zone set for all axes holds through a binding.  After
    [setDeadZoneForAllAxes(dz)], a [bindKey] that returns leaves every
    axis entry, the ones it makes included, with the dead zone [dz], which
    is the default. *)
Theorem setDeadZoneForAllAxes_holds_through_bindKey :
  forall (engine : Engine) (km km' : KeyMapper) (dz : float) (k : string)
         (b : option string) (ty : Z) (cb : Callback) (dt : option string) (direction : Z),
    (setDeadZoneForAllAxes dz ;;; bindKey engine k b ty cb dt direction) km = (Val tt, km') ->
    deadZoneDefaultValue km' = dz
    /\ List.Forall (fun a => deadZone a = dz) (axesInUse km')
    /\ List.map claims (axesInUse (snd (setDeadZoneForAllAxes dz km)))
       = List.map claims (axesInUse km).
Proof.
  intros engine km km' dz k b ty cb dt direction Hrun.
  unfold setDeadZoneForAllAxes in Hrun. rewrite bind_assoc, !bind_modify in Hrun.
  destruct (bindKey_dead_zones _ _ _ _ _ _ _ _ _ Hrun) as (Hdz & _ & HI).
  cbn [deadZoneDefaultValue axesInUse set_deadZoneDefaultValue set_axesInUse] in Hdz, HI.
  split; [exact Hdz|]. split.
  - apply HI. apply List.Forall_forall. intros a Ha.
    apply List.in_map_iff in Ha. destruct Ha as (a0 & <- & _). reflexivity.
  - cbn. rewrite List.map_map. apply List.map_ext. intros a. reflexivity.
Qed.

Lemma setDeadZoneForAllAxes_holds_through_bindKey_example :
  let km' :=
    snd ((setDeadZoneForAllAxes 0.125%float ;;;
          bindKey example_engine KEY_THRUST (Some "Axis.left_y") KEYMAP_HELD_KEY CbNone
                  (Some "gamepad") 1) example_game) in
  deadZoneDefaultValue km' = 0.125%float
  /\ List.Forall (fun a => deadZone a = 0.125%float) (axesInUse km')
  /\ List.map claims (axesInUse (snd (setDeadZoneForAllAxes 0.125%float example_game)))
     = List.map claims (axesInUse example_game).
Proof.
  apply (setDeadZoneForAllAxes_holds_through_bindKey example_engine example_game _
           0.125%float KEY_THRUST (Some "Axis.left_y") KEYMAP_HELD_KEY CbNone
           (Some "gamepad") 1).
  vm_compute. reflexivity.
Defined.

(** ** A save that fails *)

(** A binding is committed even when it cannot be saved.  When the
    save-callback raises an I/O error, [finishKeyRelease] still returns:
    the control is bound to the candidate, the dialogue is closed, the
    file written to is the custom binding file, and the error is what the
    error dialogue shows; nothing is raised to the caller. *)
Theorem finishKeyRelease_shows_failed_save :
  forall (engine : Engine) (key : string) (km : KeyMapper) (kbb candidate : string)
         (kb0 : KeyBinding) save (e : string),
    keyBeingBound km = Some kbb ->
    lastKeyInterception km = Some candidate ->
    dict_get kbb (keyBindings km) = Some kb0 ->
    well_formed km = true ->
    valid_deviceType (lastKeyInterceptionDeviceType km) = true ->
    callback_missing (type kb0) (callback kb0) = false ->
    saveMappingCallback engine = Some save ->
    (forall keySaveData axisSaveData,
        save keySaveData axisSaveData (bindingFileCustom km) = Some e) ->
    exists km',
      finishKeyRelease engine key km = (Val tt, km')
      /\ (exists kb, dict_get kbb (keyBindings km') = Some kb
                     /\ binding kb = Some candidate)
      /\ errorDialogue km' = Some e
      /\ bindingFile km' = bindingFileCustom km
      /\ bindingDialogueVisible km' = false.
Proof.
  intros engine key km kbb candidate kb0 save e Hkbb Hlast Hkb0 Hwf Hdt Hcb Hsave Hfail.
  destruct (finishKeyRelease_commits engine key km kbb candidate kb0 Hkbb Hlast Hkb0 Hwf
              Hdt Hcb) as (km' & Hrun & Hview & _ & _ & Hvisible).
  exists km'. split; [exact Hrun|].
  assert (Hreg : List.existsb (String.eqb kbb) (List.map fst (fst (view km))) = true).
  { apply dict_get_registered. exists kb0. exact Hkb0. }
  split.
  { destruct (bind_view_bound kbb (Some candidate) (lastKeyInterceptionDeviceType km)
                (lastKeyInterceptionValue km) (view km) Hreg) as (kb & Hkb & Hb & _).
    exists kb. split; [|exact Hb].
    change (keyBindings km') with (fst (view km')). rewrite Hview. exact Hkb. }
  unfold finishKeyRelease in Hrun. rewrite !bind_gets, Hkbb, Hlast in Hrun.
  apply bind_inv_Val in Hrun. destruct Hrun as ([] & km1 & Hcommit & Hrest).
  unfold bind at 1, keyBindings_at in Hcommit. rewrite Hkb0, !bind_gets in Hcommit.
  pose proof (bindKey_dialogue engine _ _ _ _ _ _ km _ km1 Hcommit) as Hd1.
  assert (Hfiles : bindingFileCustom km1 = bindingFileCustom km).
  { exact (f_equal (fun t => match t with (_, _, _, _, _, _, (_, x, _)) => x end) Hd1). }
  unfold hideBindingDialogue, clearEvents, saveKeyMapping in Hrest.
  repeat (rewrite bind_assoc in Hrest || rewrite bind_modify in Hrest
          || rewrite bind_gets in Hrest).
  rewrite Hsave in Hrest.
  cbn [bindingFile bindingFileCustom set_bindingFile set_deviceButtonThrowers set_dataNPList
       set_buttonThrower set_lastKeyInterceptionValue set_lastKeyInterceptionDeviceType
       set_lastKeyInterception set_bindingDialogueVisible set_bindingDialogue
       set_keyBeingBound] in Hrest.
  rewrite Hfiles, Hfail in Hrest.
  unfold showErrorDialogue in Hrest. rewrite !bind_modify in Hrest.
  injection Hrest as <-.
  split; [reflexivity|]. split; reflexivity.
Qed.

Lemma finishKeyRelease_shows_failed_save_example :
  exists km',
    finishKeyRelease example_engine "back" example_candidate = (Val tt, km')
    /\ (exists kb, dict_get KEY_THRUST (keyBindings km') = Some kb
                   /\ binding kb = Some "back")
    /\ errorDialogue km' = Some dummy_warning
    /\ bindingFile km' = bindingFileCustom example_candidate
    /\ bindingDialogueVisible km' = false.
Proof.
  apply (finishKeyRelease_shows_failed_save example_engine "back" example_candidate
           KEY_THRUST "back" thrust_binding (SaveLoadDummy_saveKeyMapping true)
           dummy_warning); reflexivity.
Defined.

(** ** Polling the axes in use *)

Lemma call_user_callable f k et km :
  call_user (CbFun f) k et km
  = (Val tt, set_calls (calls km ++ [Call_user f k et])%list km).
Proof. reflexivity. Qed.

(** [handleAxis] of a registered control that is ready returns, and
    changes nothing but the state of that control and the record of
    calls. *)
Lemma handleAxis_returns k v dz km kb old :
  dict_get k (keyBindings km) = Some kb ->
  dict_get k (keys km) = Some old ->
  callable (type kb) (callback kb) = true ->
  exists km',
    handleAxis (Some k) v dz km = (Val tt, km')
    /\ outside_key_states km' = outside_key_states km
    /\ List.map fst (keys km') = List.map fst (keys km).
Proof.
  intros Hkb Hold Hcall. unfold handleAxis.
  rewrite bind_gets, Hold, (bind_Val _ _ km old km eq_refl).
  unfold keyBindings_at at 1. unfold bind at 1. rewrite Hkb. rewrite bind_gets.
  assert (Hreg : List.existsb (String.eqb k) (List.map fst (keys km)) = true).
  { apply dict_get_registered. exists old. exact Hold. }
  assert (Hset : forall x (m : M unit),
             (forall km0, exists km1,
                 m km0 = (Val tt, km1)
                 /\ outside_key_states km1 = outside_key_states km0
                 /\ keys km1 = keys km0) ->
             exists km',
               (set_key k x ;;; m) km = (Val tt, km')
               /\ outside_key_states km' = outside_key_states km
               /\ List.map fst (keys km') = List.map fst (keys km)).
  { intros x m Hm. unfold set_key. rewrite bind_modify.
    destruct (Hm (set_keys (dict_set k x (keys km)) km)) as (km1 & H1 & Hout & Hkeys).
    exists km1. split; [exact H1|]. split; [rewrite Hout; reflexivity|].
    rewrite Hkeys. cbn [keys set_keys]. apply dict_set_keys. exact Hreg. }
  assert (Hret : forall km0, exists km1,
             @ret unit tt km0 = (Val tt, km1)
             /\ outside_key_states km1 = outside_key_states km0 /\ keys km1 = keys km0).
  { intros km0. exists km0. repeat split. }
  assert (Huser : forall f et km0, exists km1,
             call_user (CbFun f) k et km0 = (Val tt, km1)
             /\ outside_key_states km1 = outside_key_states km0 /\ keys km1 = keys km0).
  { intros f et km0. eexists. split; [apply call_user_callable|]. split; reflexivity. }
  assert (Hstate : forall x km0, exists km1,
             call_keyState k x km0 = (Val tt, km1)
             /\ outside_key_states km1 = outside_key_states km0 /\ keys km1 = keys km0).
  { intros x km0. unfold call_keyState, modify. eexists. split; [reflexivity|].
    destruct (keyStateCallback km0); split; reflexivity. }
  unfold callable in Hcall.
  destruct (negb (type kb =? KEYMAP_HELD_KEY)) eqn:Hbinary.
  - destruct (_ && _)%bool.
    + apply Hset.
      destruct (type kb =? KEYMAP_EVENT_PRESSED) eqn:Hp.
      * cbn [orb] in Hcall. destruct (callback kb); try discriminate. apply Huser.
      * destruct (type kb =? KEYMAP_EVENT_PRESSED_AND_RELEASED); [|exact Hret].
        destruct (type kb =? KEYMAP_EVENT_RELEASED); cbn [orb] in Hcall.
        -- destruct (callback kb); try discriminate. apply Huser.
        -- destruct (callback kb) as [|f|items]; [discriminate | apply Huser |].
           unfold call_item.
           destruct (List.nth_error items 0) as [[f0|]|]; try discriminate.
           apply Huser.
    + destruct (_ && _)%bool.
      * apply Hset.
        destruct (type kb =? KEYMAP_EVENT_RELEASED) eqn:Hr.
        -- rewrite Bool.orb_true_r in Hcall. destruct (callback kb); try discriminate.
           apply Huser.
        -- destruct (type kb =? KEYMAP_EVENT_PRESSED_AND_RELEASED); [|exact Hret].
           destruct (type kb =? KEYMAP_EVENT_PRESSED); cbn [orb] in Hcall.
           ++ destruct (callback kb); try discriminate. apply Huser.
           ++ destruct (callback kb) as [|f|items]; [discriminate | apply Huser |].
              unfold call_item.
              destruct (List.nth_error items 0) as [[f0|]|]; try discriminate.
              destruct (List.nth_error items 1) as [[f1|]|]; try discriminate.
              apply Huser.
      * exists km. repeat split.
  - destruct (PrimFloat.ltb (PrimFloat.abs v) dz).
    + apply Hset. destruct (PrimFloat.eqb _ _); [exact Hret | apply Hstate].
    + apply Hset. destruct (PrimFloat.eqb _ _); [apply Hstate | exact Hret].
Qed.

Lemma handleAxis_holder h v dz km :
  holder_in (List.map fst (keyBindings km)) h = true ->
  controls_ready km = true ->
  exists km',
    handleAxis h v dz km = (Val tt, km')
    /\ outside_key_states km' = outside_key_states km
    /\ List.map fst (keys km') = List.map fst (keys km).
Proof.
  intros Hh Hready. destruct h as [k|]; [|exists km; repeat split].
  cbn [holder_in] in Hh. apply dict_get_registered in Hh. destruct Hh as [kb Hkb].
  unfold controls_ready in Hready. rewrite List.forallb_forall in Hready.
  specialize (Hready _ (dict_get_In _ _ _ Hkb)). cbn [fst snd] in Hready.
  apply Bool.andb_true_iff in Hready. destruct Hready as [Hcall Hkey].
  apply dict_get_registered in Hkey. destruct Hkey as [old Hold].
  exact (handleAxis_returns k v dz km kb old Hkb Hold Hcall).
Qed.

Lemma controls_ready_same km km' :
  outside_key_states km' = outside_key_states km ->
  List.map fst (keys km') = List.map fst (keys km) ->
  controls_ready km' = controls_ready km.
Proof.
  intros Hout Hkeys. unfold controls_ready. rewrite Hkeys.
  replace (keyBindings km') with (keyBindings km); [reflexivity|].
  symmetry.
  exact (f_equal (fun t => match t with (x, _, _, _, _, _, _, _) => x end) Hout).
Qed.

(** The value read of an axis entry's device, when the entry names a
    member of [InputDevice.Axis]. *)
Lemma read_axis_returns engine (device : option InputDevice) x (f : float -> float) km :
  (device <> None -> List.existsb (String.eqb x) all_Axis = true) ->
  exists v,
    match device with
    | Some d => v <- axis_value engine d x ;; ret (f v)
    | None => ret 0%float
    end km = (Val v, km).
Proof.
  destruct device as [d|]; [|eexists; reflexivity].
  intros H. unfold axis_value. rewrite H by discriminate. eexists. reflexivity.
Qed.

(** In the idle state [update] cannot fail, and binds nothing.  On a
    well-formed manager whose controls are ready and whose polled axis
    entries name members of [InputDevice.Axis], with no dialogue awaiting
    an input, [update] returns; it changes nothing but key states and the
    record of the callbacks called, and every control keeps a state. *)
Theorem update_idle_returns :
  forall (engine : Engine) (km : KeyMapper),
    bindingDialogueVisible km = false ->
    well_formed km = true ->
    controls_ready km = true ->
    polls_known_axes km = true ->
    exists km',
      update engine km = (Val tt, km')
      /\ outside_key_states km' = outside_key_states km
      /\ List.map fst (keys km') = List.map fst (keys km).
Proof.
  intros engine km Hidle Hwf Hready Hknown. unfold update.
  rewrite bind_gets, Hidle, bind_gets.
  apply well_formed_iff in Hwf. destruct Hwf as (_ & _ & Hholders).
  rewrite List.forallb_forall in Hholders.
  unfold polls_known_axes in Hknown. rewrite List.forallb_forall in Hknown.
  apply (for_each_invariant
           (fun km' => outside_key_states km' = outside_key_states km
                       /\ List.map fst (keys km') = List.map fst (keys km)));
    [|split; reflexivity].
  intros a km0 Ha [Hout0 Hkeys0].
  specialize (Hholders _ (List.in_map claims _ _ Ha)).
  cbn [claims fst snd] in Hholders. apply Bool.andb_true_iff in Hholders.
  destruct Hholders as [Hp Hn].
  specialize (Hknown a Ha).
  assert (Hkb0 : keyBindings km0 = keyBindings km).
  { exact (f_equal (fun t => match t with (x, _, _, _, _, _, _, _) => x end) Hout0). }
  assert (Hready0 : controls_ready km0 = true).
  { rewrite (controls_ready_same _ _ Hout0 Hkeys0). exact Hready. }
  destruct (read_axis_returns engine (devicePositive a) (axis a)
              (fun v => if PrimFloat.ltb 0 v then v else 0%float) km0)
    as (valuePositive & Hvp).
  { intros Hdev. destruct (devicePositive a); [exact Hknown | contradiction]. }
  destruct (read_axis_returns engine (deviceNegative a) (axis a)
              (fun v => if PrimFloat.ltb v 0 then v else 0%float) km0)
    as (valueNegative & Hvn).
  { intros Hdev. destruct (devicePositive a), (deviceNegative a);
      try exact Hknown; contradiction. }
  cbv beta in Hvp, Hvn.
  rewrite (bind_Val _ _ _ _ _ Hvp), (bind_Val _ _ _ _ _ Hvn).
  destruct (handleAxis_holder (keyDescriptionPositive a) valuePositive (deadZone a) km0)
    as (km1 & H1 & Hout1 & Hkeys1);
    [rewrite Hkb0; exact Hp | exact Hready0 |].
  assert (Hready1 : controls_ready km1 = true).
  { rewrite (controls_ready_same _ _ Hout1 Hkeys1). exact Hready0. }
  assert (Hkb1 : keyBindings km1 = keyBindings km).
  { rewrite <- Hkb0.
    exact (f_equal (fun t => match t with (x, _, _, _, _, _, _, _) => x end) Hout1). }
  destruct (handleAxis_holder (keyDescriptionNegative a) valueNegative (deadZone a) km1)
    as (km2 & H2 & Hout2 & Hkeys2);
    [rewrite Hkb1; exact Hn | exact Hready1 |].
  exists km2. split; [rewrite (bind_Val _ _ _ _ _ H1); exact H2|].
  split; congruence.
Qed.

Lemma update_idle_returns_example :
  exists km',
    update stick_left_engine example_game = (Val tt, km')
    /\ outside_key_states km' = outside_key_states example_game
    /\ List.map fst (keys km') = List.map fst (keys example_game).
Proof.
  apply (update_idle_returns stick_left_engine example_game); reflexivity.
Defined.

(** ** A controller that goes away *)

Lemma device_get_none_iff {V} (d : InputDevice) (l : list (InputDevice * V)) :
  device_get d l = None <-> ~ In d (List.map fst l).
Proof.
  unfold device_get. split.
  - intros H Hin. apply List.in_map_iff in Hin. destruct Hin as (p & <- & Hp).
    destruct (List.find (fun q => InputDevice_eqb (fst q) (fst p)) l) eqn:Hfind;
      [discriminate|].
    pose proof (List.find_none _ _ Hfind p Hp) as Hne. cbn in Hne.
    rewrite (proj2 (InputDevice_eqb_eq _ _) eq_refl) in Hne. discriminate.
  - intros H. destruct (List.find (fun q => InputDevice_eqb (fst q) d) l) eqn:Hfind;
      [|reflexivity].
    exfalso. apply H. apply List.find_some in Hfind. destruct Hfind as [Hin Heq].
    apply InputDevice_eqb_eq in Heq. subst d. apply List.in_map. exact Hin.
Qed.

Lemma device_get_In {V} (d : InputDevice) (l : list (InputDevice * V)) v :
  device_get d l = Some v -> In d (List.map fst l).
Proof.
  unfold device_get. intros H.
  destruct (List.find (fun q => InputDevice_eqb (fst q) d) l) eqn:Hfind; [|discriminate].
  apply List.find_some in Hfind. destruct Hfind as [Hin Heq].
  apply InputDevice_eqb_eq in Heq. subst d. apply List.in_map. exact Hin.
Qed.

(** The loop of [removeUsedDevice] adds no node. *)
Lemma removeUsedDevice_loop_nodes (l : list (InputDevice * DataNP)) :
  forall km km',
    for_each l (fun p =>
      modify (fun km =>
        set_axesInUse (List.map (AxisData_detach (fst p)) (axesInUse km)) km) ;;;
      modify (fun km =>
        set_devicesInUse
          (List.filter (fun q => negb (InputDevice_eqb (fst q) (fst p)))
                       (devicesInUse km)) km) ;;;
      modify (fun km =>
        set_dataNPList
          (List.filter (fun np => negb (Nat.eqb (np_id np) (np_id (snd p))))
                       (dataNPList km)) km)) km = (Val tt, km') ->
    forall np, In np (dataNPList km') -> In np (dataNPList km).
Proof.
  induction l as [|p l IH]; intros km km' Hrun np Hnp.
  - injection Hrun as <-. exact Hnp.
  - cbn [for_each] in Hrun. rewrite !bind_assoc, !bind_modify in Hrun.
    specialize (IH _ _ Hrun np Hnp).
    cbn [dataNPList set_dataNPList] in IH. apply List.filter_In in IH. apply IH.
Qed.

(** [disconnectController] forgets the device.  For a device that is
    neither a keyboard nor a mouse it returns; the device is then not in
    use, no axis entry polls it if it was in use, and while a new binding
    is awaited no node of it is scanned.  The bindings and the holders of
    the axis directions stay: the controls remain bound to the inputs of
    the device that has gone. *)
Theorem disconnectController_forgets_the_device :
  forall (km : KeyMapper) (controller : InputDevice),
    is_keyboard_or_mouse (device_class controller) = false ->
    exists km',
      disconnectController controller km = (Val tt, km')
      /\ device_get controller (devicesInUse km') = None
      /\ (In controller (List.map fst (devicesInUse km)) ->
          List.Forall (fun a => devicePositive a <> Some controller
                                /\ deviceNegative a <> Some controller)
                      (axesInUse km'))
      /\ (bindingDialogueVisible km = true ->
          List.Forall (fun np => np_device np <> controller) (dataNPList km'))
      /\ keyBindings km' = keyBindings km
      /\ List.map claims (axesInUse km') = List.map claims (axesInUse km).
Proof.
  intros km controller Hclass. unfold disconnectController. rewrite bind_gets.
  set (km0 := if bindingDialogueVisible km
              then set_dataNPList
                     (List.filter (fun np => negb (InputDevice_eqb (np_device np) controller))
                                  (dataNPList km)) km
              else km).
  assert (H0 : (if bindingDialogueVisible km : bool
                then clearEventsForDevice controller else ret tt) km = (Val tt, km0)).
  { unfold km0. destruct (bindingDialogueVisible km); reflexivity. }
  rewrite (bind_Val _ _ _ _ _ H0), bind_gets.
  assert (Hsame0 : devicesInUse km0 = devicesInUse km /\ axesInUse km0 = axesInUse km
                   /\ keyBindings km0 = keyBindings km).
  { unfold km0. destruct (bindingDialogueVisible km); repeat split. }
  destruct Hsame0 as (Hdev0 & Hax0 & Hkb0).
  assert (Hnodes0 : bindingDialogueVisible km = true ->
                    List.Forall (fun np => np_device np <> controller) (dataNPList km0)).
  { intros Hv. unfold km0. rewrite Hv. cbn [dataNPList set_dataNPList].
    apply List.Forall_forall. intros np Hnp. apply List.filter_In in Hnp.
    destruct Hnp as [_ Hne]. intros Heq. rewrite Heq in Hne.
    rewrite (proj2 (InputDevice_eqb_eq _ _) eq_refl) in Hne. discriminate. }
  destruct (device_get controller (devicesInUse km0)) as [np|] eqn:Hget.
  - unfold removeUsedDevice. rewrite (bind_Val _ _ km0 (device_class controller) km0 eq_refl).
    fold (is_keyboard_or_mouse (device_class controller)). rewrite Hclass, bind_gets.
    pose (removed := List.filter
                       (fun p => DeviceClass_eqb (device_class (fst p))
                                                 (device_class controller))
                       (devicesInUse km0)).
    destruct (removeUsedDevice_loop removed km0)
      as (km' & Hrun & Hdev & Hkb & _ & _ & Hcl & _ & Hax).
    assert (Hin : In controller (List.map fst removed)).
    { pose proof (device_get_In _ _ _ Hget) as Hc.
      apply List.in_map_iff in Hc. destruct Hc as (p & Hp & Hpin).
      apply List.in_map_iff. exists p. split; [exact Hp|].
      apply List.filter_In. split; [exact Hpin|]. rewrite Hp.
      apply DeviceClass_eqb_eq. reflexivity. }
    exists km'. split; [exact Hrun|]. split; [|split; [|split; [|split]]].
    + apply device_get_none_iff. rewrite Hdev. intros Hc.
      apply List.in_map_iff in Hc. destruct Hc as (q & Hq & Hqin).
      apply List.filter_In in Hqin. destruct Hqin as [_ Hnot].
      apply Bool.negb_true_iff in Hnot.
      apply List.in_map_iff in Hin. destruct Hin as (p & Hp & Hpin).
      assert (Hex : List.existsb (fun p0 => InputDevice_eqb (fst q) (fst p0)) removed = true).
      { apply List.existsb_exists. exists p. split; [exact Hpin|].
        apply InputDevice_eqb_eq. congruence. }
      rewrite Hex in Hnot. discriminate.
    + intros _. apply List.Forall_forall. intros a Ha.
      split; intros Hd.
      * exact (proj1 (Hax a controller Ha (or_introl Hd)) Hin).
      * exact (proj1 (Hax a controller Ha (or_intror Hd)) Hin).
    + intros Hv. specialize (Hnodes0 Hv).
      pose proof (removeUsedDevice_loop_nodes removed km0 km' Hrun) as Hsub.
      apply List.Forall_forall. intros np0 Hnp0.
      rewrite List.Forall_forall in Hnodes0. exact (Hnodes0 np0 (Hsub np0 Hnp0)).
    + rewrite Hkb. exact Hkb0.
    + rewrite Hcl, Hax0. reflexivity.
  - exists km0. split; [reflexivity|]. split; [exact Hget|].
    split; [|split; [exact Hnodes0|split; [exact Hkb0 | rewrite Hax0; reflexivity]]].
    intros Hin. apply device_get_none_iff in Hget. rewrite Hdev0 in Hget. contradiction.
Qed.

Lemma disconnectController_forgets_the_device_example :
  exists km',
    disconnectController the_gamepad example_rebinding = (Val tt, km')
    /\ device_get the_gamepad (devicesInUse km') = None
    /\ (In the_gamepad (List.map fst (devicesInUse example_rebinding)) ->
        List.Forall (fun a => devicePositive a <> Some the_gamepad
                              /\ deviceNegative a <> Some the_gamepad)
                    (axesInUse km'))
    /\ (bindingDialogueVisible example_rebinding = true ->
        List.Forall (fun np => np_device np <> the_gamepad) (dataNPList km'))
    /\ keyBindings km' = keyBindings example_rebinding
    /\ List.map claims (axesInUse km') = List.map claims (axesInUse example_rebinding).
Proof.
  apply (disconnectController_forgets_the_device example_rebinding the_gamepad).
  reflexivity.
Defined.

(** ** Closing the dialogue *)

(** Opening the dialogue and closing it leaves no listener.  After
    [getNewBinding] of a registered control and [hideBindingDialogue], the
    button thrower sends no event, no device node is scanned and there is
    no candidate; no binding, axis entry, subscription or key state has
    changed.  The control being bound stays recorded, yet [keyRelease]
    does nothing, whatever the key. *)
Theorem hideBindingDialogue_stops_listening :
  forall (engine : Engine) (km : KeyMapper) (k : string),
    registered km k = true ->
    nodes_match km = true ->
    exists km',
      (getNewBinding engine k ;;; hideBindingDialogue) km = (Val tt, km')
      /\ (bindingDialogueVisible km', bindingDialogue km') = (false, false)
      /\ (buttonThrower km', dataNPList km', deviceButtonThrowers km') = (("", ""), [], [])
      /\ (lastKeyInterception km', lastKeyInterceptionDeviceType km',
          lastKeyInterceptionValue km') = (None, None, 0)
      /\ keyBeingBound km' = Some k
      /\ (keyBindings km', axesInUse km', events km', keys km', devicesInUse km')
         = (keyBindings km, axesInUse km, events km, keys km, devicesInUse km)
      /\ (forall key, keyRelease engine key km' = (Val tt, km'))
      /\ isShowingDialogue km' = (Val (conflictDialogue km), km').
Proof.
  intros engine km k Hreg Hmatch.
  destruct (getNewBinding_state engine km k Hreg Hmatch)
    as (km1 & Hrun & Hbound & _ & _ & _ & _ & _ & _ & Hsame & Hconf).
  rewrite (bind_Val _ _ _ _ _ Hrun).
  unfold hideBindingDialogue, clearEvents. rewrite !bind_modify. unfold modify.
  eexists. split; [reflexivity|].
  split; [reflexivity|]. split; [reflexivity|]. split; [reflexivity|].
  split; [exact Hbound|]. split; [exact Hsame|]. split.
  - intros key. unfold keyRelease. rewrite !bind_gets.
    cbn [bindingDialogueVisible set_bindingDialogueVisible set_lastKeyInterception
         set_lastKeyInterceptionDeviceType set_lastKeyInterceptionValue set_buttonThrower
         set_dataNPList set_deviceButtonThrowers].
    reflexivity.
  - unfold isShowingDialogue, gets. cbn.
    rewrite (f_equal (fun t => match t with (x, _, _) => x end) Hconf). reflexivity.
Qed.

Lemma hideBindingDialogue_stops_listening_example :
  exists km',
    (getNewBinding example_engine KEY_THRUST ;;; hideBindingDialogue) example_game
    = (Val tt, km')
    /\ (bindingDialogueVisible km', bindingDialogue km') = (false, false)
    /\ (buttonThrower km', dataNPList km', deviceButtonThrowers km') = (("", ""), [], [])
    /\ (lastKeyInterception km', lastKeyInterceptionDeviceType km',
        lastKeyInterceptionValue km') = (None, None, 0)
    /\ keyBeingBound km' = Some KEY_THRUST
    /\ (keyBindings km', axesInUse km', events km', keys km', devicesInUse km')
       = (keyBindings example_game, axesInUse example_game, events example_game,
          keys example_game, devicesInUse example_game)
    /\ (forall key, keyRelease example_engine key km' = (Val tt, km'))
    /\ isShowingDialogue km' = (Val (conflictDialogue example_game), km').
Proof.
  apply (hideBindingDialogue_stops_listening example_engine example_game KEY_THRUST);
    reflexivity.
Defined.

(** ** Starting without a profile *)

(** [setup] with no profile to load.  When the load-callback raises an
    I/O error, [setup] returns with every binding and axis entry as it was
    registered, and with no dialogue open and no candidate.  The error
    dialogue shows the error of the save-callback if saving failed too
    (or that there is no save-callback); otherwise it shows the error of
    the load, but only if the binding file exists. *)
Theorem setup_without_profile :
  forall (engine : Engine) (km : KeyMapper) load (e : string),
    loadMappingCallback engine = Some load ->
    load (bindingFile km) = RaisedIOError e ->
    exists km',
      setup engine km = (Val tt, km')
      /\ (keyBindings km', axesInUse km', events km', keys km')
         = (keyBindings km, axesInUse km, events km, keys km)
      /\ (bindingDialogueVisible km', bindingDialogue km', conflictDialogue km')
         = (false, false, false)
      /\ (lastKeyInterception km', lastKeyInterceptionDeviceType km',
          lastKeyInterceptionValue km') = (None, None, 0)
      /\ errorDialogue km'
         = match saveMappingCallback engine with
           | Some save =>
               match save (keySaveData_of km) (axisSaveData_of km) (bindingFile km) with
               | Some e' => Some e'
               | None => if vfs_exists engine (bindingFile km) then Some e else None
               end
           | None =>
               Some (String.concat ""
                       ["No file-saving callback found!"; nl; nl; "The file"; nl;
                        bindingFile km; nl; "will thus not be saved."])
           end.
Proof.
  intros engine km load e Hload Hraised.
  unfold setup, loadKeyMapping, saveKeyMapping, showErrorDialogue.
  repeat (rewrite bind_assoc || rewrite bind_modify || rewrite bind_gets).
  cbn [bindingFile set_errorDialogue]. rewrite Hload, Hraised.
  destruct (vfs_exists engine (bindingFile km)).
  - repeat (rewrite bind_assoc || rewrite bind_modify || rewrite bind_gets).
    destruct (saveMappingCallback engine) as [save|].
    + cbn [bindingFile set_errorDialogue].
      change (keySaveData_of (set_errorDialogue (Some e) (set_errorDialogue None km)))
        with (keySaveData_of km).
      change (axisSaveData_of (set_errorDialogue (Some e) (set_errorDialogue None km)))
        with (axisSaveData_of km).
      destruct (save (keySaveData_of km) (axisSaveData_of km) (bindingFile km));
        repeat (rewrite bind_assoc || rewrite bind_modify);
        eexists; (split; [reflexivity|]); repeat split.
    + repeat (rewrite bind_assoc || rewrite bind_modify).
      eexists. split; [reflexivity|]. repeat split.
  - rewrite (bind_Val _ _ _ tt _ eq_refl).
    repeat (rewrite bind_assoc || rewrite bind_modify || rewrite bind_gets).
    destruct (saveMappingCallback engine) as [save|].
    + cbn [bindingFile set_errorDialogue].
      change (keySaveData_of (set_errorDialogue None km)) with (keySaveData_of km).
      change (axisSaveData_of (set_errorDialogue None km)) with (axisSaveData_of km).
      destruct (save (keySaveData_of km) (axisSaveData_of km) (bindingFile km));
        repeat (rewrite bind_assoc || rewrite bind_modify);
        eexists; (split; [reflexivity|]); repeat split.
    + repeat (rewrite bind_assoc || rewrite bind_modify).
      eexists. split; [reflexivity|]. repeat split.
Qed.

Lemma setup_without_profile_example :
  exists km',
    setup example_engine example_registered = (Val tt, km')
    /\ (keyBindings km', axesInUse km', events km', keys km')
       = (keyBindings example_registered, axesInUse example_registered,
          events example_registered, keys example_registered)
    /\ (bindingDialogueVisible km', bindingDialogue km', conflictDialogue km')
       = (false, false, false)
    /\ (lastKeyInterception km', lastKeyInterceptionDeviceType km',
        lastKeyInterceptionValue km') = (None, None, 0)
    /\ errorDialogue km' = Some dummy_warning.
Proof.
  apply (setup_without_profile example_engine example_registered
           SaveLoadDummy_loadKeyMapping dummy_warning); reflexivity.
Defined.

(** ** Consistent managers *)

Lemma consistent_view_iff v :
  consistent_view v = true <->
  unique_keys (List.map fst (fst v)) = true
  /\ claims_bound (fst v) (snd v) = true
  /\ (forall p, In p (fst v) -> axis_held (snd v) p = true)
  /\ (forall p q, In p (fst v) -> In q (fst v) -> button_apart p q = true).
Proof.
  unfold consistent_view. rewrite !Bool.andb_true_iff, !List.forallb_forall.
  split.
  - intros [[[Hu Hc] Ha] Hb]. repeat split; try assumption.
    intros p q Hp Hq. specialize (Hb p Hp). rewrite List.forallb_forall in Hb.
    exact (Hb q Hq).
  - intros (Hu & Hc & Ha & Hb). repeat split; try assumption.
    intros p Hp. apply List.forallb_forall. intros q Hq. exact (Hb p q Hp Hq).
Qed.

Lemma consistent_apart_all k v :
  consistent_view v = true -> consistent_apart k v.
Proof.
  intros H. apply consistent_view_iff in H. destruct H as (Hu & Hc & Ha & Hb).
  repeat split; try assumption.
  - intros p Hp _. exact (Ha p Hp).
  - intros p q Hp Hq _ _. exact (Hb p q Hp Hq).
Qed.

Lemma claims_bound_spec d cs :
  claims_bound d cs = true <->
  forall c positive h,
    In c cs -> holder positive c = Some h ->
    exists kb, dict_get h d = Some kb /\ bound_to_axis kb (fst (fst c)) positive = true.
Proof.
  unfold claims_bound. rewrite List.forallb_forall. split.
  - intros H c positive h Hc Hh. specialize (H c Hc).
    apply Bool.andb_true_iff in H. destruct H as [Hp Hn].
    assert (Hb : holder_bound d c positive = true) by (destruct positive; assumption).
    unfold holder_bound in Hb. rewrite Hh in Hb.
    destruct (dict_get h d) as [kb|]; [|discriminate]. exists kb. split; [reflexivity|exact Hb].
  - intros H c Hc. apply Bool.andb_true_iff. split.
    + unfold holder_bound. destruct (holder true c) as [h|] eqn:Hh; [|reflexivity].
      destruct (H c true h Hc Hh) as (kb & -> & Hb). exact Hb.
    + unfold holder_bound. destruct (holder false c) as [h|] eqn:Hh; [|reflexivity].
      destruct (H c false h Hc Hh) as (kb & -> & Hb). exact Hb.
Qed.

Lemma holds_axis_spec cs x positive k :
  holds_axis cs x positive k = true <->
  (exists c, In c cs /\ fst (fst c) = x)
  /\ (forall c, In c cs -> fst (fst c) = x -> holder positive c = Some k).
Proof.
  unfold holds_axis. rewrite Bool.andb_true_iff, List.existsb_exists, List.forallb_forall.
  split.
  - intros [(c & Hc & Hx) Hall]. split.
    + exists c. split; [exact Hc | apply String.eqb_eq; exact Hx].
    + intros c0 Hc0 Hx0. specialize (Hall c0 Hc0).
      rewrite (proj2 (String.eqb_eq _ _) Hx0) in Hall. cbn [negb orb] in Hall.
      destruct (holder positive c0) as [h|]; [|discriminate].
      cbn in Hall. apply String.eqb_eq in Hall. congruence.
  - intros [(c & Hc & Hx) Hall]. split.
    + exists c. split; [exact Hc | apply String.eqb_eq; exact Hx].
    + intros c0 Hc0. destruct (String.eqb_spec (fst (fst c0)) x) as [Hx0|_]; [|reflexivity].
      rewrite (Hall c0 Hc0 Hx0). cbn. apply String.eqb_refl.
Qed.

Lemma bound_to_axis_spec kb x positive :
  bound_to_axis kb x positive = true <->
  exists b, binding kb = Some b /\ is_axis_binding b = true /\ string_from 5 b = x
            /\ axisDirection kb = (if positive then 1 else -1).
Proof.
  unfold bound_to_axis. destruct (binding kb) as [b|].
  - rewrite !Bool.andb_true_iff, String.eqb_eq, Z.eqb_eq. split.
    + intros [[H1 H2] H3]. exists b. repeat split; assumption.
    + intros (b' & [= <-] & H1 & H2 & H3). repeat split; assumption.
  - split; [discriminate | intros (b & H & _); discriminate].
Qed.

(** A binding object is bound to one axis in one direction at most. *)
Lemma bound_to_axis_unique kb x positive x' positive' :
  bound_to_axis kb x positive = true -> bound_to_axis kb x' positive' = true ->
  x = x' /\ positive = positive'.
Proof.
  rewrite !bound_to_axis_spec.
  intros (b & Hb & _ & Hx & Hd) (b' & Hb' & _ & Hx' & Hd').
  rewrite Hb in Hb'. injection Hb' as <-. split; [congruence|].
  rewrite Hd in Hd'. destruct positive, positive'; try reflexivity; discriminate.
Qed.

(** What [axis_held] asks of a control bound to an axis in a direction. *)
Lemma axis_held_bound cs k kb x positive :
  axis_held cs (k, kb) = true -> bound_to_axis kb x positive = true ->
  holds_axis cs x positive k = true.
Proof.
  rewrite bound_to_axis_spec. intros H (b & Hb & Hax & Hx & Hd).
  unfold axis_held in H. cbn [fst snd] in H. rewrite Hb, Hax, Hd, Hx in H.
  destruct positive; exact H.
Qed.

Lemma claimed_holder c positive h : holder positive c = Some h -> claimed c = true.
Proof.
  destruct c as [[x p] n]. unfold holder, claimed. cbn [fst snd].
  destruct positive; intros ->; [reflexivity|]. destruct p; reflexivity.
Qed.

Lemma existsb_eqb_In k ks :
  List.existsb (fun k0 => String.eqb k0 k) ks = true <-> In k ks.
Proof.
  rewrite List.existsb_exists. split.
  - intros (k0 & Hk0 & Heq). apply String.eqb_eq in Heq. subst k0. exact Hk0.
  - intros H. exists k. split; [exact H | apply String.eqb_refl].
Qed.

Lemma In_unbind_in ks d p :
  In p (unbind_in ks d) ->
  exists q, In q d /\ fst p = fst q
            /\ ((snd p = snd q /\ List.existsb (fun k0 => String.eqb k0 (fst q)) ks = false)
                \/ binding (snd p) = None).
Proof.
  unfold unbind_in. rewrite List.in_map_iff. intros (q & <- & Hq).
  exists q. split; [exact Hq|].
  destruct (List.existsb (fun k0 => String.eqb k0 (fst q)) ks); cbn [fst snd].
  - split; [reflexivity|]. right. reflexivity.
  - split; [reflexivity|]. left. split; reflexivity.
Qed.

Lemma axis_held_unbound cs k kb : binding kb = None -> axis_held cs (k, kb) = true.
Proof. intros H. unfold axis_held. cbn [snd]. rewrite H. reflexivity. Qed.

Lemma button_apart_unbound_l p q : binding (snd p) = None -> button_apart p q = true.
Proof. intros H. unfold button_apart. rewrite H. apply Bool.orb_true_r. Qed.

Lemma button_apart_unbound_r p q : binding (snd q) = None -> button_apart p q = true.
Proof.
  intros H. unfold button_apart. rewrite H.
  destruct (binding (snd p)); apply Bool.orb_true_r.
Qed.

Lemma button_apart_ext p q p' q' :
  fst p' = fst p -> fst q' = fst q -> snd p' = snd p -> snd q' = snd q ->
  button_apart p q = true -> button_apart p' q' = true.
Proof. unfold button_apart. intros -> -> -> ->. tauto. Qed.

(** Unbinding controls and dropping holders among them keeps the
    manager consistent, provided that none of the controls unbound goes on
    holding a direction. *)
Lemma unbind_consistent_apart k ks d cs (f : Claim -> Claim) :
  consistent_apart k (d, cs) ->
  (forall c, fst (fst (f c)) = fst (fst c)) ->
  (forall c positive,
      In c cs ->
      holder positive (f c) = holder positive c
      \/ (holder positive (f c) = None
          /\ exists h, holder positive c = Some h /\ In h ks)) ->
  (forall h c positive, In h ks -> In c cs -> holder positive (f c) <> Some h) ->
  consistent_apart k (unbind_in ks d, List.filter claimed (List.map f cs)).
Proof.
  intros (Hu & Ha & Hc & Hb) Hname Hf Hgone. cbn [fst snd] in *.
  rewrite claims_bound_spec in Ha.
  split; [|split; [|split]]; cbn [fst snd].
  - rewrite unbind_in_keys. exact Hu.
  - apply claims_bound_spec. intros c1 positive h Hc1 Hh.
    apply List.filter_In in Hc1. destruct Hc1 as [Hc1 _].
    apply List.in_map_iff in Hc1. destruct Hc1 as (c & <- & Hcin).
    destruct (Hf c positive Hcin) as [Hsame|[Hnone _]]; [|congruence].
    rewrite Hsame in Hh. destruct (Ha c positive h Hcin Hh) as (kb & Hkb & Hbound).
    exists kb. rewrite Hname. split; [|exact Hbound].
    rewrite dict_get_unbind_in.
    destruct (List.existsb (fun k0 => String.eqb k0 h) ks) eqn:Hin; [|exact Hkb].
    exfalso. apply existsb_eqb_In in Hin.
    apply (Hgone h c positive Hin Hcin). congruence.
  - intros p Hp Hne. destruct p as [k' kb1].
    destruct (In_unbind_in _ _ _ Hp) as ([k0 kb] & Hq & Hfst & [[Hsnd Hout]|Hnone]);
      [|apply axis_held_unbound; exact Hnone].
    cbn [fst snd] in *. subst k0 kb1.
    specialize (Hc (k', kb) Hq Hne).
    unfold axis_held in *. cbn [fst snd] in *.
    destruct (binding kb) as [b|]; [|reflexivity].
    destruct (is_axis_binding b); [|reflexivity].
    assert (Hholds : forall positive,
               holds_axis cs (string_from 5 b) positive k' = true ->
               holds_axis (List.filter claimed (List.map f cs)) (string_from 5 b) positive k'
               = true).
    { intros positive. rewrite !holds_axis_spec. intros [(c & Hcin & Hx) Hall].
      assert (Hkeep : forall c0, In c0 cs -> fst (fst c0) = string_from 5 b ->
                                 holder positive (f c0) = Some k').
      { intros c0 Hc0 Hx0. specialize (Hall c0 Hc0 Hx0).
        destruct (Hf c0 positive Hc0) as [Hsame|[_ (h & Hh & Hin)]]; [congruence|].
        exfalso. rewrite Hall in Hh. injection Hh as <-.
        apply existsb_eqb_In in Hin. congruence. }
      split.
      - exists (f c). split; [|rewrite Hname; exact Hx].
        apply List.filter_In. split; [apply List.in_map; exact Hcin|].
        exact (claimed_holder _ _ _ (Hkeep c Hcin Hx)).
      - intros c1 Hc1 Hx1. apply List.filter_In in Hc1. destruct Hc1 as [Hc1 _].
        apply List.in_map_iff in Hc1. destruct Hc1 as (c0 & <- & Hc0).
        rewrite Hname in Hx1. exact (Hkeep c0 Hc0 Hx1). }
    destruct (axisDirection kb =? 1); [exact (Hholds true Hc)|].
    destruct (axisDirection kb =? -1); [exact (Hholds false Hc) | exact Hc].
  - intros p q Hp Hq Hnp Hnq.
    destruct (In_unbind_in _ _ _ Hp) as (p0 & Hp0 & Hfp & [[Hsp _]|Hnone]);
      [|apply button_apart_unbound_l; exact Hnone].
    destruct (In_unbind_in _ _ _ Hq) as (q0 & Hq0 & Hfq & [[Hsq _]|Hnone]);
      [|apply button_apart_unbound_r; exact Hnone].
    apply (button_apart_ext p0 q0); try assumption.
    apply Hb; congruence.
Qed.

Lemma clear_claim_name s direction c :
  fst (fst (fst (clear_claim s direction c))) = fst (fst c).
Proof.
  destruct c as [[x p] n]. unfold clear_claim.
  destruct (String.eqb x s); [|reflexivity].
  destruct (direction =? -1); [destruct n; reflexivity|].
  destruct (direction =? 1); [destruct p; reflexivity | reflexivity].
Qed.

(** One turn of the axis loop of [clearKeyEvent]: the holder of the
    direction cleared goes and is noted; nothing else changes. *)
Lemma clear_claim_holder s direction c positive :
  holder positive (fst (clear_claim s direction c))
  = if String.eqb (fst (fst c)) s && (direction =? (if positive then 1 else -1))
    then None else holder positive c.
Proof.
  destruct c as [[x p] n]. unfold clear_claim, holder. cbn [fst snd].
  destruct (String.eqb x s); [|reflexivity]. cbn [andb].
  destruct (Z.eqb_spec direction (-1)) as [->|Hn].
  - destruct positive; cbn; destruct n; reflexivity.
  - destruct (Z.eqb_spec direction 1) as [->|Hp].
    + destruct positive; cbn; destruct p; reflexivity.
    + destruct positive.
      * destruct (Z.eqb_spec direction 1); [contradiction | reflexivity].
      * destruct (Z.eqb_spec direction (-1)); [contradiction | reflexivity].
Qed.

Lemma clear_claim_keys (s : string) (direction : Z) (c : Claim) (h : string) :
  In h (snd (clear_claim s direction c)) <->
  fst (fst c) = s
  /\ exists positive : bool, direction = (if positive then 1 else -1)
                             /\ holder positive c = Some h.
Proof.
  destruct c as [[x p] n]. unfold clear_claim, holder. cbn [fst snd].
  destruct (String.eqb_spec x s) as [->|Hne].
  2:{ split; [intros [] | intros [Hx _]; contradiction]. }
  destruct (Z.eqb_spec direction (-1)) as [->|Hn].
  - destruct n as [k0|]; cbn [snd In].
    + split.
      * intros [<-|[]]. split; [reflexivity|]. exists false. split; reflexivity.
      * intros [_ (positive & Hd & Hh)]. destruct positive; [discriminate|].
        left. congruence.
    + split; [intros [] |].
      intros [_ (positive & Hd & Hh)]. destruct positive; discriminate.
  - destruct (Z.eqb_spec direction 1) as [->|Hp].
    + destruct p as [k0|]; cbn [snd In].
      * split.
        -- intros [<-|[]]. split; [reflexivity|]. exists true. split; reflexivity.
        -- intros [_ (positive & Hd & Hh)]. destruct positive; [|discriminate].
           left. congruence.
      * split; [intros [] |].
        intros [_ (positive & Hd & Hh)]. destruct positive; discriminate.
    + cbn [snd In]. split; [intros [] |].
      intros [_ (positive & Hd & _)]. destruct positive; contradiction.
Qed.

Lemma cleared_keys_spec (s : string) (direction : Z) (cs : list Claim) (h : string) :
  In h (cleared_keys s direction cs) <->
  exists (c : Claim) (positive : bool),
    In c cs /\ fst (fst c) = s /\ direction = (if positive then 1 else -1)
    /\ holder positive c = Some h.
Proof.
  unfold cleared_keys. rewrite List.in_flat_map. split.
  - intros (c & Hc & Hh). apply clear_claim_keys in Hh.
    destruct Hh as (Hx & positive & Hd & Hh). exists c, positive.
    repeat split; assumption.
  - intros (c & positive & Hc & Hx & Hd & Hh). exists c. split; [exact Hc|].
    apply clear_claim_keys. split; [exact Hx|]. exists positive.
    split; assumption.
Qed.

(** [clearKeyEvent] keeps the manager consistent, whatever it clears. *)
Lemma clear_view_consistent_apart k b direction v :
  consistent_apart k v -> consistent_apart k (clear_view b direction v).
Proof.
  intros Hinv. destruct v as [d cs]. unfold clear_view. destruct b as [b|]; [|exact Hinv].
  pose proof Hinv as (Hu & Ha & _ & _). cbn [fst snd] in Hu, Ha.
  rewrite claims_bound_spec in Ha. cbn [fst snd].
  destruct (is_axis_binding b) eqn:Haxis.
  - unfold cleared_claims.
    apply (unbind_consistent_apart k _ d cs
             (fun c => fst (clear_claim (string_from 5 b) direction c)) Hinv).
    + intros c. apply clear_claim_name.
    + intros c positive Hc. rewrite clear_claim_holder.
      destruct (String.eqb_spec (fst (fst c)) (string_from 5 b)) as [Hx|_];
        [|left; reflexivity].
      destruct (Z.eqb_spec direction (if positive then 1 else -1)) as [Hd|_];
        [|left; reflexivity].
      cbn [andb]. destruct (holder positive c) as [h|] eqn:Hh; [|left; reflexivity].
      right. split; [reflexivity|]. exists h. split; [reflexivity|].
      apply cleared_keys_spec. exists c, positive. repeat split; assumption.
    + intros h c positive Hin Hc Hh. rewrite clear_claim_holder in Hh.
      apply cleared_keys_spec in Hin.
      destruct Hin as (c0 & positive0 & Hc0 & Hx0 & Hd0 & Hh0).
      destruct (String.eqb (fst (fst c)) (string_from 5 b)
                && (direction =? (if positive then 1 else -1)))%bool eqn:Hcleared;
        [discriminate|].
      destruct (Ha c positive h Hc Hh) as (kb & Hkb & Hbound).
      destruct (Ha c0 positive0 h Hc0 Hh0) as (kb0 & Hkb0 & Hbound0).
      rewrite Hkb in Hkb0. injection Hkb0 as <-.
      destruct (bound_to_axis_unique _ _ _ _ _ Hbound Hbound0) as [Hx Hp].
      subst positive0. rewrite Hx, Hx0, String.eqb_refl, Hd0, Z.eqb_refl in Hcleared.
      discriminate.
  - rewrite <- (List.map_id cs) at 1.
    apply (unbind_consistent_apart k _ d cs (fun c => c) Hinv).
    + reflexivity.
    + intros c positive _. left. reflexivity.
    + intros h c positive Hin Hc Hh.
      destruct (Ha c positive h Hc Hh) as (kb & Hkb & Hbound).
      unfold keys_bound_to in Hin. apply List.in_map_iff in Hin.
      destruct Hin as ([h0 kb0] & Hfst & Hf). cbn [fst] in Hfst. subst h0.
      apply List.filter_In in Hf. destruct Hf as [Hin Hb]. cbn [snd] in Hb.
      rewrite (unique_dict_get d h kb0 Hu Hin) in Hkb. injection Hkb as <-.
      apply bound_to_axis_spec in Hbound. destruct Hbound as (b' & Hb' & Hax' & _).
      rewrite Hb' in Hb. cbn in Hb. apply String.eqb_eq in Hb. subst b'.
      rewrite Haxis in Hax'. discriminate.
Qed.

Lemma normal_direction_cases direction :
  normal_direction direction = true <-> direction = 1 \/ direction = -1 \/ direction = 0.
Proof. unfold normal_direction. rewrite !Bool.orb_true_iff, !Z.eqb_eq. tauto. Qed.

Lemma axis_held_spec cs k kb :
  axis_held cs (k, kb) = true <->
  (forall x positive, bound_to_axis kb x positive = true ->
                      holds_axis cs x positive k = true)
  /\ (forall b, binding kb = Some b -> is_axis_binding b = true ->
                normal_direction (axisDirection kb) = true).
Proof.
  split.
  - intros H. split.
    + intros x positive Hb. exact (axis_held_bound cs k kb x positive H Hb).
    + intros b Hb Hax. unfold axis_held in H. cbn [fst snd] in H. rewrite Hb, Hax in H.
      unfold normal_direction.
      destruct (axisDirection kb =? 1); [reflexivity|].
      destruct (axisDirection kb =? -1); [reflexivity | exact H].
  - intros [Hh Hn]. unfold axis_held. cbn [fst snd].
    destruct (binding kb) as [b|] eqn:Hb; [|reflexivity].
    destruct (is_axis_binding b) eqn:Hax; [|reflexivity].
    specialize (Hn b eq_refl Hax).
    destruct (Z.eqb_spec (axisDirection kb) 1) as [H1|H1].
    { apply (Hh (string_from 5 b) true). apply bound_to_axis_spec.
      exists b. repeat split; assumption. }
    destruct (Z.eqb_spec (axisDirection kb) (-1)) as [H2|H2].
    { apply (Hh (string_from 5 b) false). apply bound_to_axis_spec.
      exists b. repeat split; assumption. }
    apply normal_direction_cases in Hn. apply Z.eqb_eq. lia.
Qed.

Lemma claim_view_name k direction c :
  fst (fst (claim_view k direction c)) = fst (fst c).
Proof.
  destruct c as [[x p] n]. unfold claim_view.
  destruct (0 <? direction); [reflexivity|]. destruct (direction <? 0); reflexivity.
Qed.

Lemma claim_view_holder k direction c positive :
  normal_direction direction = true ->
  holder positive (claim_view k direction c)
  = if direction =? (if positive then 1 else -1) then Some k else holder positive c.
Proof.
  intros Hn. apply normal_direction_cases in Hn.
  destruct c as [[x p] n]. unfold claim_view, holder.
  destruct Hn as [->|[->| ->]]; destruct positive; reflexivity.
Qed.

Lemma In_dict_update {V} (k : string) (f : V -> V) (d : list (string * V)) p :
  In p (dict_update k f d) ->
  (fst p = k /\ exists old, In (k, old) d /\ snd p = f old) \/ (fst p <> k /\ In p d).
Proof.
  unfold dict_update. rewrite List.in_map_iff. intros ([k0 v0] & <- & Hq).
  cbn [fst snd]. destruct (String.eqb_spec k k0) as [->|Hne].
  - left. split; [reflexivity|]. exists v0. split; [exact Hq | reflexivity].
  - right. split; [intros H; apply Hne; symmetry; exact H | exact Hq].
Qed.

(** The entries after [bindKey] has claimed a direction of the axis [x]
    for the control [k]. *)
Lemma bound_claims_holder k b dt direction cs c3 :
  normal_direction direction = true ->
  is_axis_binding b = true ->
  In c3 (bound_claims k (Some b) (Some dt) direction cs) ->
  exists c,
    (In c cs \/ (c = (string_from 5 b, None, None)
                 /\ forall c', In c' cs -> fst (fst c') <> string_from 5 b))
    /\ fst (fst c3) = fst (fst c)
    /\ forall positive,
        holder positive c3
        = if String.eqb (fst (fst c)) (string_from 5 b)
             && (direction =? (if positive then 1 else -1))
          then Some k else holder positive c.
Proof.
  intros Hn Hax. unfold bound_claims. rewrite Hax. cbv zeta.
  set (x := string_from 5 b).
  assert (Hmapped : forall c, In c cs ->
            let c3 := if String.eqb (fst (fst c)) x then claim_view k direction c else c in
            fst (fst c3) = fst (fst c)
            /\ forall positive,
                holder positive c3
                = if String.eqb (fst (fst c)) x && (direction =? (if positive then 1 else -1))
                  then Some k else holder positive c).
  { intros c _. cbv zeta. destruct (String.eqb (fst (fst c)) x).
    - split; [apply claim_view_name|]. intros positive.
      rewrite (claim_view_holder _ _ _ _ Hn). reflexivity.
    - split; reflexivity. }
  destruct (List.existsb (fun c => String.eqb (fst (fst c)) x) cs) eqn:Hex.
  - intros Hin. apply List.in_map_iff in Hin. destruct Hin as (c & <- & Hc).
    exists c. split; [left; exact Hc|]. exact (Hmapped c Hc).
  - intros Hin. apply List.in_app_iff in Hin. destruct Hin as [Hin|[<-|[]]].
    + apply List.in_map_iff in Hin. destruct Hin as (c & <- & Hc).
      exists c. split; [left; exact Hc|]. exact (Hmapped c Hc).
    + exists (x, None, None). split.
      * right. split; [reflexivity|]. intros c' Hc' Hx.
        assert (Htrue : List.existsb (fun c => String.eqb (fst (fst c)) x) cs = true).
        { apply List.existsb_exists. exists c'. split; [exact Hc'|].
          apply String.eqb_eq. exact Hx. }
        congruence.
      * split; [apply claim_view_name|]. intros positive.
        rewrite (claim_view_holder _ _ _ _ Hn). cbn [fst]. rewrite String.eqb_refl.
        reflexivity.
Qed.

Lemma bound_claims_in k b dt direction cs c :
  is_axis_binding b = true ->
  In c cs ->
  exists c3, In c3 (bound_claims k (Some b) (Some dt) direction cs)
             /\ fst (fst c3) = fst (fst c).
Proof.
  intros Hax Hc. unfold bound_claims. rewrite Hax. cbv zeta.
  set (x := string_from 5 b).
  exists (if String.eqb (fst (fst c)) x then claim_view k direction c else c). split.
  - assert (Hin : In (if String.eqb (fst (fst c)) x then claim_view k direction c else c)
                    (List.map (fun c => if String.eqb (fst (fst c)) x
                                        then claim_view k direction c else c) cs)).
    { apply List.in_map_iff. exists c. split; [reflexivity | exact Hc]. }
    destruct (List.existsb _ cs); [exact Hin|].
    apply List.in_app_iff. left. exact Hin.
  - destruct (String.eqb (fst (fst c)) x); [apply claim_view_name | reflexivity].
Qed.

Lemma bound_claims_has_axis k b dt direction cs :
  is_axis_binding b = true ->
  exists c3, In c3 (bound_claims k (Some b) (Some dt) direction cs)
             /\ fst (fst c3) = string_from 5 b.
Proof.
  intros Hax.
  destruct (List.existsb (fun c => String.eqb (fst (fst c)) (string_from 5 b)) cs) eqn:Hex.
  - apply List.existsb_exists in Hex. destruct Hex as (c & Hc & Hx).
    apply String.eqb_eq in Hx.
    destruct (bound_claims_in k b dt direction cs c Hax Hc) as (c3 & Hc3 & Hname).
    exists c3. split; [exact Hc3 | congruence].
  - exists (claim_view k direction (string_from 5 b, None, None)). split.
    + unfold bound_claims. rewrite Hax. cbv zeta. rewrite Hex.
      apply List.in_app_iff. right. left. reflexivity.
    + apply claim_view_name.
Qed.

(** The second half of [bindKey] makes a consistent manager, when the
    control bound holds nothing, nobody else is bound to the input, and
    the direction claimed is free. *)
Lemma bind_consistent (k b dt : string) (direction : Z) (d : list (string * KeyBinding))
    (cs : list Claim) (old : KeyBinding) :
  consistent_apart k (d, cs) ->
  dict_get k d = Some old ->
  normal_direction direction = true ->
  (forall c positive, In c cs -> holder positive c <> Some k) ->
  (is_axis_binding b = false ->
   forall p, In p d -> fst p <> k -> binding (snd p) <> Some b) ->
  (is_axis_binding b = true ->
   forall (c : Claim) (positive : bool), In c cs -> fst (fst c) = string_from 5 b ->
                      direction = (if positive then 1 else -1) ->
                      holder positive c = None) ->
  consistent_view (dict_update k (KeyBinding_bind (Some b) (Some dt) direction) d,
                   bound_claims k (Some b) (Some dt) direction cs) = true.
Proof.
  intros (Hu & Ha & Hc & Hb) Hold Hn Hfree Hbutton Haxis. cbn [fst snd] in *.
  rewrite claims_bound_spec in Ha.
  assert (Hnew : forall p, In p (dict_update k (KeyBinding_bind (Some b) (Some dt) direction) d) ->
                           fst p = k ->
                           snd p = KeyBinding_bind (Some b) (Some dt) direction old).
  { intros p Hp Hk. apply In_dict_update in Hp.
    destruct Hp as [(_ & old' & Hin & ->)|[Hne _]]; [|contradiction].
    rewrite (unique_dict_get d k old' Hu Hin) in Hold. injection Hold as ->. reflexivity. }
  assert (Hother : forall p, In p (dict_update k (KeyBinding_bind (Some b) (Some dt) direction) d) ->
                             fst p <> k -> In p d).
  { intros p Hp Hk. apply In_dict_update in Hp.
    destruct Hp as [[Heq _]|[_ Hin]]; [contradiction | exact Hin]. }
  apply consistent_view_iff. cbn [fst snd].
  split; [|split; [|split]].
  - rewrite dict_update_keys. exact Hu.
  - apply claims_bound_spec. intros c3 positive h Hc3 Hh.
    destruct (is_axis_binding b) eqn:Hax.
    2:{ unfold bound_claims in Hc3. rewrite Hax in Hc3.
        destruct (Ha c3 positive h Hc3 Hh) as (kb & Hkb & Hbound).
        exists kb. split; [|exact Hbound].
        rewrite dict_get_update.
        destruct (String.eqb_spec k h) as [->|_]; [|exact Hkb].
        exfalso. exact (Hfree c3 positive Hc3 Hh). }
    destruct (bound_claims_holder k b dt direction cs c3 Hn Hax Hc3)
      as (c & Hfrom & Hname & Hholder).
    rewrite Hholder in Hh. rewrite Hname.
    destruct (String.eqb (fst (fst c)) (string_from 5 b)
              && (direction =? (if positive then 1 else -1)))%bool eqn:Hclaimed.
    + injection Hh as <-.
      apply Bool.andb_true_iff in Hclaimed. destruct Hclaimed as [Hx Hd].
      apply String.eqb_eq in Hx. apply Z.eqb_eq in Hd.
      exists (KeyBinding_bind (Some b) (Some dt) direction old). split.
      * rewrite dict_get_update, String.eqb_refl, Hold. reflexivity.
      * apply bound_to_axis_spec. exists b. repeat split; try assumption.
        symmetry. exact Hx.
    + destruct Hfrom as [Hin|[-> _]]; [|destruct positive; discriminate].
      destruct (Ha c positive h Hin Hh) as (kb & Hkb & Hbound).
      exists kb. split; [|exact Hbound].
      rewrite dict_get_update.
      destruct (String.eqb_spec k h) as [->|_]; [|exact Hkb].
      exfalso. exact (Hfree c positive Hin Hh).
  - intros [k' kb'] Hp. destruct (String.eqb_spec k' k) as [->|Hne].
    + pose proof (Hnew _ Hp eq_refl) as Hkb. cbn [snd] in Hkb. subst kb'.
      apply axis_held_spec. split.
      * intros x positive Hbound. apply bound_to_axis_spec in Hbound.
        destruct Hbound as (b' & Hb' & Hax & Hx & Hd).
        cbn [binding axisDirection KeyBinding_bind] in Hb', Hd. injection Hb' as <-.
        apply holds_axis_spec. split.
        -- destruct (bound_claims_has_axis k b dt direction cs Hax) as (c3 & Hc3 & Hname).
           exists c3. split; [exact Hc3 | congruence].
        -- intros c3 Hc3 Hname.
           destruct (bound_claims_holder k b dt direction cs c3 Hn Hax Hc3)
             as (c & _ & Hname3 & Hholder).
           rewrite Hholder. rewrite <- Hname3, Hname, Hx, String.eqb_refl, Hd, Z.eqb_refl.
           reflexivity.
      * intros b' _ _. exact Hn.
    + pose proof (Hother _ Hp Hne) as Hin. cbn [fst] in Hin.
      specialize (Hc _ Hin Hne). apply axis_held_spec in Hc. destruct Hc as [Hheld Hdir].
      apply axis_held_spec. split; [|exact Hdir].
      intros x positive Hbound. specialize (Hheld x positive Hbound).
      destruct (is_axis_binding b) eqn:Hax.
      2:{ unfold bound_claims. rewrite Hax. exact Hheld. }
      apply holds_axis_spec in Hheld. destruct Hheld as [(c & Hcin & Hcx) Hall].
      apply holds_axis_spec. split.
      * destruct (bound_claims_in k b dt direction cs c Hax Hcin) as (c3 & Hc3 & Hname).
        exists c3. split; [exact Hc3 | congruence].
      * intros c3 Hc3 Hname.
        destruct (bound_claims_holder k b dt direction cs c3 Hn Hax Hc3)
          as (c0 & Hfrom & Hname3 & Hholder).
        rewrite Hholder.
        destruct Hfrom as [Hc0|[-> Hnone]].
        -- assert (Hx0 : fst (fst c0) = x) by congruence.
           pose proof (Hall c0 Hc0 Hx0) as Hk'.
           destruct (String.eqb (fst (fst c0)) (string_from 5 b)
                     && (direction =? (if positive then 1 else -1)))%bool eqn:Hclaimed;
             [|exact Hk'].
           exfalso. apply Bool.andb_true_iff in Hclaimed. destruct Hclaimed as [Hx Hd].
           apply String.eqb_eq in Hx. apply Z.eqb_eq in Hd.
           rewrite (Haxis eq_refl c0 positive Hc0 Hx Hd) in Hk'. discriminate.
        -- exfalso. cbn [fst] in Hname3. apply (Hnone c Hcin). congruence.
  - intros p q Hp Hq. unfold button_apart.
    destruct (String.eqb_spec (fst p) (fst q)) as [_|Hpq]; [reflexivity|]. cbn [orb].
    destruct (String.eqb_spec (fst p) k) as [Hpk|Hpk];
      destruct (String.eqb_spec (fst q) k) as [Hqk|Hqk].
    + exfalso. congruence.
    + rewrite (Hnew p Hp Hpk). cbn [binding KeyBinding_bind].
      destruct (binding (snd q)) as [b2|] eqn:Hb2; [|reflexivity].
      destruct (is_axis_binding b) eqn:Hax; [reflexivity|]. cbn [orb].
      destruct (String.eqb_spec b b2) as [->|_]; [|reflexivity].
      exfalso. exact (Hbutton eq_refl q (Hother q Hq Hqk) Hqk Hb2).
    + rewrite (Hnew q Hq Hqk). cbn [binding KeyBinding_bind].
      destruct (binding (snd p)) as [b1|] eqn:Hb1; [|reflexivity].
      destruct (is_axis_binding b1) eqn:Hax; [reflexivity|]. cbn [orb].
      destruct (String.eqb_spec b1 b) as [->|_]; [|reflexivity].
      exfalso. exact (Hbutton Hax p (Hother p Hp Hpk) Hpk Hb1).
    + specialize (Hb p q (Hother p Hp Hpk) (Hother q Hq Hqk) Hpk Hqk).
      unfold button_apart in Hb.
      destruct (String.eqb_spec (fst p) (fst q)) as [|_]; [contradiction | exact Hb].
Qed.

(** What is left of the bindings after [clearKeyEvent]: each control is
    as before, or unbound. *)
Lemma clear_view_entries b direction v p :
  In p (fst (clear_view b direction v)) ->
  exists q, In q (fst v) /\ fst p = fst q
            /\ (snd p = snd q \/ binding (snd p) = None).
Proof.
  unfold clear_view. destruct b as [b|].
  2:{ intros Hp. exists p. split; [exact Hp|]. split; [reflexivity | left; reflexivity]. }
  intros Hp.
  assert (Hin : exists ks, In p (unbind_in ks (fst v))).
  { destruct (is_axis_binding b); cbn [fst] in Hp; eexists; exact Hp. }
  destruct Hin as [ks Hin].
  destruct (In_unbind_in _ _ _ Hin) as (q & Hq & Hfst & [[Hsnd _]|Hnone]);
    exists q; (split; [exact Hq|]); (split; [exact Hfst|]); [left | right]; assumption.
Qed.

(** What is left of the axis entries after [clearKeyEvent]: each holder
    is as before, or gone. *)
Lemma clear_view_claims b direction v c1 :
  In c1 (snd (clear_view b direction v)) ->
  exists c, In c (snd v) /\ fst (fst c1) = fst (fst c)
            /\ forall positive,
                holder positive c1 = holder positive c \/ holder positive c1 = None.
Proof.
  unfold clear_view. destruct b as [b|].
  2:{ intros Hc. exists c1. split; [exact Hc|]. split; [reflexivity|].
      intros positive. left. reflexivity. }
  destruct (is_axis_binding b); cbn [snd]; intros Hc;
    apply List.filter_In in Hc; destruct Hc as [Hc _].
  - unfold cleared_claims in Hc. apply List.in_map_iff in Hc.
    destruct Hc as (c & <- & Hc). exists c. split; [exact Hc|].
    split; [apply clear_claim_name|]. intros positive. rewrite clear_claim_holder.
    destruct (_ && _)%bool; [right | left]; reflexivity.
  - exists c1. split; [exact Hc|]. split; [reflexivity|].
    intros positive. left. reflexivity.
Qed.

(** After [clearKeyEvent] of an input other than an axis, no control is
    bound to it. *)
Lemma clear_view_button b direction v p :
  is_axis_binding b = false ->
  In p (fst (clear_view (Some b) direction v)) -> binding (snd p) <> Some b.
Proof.
  intros Hax. unfold clear_view. rewrite Hax. cbn [fst]. intros Hp Hb.
  destruct (In_unbind_in _ _ _ Hp) as (q & Hq & Hfst & [[Hsnd Hout]|Hnone]);
    [|congruence].
  assert (Hin : List.existsb (fun k0 => String.eqb k0 (fst q)) (keys_bound_to b (fst v))
                = true).
  { apply existsb_eqb_In. unfold keys_bound_to. apply List.in_map.
    apply List.filter_In. split; [exact Hq|].
    rewrite <- Hsnd, Hb. cbn. apply String.eqb_refl. }
  congruence.
Qed.

(** After [clearKeyEvent] of a direction of an axis, no entry of that
    axis has a holder of the direction. *)
Lemma clear_view_direction b direction v c (positive : bool) :
  is_axis_binding b = true ->
  In c (snd (clear_view (Some b) direction v)) ->
  fst (fst c) = string_from 5 b ->
  direction = (if positive then 1 else -1) ->
  holder positive c = None.
Proof.
  intros Hax. unfold clear_view. rewrite Hax. cbn [snd]. intros Hc Hx Hd.
  apply List.filter_In in Hc. destruct Hc as [Hc _].
  unfold cleared_claims in Hc. apply List.in_map_iff in Hc.
  destruct Hc as (c0 & <- & _). rewrite clear_claim_holder.
  rewrite clear_claim_name in Hx. rewrite Hx, String.eqb_refl, Hd, Z.eqb_refl.
  reflexivity.
Qed.

(** After [clearKeyEvent] of the binding of a control, the control holds
    no direction. *)
Lemma clear_view_own_holds k old v c (positive : bool) :
  unique_keys (List.map fst (fst v)) = true ->
  claims_bound (fst v) (snd v) = true ->
  dict_get k (fst v) = Some old ->
  In c (snd (clear_view (binding old) (axisDirection old) v)) ->
  holder positive c <> Some k.
Proof.
  intros Hu Ha Hold Hc Hh. rewrite claims_bound_spec in Ha.
  unfold clear_view in Hc. destruct (binding old) as [b|] eqn:Hb.
  2:{ destruct (Ha c positive k Hc Hh) as (kb & Hkb & Hbound).
      rewrite Hold in Hkb. injection Hkb as <-.
      apply bound_to_axis_spec in Hbound. destruct Hbound as (b' & Hb' & _). congruence. }
  destruct (is_axis_binding b) eqn:Hax; cbn [snd] in Hc;
    apply List.filter_In in Hc; destruct Hc as [Hc _].
  - unfold cleared_claims in Hc. apply List.in_map_iff in Hc.
    destruct Hc as (c0 & <- & Hc0). rewrite clear_claim_holder in Hh.
    destruct (String.eqb (fst (fst c0)) (string_from 5 b)
              && (axisDirection old =? (if positive then 1 else -1)))%bool eqn:Hcleared;
      [discriminate|].
    destruct (Ha c0 positive k Hc0 Hh) as (kb & Hkb & Hbound).
    rewrite Hold in Hkb. injection Hkb as <-.
    apply bound_to_axis_spec in Hbound. destruct Hbound as (b' & Hb' & _ & Hx & Hd).
    rewrite Hb in Hb'. injection Hb' as <-.
    rewrite Hx, String.eqb_refl, Hd, Z.eqb_refl in Hcleared. discriminate.
  - destruct (Ha c positive k Hc Hh) as (kb & Hkb & Hbound).
    rewrite Hold in Hkb. injection Hkb as <-.
    apply bound_to_axis_spec in Hbound. destruct Hbound as (b' & Hb' & Hax' & _).
    rewrite Hb in Hb'. injection Hb' as <-. congruence.
Qed.

(** [bindKey] of a registered control to an input, with a direction that
    [keyInterception] records, makes the manager consistent, whatever the
    control itself was bound to. *)
Lemma bind_view_consistent (k b dt : string) (direction : Z) (v : View) :
  consistent_apart k v ->
  List.existsb (String.eqb k) (List.map fst (fst v)) = true ->
  normal_direction direction = true ->
  consistent_view (bind_view k (Some b) (Some dt) direction v) = true.
Proof.
  intros Hinv Hreg Hn. unfold bind_view. cbv zeta.
  pose proof (clear_view_consistent_apart k (Some b) direction v Hinv) as Hinv1.
  set (v1 := clear_view (Some b) direction v) in *.
  assert (Hreg1 : List.existsb (String.eqb k) (List.map fst (fst v1)) = true).
  { unfold v1. rewrite clear_view_keys. exact Hreg. }
  destruct (proj1 (dict_get_registered _ _) Hreg1) as [old Hold]. rewrite Hold.
  pose proof (clear_view_consistent_apart k (binding old) (axisDirection old) v1 Hinv1)
    as Hinv2.
  set (v2 := clear_view (binding old) (axisDirection old) v1) in *.
  assert (Hreg2 : List.existsb (String.eqb k) (List.map fst (fst v2)) = true).
  { unfold v2. rewrite clear_view_keys. exact Hreg1. }
  destruct (proj1 (dict_get_registered _ _) Hreg2) as [old2 Hold2].
  destruct Hinv1 as (Hu1 & Ha1 & _ & _).
  destruct v2 as [d2 cs2] eqn:Hv2. cbn [fst snd] in *.
  apply (bind_consistent k b dt direction d2 cs2 old2 Hinv2 Hold2 Hn).
  - intros c positive Hc.
    apply (clear_view_own_holds k old v1 c positive Hu1 Ha1 Hold).
    fold v2. rewrite Hv2. exact Hc.
  - intros Hax p Hp _ Hb.
    assert (Hp2 : In p (fst (clear_view (binding old) (axisDirection old) v1))).
    { fold v2. rewrite Hv2. exact Hp. }
    destruct (clear_view_entries _ _ _ _ Hp2) as (q & Hq & _ & [Hsnd|Hnone]);
      [|congruence].
    apply (clear_view_button b direction v q Hax Hq). congruence.
  - intros Hax c positive Hc Hx Hd.
    assert (Hc2 : In c (snd (clear_view (binding old) (axisDirection old) v1))).
    { fold v2. rewrite Hv2. exact Hc. }
    destruct (clear_view_claims _ _ _ _ Hc2) as (c1 & Hc1 & Hname & Hholder).
    destruct (Hholder positive) as [Hsame|Hnone]; [|exact Hnone].
    rewrite Hsame.
    apply (clear_view_direction b direction v c1 positive Hax Hc1); congruence.
Qed.

(** In a consistent manager no two controls share an input. *)
Lemma consistent_unshared v : consistent_view v = true -> unshared (fst v) = true.
Proof.
  intros H. apply consistent_view_iff in H. destruct H as (_ & _ & Hc & Hb).
  unfold unshared. apply List.forallb_forall. intros p Hp.
  apply List.forallb_forall. intros q Hq.
  destruct (String.eqb_spec (fst p) (fst q)) as [_|Hne]; [reflexivity|]. cbn [orb].
  apply Bool.negb_true_iff. apply Bool.not_true_is_false. intros Hs.
  specialize (Hb p q Hp Hq). unfold button_apart in Hb.
  destruct (String.eqb_spec (fst p) (fst q)) as [|_]; [contradiction|]. cbn [orb] in Hb.
  unfold shares_input in Hs.
  destruct (binding (snd p)) as [b1|] eqn:Hb1; [|discriminate].
  destruct (binding (snd q)) as [b2|] eqn:Hb2; [|discriminate].
  destruct (is_axis_binding b1) eqn:Hax1.
  2:{ cbn [orb] in Hb. rewrite Hs in Hb. discriminate. }
  apply Bool.andb_true_iff in Hs. destruct Hs as [Hs Hsign].
  apply Bool.andb_true_iff in Hs. destruct Hs as [Hax2 Hx].
  apply String.eqb_eq in Hx.
  pose proof (Hc p Hp) as Hp'. pose proof (Hc q Hq) as Hq'.
  destruct p as [kp kbp], q as [kq kbq]. cbn [fst snd] in *.
  apply axis_held_spec in Hp'. destruct Hp' as [Hheldp Hnp].
  apply axis_held_spec in Hq'. destruct Hq' as [Hheldq Hnq].
  specialize (Hnp b1 Hb1 Hax1). specialize (Hnq b2 Hb2 Hax2).
  apply normal_direction_cases in Hnp. apply normal_direction_cases in Hnq.
  assert (Hsame : exists positive : bool,
             axisDirection kbp = (if positive then 1 else -1)
             /\ axisDirection kbq = (if positive then 1 else -1)).
  { apply Bool.orb_true_iff in Hsign. destruct Hsign as [Hsign|Hsign];
      apply Bool.andb_true_iff in Hsign; destruct Hsign as [Hsp Hsq].
    - apply Z.ltb_lt in Hsp. apply Z.ltb_lt in Hsq. exists true. split; lia.
    - apply Z.ltb_lt in Hsp. apply Z.ltb_lt in Hsq. exists false. split; lia. }
  destruct Hsame as (positive & Hdp & Hdq).
  assert (Hbp : bound_to_axis kbp (string_from 5 b1) positive = true).
  { apply bound_to_axis_spec. exists b1. repeat split; assumption. }
  assert (Hbq : bound_to_axis kbq (string_from 5 b1) positive = true).
  { apply bound_to_axis_spec. exists b2. repeat split; try assumption.
    symmetry. exact Hx. }
  specialize (Hheldp _ _ Hbp). specialize (Hheldq _ _ Hbq).
  apply holds_axis_spec in Hheldp. destruct Hheldp as [(c & Hcin & Hcx) Hallp].
  apply holds_axis_spec in Hheldq. destruct Hheldq as [_ Hallq].
  specialize (Hallp c Hcin Hcx). specialize (Hallq c Hcin Hcx). congruence.
Qed.

(** ** The manager stays consistent *)

Lemma consistent_iff km :
  consistent km = true <-> well_formed km = true /\ consistent_view (view km) = true.
Proof. unfold consistent. apply Bool.andb_true_iff. Qed.

(** [bindKey] keeps the manager consistent.  In a manager whose axis
    entries agree with its bindings and where no input is held by two
    controls, binding a registered control to an input, with a device
    class and a direction of 1, -1 or 0, returns and leaves such a manager
    again: whoever held the input has lost it, and no two controls share
    an input. *)
Theorem bindKey_keeps_consistent :
  forall (engine : Engine) (km : KeyMapper) (k b : string) (ty : Z) (cb : Callback)
         (dt : string) (direction : Z),
    consistent km = true ->
    registered km k = true ->
    valid_deviceType (Some dt) = true ->
    callback_missing ty cb = false ->
    normal_direction direction = true ->
    exists km',
      bindKey engine k (Some b) ty cb (Some dt) direction km = (Val tt, km')
      /\ consistent km' = true
      /\ unshared (keyBindings km') = true.
Proof.
  intros engine km k b ty cb dt direction Hinv Hreg Hdt Hcb Hn.
  apply consistent_iff in Hinv. destruct Hinv as [Hwf Hview].
  destruct (bindKey_view engine k (Some b) ty cb (Some dt) direction km Hwf Hreg Hdt Hcb)
    as (km' & Hrun & Hv & _ & Hwf').
  assert (Hview' : consistent_view (view km') = true).
  { rewrite Hv. apply bind_view_consistent; [|exact Hreg | exact Hn].
    apply consistent_apart_all. exact Hview. }
  exists km'. split; [exact Hrun|]. split.
  - apply consistent_iff. split; assumption.
  - exact (consistent_unshared (view km') Hview').
Qed.

Lemma bindKey_keeps_consistent_example :
  exists km',
    bindKey example_engine KEY_THRUST (Some "Axis.left_x") KEYMAP_HELD_KEY CbNone
            (Some "gamepad") 1 example_game = (Val tt, km')
    /\ consistent km' = true
    /\ unshared (keyBindings km') = true.
Proof.
  apply (bindKey_keeps_consistent example_engine example_game KEY_THRUST "Axis.left_x"
           KEYMAP_HELD_KEY CbNone "gamepad" 1); reflexivity.
Defined.

(** [addKey] of a control that is not yet registered, with a default
    input and a group that is None or an int in 0 .. 2^32 - 1, keeps the
    manager consistent: the new control takes its default input from
    whoever held it. *)
Theorem addKey_keeps_consistent :
  forall (engine : Engine) (km : KeyMapper) (description defaultKey : string)
         (defaultKeyDeviceType : DeviceTypeInput) (keyType : Z) (cb : Callback)
         (direction : Z) (group : option Z),
    consistent km = true ->
    registered km description = false ->
    valid_deviceType (Some (getDeviceTypeString defaultKeyDeviceType)) = true ->
    callback_missing keyType cb = false ->
    valid_group group = true ->
    normal_direction direction = true ->
    exists km',
      addKey engine description (Some defaultKey) defaultKeyDeviceType keyType cb direction
             group km = (Val tt, km')
      /\ consistent km' = true
      /\ unshared (keyBindings km') = true.
Proof.
  intros engine km description defaultKey t keyType cb direction group Hinv Hfresh Hdt Hcb
         Hgroup Hn.
  apply consistent_iff in Hinv. destruct Hinv as [Hwf Hview].
  unfold addKey. unfold set_key at 1. rewrite bind_modify.
  rewrite (BitMask32_valid group Hgroup), bind_ret, bind_modify.
  set (nb := {| keyDescription := description; binding := Some defaultKey;
                defaultBinding := Some defaultKey; type := keyType; callback := cb;
                deviceType := Some (getDeviceTypeString t);
                defaultDeviceType := Some (getDeviceTypeString t);
                axisDirection := direction;
                groupID := match group with Some g => g | None => 1 end |}).
  set (km0 := set_keyBindings (dict_set description nb (keyBindings (set_keys _ km))) _).
  assert (Hwf0 : well_formed km0 = true).
  { unfold km0. apply well_formed_dict_set; [|exact Hdt].
    rewrite <- Hwf. apply well_formed_same; reflexivity. }
  assert (Hget0 : dict_get description (keyBindings km0) = Some nb).
  { unfold km0. cbn [keyBindings set_keyBindings]. rewrite dict_get_set, String.eqb_refl.
    reflexivity. }
  assert (Hreg0 : registered km0 description = true).
  { apply dict_get_registered. exists nb. exact Hget0. }
  assert (Hv0 : view km0 = (dict_set description nb (keyBindings km), snd (view km)))
    by reflexivity.
  assert (Hapart : consistent_apart description (view km0)).
  { rewrite Hv0. apply consistent_view_iff in Hview.
    destruct Hview as (Hu & Ha & Hc & Hb). cbn [view fst snd] in *.
    unfold registered in Hfresh.
    assert (Hold : forall p, In p (dict_set description nb (keyBindings km)) ->
                             fst p <> description -> In p (keyBindings km)).
    { intros p Hp Hne. destruct (dict_set_In _ _ _ _ Hp) as [->|Hin]; [|exact Hin].
      exfalso. apply Hne. reflexivity. }
    split; [|split; [|split]]; cbn [fst snd].
    - rewrite (dict_set_keys_new _ _ _ Hfresh).
      apply unique_keys_app_new; assumption.
    - rewrite claims_bound_spec in Ha. apply claims_bound_spec.
      intros c positive h Hcin Hh.
      destruct (Ha c positive h Hcin Hh) as (kb & Hkb & Hbound).
      exists kb. split; [|exact Hbound]. rewrite dict_get_set.
      destruct (String.eqb_spec h description) as [->|_]; [|exact Hkb].
      apply dict_get_unregistered in Hfresh. congruence.
    - intros p Hp Hne. exact (Hc p (Hold p Hp Hne)).
    - intros p q Hp Hq Hnp Hnq. exact (Hb p q (Hold p Hp Hnp) (Hold q Hq Hnq)). }
  destruct (bindKey_view engine description (Some defaultKey) keyType cb
              (Some (getDeviceTypeString t)) direction km0 Hwf0 Hreg0 Hdt Hcb)
    as (km1 & Hrun & Hv1 & _ & Hwf1).
  assert (Hview1 : consistent_view (view km1) = true).
  { rewrite Hv1. apply bind_view_consistent; [exact Hapart | exact Hreg0 | exact Hn]. }
  exists (set_keyOrder (keyOrder km1 ++ [description])%list km1).
  split; [|split].
  - rewrite (bind_Val _ _ _ _ _ Hrun). reflexivity.
  - apply consistent_iff. split.
    + rewrite <- Hwf1. apply well_formed_same; reflexivity.
    + exact Hview1.
  - exact (consistent_unshared (view km1) Hview1).
Qed.

Lemma addKey_keeps_consistent_example :
  exists km',
    addKey example_engine "fire" (Some "face_a") (DT_string "DeviceClass.gamepad")
           KEYMAP_EVENT_PRESSED (CbFun "fire") 0 (Some 2) example_game = (Val tt, km')
    /\ consistent km' = true
    /\ unshared (keyBindings km') = true.
Proof.
  apply (addKey_keeps_consistent example_engine example_game "fire" "face_a"
           (DT_string "DeviceClass.gamepad") KEYMAP_EVENT_PRESSED (CbFun "fire") 0
           (Some 2)); reflexivity.
Defined.

(** [finishKeyRelease] keeps the manager consistent: committing the
    candidate that [keyInterception] recorded to the control being bound
    leaves the axis entries in agreement with the bindings, and no input
    held by two controls. *)
Theorem finishKeyRelease_keeps_consistent :
  forall (engine : Engine) (key : string) (km : KeyMapper) (kbb candidate dt : string)
         (kb0 : KeyBinding),
    consistent km = true ->
    keyBeingBound km = Some kbb ->
    lastKeyInterception km = Some candidate ->
    lastKeyInterceptionDeviceType km = Some dt ->
    valid_deviceType (Some dt) = true ->
    normal_direction (lastKeyInterceptionValue km) = true ->
    dict_get kbb (keyBindings km) = Some kb0 ->
    callback_missing (type kb0) (callback kb0) = false ->
    exists km',
      finishKeyRelease engine key km = (Val tt, km')
      /\ consistent_view (view km') = true
      /\ unshared (keyBindings km') = true
      /\ (exists kb, dict_get kbb (keyBindings km') = Some kb
                     /\ binding kb = Some candidate).
Proof.
  intros engine key km kbb candidate dt kb0 Hinv Hkbb Hlast Hldt Hdt Hn Hkb0 Hcb.
  apply consistent_iff in Hinv. destruct Hinv as [Hwf Hview].
  assert (Hdt' : valid_deviceType (lastKeyInterceptionDeviceType km) = true)
    by (rewrite Hldt; exact Hdt).
  destruct (finishKeyRelease_commits engine key km kbb candidate kb0 Hkbb Hlast Hkb0 Hwf
              Hdt' Hcb) as (km' & Hrun & Hv & _).
  assert (Hreg : List.existsb (String.eqb kbb) (List.map fst (fst (view km))) = true).
  { apply dict_get_registered. exists kb0. exact Hkb0. }
  rewrite Hldt in Hv.
  assert (Hview' : consistent_view (view km') = true).
  { rewrite Hv. apply bind_view_consistent; [|exact Hreg | exact Hn].
    apply consistent_apart_all. exact Hview. }
  exists km'. split; [exact Hrun|]. split; [exact Hview'|]. split.
  - exact (consistent_unshared (view km') Hview').
  - destruct (bind_view_bound kbb (Some candidate) (Some dt) (lastKeyInterceptionValue km)
                (view km) Hreg) as (kb & Hkb & Hb & _).
    exists kb. split; [|exact Hb].
    change (keyBindings km') with (fst (view km')). rewrite Hv. exact Hkb.
Qed.

Lemma finishKeyRelease_keeps_consistent_example :
  exists km',
    finishKeyRelease example_engine "back" example_candidate = (Val tt, km')
    /\ consistent_view (view km') = true
    /\ unshared (keyBindings km') = true
    /\ (exists kb, dict_get KEY_THRUST (keyBindings km') = Some kb
                   /\ binding kb = Some "back").
Proof.
  apply (finishKeyRelease_keeps_consistent example_engine "back" example_candidate
           KEY_THRUST "back" "gamepad" thrust_binding); reflexivity.
Defined.

(** ** C2: loading what was saved into another manager *)











Lemma loadable_iff km1 km :
  loadable km1 km = true <->
  well_formed km1 = true
  /\ callbacks_supplied (keyBindings km1) = true
  /\ List.forallb (fun p => registered km1 (fst p)) (keyBindings km) = true
  /\ no_stale_axis (keyBindings km1) (keyBindings km) = true.
Proof. unfold loadable. rewrite !Bool.andb_true_iff. tauto. Qed.

(** The manager that was saved is loadable for its own profile. *)
Lemma reproducible_loadable km : reproducible km = true -> loadable km km = true.
Proof.
  intros Hrep. apply reproducible_iff in Hrep. destruct Hrep as (Hwf & Hun & Hcb).
  apply loadable_iff. split; [exact Hwf|]. split; [exact Hcb|]. split.
  - apply List.forallb_forall. intros p Hp. unfold registered.
    apply List.existsb_exists. exists (fst p). split; [|apply String.eqb_refl].
    apply List.in_map. exact Hp.
  - unfold no_stale_axis. apply List.forallb_forall. intros p Hp.
    apply List.forallb_forall. intros q Hq.
    destruct (String.eqb (fst p) (fst q)) eqn:Hpq; [reflexivity|]. cbn [orb].
    apply Bool.negb_true_iff. apply Bool.not_true_is_false. intros Hs.
    assert (Hshare : shares_input p q = true).
    { unfold stale_for in Hs. unfold shares_input.
      destruct (binding (snd p)) as [b1|]; [|discriminate].
      destruct (binding (snd q)) as [b2|]; [|discriminate].
      apply Bool.andb_true_iff in Hs. destruct Hs as [Hs Hsign].
      apply Bool.andb_true_iff in Hs. destruct Hs as [Hs Hx].
      apply Bool.andb_true_iff in Hs. destruct Hs as [Hax1 Hax2].
      rewrite Hax1, Hax2, Hx. cbn [andb].
      apply Bool.orb_true_iff in Hsign. apply Bool.orb_true_iff.
      destruct Hsign as [Hsign|Hsign]; apply Bool.andb_true_iff in Hsign;
        destruct Hsign as [Hp1 Hq1]; apply Z.eqb_eq in Hp1; rewrite Hp1, Hq1;
        [left | right]; reflexivity. }
    pose proof (unshared_spec _ p q Hun Hp Hq Hshare) as Heq.
    rewrite Heq, String.eqb_refl in Hpq. discriminate.
Qed.



(** The precondition on the manager loaded into is needed.  The profile
    of the example game with the two directions of the stick swapped is
    reproducible; loaded into the example game as it is registered, it
    leaves "left" unbound: the record of "right" clears the direction
    that "right" had, which "left" has just been given. *)
Lemma load_swapped_axes_unbinds :
  let engine :=
    engine_loading (keySaveData_of example_swapped) (axisSaveData_of example_swapped) in
  reproducible example_swapped = true
  /\ loadable example_game example_swapped = false
  /\ binding_of example_swapped KEY_TURN_LEFT = Some "Axis.left_x"
  /\ fst (loadKeyMapping engine example_game) = Val tt
  /\ binding_of (snd (loadKeyMapping engine example_game)) KEY_TURN_LEFT = None.
Proof. vm_compute. repeat split; reflexivity. Qed.
